(** * Invoice / stock engine of the billing server

    A shallow embedding of the invoice controllers and of the part of
    the PostgreSQL schema ([query.sql]) they run against.

    Two revisions of the invoice controller are present in the sources:
    - [src/controllers/invoiceController.js], embedded in [Module Plain];
    - [src/unnamed/part_000] (header comment
      [controllers/invoiceController.js], "multi-tenant safe"), embedded
      in [Module Scoped].

    Modelling conventions.
    - A table with a primary key that the controllers address by key is
      a [gmap] from the key to the row; [invoice_items], which the
      controllers address by [(invoice_id, item_id)] and which has no
      uniqueness constraint on that pair, is a list of rows in insertion
      order (an [UPDATE] rewrites rows in place).
    - UUIDs are opaque keys ([N]); an id of a request is a uuid in the
      spelling PostgreSQL prints, which is the spelling of the keys of
      the JavaScript [Map] built from a result set.  [INTEGER] quantities
      are [Z].  [NUMERIC(_,2)] amounts are [Z] counted in hundredths, so
      that [Number(price) * Number(quantity)] is the exact product.
    - The statements of the invoice controllers check what their columns
      can hold: [INTEGER] ([int4]), [NUMERIC(p,2)] ([numeric]) and
      [VARCHAR(n)] ([varchar]); a text is the sequence of its characters.
      The handlers of the item and party controllers are embedded for
      values that their columns can hold.
    - A field of a request body is [absent] ([undefined] or [null]),
      [falsy] (the empty string, [0], [false]: no value of the column's
      type, and what [x || null] turns into [null]) or [given]; a status
      is its text, the empty text being the falsy one.
    - [NOW()], [CURRENT_DATE] and [uuid_generate_v4()] are read from an
      explicit environment [env] handed to each call.
    - A [client.query] is a function on the database that either returns
      the new database or throws; [BEGIN] / [COMMIT] / [ROLLBACK] is the
      wrapper that keeps the old database when the body throws.
    - Only the columns the invoice controllers read or write are kept.
      In particular [items.updated_at], which the [set_timestamp] trigger
      stamps on every [UPDATE] of [items], is not: what is said of an
      item is said of its company, price and quantity.

    Around the invoice controllers: their read handlers
    ([getAllInvoices], [getInvoiceById], [getInvoiceSummary]), and the
    handlers of [src/controllers/itemController.js] and of
    [src/unnamed/part_001] (the party controller) that insert or delete
    the rows invoices refer to. *)

From Stdlib Require Import ZArith List Ascii String Lia.
From stdpp Require Import base option gmap strings list fin_maps sorting.

Local Open Scope Z_scope.

Abbreviation uuid := N.

(** ** Schema ([query.sql]) *)

(** [CREATE TYPE invoice_status AS ENUM ('draft','sent','paid','cancelled')] *)
Inductive invoice_status := draft | sent | paid | cancelled.

(** The cast [$n::invoice_status] of a text parameter. *)
Definition invoice_status_of_text (s : string) : option invoice_status :=
  if String.eqb s "draft" then Some draft
  else if String.eqb s "sent" then Some sent
  else if String.eqb s "paid" then Some paid
  else if String.eqb s "cancelled" then Some cancelled
  else None.

(** Table [items]: [company_id], [price NUMERIC(10,2) CHECK (price >= 0)],
    [quantity INTEGER CHECK (quantity >= 0)]. *)
Record item_row := ItemRow {
  item_company_id : uuid;
  item_price : Z;
  item_quantity : Z
}.

(** Table [parties]: only the owning company matters to invoices. *)
Record party_row := PartyRow {
  party_company_id : uuid
}.

(** Table [invoices]. *)
Record invoice_row := InvoiceRow {
  inv_company_id : uuid;
  inv_party_id : uuid;
  inv_invoice_number : string;
  inv_invoice_date : Z;
  inv_due_date : option Z;
  inv_total_amount : Z;
  inv_status : invoice_status;
  inv_created_at : Z;
  inv_updated_at : Z
}.

(** Table [invoice_items]. *)
Record invoice_item_row := InvoiceItemRow {
  ii_invoice_id : uuid;
  ii_item_id : uuid;
  ii_quantity : Z;
  ii_price_at_purchase : Z;
  ii_total_line_amount : Z
}.

Record database := Database {
  items : gmap N item_row;
  parties : gmap N party_row;
  invoices : gmap N invoice_row;
  invoice_items : list invoice_item_row
}.

(** What a call reads from outside the database. *)
Record env := Env {
  now : Z;              (* NOW() *)
  current_date : Z;     (* CURRENT_DATE *)
  uuid_generate_v4 : uuid
}.

(** ** Errors *)

(** SQLSTATE classes the schema can raise on the statements used here. *)
Inductive sqlstate :=
| invalid_text_representation   (* 22P02: bad enum label, bad uuid *)
| not_null_violation            (* 23502 *)
| foreign_key_violation         (* 23503 *)
| unique_violation              (* 23505 *)
| check_violation               (* 23514 *)
| string_data_right_truncation  (* 22001: value too long for VARCHAR(n) *)
| numeric_value_out_of_range    (* 22003: INTEGER or NUMERIC(p,s) overflow *)
| invalid_datetime_format       (* 22007: bad DATE text *)
| character_not_in_repertoire.  (* 22021: a zero character in a text *)

(** Everything a controller body can throw.  The item carried by an error
    is the [item_id] interpolated into the message ([None] when the
    request line had none). *)
Inductive error :=
| PartyNotFound                         (* 'Party not found for this company' *)
| InvoiceNumberExists                   (* 'Invoice number already exists for this company' *)
| ItemIdRequired                        (* 'Item ID is required for each item line' *)
| InvalidQuantity (item_id : option uuid) (* '... quantity must be greater than 0 ...' *)
| ItemNotFound (item_id : option uuid)  (* 'Item not found ...' *)
| InsufficientStock (item_id : option uuid) (* 'Insufficient stock for item: ...' *)
| InvoiceNotFound                       (* 'Invoice not found' *)
| NotIterable                           (* TypeError: items is not iterable *)
| DatabaseError (code : sqlstate).

Inductive result (A : Type) :=
| Ok (a : A)
| Throw (e : error).
Arguments Ok {A} a.
Arguments Throw {A} e.

Definition bind {A B} (c : result A) (k : A -> result B) : result B :=
  match c with
  | Ok a => k a
  | Throw e => Throw e
  end.

#[global] Instance result_ret : MRet result := fun A a => Ok a.
#[global] Instance result_bind : MBind result := fun A B k c => bind c k.

(** ** What the columns can hold *)

(** [INTEGER] *)
Definition int4 (z : Z) : bool :=
  (-2147483648 <=? z) && (z <=? 2147483647).

(** [NUMERIC(precision, 2)], on hundredths: at most [precision] digits. *)
Definition numeric (precision : Z) (hundredths : Z) : bool :=
  Z.abs hundredths <? 10 ^ precision.

Fixpoint has_nul (s : string) : bool :=
  match s with
  | EmptyString => false
  | String a s => Ascii.eqb a Ascii.zero || has_nul s
  end.

Fixpoint all_spaces (s : string) : bool :=
  match s with
  | EmptyString => true
  | String a s => Ascii.eqb a " "%char && all_spaces s
  end.

(** A text parameter assigned to a [VARCHAR(n)] column: a text with a zero
    character is refused; a longer text is cut to [n] characters when the
    rest is all spaces and refused otherwise. *)
Definition varchar (n : nat) (s : string) : result string :=
  if has_nul s then Throw (DatabaseError character_not_in_repertoire)
  else if (String.length s <=? n)%nat then Ok s
  else if all_spaces (substring n (String.length s - n) s)
       then Ok (substring 0 n s)
       else Throw (DatabaseError string_data_right_truncation).

(** The JSON body of a response, as far as the claims look at it. *)
Inductive body :=
| InvoiceCreated (invoice_id : uuid)    (* 201 *)
| InvoiceUpdated                        (* 200 *)
| InvoiceDeleted                        (* 200 *)
| InvoiceMarked (invoice : invoice_row) (* 200, RETURNING row *)
| ErrorMessage (e : error)              (* { error: err.message } *)
| DuplicateInvoiceNumber                (* 'Duplicate invoice number for this company' *)
| InvalidStatusValue                    (* 'Invalid status value' *)
| InvoiceNotFoundBody.                  (* 404 'Invoice not found' *)

Record response := Response {
  http_status : Z;
  json : body
}.

(** ** Request bodies *)

(** One element of [req.body.items]; a field is [None] when it is absent
    ([undefined] / [null]). *)
Record line := Line {
  line_item_id : option uuid;
  line_quantity : option Z
}.

(** A field that JavaScript tests for truth or that reaches a column
    that is no text: [absent] is [undefined] or [null]; [falsy] is the
    empty string, [0] or [false], which [if (x)] and [x || null] treat as
    [null] and which is no value of the column's type; [given a] is a
    value that PostgreSQL reads as [a]. *)
Inductive field (A : Type) :=
| absent
| falsy
| given (a : A).
Arguments absent {A}.
Arguments falsy {A}.
Arguments given {A} a.

(** [x || null] *)
Definition or_null {A} (x : field A) : field A :=
  match x with
  | given a => given a
  | _ => absent
  end.

(** [status || null], on the text of a status. *)
Definition text_or_null (x : option string) : option string :=
  match x with
  | Some EmptyString => None
  | _ => x
  end.

(** The value a column gets from a parameter that was read: [NULL] for
    an absent one. *)
Definition value {A} (x : field A) : option A :=
  match x with
  | given a => Some a
  | _ => None
  end.

(** [req.body.items] of [createInvoice], which is iterated without a test:
    [undefined], a value that is not iterable ([null], a number, a boolean,
    an object), or an array ([items_given]; a string iterates as lines
    without fields). *)
Inductive items_field :=
| items_undefined
| items_not_iterable
| items_given (items : list line).

(** The lines of a body whose [items] is an array, none otherwise. *)
Definition lines_given (items : items_field) : list line :=
  match items with
  | items_given ls => ls
  | _ => []
  end.

(** The default of [const { ..., items = [], ... } = req.body], which
    applies to [undefined] only. *)
Definition or_empty (items : items_field) : items_field :=
  match items with
  | items_undefined => items_given []
  | _ => items
  end.

Record create_body := CreateBody {
  cb_party_id : option uuid;
  cb_invoice_number : option string;
  cb_due_date : field Z;
  cb_items : items_field;
  cb_status : option string
}.

Record update_body := UpdateBody {
  ub_due_date : field Z;
  ub_party_id : field uuid;
  ub_status : option string;
  ub_items : option (list line)      (* [Some _] iff [Array.isArray(items)] *)
}.

(** [!quantity || quantity <= 0] *)
Definition bad_quantity (quantity : option Z) : bool :=
  match quantity with
  | None => true
  | Some q => (q =? 0) || (q <=? 0)
  end.

(** ** The JavaScript [Map] built over the existing lines

    Keys keep their first insertion position; [set] on a present key
    overwrites the value in place. *)
Abbreviation jsmap := (list (N * Z)).

Fixpoint Map_set (k : uuid) (v : Z) (m : jsmap) : jsmap :=
  match m with
  | [] => [(k, v)]
  | (k', v') :: m' =>
      if N.eqb k k' then (k, v) :: m' else (k', v') :: Map_set k v m'
  end.

(** [new Map(entries)] *)
Definition Map_new (entries : list (N * Z)) : jsmap :=
  fold_left (fun m e => Map_set (fst e) (snd e) m) entries [].

Fixpoint Map_get (k : uuid) (m : jsmap) : option Z :=
  match m with
  | [] => None
  | (k', v') :: m' => if N.eqb k k' then Some v' else Map_get k m'
  end.

Definition Map_has (k : uuid) (m : jsmap) : bool :=
  match Map_get k m with Some _ => true | None => false end.

(** [existingMap.delete(k)]: the entry under [k] goes (a [Map] holds at
    most one). *)
Definition Map_delete (k : uuid) (m : jsmap) : jsmap :=
  filter (fun kv => fst kv ≠ k) m.

(** [existingMap.get(item_id) || 0] *)
Definition get_or_0 (k : uuid) (m : jsmap) : Z :=
  match Map_get k m with
  | Some v => if v =? 0 then 0 else v
  | None => 0
  end.

(** ** SQL statements issued by the controllers

    One function per statement text.  [scope] is [Some company_id] when
    the statement carries [AND company_id = $n] and [None] when it does
    not. *)

Definition in_scope (scope : option uuid) (company_id : uuid) : bool :=
  match scope with
  | Some c => N.eqb company_id c
  | None => true
  end.

(** [SELECT 1 FROM parties WHERE id = $1 AND company_id = $2]: is
    [rowCount] positive?  A [NULL] id matches no row. *)
Definition select_party (db : database) (party_id : option uuid) (company_id : uuid) : bool :=
  match party_id with
  | Some p =>
      match parties db !! p with
      | Some r => N.eqb (party_company_id r) company_id
      | None => false
      end
  | None => false
  end.

(** [SELECT 1 FROM invoices WHERE company_id = $1 AND invoice_number = $2] *)
Definition select_invoice_number (db : database) (company_id : uuid)
    (invoice_number : option string) : bool :=
  match invoice_number with
  | Some n =>
      existsb (fun kr => N.eqb (inv_company_id (snd kr)) company_id
                         && String.eqb (inv_invoice_number (snd kr)) n)
              (map_to_list (invoices db))
  | None => false
  end.

(** The values of the row that [INSERT INTO invoices] forms from its
    parameters: [invoice_number] as [VARCHAR(50)], [due_date] as a [DATE],
    [total_amount] as [NUMERIC(12,2)] and [COALESCE($6,'draft')] cast to
    [invoice_status]. *)
Definition invoice_values (invoice_number : option string) (due_date : field Z)
    (total_amount : Z) (status : option string)
    : result (option string * option Z * invoice_status) :=
  match (match invoice_number with
         | Some n => bind (varchar 50 n) (fun n => Ok (Some n))
         | None => Ok None
         end) with
  | Throw err => Throw err
  | Ok number =>
      match due_date with
      | falsy => Throw (DatabaseError invalid_datetime_format)
      | _ =>
          if negb (numeric 12 total_amount)
          then Throw (DatabaseError numeric_value_out_of_range)
          else
            match (match status with
                   | None => Some draft
                   | Some s => invoice_status_of_text s
                   end) with
            | None => Throw (DatabaseError invalid_text_representation)
            | Some st => Ok (number, value due_date, st)
            end
      end
  end.

(** [INSERT INTO invoices (company_id, party_id, invoice_number, due_date,
    total_amount, status) VALUES ($1,$2,$3,$4,$5, COALESCE($6,'draft')::invoice_status)
    RETURNING *].  Once the row is formed the constraints are checked:
    [NOT NULL], [CHECK (total_amount >= 0)], the primary key and
    [UNIQUE (company_id, invoice_number)], and the foreign key
    [party_id REFERENCES parties(id)]. *)
Definition insert_invoice (e : env) (db : database) (company_id : uuid)
    (party_id : option uuid) (invoice_number : option string)
    (due_date : field Z) (total_amount : Z) (status : option string)
    : result (database * uuid) :=
  match invoice_values invoice_number due_date total_amount status with
  | Throw err => Throw err
  | Ok (number, due_date, st) =>
      match party_id, number with
      | Some p, Some n =>
          if total_amount <? 0 then Throw (DatabaseError check_violation)
          else
            match invoices db !! uuid_generate_v4 e with
            | Some _ => Throw (DatabaseError unique_violation)
            | None =>
                if select_invoice_number db company_id (Some n)
                then Throw (DatabaseError unique_violation)
                else
                  match parties db !! p with
                  | None => Throw (DatabaseError foreign_key_violation)
                  | Some _ =>
                      let row :=
                        InvoiceRow company_id p n (current_date e) due_date
                                   total_amount st (now e) (now e) in
                      Ok (Database (items db) (parties db)
                                   (<[uuid_generate_v4 e := row]> (invoices db))
                                   (invoice_items db),
                          uuid_generate_v4 e)
                  end
            end
      | _, _ => Throw (DatabaseError not_null_violation)
      end
  end.

(** [SELECT price, quantity AS stock_quantity FROM items
    WHERE id = $1 AND company_id = $2] *)
Definition select_item (db : database) (item_id : uuid) (company_id : uuid)
    : option (Z * Z) :=
  match items db !! item_id with
  | Some r =>
      if N.eqb (item_company_id r) company_id
      then Some (item_price r, item_quantity r)
      else None
  | None => None
  end.

(** The columns [quantity INTEGER], [price_at_purchase NUMERIC(10,2)]
    and [total_line_amount NUMERIC(12,2)] of [invoice_items] can hold the
    values. *)
Definition line_storable (quantity price_at_purchase total_line_amount : Z) : bool :=
  int4 quantity && numeric 10 price_at_purchase && numeric 12 total_line_amount.

(** [INSERT INTO invoice_items (invoice_id, item_id, quantity,
    price_at_purchase, total_line_amount) VALUES ($1,$2,$3,$4,$5)] with
    [CHECK (quantity > 0)] and [CHECK (price_at_purchase >= 0)].  Both
    foreign keys hold at every call site (the invoice and the item were
    selected just before). *)
Definition insert_invoice_item (db : database) (invoice_id item_id : uuid)
    (quantity price_at_purchase total_line_amount : Z) : result database :=
  if negb (line_storable quantity price_at_purchase total_line_amount)
  then Throw (DatabaseError numeric_value_out_of_range)
  else if (quantity <=? 0) || (price_at_purchase <? 0)
  then Throw (DatabaseError check_violation)
  else Ok (Database (items db) (parties db) (invoices db)
             (invoice_items db ++
              [InvoiceItemRow invoice_id item_id quantity
                              price_at_purchase total_line_amount])).

(** [UPDATE items SET quantity = <new_quantity quantity> WHERE id = $2
    (AND company_id = $3)]: the new quantity is an [INTEGER], under
    [CHECK (quantity >= 0)]. *)
Definition update_item_quantity (db : database) (item_id : uuid)
    (scope : option uuid) (new_quantity : Z -> Z) : result database :=
  match items db !! item_id with
  | Some r =>
      if in_scope scope (item_company_id r) then
        if negb (int4 (new_quantity (item_quantity r)))
        then Throw (DatabaseError numeric_value_out_of_range)
        else if new_quantity (item_quantity r) <? 0
        then Throw (DatabaseError check_violation)
        else Ok (Database
                   (<[item_id := ItemRow (item_company_id r) (item_price r)
                                         (new_quantity (item_quantity r))]>
                      (items db))
                   (parties db) (invoices db) (invoice_items db))
      else Ok db
  | None => Ok db
  end.

(** [UPDATE items SET quantity = quantity - $1 ...], with [$1] an
    [INTEGER]. *)
Definition decrease_item_quantity (db : database) (amount : Z) (item_id : uuid)
    (scope : option uuid) : result database :=
  if negb (int4 amount) then Throw (DatabaseError numeric_value_out_of_range)
  else update_item_quantity db item_id scope (fun quantity => quantity - amount).

(** [UPDATE items SET quantity = quantity + $1 ...], with [$1] an
    [INTEGER]. *)
Definition increase_item_quantity (db : database) (amount : Z) (item_id : uuid)
    (scope : option uuid) : result database :=
  if negb (int4 amount) then Throw (DatabaseError numeric_value_out_of_range)
  else update_item_quantity db item_id scope (fun quantity => quantity + amount).

(** [UPDATE invoices SET total_amount = $1 WHERE id = $2 (AND company_id = $3)]
    with [$1] a [NUMERIC(12,2)], under [CHECK (total_amount >= 0)]; the
    [set_timestamp] trigger stamps [updated_at]. *)
Definition update_invoice_total (e : env) (db : database) (total_amount : Z)
    (id : uuid) (scope : option uuid) : result database :=
  if negb (numeric 12 total_amount)
  then Throw (DatabaseError numeric_value_out_of_range)
  else
  match invoices db !! id with
  | Some r =>
      if in_scope scope (inv_company_id r) then
        if total_amount <? 0 then Throw (DatabaseError check_violation)
        else Ok (Database (items db) (parties db)
                   (<[id := InvoiceRow (inv_company_id r) (inv_party_id r)
                              (inv_invoice_number r) (inv_invoice_date r)
                              (inv_due_date r) total_amount (inv_status r)
                              (inv_created_at r) (now e)]> (invoices db))
                   (invoice_items db))
      else Ok db
  | None => Ok db
  end.

(** [SELECT * FROM invoices WHERE id = $1 AND company_id = $2] *)
Definition select_invoice (db : database) (id company_id : uuid) : option invoice_row :=
  match invoices db !! id with
  | Some r => if N.eqb (inv_company_id r) company_id then Some r else None
  | None => None
  end.

(** The parameters [$1], [$2], [$3] of the [UPDATE] of [updateInvoice] as
    PostgreSQL reads them: a [DATE], a [UUID] and a label of
    [invoice_status], or [NULL]. *)
Definition meta_values (due_date : field Z) (party_id : field uuid)
    (status : option string)
    : result (option Z * option uuid * option invoice_status) :=
  match due_date, party_id with
  | falsy, _ => Throw (DatabaseError invalid_datetime_format)
  | _, falsy => Throw (DatabaseError invalid_text_representation)
  | _, _ =>
      match (match status with
             | None => Some None
             | Some s => Some <$> invoice_status_of_text s
             end) with
      | None => Throw (DatabaseError invalid_text_representation)
      | Some st => Ok (value due_date, value party_id, st)
      end
  end.

(** [UPDATE invoices SET due_date = COALESCE($1, due_date),
    party_id = COALESCE($2, party_id),
    status = COALESCE($3, status)::invoice_status, updated_at = NOW()
    WHERE id = $4 AND company_id = $5] *)
Definition update_invoice_meta (e : env) (db : database) (due_date : field Z)
    (party_id : field uuid) (status : option string) (id company_id : uuid)
    : result database :=
  match meta_values due_date party_id status with
  | Throw err => Throw err
  | Ok (due_date, party_id, st) =>
      match select_invoice db id company_id with
      | None => Ok db
      | Some r =>
          if (match party_id with
              | Some p => bool_decide (parties db !! p = None)
              | None => false
              end)
          then Throw (DatabaseError foreign_key_violation)
          else Ok (Database (items db) (parties db)
                     (<[id := InvoiceRow (inv_company_id r)
                                (default (inv_party_id r) party_id)
                                (inv_invoice_number r) (inv_invoice_date r)
                                (match due_date with
                                 | Some d => Some d
                                 | None => inv_due_date r
                                 end)
                                (inv_total_amount r)
                                (default (inv_status r) st)
                                (inv_created_at r) (now e)]> (invoices db))
                     (invoice_items db))
      end
  end.

(** [SELECT item_id, quantity FROM invoice_items WHERE invoice_id = $1] *)
Definition select_invoice_items (db : database) (id : uuid) : list (N * Z) :=
  (fun r => (ii_item_id r, ii_quantity r))
    <$> filter (fun r => ii_invoice_id r = id) (invoice_items db).

(** [UPDATE invoice_items SET quantity = $1, price_at_purchase = $2,
    total_line_amount = $3 WHERE invoice_id = $4 AND item_id = $5]: every
    matching row is rewritten; the [CHECK]s apply to the rewritten rows. *)
Definition update_invoice_item (db : database)
    (quantity price_at_purchase total_line_amount : Z)
    (invoice_id item_id : uuid) : result database :=
  if negb (line_storable quantity price_at_purchase total_line_amount)
  then Throw (DatabaseError numeric_value_out_of_range)
  else
  if existsb (fun r => N.eqb (ii_invoice_id r) invoice_id
                       && N.eqb (ii_item_id r) item_id) (invoice_items db)
     && ((quantity <=? 0) || (price_at_purchase <? 0))
  then Throw (DatabaseError check_violation)
  else Ok (Database (items db) (parties db) (invoices db)
             ((fun r =>
                 if N.eqb (ii_invoice_id r) invoice_id
                    && N.eqb (ii_item_id r) item_id
                 then InvoiceItemRow invoice_id item_id quantity
                                     price_at_purchase total_line_amount
                 else r)
              <$> invoice_items db)).

(** [DELETE FROM invoice_items WHERE invoice_id = $1 AND item_id = $2] *)
Definition delete_invoice_item (db : database) (invoice_id item_id : uuid) : database :=
  Database (items db) (parties db) (invoices db)
    (filter (fun r => ¬ (ii_invoice_id r = invoice_id ∧ ii_item_id r = item_id))
            (invoice_items db)).

(** [SELECT COALESCE(SUM(total_line_amount), 0) AS total FROM invoice_items
    WHERE invoice_id = $1] *)
Definition sum_invoice_items (db : database) (id : uuid) : Z :=
  foldr Z.add 0
    (ii_total_line_amount
       <$> filter (fun r => ii_invoice_id r = id) (invoice_items db)).

(** [UPDATE invoices SET status = $1::invoice_status (, updated_at = NOW())
    WHERE id = $2 AND company_id = $3 RETURNING *]; the trigger stamps
    [updated_at] whether or not the statement names it.  Returns the rows
    of the [RETURNING] clause. *)
Definition update_invoice_status (e : env) (db : database) (status : invoice_status)
    (id company_id : uuid) : database * list invoice_row :=
  match select_invoice db id company_id with
  | Some r =>
      let r' := InvoiceRow (inv_company_id r) (inv_party_id r)
                  (inv_invoice_number r) (inv_invoice_date r) (inv_due_date r)
                  (inv_total_amount r) status (inv_created_at r) (now e) in
      (Database (items db) (parties db) (<[id := r']> (invoices db))
                (invoice_items db), [r'])
  | None => (db, [])
  end.

(** [DELETE FROM invoice_items WHERE invoice_id = $1] *)
Definition delete_invoice_items (db : database) (id : uuid) : database :=
  Database (items db) (parties db) (invoices db)
    (filter (fun r => ii_invoice_id r ≠ id) (invoice_items db)).

(** [DELETE FROM invoice_items ii USING invoices inv WHERE ii.invoice_id = inv.id
    AND inv.id = $1 AND inv.company_id = $2] *)
Definition delete_invoice_items_using (db : database) (id company_id : uuid) : database :=
  match select_invoice db id company_id with
  | Some _ => delete_invoice_items db id
  | None => db
  end.

(** [DELETE FROM invoices WHERE id = $1 (AND company_id = $2)]; lines of
    a deleted invoice go with it ([ON DELETE CASCADE]). *)
Definition delete_invoice (db : database) (id : uuid) (scope : option uuid) : database :=
  match invoices db !! id with
  | Some r =>
      if in_scope scope (inv_company_id r)
      then Database (items db) (parties db) (delete id (invoices db))
             (filter (fun r => ii_invoice_id r ≠ id) (invoice_items db))
      else db
  | None => db
  end.

(** [BEGIN] ... [COMMIT], with [ROLLBACK] in the [catch]. *)
Definition transaction {A} (db : database) (body : result (database * A))
    (committed : A -> response) (rolled_back : error -> response)
    : database * response :=
  match body with
  | Ok (db', a) => (db', committed a)
  | Throw e => (db, rolled_back e)
  end.

(** ** Statements of the read handlers

    The [SELECT]s of [getAllInvoices], [getInvoiceById] and
    [getInvoiceSummary].  A joined column that lies outside the rows kept
    here ([parties.name], [items.name], [items.category]) is left out of
    the result; the join itself, which drops the rows without a partner,
    is kept. *)

(** [ORDER BY i.created_at DESC].  Rows with equal [created_at] come in an
    order the statement leaves open; the sort fixes one. *)
Definition created_at_desc (a b : uuid * invoice_row) : Prop :=
  inv_created_at (snd b) <= inv_created_at (snd a).

#[global] Instance created_at_desc_dec : RelDecision created_at_desc :=
  fun a b => decide (inv_created_at (snd b) <= inv_created_at (snd a)).

(** The join condition of the listing: [ON i.party_id = p.id], with
    [AND p.company_id = i.company_id] when [same_company] is set. *)
Definition joins_party (db : database) (same_company : bool) (i : invoice_row) : bool :=
  match parties db !! inv_party_id i with
  | Some p => negb same_company || N.eqb (party_company_id p) (inv_company_id i)
  | None => false
  end.

(** [SELECT i.id, ..., p.name AS party_name FROM invoices i JOIN parties p
    ON ... WHERE i.company_id = $1 ORDER BY i.created_at DESC] *)
Definition select_invoices (db : database) (company_id : uuid) (same_company : bool)
    : list (uuid * invoice_row) :=
  merge_sort created_at_desc
    (map_to_list
       (filter (fun kr => inv_company_id (snd kr) = company_id
                          ∧ joins_party db same_company (snd kr) = true)
               (invoices db))).

(** [SELECT ii.*, it.name AS item_name FROM invoice_items ii
    JOIN items it ON ii.item_id = it.id WHERE ii.invoice_id = $1] *)
Definition select_lines (db : database) (id : uuid) : list invoice_item_row :=
  filter (fun r => ii_invoice_id r = id ∧ is_Some (items db !! ii_item_id r))
         (invoice_items db).

(** [SELECT ii.id, ..., it.name AS item_name, it.category FROM invoice_items ii
    JOIN items it ON ii.item_id = it.id JOIN invoices inv ON ii.invoice_id = inv.id
    WHERE ii.invoice_id = $1 AND inv.company_id = $2] *)
Definition select_lines_of_company (db : database) (id company_id : uuid)
    : list invoice_item_row :=
  filter (fun r => ii_invoice_id r = id ∧ is_Some (items db !! ii_item_id r)
                   ∧ is_Some (select_invoice db (ii_invoice_id r) company_id))
         (invoice_items db).

(** The body of the reply of [getInvoiceById]: the invoice row with
    [items], or [{ error: 'Invoice not found' }]. *)
Inductive invoice_details :=
| InvoiceDetails (invoice : invoice_row) (items : list invoice_item_row)
| NoSuchInvoice.

(** ** [src/unnamed/part_000]: the company-scoped invoice controller *)
Module Scoped.

(** Step B of [createInvoice]: [for (const item of items) { ... }],
  threading the client's view of the database and [totalAmount]. *)
Fixpoint create_lines (company_id invoiceId : uuid) (items : list line)
  (db : database) (totalAmount : Z) : result (database * Z) :=
match items with
| [] => Ok (db, totalAmount)
| item :: rest =>
    match line_item_id item with
    | None => Throw ItemIdRequired
    | Some item_id =>
        match line_quantity item with
        | None => Throw (InvalidQuantity (Some item_id))
        | Some quantity =>
            if (quantity =? 0) || (quantity <=? 0)
            then Throw (InvalidQuantity (Some item_id))
            else
              match select_item db item_id company_id with
              | None => Throw (ItemNotFound (Some item_id))
              | Some (priceAtPurchase, stock_quantity) =>
                  if stock_quantity <? quantity
                  then Throw (InsufficientStock (Some item_id))
                  else
                    let totalLineAmount := priceAtPurchase * quantity in
                    let totalAmount := totalAmount + totalLineAmount in
                    bind (insert_invoice_item db invoiceId item_id quantity
                            priceAtPurchase totalLineAmount) (fun db =>
                    bind (decrease_item_quantity db quantity item_id
                            (Some company_id)) (fun db =>
                    create_lines company_id invoiceId rest db totalAmount))
              end
        end
    end
end.

(** The body of the [try] block of [createInvoice], between [BEGIN] and
  [COMMIT].  The [INSERT] gets [due_date || null]; [items] is [[]] when
  the body has none. *)
Definition createInvoice_body (e : env) (company_id : uuid) (req : create_body)
  (db : database) : result (database * uuid) :=
if negb (select_party db (cb_party_id req) company_id)
then Throw PartyNotFound
else if select_invoice_number db company_id (cb_invoice_number req)
then Throw InvoiceNumberExists
else
  '(db, invoiceId) ← insert_invoice e db company_id (cb_party_id req)
                        (cb_invoice_number req) (or_null (cb_due_date req)) 0
                        (cb_status req);
  match or_empty (cb_items req) with
  | items_given items =>
      '(db, totalAmount) ← create_lines company_id invoiceId items db 0;
      db ← update_invoice_total e db totalAmount invoiceId (Some company_id);
      Ok (db, invoiceId)
  | _ => Throw NotIterable
  end.

Definition createInvoice (e : env) (company_id : uuid) (req : create_body)
  (db : database) : database * response :=
transaction db (createInvoice_body e company_id req db)
  (fun invoiceId => Response 201 (InvoiceCreated invoiceId))
  (fun err =>
     match err with
     | DatabaseError unique_violation => Response 400 DuplicateInvoiceNumber
     | _ => Response 400 (ErrorMessage err)
     end).

(** Step 3 of [updateInvoice]: [for (const item of items) { ... }]. *)
Fixpoint update_lines (company_id id : uuid) (items : list line)
  (db : database) (existingMap : jsmap) (totalAmount : Z)
  : result (database * jsmap * Z) :=
match items with
| [] => Ok (db, existingMap, totalAmount)
| item :: rest =>
    match line_item_id item with
    | None => Throw ItemIdRequired
    | Some item_id =>
        match line_quantity item with
        | None => Throw (InvalidQuantity (Some item_id))
        | Some quantity =>
            if (quantity =? 0) || (quantity <=? 0)
            then Throw (InvalidQuantity (Some item_id))
            else
              match select_item db item_id company_id with
              | None => Throw (ItemNotFound (Some item_id))
              | Some (price, stock_quantity) =>
                  let prevQty := get_or_0 item_id existingMap in
                  let quantityChange := quantity - prevQty in
                  if (0 <? quantityChange) && (stock_quantity <? quantityChange)
                  then Throw (InsufficientStock (Some item_id))
                  else
                    let totalLineAmount := price * quantity in
                    let totalAmount := totalAmount + totalLineAmount in
                    bind (if Map_has item_id existingMap
                          then update_invoice_item db quantity price
                                 totalLineAmount id item_id
                          else insert_invoice_item db id item_id quantity
                                 price totalLineAmount) (fun db =>
                    bind (decrease_item_quantity db quantityChange item_id
                            (Some company_id)) (fun db =>
                    update_lines company_id id rest db
                      (Map_delete item_id existingMap) totalAmount))
              end
        end
    end
end.

(** [for (const [oldItemId, oldQty] of existingMap.entries()) { ... }] *)
Fixpoint remove_lines (company_id id : uuid) (entries : jsmap) (db : database)
  : result database :=
match entries with
| [] => Ok db
| (oldItemId, oldQty) :: rest =>
    bind (increase_item_quantity (delete_invoice_item db id oldItemId)
            oldQty oldItemId (Some company_id)) (fun db =>
    remove_lines company_id id rest db)
end.

(** The body of the [try] block of [updateInvoice].  The party is looked
  up [if (party_id)]; the [UPDATE] gets [due_date || null],
  [party_id || null] and [status || null]. *)
Definition updateInvoice_body (e : env) (company_id id : uuid) (req : update_body)
  (db : database) : result (database * unit) :=
match select_invoice db id company_id with
| None => Throw InvoiceNotFound
| Some _ =>
    if (match ub_party_id req with
        | given party_id => negb (select_party db (Some party_id) company_id)
        | _ => false
        end)
    then Throw PartyNotFound
    else
      db ← update_invoice_meta e db (or_null (ub_due_date req))
              (or_null (ub_party_id req)) (text_or_null (ub_status req))
              id company_id;
      match ub_items req with
      | Some items =>
          let existingItems := select_invoice_items db id in
          let existingMap := Map_new existingItems in
          '(db, existingMap, totalAmount) ←
             update_lines company_id id items db existingMap 0;
          db ← remove_lines company_id id existingMap db;
          let finalTotal := sum_invoice_items db id in
          db ← update_invoice_total e db finalTotal id (Some company_id);
          Ok (db, tt)
      | None => Ok (db, tt)
      end
end.

Definition updateInvoice (e : env) (company_id id : uuid) (req : update_body)
  (db : database) : database * response :=
transaction db (updateInvoice_body e company_id id req db)
  (fun _ => Response 200 InvoiceUpdated)
  (fun err => Response 400 (ErrorMessage err)).

(** [validStatuses.includes(status)], then one statement on the pool. *)
Definition updateInvoiceStatus (e : env) (company_id id : uuid)
  (status : option string) (db : database) : database * response :=
match status ≫= invoice_status_of_text with
| None => (db, Response 400 InvalidStatusValue)
| Some st =>
    match update_invoice_status e db st id company_id with
    | (db, []) => (db, Response 404 InvoiceNotFoundBody)
    | (db, row :: _) => (db, Response 200 (InvoiceMarked row))
    end
end.

(** [for (const line of lines.rows) { UPDATE items SET quantity = quantity + $1 ... }] *)
Fixpoint return_lines (company_id : uuid) (lines : list (N * Z)) (db : database)
  : result database :=
match lines with
| [] => Ok db
| (item_id, quantity) :: rest =>
    bind (increase_item_quantity db quantity item_id (Some company_id))
         (fun db => return_lines company_id rest db)
end.

Definition deleteInvoice_body (company_id id : uuid) (db : database)
  : result (database * unit) :=
match select_invoice db id company_id with
| None => Throw InvoiceNotFound
| Some _ =>
    let lines := select_invoice_items db id in
    db ← return_lines company_id lines db;
    let db := delete_invoice_items_using db id company_id in
    let db := delete_invoice db id (Some company_id) in
    Ok (db, tt)
end.

Definition deleteInvoice (company_id id : uuid) (db : database)
  : database * response :=
transaction db (deleteInvoice_body company_id id db)
  (fun _ => Response 200 InvoiceDeleted)
  (fun err => Response 500 (ErrorMessage err)).

(** [getAllInvoices]: always 200 with the rows. *)
Definition getAllInvoices (company_id : uuid) (db : database)
  : list (uuid * invoice_row) :=
select_invoices db company_id true.

(** [getInvoiceById]: 404 when the first [SELECT] is empty. *)
Definition getInvoiceById (company_id id : uuid) (db : database)
  : Z * invoice_details :=
match select_invoice db id company_id with
| None => (404, NoSuchInvoice)
| Some invoice =>
    (200, InvoiceDetails invoice (select_lines_of_company db id company_id))
end.

End Scoped.

(** ** [src/controllers/invoiceController.js] *)
Module Plain.

(** Step B of [createInvoice]: [for (let item of items) { ... }].  This
    revision does not test [item_id]; an absent one reaches the [SELECT]
    as [NULL] and selects no row. *)
Fixpoint create_lines (company_id invoiceId : uuid) (items : list line)
  (db : database) (totalAmount : Z) : result (database * Z) :=
match items with
| [] => Ok (db, totalAmount)
| item :: rest =>
    match line_quantity item with
    | None => Throw (InvalidQuantity (line_item_id item))
    | Some quantity =>
        if (quantity =? 0) || (quantity <=? 0)
        then Throw (InvalidQuantity (line_item_id item))
        else
          match line_item_id item ≫= (fun item_id =>
                  pair item_id <$> select_item db item_id company_id) with
          | None => Throw (ItemNotFound (line_item_id item))
          | Some (item_id, (priceAtPurchase, stock_quantity)) =>
              if stock_quantity <? quantity
              then Throw (InsufficientStock (Some item_id))
              else
                let totalLineAmount := priceAtPurchase * quantity in
                let totalAmount := totalAmount + totalLineAmount in
                bind (insert_invoice_item db invoiceId item_id quantity
                        priceAtPurchase totalLineAmount) (fun db =>
                bind (decrease_item_quantity db quantity item_id None)
                     (fun db =>
                create_lines company_id invoiceId rest db totalAmount))
          end
    end
end.

Definition createInvoice_body (e : env) (company_id : uuid) (req : create_body)
  (db : database) : result (database * uuid) :=
'(db, invoiceId) ← insert_invoice e db company_id (cb_party_id req)
                      (cb_invoice_number req) (cb_due_date req) 0
                      (cb_status req);
match cb_items req with
| items_given items =>
    '(db, totalAmount) ← create_lines company_id invoiceId items db 0;
    db ← update_invoice_total e db totalAmount invoiceId None;
    Ok (db, invoiceId)
| _ => Throw NotIterable
end.

Definition createInvoice (e : env) (company_id : uuid) (req : create_body)
  (db : database) : database * response :=
transaction db (createInvoice_body e company_id req db)
  (fun invoiceId => Response 201 (InvoiceCreated invoiceId))
  (fun err => Response 400 (ErrorMessage err)).

(** Step 3 of [updateInvoice]: [for (const item of items) { ... }]. *)
Fixpoint update_lines (company_id id : uuid) (items : list line)
  (db : database) (existingMap : jsmap) (totalAmount : Z)
  : result (database * jsmap * Z) :=
match items with
| [] => Ok (db, existingMap, totalAmount)
| item :: rest =>
    match line_quantity item with
    | None => Throw (InvalidQuantity (line_item_id item))
    | Some quantity =>
        if (quantity =? 0) || (quantity <=? 0)
        then Throw (InvalidQuantity (line_item_id item))
        else
          match line_item_id item ≫= (fun item_id =>
                  pair item_id <$> select_item db item_id company_id) with
          | None => Throw (ItemNotFound (line_item_id item))
          | Some (item_id, (price, stock_quantity)) =>
              let existingQuantity := get_or_0 item_id existingMap in
              let quantityChange := quantity - existingQuantity in
              if (0 <? quantityChange) && (stock_quantity <? quantityChange)
              then Throw (InsufficientStock (Some item_id))
              else
                let totalLineAmount := price * quantity in
                let totalAmount := totalAmount + totalLineAmount in
                bind (if Map_has item_id existingMap
                      then update_invoice_item db quantity price
                             totalLineAmount id item_id
                      else insert_invoice_item db id item_id quantity
                             price totalLineAmount) (fun db =>
                bind (decrease_item_quantity db quantityChange item_id None)
                     (fun db =>
                update_lines company_id id rest db
                  (Map_delete item_id existingMap) totalAmount))
          end
    end
end.

(** Step 4: [for (const [oldItemId, oldQty] of existingMap.entries()) { ... }] *)
Fixpoint remove_lines (id : uuid) (entries : jsmap) (db : database)
  : result database :=
match entries with
| [] => Ok db
| (oldItemId, oldQty) :: rest =>
    bind (increase_item_quantity (delete_invoice_item db id oldItemId)
            oldQty oldItemId None) (fun db =>
    remove_lines id rest db)
end.

Definition updateInvoice_body (e : env) (company_id id : uuid) (req : update_body)
  (db : database) : result (database * unit) :=
match select_invoice db id company_id with
| None => Throw InvoiceNotFound
| Some _ =>
    db ← update_invoice_meta e db (ub_due_date req) (ub_party_id req)
            (ub_status req) id company_id;
    match ub_items req with
    | Some items =>
        let existingItems := select_invoice_items db id in
        let existingMap := Map_new existingItems in
        '(db, existingMap, totalAmount) ←
           update_lines company_id id items db existingMap 0;
        db ← remove_lines id existingMap db;
        db ← update_invoice_total e db totalAmount id None;
        Ok (db, tt)
    | None => Ok (db, tt)
    end
end.

Definition updateInvoice (e : env) (company_id id : uuid) (req : update_body)
  (db : database) : database * response :=
transaction db (updateInvoice_body e company_id id req db)
  (fun _ => Response 200 InvoiceUpdated)
  (fun err => Response 400 (ErrorMessage err)).

Definition updateInvoiceStatus (e : env) (company_id id : uuid)
  (status : option string) (db : database) : database * response :=
match status ≫= invoice_status_of_text with
| None => (db, Response 400 InvalidStatusValue)
| Some st =>
    match update_invoice_status e db st id company_id with
    | (db, []) => (db, Response 404 InvoiceNotFoundBody)
    | (db, row :: _) => (db, Response 200 (InvoiceMarked row))
    end
end.

(** No stock statement here: the lines and the invoice are deleted as
  they stand. *)
Definition deleteInvoice_body (company_id id : uuid) (db : database)
  : result (database * unit) :=
match select_invoice db id company_id with
| None => Throw InvoiceNotFound
| Some _ =>
    let db := delete_invoice_items db id in
    let db := delete_invoice db id None in
    Ok (db, tt)
end.

Definition deleteInvoice (company_id id : uuid) (db : database)
  : database * response :=
transaction db (deleteInvoice_body company_id id db)
  (fun _ => Response 200 InvoiceDeleted)
  (fun err => Response 500 (ErrorMessage err)).

(** [getAllInvoices]: the join asks only for the party to exist (and the
  column list leaves out [invoice_date]). *)
Definition getAllInvoices (company_id : uuid) (db : database)
  : list (uuid * invoice_row) :=
select_invoices db company_id false.

(** [getInvoiceById]: the lines are selected by [invoice_id] alone. *)
Definition getInvoiceById (company_id id : uuid) (db : database)
  : Z * invoice_details :=
match select_invoice db id company_id with
| None => (404, NoSuchInvoice)
| Some invoice => (200, InvoiceDetails invoice (select_lines db id))
end.

End Plain.

(** ** [getInvoiceSummary] (the same statement in both revisions)

    [SELECT COUNT( * ) AS total_invoices, COALESCE(SUM(total_amount), 0) AS
    total_amount, COALESCE(SUM(CASE WHEN status = 'paid' THEN total_amount
    ELSE 0 END), 0) AS paid_amount, COUNT(CASE WHEN status != 'paid' AND
    due_date < NOW() THEN 1 END) AS overdue FROM invoices WHERE
    company_id = $1].  [due_date] is a [DATE]; [timestamptz] is its cast
    to the type of [NOW()], which depends on the session's time zone. *)
Record invoice_summary := InvoiceSummary {
  total_invoices : Z;
  total_amount : Z;
  paid_amount : Z;
  overdue : Z
}.

(** [status != 'paid' AND due_date < NOW()]; [NULL] when there is no
    [due_date], which [COUNT] skips. *)
Definition is_overdue (timestamptz : Z -> Z) (e : env) (i : invoice_row) : bool :=
  match inv_status i, inv_due_date i with
  | paid, _ => false
  | _, Some due_date => timestamptz due_date <? now e
  | _, None => false
  end.

(** [CASE WHEN status = 'paid' THEN total_amount ELSE 0 END] *)
Definition paid_total (i : invoice_row) : Z :=
  match inv_status i with
  | paid => inv_total_amount i
  | _ => 0
  end.

Definition getInvoiceSummary (timestamptz : Z -> Z) (e : env) (company_id : uuid)
    (db : database) : invoice_summary :=
  let rows :=
    snd <$> map_to_list
              (filter (fun kr => inv_company_id (snd kr) = company_id)
                      (invoices db)) in
  InvoiceSummary
    (Z.of_nat (length rows))
    (foldr Z.add 0 (inv_total_amount <$> rows))
    (foldr Z.add 0 (paid_total <$> rows))
    (Z.of_nat (length (filter (fun i => is_overdue timestamptz e i = true) rows))).

(** ** [src/controllers/itemController.js], [updateItem]

    [UPDATE items SET ..., price = COALESCE($3, price),
    quantity = COALESCE($4, quantity), ... WHERE id = $6 AND company_id = $7],
    restricted to the two columns kept in [item_row]. *)
Module ItemController.

Definition updateItem (company_id id : uuid) (price quantity : option Z)
  (db : database) : database * Z :=
match items db !! id with
| Some r =>
    if N.eqb (item_company_id r) company_id then
      if (default (item_price r) price <? 0)
         || (default (item_quantity r) quantity <? 0)
      then (db, 500)
      else (Database
              (<[id := ItemRow (item_company_id r)
                         (default (item_price r) price)
                         (default (item_quantity r) quantity)]> (items db))
              (parties db) (invoices db) (invoice_items db), 200)
    else (db, 404)
| None => (db, 404)
end.

(** [createItem]: [INSERT INTO items (company_id, name, description, price,
    quantity, category, created_at, updated_at) VALUES ($1, ..., NOW(),
    NOW())].  A field absent from the body arrives as [NULL]; [name],
    [price], [quantity] and [category] are [NOT NULL] (the [DEFAULT 0] of
    [quantity] does not apply to an explicit [NULL]).  The company of the
    token is taken to exist.  Any error is answered 500. *)
Definition createItem (e : env) (company_id : uuid) (name category : option string)
  (price quantity : option Z) (db : database) : database * Z :=
match name, price, quantity, category with
| Some _, Some price, Some quantity, Some _ =>
    if (price <? 0) || (quantity <? 0) then (db, 500)
    else
      match items db !! uuid_generate_v4 e with
      | Some _ => (db, 500)
      | None =>
          (Database (<[uuid_generate_v4 e := ItemRow company_id price quantity]>
                       (items db))
                    (parties db) (invoices db) (invoice_items db), 201)
      end
| _, _, _, _ => (db, 500)
end.

(** [deleteItem]: [DELETE FROM items WHERE id = $1 AND company_id = $2
    RETURNING id], against [invoice_items.item_id REFERENCES items(id) ON
    DELETE RESTRICT]; 404 when [rowCount] is 0, 500 on the violation. *)
Definition deleteItem (company_id id : uuid) (db : database) : database * Z :=
match items db !! id with
| Some r =>
    if N.eqb (item_company_id r) company_id then
      if existsb (fun l => N.eqb (ii_item_id l) id) (invoice_items db)
      then (db, 500)
      else (Database (delete id (items db)) (parties db) (invoices db)
                     (invoice_items db), 200)
    else (db, 404)
| None => (db, 404)
end.

End ItemController.

(** ** [src/unnamed/part_001] (the party controller), [createParty] and
    [deleteParty] *)
Module PartyController.

(** [CREATE TYPE party_type AS ENUM ('customer', 'supplier')] *)
Definition party_type_of_text (s : string) : bool :=
String.eqb s "customer" || String.eqb s "supplier".

(** [createParty]: [INSERT INTO parties (company_id, name, type, ...)
  VALUES ($1, $2, $3, ...) RETURNING *]; [name] and [type] are
  [NOT NULL], and [type] must be a label of [party_type].  The company of
  the token is taken to exist.  Any error is answered 500. *)
Definition createParty (e : env) (company_id : uuid) (name type : option string)
  (db : database) : database * Z :=
match name, type with
| Some _, Some type =>
    if negb (party_type_of_text type) then (db, 500)
    else
      match parties db !! uuid_generate_v4 e with
      | Some _ => (db, 500)
      | None =>
          (Database (items db)
                    (<[uuid_generate_v4 e := PartyRow company_id]> (parties db))
                    (invoices db) (invoice_items db), 201)
      end
| _, _ => (db, 500)
end.

(** [deleteParty]: [DELETE FROM parties WHERE id = $1 AND company_id = $2
  RETURNING *], against [invoices.party_id REFERENCES parties(id) ON
  DELETE RESTRICT]; 404 when [rowCount] is 0, 500 on the violation. *)
Definition deleteParty (company_id id : uuid) (db : database) : database * Z :=
match parties db !! id with
| Some r =>
    if N.eqb (party_company_id r) company_id then
      if existsb (fun kr => N.eqb (inv_party_id (snd kr)) id)
                 (map_to_list (invoices db))
      then (db, 500)
      else (Database (items db) (delete id (parties db)) (invoices db)
                     (invoice_items db), 200)
    else (db, 404)
| None => (db, 404)
end.

End PartyController.

(** ** Vocabulary of the properties *)

(** The lines stored for one invoice. *)
Definition lines_of (db : database) (id : uuid) : list invoice_item_row :=
  filter (fun r => ii_invoice_id r = id) (invoice_items db).

(** Sum of a column over rows. *)
Definition sum_of {A} (f : A -> Z) (l : list A) : Z :=
  foldr Z.add 0 (f <$> l).

(** Units of [item_id] held by a list of stored lines. *)
Definition quantity_on (item_id : uuid) (rows : list invoice_item_row) : Z :=
  sum_of ii_quantity (filter (fun r => ii_item_id r = item_id) rows).

(** The [(item_id, quantity)] pairs of a request's lines. *)
Definition wanted (ls : list line) : list (option N * option Z) :=
  (fun l => (line_item_id l, line_quantity l)) <$> ls.

(** Units of [item_id] asked for by a list of request lines. *)
Definition quantity_wanted (item_id : uuid) (ls : list line) : Z :=
  sum_of (fun l => default 0 (line_quantity l))
         (filter (fun l => line_item_id l = Some item_id) ls).

(** [stock_quantity] of an item ([None] when there is no such item). *)
Definition stock (db : database) (item_id : uuid) : option Z :=
  item_quantity <$> items db !! item_id.

(** [CHECK (quantity >= 0)] on [items]. *)
Definition stock_nonneg (db : database) : Prop :=
  forall i r, items db !! i = Some r -> 0 <= item_quantity r.

(** [invoice_id REFERENCES invoices(id)] on [invoice_items]. *)
Definition lines_reference_invoices (db : database) : Prop :=
  forall r, r ∈ invoice_items db -> is_Some (invoices db !! ii_invoice_id r).

(** The classes of §7 of the specification, on what the controllers throw:
    a validation error is a missing field or a non-positive quantity. *)
Definition is_validation_error (err : error) : bool :=
  match err with
  | ItemIdRequired | InvalidQuantity _ => true
  | _ => false
  end.

(** A request line the loops accept as far as its own fields and the
    catalog row go: an item of the company, priced within
    [CHECK (price >= 0)] and [NUMERIC(10,2)], and a positive quantity
    whose line total is within [NUMERIC(12,2)]. *)
Definition well_formed_line (db : database) (company_id : uuid) (l : line) : Prop :=
  exists i q p s, l = Line (Some i) (Some q) /\ 0 < q
                  /\ select_item db i company_id = Some (p, s) /\ 0 <= p
                  /\ numeric 10 p = true /\ numeric 12 (p * q) = true.

(** Some line of the request names the item. *)
Definition mentions (item_id : uuid) (ls : list line) : Prop :=
  Some item_id ∈ (line_item_id <$> ls).

(** Net units of [item_id] that [updateInvoice] takes out of stock for the
    lines [ls], given the quantities [m] it read from the stored lines:
    what is asked for, minus what the map holds for an item that is
    mentioned. *)
Definition net_decrease (item_id : uuid) (ls : list line) (m : jsmap) : Z :=
  quantity_wanted item_id ls
  - (if decide (Some item_id ∈ (line_item_id <$> ls))
     then get_or_0 item_id m else 0).

(** A stored line as [createInvoice] writes it: it belongs to invoice
    [id], and is priced from the catalog row of its item, which the
    company owns. *)
Definition line_priced_from (db : database) (company_id id : uuid)
    (r : invoice_item_row) : Prop :=
  ii_invoice_id r = id /\ 0 < ii_quantity r
  /\ ii_total_line_amount r = ii_price_at_purchase r * ii_quantity r
  /\ exists it, items db !! ii_item_id r = Some it
                /\ item_company_id it = company_id
                /\ ii_price_at_purchase r = item_price it.

(** Catalog price of an item. *)
Definition price_of (db : database) (item_id : uuid) : option Z :=
  item_price <$> items db !! item_id.

(** A stored line as [updateInvoice] writes it for the payload [ls]: a
    line of invoice [id] whose item and quantity are those of a payload
    line, priced at the catalog price the database [db] holds. *)
Definition line_written_for (db : database) (id : uuid) (ls : list line)
    (r : invoice_item_row) : Prop :=
  ii_invoice_id r = id
  /\ (Some (ii_item_id r), Some (ii_quantity r)) ∈ wanted ls
  /\ price_of db (ii_item_id r) = Some (ii_price_at_purchase r)
  /\ ii_total_line_amount r = ii_price_at_purchase r * ii_quantity r.

(** Invariant of the line loop of [updateInvoice], started in [db0] and
    having gone through the payload lines [done]: a stored line of the
    invoice is either still covered by the map or was written by the
    loop; every line gone through has its stored line; the map covers
    only items not gone through, each with a stored line; prices and the
    lines of other invoices are as in [db0]. *)
Definition loop_inv (db0 : database) (id : uuid) (done : list line)
    (db : database) (m : jsmap) : Prop :=
  (forall r, r ∈ invoice_items db -> ii_invoice_id r = id ->
     Map_has (ii_item_id r) m = true \/ line_written_for db0 id done r)
  /\ (forall k q, (Some k, Some q) ∈ wanted done ->
        exists r, r ∈ invoice_items db /\ ii_invoice_id r = id
                  /\ ii_item_id r = k /\ ii_quantity r = q)
  /\ (forall k, Map_has k m = true -> Some k ∉ (line_item_id <$> done))
  /\ (forall k, Map_has k m = true ->
        exists r, r ∈ invoice_items db /\ ii_invoice_id r = id
                  /\ ii_item_id r = k)
  /\ (forall i, price_of db i = price_of db0 i)
  /\ filter (fun r => ii_invoice_id r <> id) (invoice_items db)
     = filter (fun r => ii_invoice_id r <> id) (invoice_items db0).

(** What a successful [updateInvoice] with the payload [ls] leaves in
    [invoice_items]: for invoice [id] exactly the payload lines, by item
    and quantity, each priced from the current catalog; other invoices'
    lines as they were. *)
Definition lines_replaced (db : database) (id : uuid) (ls : list line)
    (db' : database) : Prop :=
  (forall r, r ∈ lines_of db' id -> line_written_for db id ls r)
  /\ (forall k q, (Some k, Some q) ∈ wanted ls ->
        exists r, r ∈ lines_of db' id /\ ii_item_id r = k /\ ii_quantity r = q)
  /\ filter (fun r => ii_invoice_id r <> id) (invoice_items db')
     = filter (fun r => ii_invoice_id r <> id) (invoice_items db).

(** [ItemRow] with another quantity. *)
Definition with_quantity (f : Z -> Z) (r : item_row) : item_row :=
  ItemRow (item_company_id r) (item_price r) (f (item_quantity r)).

(** The invoice holds every item on at most one line. *)
Definition one_line_per_item (db : database) (id : uuid) : Prop :=
  NoDup (ii_item_id <$> lines_of db id).

(** An item row after [n] units came back to a company's stock: rows of
    other companies are out of the statement's scope. *)
Definition restocked (company_id : uuid) (n : Z) (r : item_row) : item_row :=
  if N.eqb (item_company_id r) company_id
  then with_quantity (fun q => q + n) r else r.

(** [InvoiceRow] with another [updated_at]. *)
Definition with_updated_at (t : Z) (r : invoice_row) : invoice_row :=
  InvoiceRow (inv_company_id r) (inv_party_id r) (inv_invoice_number r)
    (inv_invoice_date r) (inv_due_date r) (inv_total_amount r) (inv_status r)
    (inv_created_at r) t.

(** Calls of the invoice API, and the states reachable through them. *)
Inductive call :=
| CreateInvoice (e : env) (company_id : uuid) (req : create_body)
| UpdateInvoice (e : env) (company_id id : uuid) (req : update_body)
| UpdateInvoiceStatus (e : env) (company_id id : uuid) (status : option string)
| DeleteInvoice (company_id id : uuid).

Definition run_scoped (c : call) (db : database) : database * response :=
  match c with
  | CreateInvoice e company_id req => Scoped.createInvoice e company_id req db
  | UpdateInvoice e company_id id req => Scoped.updateInvoice e company_id id req db
  | UpdateInvoiceStatus e company_id id st => Scoped.updateInvoiceStatus e company_id id st db
  | DeleteInvoice company_id id => Scoped.deleteInvoice company_id id db
  end.

Definition run_plain (c : call) (db : database) : database * response :=
  match c with
  | CreateInvoice e company_id req => Plain.createInvoice e company_id req db
  | UpdateInvoice e company_id id req => Plain.updateInvoice e company_id id req db
  | UpdateInvoiceStatus e company_id id st => Plain.updateInvoiceStatus e company_id id st db
  | DeleteInvoice company_id id => Plain.deleteInvoice company_id id db
  end.

Inductive reachable (run : call -> database -> database * response)
    (init : database) : database -> Prop :=
| reachable_init : reachable run init init
| reachable_step db c : reachable run init db -> reachable run init (fst (run c db)).

(** What a successful [createInvoice] leaves behind: invoice [id] of the
    company, with one stored line per requested line, in order, each
    priced from the catalog of the pre-state [db]; [total_amount] the sum
    of the line totals; every item's stock lowered by the quantities of
    the invoice's lines on that item, nothing else in the catalog changed. *)
Definition created (db : database) (company_id : uuid) (req : create_body)
    (db' : database) (id : uuid) : Prop :=
  exists inv,
    invoices db' !! id = Some inv
    /\ inv_company_id inv = company_id
    /\ inv_total_amount inv = sum_of ii_total_line_amount (lines_of db' id)
    /\ Forall (line_priced_from db company_id id) (lines_of db' id)
    /\ (fun r => (Some (ii_item_id r), Some (ii_quantity r))) <$> lines_of db' id
       = wanted (lines_given (cb_items req))
    /\ (forall i, items db' !! i
                  = with_quantity (fun q => q - quantity_on i (lines_of db' id))
                      <$> items db !! i).

(** A response that reports failure. *)
Definition failed (r : response) : Prop := 400 <= http_status r.

(** The response carries 'Insufficient stock for item: ...'. *)
Definition insufficient_stock_reply (r : response) : Prop :=
  exists j, r = Response 400 (ErrorMessage (InsufficientStock (Some j))).

(** The call asks, for some item, for a net stock decrease larger than
    the item's current stock. *)
Definition overdraws (db : database) (c : call) : Prop :=
  match c with
  | CreateInvoice e company_id req =>
      exists i it, items db !! i = Some it
                   /\ item_quantity it < quantity_wanted i (lines_given (cb_items req))
  | UpdateInvoice e company_id id req =>
      exists ls i it, ub_items req = Some ls /\ mentions i ls
                      /\ items db !! i = Some it
                      /\ item_quantity it
                         < net_decrease i ls (Map_new (select_invoice_items db id))
  | _ => False
  end.

(** The text, if given, is one of the four labels of [invoice_status]. *)
Definition status_acceptable (status : option string) : Prop :=
  match status with
  | None => True
  | Some s => is_Some (invoice_status_of_text s)
  end.

(** The header of a [createInvoice] request passes in both revisions:
    the party is one of the company's; the invoice number is given, is a
    text that [VARCHAR(50)] stores as it is, and is not yet used by the
    company; the due date is absent or a date; the status text is valid;
    and the generated id is new. *)
Definition header_acceptable (e : env) (db : database) (company_id : uuid)
    (req : create_body) : Prop :=
  select_party db (cb_party_id req) company_id = true
  /\ (exists n, cb_invoice_number req = Some n /\ varchar 50 n = Ok n)
  /\ select_invoice_number db company_id (cb_invoice_number req) = false
  /\ cb_due_date req <> falsy
  /\ status_acceptable (cb_status req)
  /\ invoices db !! uuid_generate_v4 e = None.

(** Every stock figure is within [INTEGER]. *)
Definition stock_in_range (db : database) : Prop :=
  forall i it, items db !! i = Some it -> item_quantity it <= 2147483647.

(** Every item's stock stays within [INTEGER] when the units that the
    map holds of it come back. *)
Definition map_fits (db : database) (m : jsmap) : Prop :=
  forall i it, items db !! i = Some it ->
    0 <= get_or_0 i m /\ item_quantity it + get_or_0 i m <= 2147483647.

(** The same of the map that [updateInvoice] builds from the stored lines
    of invoice [id]. *)
Definition stock_fits (db : database) (id : uuid) : Prop :=
  map_fits db (Map_new (select_invoice_items db id)).

(** Nothing but stock stands in the way of the call, in either revision:
    the header passes, every line is well formed, and the stock figures
    are within [INTEGER]. *)
Definition otherwise_valid (db : database) (c : call) : Prop :=
  match c with
  | CreateInvoice e company_id req =>
      header_acceptable e db company_id req
      /\ stock_in_range db
      /\ exists ls, cb_items req = items_given ls
                    /\ Forall (well_formed_line db company_id) ls
  | UpdateInvoice e company_id id req =>
      is_Some (select_invoice db id company_id)
      /\ ub_due_date req <> falsy
      /\ (ub_party_id req = absent
          \/ exists p, ub_party_id req = given p
                       /\ select_party db (Some p) company_id = true)
      /\ status_acceptable (ub_status req)
      /\ stock_fits db id
      /\ exists ls, ub_items req = Some ls
                    /\ Forall (well_formed_line db company_id) ls
  | _ => True
  end.

(** What every call guarantees about stock, whatever the state. *)
Definition stock_guard (run : call -> database -> database * response)
    (db : database) (c : call) : Prop :=
  stock_nonneg (fst (run c db))
  /\ (failed (snd (run c db)) -> fst (run c db) = db)
  /\ (overdraws db c -> failed (snd (run c db)))
  /\ (overdraws db c -> otherwise_valid db c ->
      insufficient_stock_reply (snd (run c db))).

(** Boolean comparisons of the code, as propositions for [lia]. *)
Ltac zbool :=
  repeat match goal with
  | H : (_ || _)%bool = false |- _ => apply orb_false_iff in H as [? ?]
  | H : (_ && _)%bool = true |- _ => apply andb_true_iff in H as [? ?]
  | H : (_ <=? _) = true |- _ => apply Z.leb_le in H
  | H : (_ <=? _) = false |- _ => apply Z.leb_gt in H
  | H : (_ <? _) = true |- _ => apply Z.ltb_lt in H
  | H : (_ <? _) = false |- _ => apply Z.ltb_ge in H
  | H : (_ =? _) = true |- _ => apply Z.eqb_eq in H
  | H : (_ =? _) = false |- _ => apply Z.eqb_neq in H
  end.

(** ** Tenants, constraints and the other controllers *)

(** The company a call is made for ([req.user.company_id]). *)
Definition company_of (c : call) : uuid :=
  match c with
  | CreateInvoice _ company_id _ => company_id
  | UpdateInvoice _ company_id _ _ => company_id
  | UpdateInvoiceStatus _ company_id _ _ => company_id
  | DeleteInvoice company_id _ => company_id
  end.

(** The invoice a call addresses by [req.params.id]. *)
Definition invoice_of (c : call) : option uuid :=
  match c with
  | CreateInvoice _ _ _ => None
  | UpdateInvoice _ _ id _ => Some id
  | UpdateInvoiceStatus _ _ id _ => Some id
  | DeleteInvoice _ id => Some id
  end.

(** What another company can see change: nothing.  Every item and every
    invoice that is not of [company_id] is in [db'] as it is in [db],
    lines included, no such row is new, and the parties are the same. *)
Definition untouched_outside (company_id : uuid) (db db' : database) : Prop :=
  parties db' = parties db
  /\ (forall i it, item_company_id it <> company_id ->
        (items db' !! i = Some it <-> items db !! i = Some it))
  /\ (forall id inv, inv_company_id inv <> company_id ->
        (invoices db' !! id = Some inv <-> invoices db !! id = Some inv))
  /\ (forall id inv, invoices db !! id = Some inv ->
        inv_company_id inv <> company_id -> lines_of db' id = lines_of db id).

(** The catalog of [db'] is that of [db] up to the quantities in stock:
    the same items, each with its company and its price. *)
Definition same_catalog (db db' : database) : Prop :=
  forall i, exists f, items db' !! i = with_quantity f <$> items db !! i.

(** [InvoiceRow] with another [status] and [updated_at]. *)
Definition with_status (status : invoice_status) (t : Z) (r : invoice_row)
    : invoice_row :=
  InvoiceRow (inv_company_id r) (inv_party_id r) (inv_invoice_number r)
    (inv_invoice_date r) (inv_due_date r) (inv_total_amount r) status
    (inv_created_at r) t.

(** What a call writes to [invoices] and [invoice_items] when it writes
    there at all: the row of one invoice [id], which is the company's
    before (if it exists) and after (if it stays), and lines of that
    invoice only. *)
Definition writes_invoice (company_id id : uuid) (db db' : database) : Prop :=
  (forall old, invoices db !! id = Some old -> inv_company_id old = company_id)
  /\ (invoices db' = delete id (invoices db)
      \/ exists row, invoices db' = <[id := row]> (invoices db)
                     /\ inv_company_id row = company_id)
  /\ filter (fun r => ii_invoice_id r <> id) (invoice_items db')
     = filter (fun r => ii_invoice_id r <> id) (invoice_items db).

(** [CHECK (price >= 0)] on [items]. *)
Definition prices_nonneg (db : database) : Prop :=
  forall i r, items db !! i = Some r -> 0 <= item_price r.

(** [CHECK (total_amount >= 0)] on [invoices]. *)
Definition totals_nonneg (db : database) : Prop :=
  forall id r, invoices db !! id = Some r -> 0 <= inv_total_amount r.

(** [UNIQUE (company_id, invoice_number)] on [invoices]. *)
Definition invoice_numbers_unique (db : database) : Prop :=
  forall i j r s,
    invoices db !! i = Some r -> invoices db !! j = Some s ->
    inv_company_id r = inv_company_id s ->
    inv_invoice_number r = inv_invoice_number s -> i = j.

(** [party_id REFERENCES parties(id)] on [invoices]. *)
Definition invoices_reference_parties (db : database) : Prop :=
  forall id r, invoices db !! id = Some r -> is_Some (parties db !! inv_party_id r).

(** A stored line is sound: its invoice and its item exist and belong to
    one company, its quantity and price are within the [CHECK]s of
    [invoice_items], and its total is price times quantity. *)
Definition line_sound (db : database) (r : invoice_item_row) : Prop :=
  (exists inv it, invoices db !! ii_invoice_id r = Some inv
                  /\ items db !! ii_item_id r = Some it
                  /\ item_company_id it = inv_company_id inv)
  /\ 0 < ii_quantity r /\ 0 <= ii_price_at_purchase r
  /\ ii_total_line_amount r = ii_price_at_purchase r * ii_quantity r.

(** A row that the constraints on [invoices] admit under [id] next to
    the rows of [db]: a total within the [CHECK], an existing party, and
    a number no other invoice of the company has. *)
Definition row_admissible (db : database) (id : uuid) (row : invoice_row) : Prop :=
  0 <= inv_total_amount row
  /\ is_Some (parties db !! inv_party_id row)
  /\ (forall k r, invoices db !! k = Some r -> k <> id ->
        inv_company_id r = inv_company_id row ->
        inv_invoice_number r <> inv_invoice_number row).

(** The constraints of [query.sql] on the tables kept, with the soundness
    of the lines. *)
Definition consistent (db : database) : Prop :=
  stock_nonneg db /\ prices_nonneg db /\ totals_nonneg db
  /\ invoice_numbers_unique db /\ invoices_reference_parties db
  /\ Forall (line_sound db) (invoice_items db).

(** Every invoice's [total_amount] is the sum of its stored lines. *)
Definition totals_match_lines (db : database) : Prop :=
  forall id inv, invoices db !! id = Some inv ->
    inv_total_amount inv = sum_of ii_total_line_amount (lines_of db id).

(** Every invoice's party belongs to the invoice's company. *)
Definition parties_of_company (db : database) : Prop :=
  forall id inv, invoices db !! id = Some inv ->
    select_party db (Some (inv_party_id inv)) (inv_company_id inv) = true.

(** The row of an invoice after the [UPDATE invoices SET due_date =
    COALESCE($1, due_date), party_id = COALESCE($2, party_id), status =
    COALESCE($3, status)::invoice_status, updated_at = NOW()] of
    [updateInvoice]: a field of the request that is absent, or falsy,
    keeps the stored value; the other columns but [total_amount] are as
    they were. *)
Definition header_updated (e : env) (req : update_body) (inv inv' : invoice_row)
    : Prop :=
  inv_company_id inv' = inv_company_id inv
  /\ inv_invoice_number inv' = inv_invoice_number inv
  /\ inv_invoice_date inv' = inv_invoice_date inv
  /\ inv_created_at inv' = inv_created_at inv
  /\ inv_updated_at inv' = now e
  /\ inv_party_id inv' = default (inv_party_id inv) (value (ub_party_id req))
  /\ inv_due_date inv' = match value (ub_due_date req) with
                         | Some d => Some d
                         | None => inv_due_date inv
                         end
  /\ match text_or_null (ub_status req) with
     | Some s => invoice_status_of_text s = Some (inv_status inv')
     | None => inv_status inv' = inv_status inv
     end.

(** The request with other [items]. *)
Definition with_items (items : items_field) (req : create_body) : create_body :=
  CreateBody (cb_party_id req) (cb_invoice_number req) (cb_due_date req)
    items (cb_status req).

(** The request as [createInvoice] of [src/unnamed/part_000] reads it:
    [items = []] when the body has none, and [due_date || null]. *)
Definition as_read (req : create_body) : create_body :=
  CreateBody (cb_party_id req) (cb_invoice_number req)
    (or_null (cb_due_date req)) (or_empty (cb_items req)) (cb_status req).

(** The company has an invoice with this number. *)
Definition number_in_use (db : database) (company_id : uuid) (n : string)
    : Prop :=
  exists id inv, invoices db !! id = Some inv
                 /\ inv_company_id inv = company_id
                 /\ inv_invoice_number inv = n.

(** Every stored invoice number is within [VARCHAR(50)]. *)
Definition numbers_fit (db : database) : Prop :=
  forall id r, invoices db !! id = Some r ->
    (String.length (inv_invoice_number r) <= 50)%nat.

(** A request to any of the controllers embedded here. *)
Inductive request :=
| InvoiceCall (c : call)
| CreateItem (e : env) (company_id : uuid) (name category : option string)
    (price quantity : option Z)
| UpdateItem (company_id id : uuid) (price quantity : option Z)
| DeleteItem (company_id id : uuid)
| CreateParty (e : env) (company_id : uuid) (name type : option string)
| DeleteParty (company_id id : uuid).

(** The database after a request, the invoice calls going to the revision
    [run]. *)
Definition serve (run : call -> database -> database * response) (r : request)
    (db : database) : database :=
  match r with
  | InvoiceCall c => fst (run c db)
  | CreateItem e company_id name category price quantity =>
      fst (ItemController.createItem e company_id name category price quantity db)
  | UpdateItem company_id id price quantity =>
      fst (ItemController.updateItem company_id id price quantity db)
  | DeleteItem company_id id => fst (ItemController.deleteItem company_id id db)
  | CreateParty e company_id name type =>
      fst (PartyController.createParty e company_id name type db)
  | DeleteParty company_id id => fst (PartyController.deleteParty company_id id db)
  end.

Inductive served (run : call -> database -> database * response)
    (init : database) : database -> Prop :=
| served_init : served run init init
| served_step db r : served run init db -> served run init (serve run r db).

(** ** Sample data

    Company 1 owns party 10 and the items 100 (price 100.00, 10 in stock)
    and 101 (price 2.50, 5 in stock); company 2 owns party 20 and item 200. *)
Module Sample.

Definition db0 : database :=
Database
  (<[100%N := ItemRow 1 10000 10]>
     (<[101%N := ItemRow 1 250 5]> (<[200%N := ItemRow 2 700 3]> ∅)))
  (<[10%N := PartyRow 1]> (<[20%N := PartyRow 2]> ∅))
  ∅ [].

Definition e0 : env := Env 1000 11 500%N.
Definition e1 : env := Env 2000 12 501%N.
Definition e2 : env := Env 3000 13 502%N.

Definition ln (item_id : uuid) (quantity : Z) : line :=
Line (Some item_id) (Some quantity).

Definition create_with (party_id : uuid) (ls : list line) : create_body :=
CreateBody (Some party_id) (Some "INV-1"%string) absent (items_given ls) None.

Definition update_with (ls : list line) : update_body :=
UpdateBody absent absent None (Some ls).

(** Invoice 500: one line, 4 units of item 100. *)
Definition db_one_line : database :=
fst (Scoped.createInvoice e0 1%N (create_with 10%N [ln 100%N 4]) db0).

(** Invoice 500 with item 100 on two lines (2 and 3 units). *)
Definition db_two_lines : database :=
fst (Scoped.createInvoice e0 1%N (create_with 10%N [ln 100%N 2; ln 100%N 3]) db0).

(** The catalog price of item 100 raised to 150.00 after invoice 500. *)
Definition db_repriced : database :=
fst (ItemController.updateItem 1%N 100%N (Some 15000) None db_one_line).

(** The sample catalog with item 100 at 99999999.99 and 200 in stock. *)
Definition db_costly : database :=
fst (ItemController.updateItem 1%N 100%N (Some 9999999999) (Some 200) db0).

(** An invoice number of 51 characters. *)
Definition long_number : string :=
"INV-0000000000000000000000000000000000000000000000A"%string.

End Sample.


(** * Proofs *)

(** ** Sums and counts *)

Lemma sum_of_nil {A} (f : A -> Z) : sum_of f [] = 0.
Proof. reflexivity. Qed.

Lemma sum_of_cons {A} (f : A -> Z) x l : sum_of f (x :: l) = f x + sum_of f l.
Proof. reflexivity. Qed.

Lemma sum_of_app {A} (f : A -> Z) l1 l2 :
  sum_of f (l1 ++ l2) = sum_of f l1 + sum_of f l2.
Proof.
  induction l1 as [|x l1 IH]; [reflexivity|].
  rewrite <- app_comm_cons, !sum_of_cons, IH. lia.
Qed.

Lemma quantity_on_nil i : quantity_on i [] = 0.
Proof. reflexivity. Qed.

Lemma quantity_on_cons i r rows :
  quantity_on i (r :: rows) =
  (if decide (ii_item_id r = i) then ii_quantity r else 0) + quantity_on i rows.
Proof.
  unfold quantity_on. rewrite filter_cons.
  destruct (decide (ii_item_id r = i)); reflexivity.
Qed.

Lemma quantity_wanted_cons i l ls :
  quantity_wanted i (l :: ls) =
  (if decide (line_item_id l = Some i) then default 0 (line_quantity l) else 0)
  + quantity_wanted i ls.
Proof.
  unfold quantity_wanted. rewrite filter_cons.
  destruct (decide (line_item_id l = Some i)); reflexivity.
Qed.

(** ** What each statement changes *)

Lemma insert_invoice_item_Ok db id i q p t db' :
  insert_invoice_item db id i q p t = Ok db' ->
  0 < q /\ 0 <= p /\
  db' = Database (items db) (parties db) (invoices db)
          (invoice_items db ++ [InvoiceItemRow id i q p t]).
Proof.
  unfold insert_invoice_item. intros H.
  destruct (line_storable q p t); [|discriminate]. cbn [negb] in H.
  destruct (q <=? 0) eqn:Hq; [discriminate|].
  destruct (p <? 0) eqn:Hp; [discriminate|]. simpl in H.
  injection H as <-. zbool. repeat split; lia.
Qed.

Lemma update_item_quantity_Ok db i scope f db' :
  update_item_quantity db i scope f = Ok db' ->
  parties db' = parties db /\ invoices db' = invoices db
  /\ invoice_items db' = invoice_items db
  /\ ((exists r, items db !! i = Some r
                 /\ in_scope scope (item_company_id r) = true
                 /\ 0 <= f (item_quantity r)
                 /\ items db' = <[i := with_quantity f r]> (items db))
      \/ (db' = db
          /\ forall r, items db !! i = Some r ->
                       in_scope scope (item_company_id r) = false)).
Proof.
  unfold update_item_quantity. intros H.
  destruct (items db !! i) as [r|] eqn:Hr.
  - destruct (in_scope scope (item_company_id r)) eqn:Hs.
    + destruct (int4 (f (item_quantity r))); [|discriminate]. cbn [negb] in H.
      destruct (f (item_quantity r) <? 0) eqn:Hf; [discriminate|].
      injection H as <-. simpl. zbool. repeat split.
      left. exists r. split; [reflexivity|]. split; [exact Hs|].
      split; [lia|reflexivity].
    + injection H as <-. repeat split. right. split; [reflexivity|].
      intros r' [= <-]. exact Hs.
  - injection H as <-. repeat split. right. split; [reflexivity|].
    intros r' [=].
Qed.

Lemma select_item_Some db i c p s :
  select_item db i c = Some (p, s) ->
  exists r, items db !! i = Some r /\ item_company_id r = c
            /\ item_price r = p /\ item_quantity r = s.
Proof.
  unfold select_item. intros H.
  destruct (items db !! i) as [r|]; [|discriminate].
  destruct (N.eqb (item_company_id r) c) eqn:Hc; [|discriminate].
  injection H as <- <-. exists r. apply N.eqb_eq in Hc. auto.
Qed.

Lemma decrease_item_quantity_Ok db amount i scope db' :
  decrease_item_quantity db amount i scope = Ok db' ->
  int4 amount = true
  /\ update_item_quantity db i scope (fun q => q - amount) = Ok db'.
Proof.
  unfold decrease_item_quantity. destruct (int4 amount); [auto | discriminate].
Qed.

Lemma increase_item_quantity_Ok db amount i scope db' :
  increase_item_quantity db amount i scope = Ok db' ->
  int4 amount = true
  /\ update_item_quantity db i scope (fun q => q + amount) = Ok db'.
Proof.
  unfold increase_item_quantity. destruct (int4 amount); [auto | discriminate].
Qed.

Lemma int4_spec z : int4 z = true <-> -2147483648 <= z <= 2147483647.
Proof.
  unfold int4. rewrite andb_true_iff, !Z.leb_le. reflexivity.
Qed.

Lemma numeric_spec precision z :
  numeric precision z = true <-> - 10 ^ precision < z < 10 ^ precision.
Proof. unfold numeric. rewrite Z.ltb_lt. lia. Qed.

(** In the loops the item row was just selected within the company, so
    the stock statement hits it whether or not it names the company. *)
Lemma decrease_after_select db i c p s amount scope db' :
  select_item db i c = Some (p, s) ->
  (scope = None \/ scope = Some c) ->
  decrease_item_quantity db amount i scope = Ok db' ->
  0 <= s - amount /\
  db' = Database (<[i := ItemRow c p (s - amount)]> (items db))
          (parties db) (invoices db) (invoice_items db).
Proof.
  intros Hsel Hscope H.
  apply select_item_Some in Hsel as (r & Hr & Hc & Hp & Hs).
  apply decrease_item_quantity_Ok in H as [_ H].
  unfold update_item_quantity in H.
  rewrite Hr in H.
  assert (in_scope scope (item_company_id r) = true) as Hin.
  { destruct Hscope as [-> | ->]; simpl; [reflexivity|]. apply N.eqb_eq, Hc. }
  rewrite Hin in H.
  destruct (int4 (item_quantity r - amount)); [|discriminate]. cbn [negb] in H.
  destruct (item_quantity r - amount <? 0) eqn:Hneg; [discriminate|].
  injection H as <-. zbool. subst. split; [lia|reflexivity].
Qed.

Lemma decrease_scope_irrelevant db i c p s amount :
  select_item db i c = Some (p, s) ->
  decrease_item_quantity db amount i None
  = decrease_item_quantity db amount i (Some c).
Proof.
  intros Hsel. apply select_item_Some in Hsel as (r & Hr & Hc & _).
  unfold decrease_item_quantity, update_item_quantity. rewrite Hr. simpl.
  replace (N.eqb (item_company_id r) c) with true; [reflexivity|].
  symmetry. apply N.eqb_eq, Hc.
Qed.

(** ** The line loop of [createInvoice] *)

Lemma create_lines_Ok c id ls : forall db tot db' tot',
  Scoped.create_lines c id ls db tot = Ok (db', tot') ->
  exists new,
    invoice_items db' = invoice_items db ++ new
    /\ parties db' = parties db /\ invoices db' = invoices db
    /\ (fun r => (Some (ii_item_id r), Some (ii_quantity r))) <$> new = wanted ls
    /\ Forall (line_priced_from db c id) new
    /\ tot' = tot + sum_of ii_total_line_amount new
    /\ (forall i, items db' !! i
                  = with_quantity (fun q => q - quantity_on i new)
                      <$> items db !! i).
Proof.
  induction ls as [|l ls IH]; intros db tot db' tot' H; simpl in H.
  - injection H as <- <-. exists []. rewrite app_nil_r.
    repeat split; [constructor | rewrite sum_of_nil; lia |].
    intros i. destruct (items db !! i) as [[? ? ?]|]; simpl; [|reflexivity].
    unfold with_quantity; simpl. do 2 f_equal. rewrite quantity_on_nil. lia.
  - destruct l as [[j|] [q|]]; simpl in H; try discriminate.
    destruct ((q =? 0) || (q <=? 0)) eqn:Hq; [discriminate|].
    destruct (select_item db j c) as [[p s]|] eqn:Hsel; [|discriminate].
    destruct (s <? q) eqn:Hs; [discriminate|].
    destruct (insert_invoice_item db id j q p (p * q)) as [db1|] eqn:H1;
      [|discriminate].
    simpl in H.
    destruct (decrease_item_quantity db1 q j (Some c)) as [db2|] eqn:H2;
      [|discriminate].
    simpl in H.
    apply insert_invoice_item_Ok in H1 as (Hq0 & Hp0 & ->).
    eapply (decrease_after_select _ j c p s) in H2 as (Hs0 & ->);
      [|exact Hsel|right; reflexivity].
    apply IH in H as (new & Hitems & Hpar & Hinv & Hwant & Hnew & Htot & Hstock).
    simpl in *.
    pose proof (select_item_Some _ _ _ _ _ Hsel) as (it & Hit & Hc & Hp & Hst).
    exists (InvoiceItemRow id j q p (p * q) :: new).
    repeat split.
    + rewrite Hitems, <- app_assoc. reflexivity.
    + exact Hpar.
    + exact Hinv.
    + unfold wanted in *. rewrite !fmap_cons, Hwant. reflexivity.
    + constructor.
      * repeat split; simpl; [lia|]. exists it. auto.
      * eapply Forall_impl; [exact Hnew|].
        intros r (? & ? & ? & it' & Hit' & ? & ?). repeat split; auto.
        simpl in Hit'.
        destruct (decide (ii_item_id r = j)) as [Hj|Hj].
        -- rewrite Hj, lookup_insert_eq in Hit'. injection Hit' as <-.
           rewrite Hj. exists it. simpl in *. subst. auto.
        -- rewrite lookup_insert_ne in Hit' by congruence. exists it'. auto.
    + rewrite sum_of_cons. simpl. lia.
    + intros i. rewrite Hstock, quantity_on_cons. simpl.
      destruct (decide (j = i)) as [->|Hne].
      * rewrite lookup_insert_eq, Hit. simpl. unfold with_quantity; simpl.
        subst. do 2 f_equal. lia.
      * rewrite lookup_insert_ne by exact Hne.
        destruct (items db !! i) as [[? ? ?]|]; simpl; [|reflexivity].
        unfold with_quantity; simpl. do 2 f_equal.
Qed.

Lemma filter_all {A} (P : A -> Prop) `{!forall x, Decision (P x)} (l : list A) :
  Forall P l -> filter P l = l.
Proof.
  induction 1 as [|x l Hx _ IH]; [reflexivity|].
  rewrite filter_cons_True by exact Hx. f_equal. exact IH.
Qed.

Lemma filter_none {A} (P : A -> Prop) `{!forall x, Decision (P x)} (l : list A) :
  Forall (fun x => ~ P x) l -> filter P l = [].
Proof.
  induction 1 as [|x l Hx _ IH]; [reflexivity|].
  rewrite filter_cons_False by exact Hx. exact IH.
Qed.

Lemma select_item_insert_invoice_item db id j q p t db1 i c :
  insert_invoice_item db id j q p t = Ok db1 ->
  select_item db1 i c = select_item db i c.
Proof. intros H. apply insert_invoice_item_Ok in H as (_ & _ & ->). reflexivity. Qed.

(** The two revisions of the loop succeed on the same inputs with the
    same result. *)
Lemma create_lines_agree c id ls : forall db tot r,
  Plain.create_lines c id ls db tot = Ok r
  <-> Scoped.create_lines c id ls db tot = Ok r.
Proof.
  induction ls as [|l ls IH]; intros db tot r; simpl; [reflexivity|].
  destruct l as [[j|] [q|]]; simpl; try (split; discriminate).
  - destruct ((q =? 0) || (q <=? 0)); [split; discriminate|].
    destruct (select_item db j c) as [[p s]|] eqn:Hsel; simpl;
      [|split; discriminate].
    destruct (s <? q); [split; discriminate|].
    destruct (insert_invoice_item db id j q p (p * q)) as [db1|] eqn:H1; simpl;
      [|split; discriminate].
    rewrite (decrease_scope_irrelevant db1 j c p s).
    + destruct (decrease_item_quantity db1 q j (Some c)); simpl;
        [apply IH | split; discriminate].
    + rewrite (select_item_insert_invoice_item _ _ _ _ _ _ _ _ _ H1). exact Hsel.
  - destruct ((q =? 0) || (q <=? 0)); split; discriminate.
Qed.

Lemma invoice_values_Ok number due total status n d st :
  invoice_values number due total status = Ok (n, d, st) ->
  match number with
  | Some n0 => exists n1, varchar 50 n0 = Ok n1 /\ n = Some n1
  | None => n = None
  end
  /\ due <> falsy /\ d = value due
  /\ numeric 12 total = true
  /\ match status with
     | None => st = draft
     | Some s => invoice_status_of_text s = Some st
     end.
Proof.
  unfold invoice_values. intros H.
  assert (exists n', match number with
                     | Some n0 => bind (varchar 50 n0) (fun n => Ok (Some n))
                     | None => Ok None
                     end = Ok n'
                     /\ match number with
                        | Some n0 => exists n1, varchar 50 n0 = Ok n1 /\ n' = Some n1
                        | None => n' = None
                        end) as (n' & Hn' & Hnum).
  { destruct number as [n0|]; [|eauto].
    destruct (varchar 50 n0) as [n1|] eqn:Hv; [|discriminate]. simpl. eauto. }
  rewrite Hn' in H.
  assert (due <> falsy) as Hdue by (intros ->; discriminate).
  assert (match due with
          | falsy => Throw (DatabaseError invalid_datetime_format)
          | _ => if negb (numeric 12 total)
                 then Throw (DatabaseError numeric_value_out_of_range)
                 else match (match status with
                             | None => Some draft
                             | Some s => invoice_status_of_text s
                             end) with
                      | None => Throw (DatabaseError invalid_text_representation)
                      | Some st => Ok (n', value due, st)
                      end
          end = Ok (n, d, st)) as H' by (destruct due; exact H).
  clear H. destruct due; try contradiction;
    (destruct (numeric 12 total); [|discriminate]; cbn [negb] in H';
     destruct (match status with None => Some draft | Some s => invoice_status_of_text s end)
       as [st'|] eqn:Hst; [|discriminate];
     injection H' as <- <- <-; repeat split; auto;
     destruct status; [exact Hst | congruence]).
Qed.

Lemma insert_invoice_Ok e db c party number due total status db1 id :
  insert_invoice e db c party number due total status = Ok (db1, id) ->
  id = uuid_generate_v4 e
  /\ invoices db !! id = None
  /\ due <> falsy
  /\ exists p n st,
       party = Some p
       /\ (exists n0, number = Some n0 /\ varchar 50 n0 = Ok n
                      /\ select_invoice_number db c (Some n) = false)
       /\ is_Some (parties db !! p)
       /\ match status with
          | None => st = draft
          | Some s => invoice_status_of_text s = Some st
          end
       /\ db1 = Database (items db) (parties db)
                  (<[id := InvoiceRow c p n (current_date e) (value due) total st
                             (now e) (now e)]> (invoices db))
                  (invoice_items db).
Proof.
  unfold insert_invoice. intros H.
  destruct (invoice_values number due total status) as [[[n' d] st]|] eqn:Hv;
    [|discriminate].
  apply invoice_values_Ok in Hv as (Hnum & Hdue & -> & _ & Hst).
  destruct party as [p|]; [|discriminate].
  destruct n' as [n|]; [|discriminate].
  destruct (total <? 0); [discriminate|].
  destruct (invoices db !! uuid_generate_v4 e) eqn:Hfresh; [discriminate|].
  destruct (select_invoice_number db c (Some n)) eqn:Hfree; [discriminate|].
  destruct (parties db !! p) eqn:Hp; [|discriminate].
  injection H as <- <-. split; [reflexivity|]. split; [exact Hfresh|].
  split; [exact Hdue|]. exists p, n, st.
  split; [reflexivity|]. split.
  { destruct number as [n0|]; [|discriminate].
    destruct Hnum as (n1 & Hn1 & [= ->]). eauto. }
  split; [eauto|]. split; [exact Hst | reflexivity].
Qed.

Lemma select_party_Some db party c :
  select_party db party c = true ->
  exists p r, party = Some p /\ parties db !! p = Some r /\ party_company_id r = c.
Proof.
  unfold select_party. destruct party as [p|]; [|discriminate].
  destruct (parties db !! p) as [r|] eqn:Hr; [|discriminate].
  intros H. apply N.eqb_eq in H. exists p, r. auto.
Qed.

Lemma or_null_id {A} (x : field A) : x <> falsy -> or_null x = x.
Proof. destruct x; [reflexivity | contradiction | reflexivity]. Qed.

Lemma value_or_null {A} (x : field A) : value (or_null x) = value x.
Proof. destruct x; reflexivity. Qed.

Lemma or_null_not_falsy {A} (x : field A) : or_null x <> falsy.
Proof. destruct x; discriminate. Qed.

(** An acceptable header is inserted, with [total_amount = 0], whether
    the [INSERT] gets [due_date] or [due_date || null]. *)
Lemma insert_invoice_acceptable e db c req :
  header_acceptable e db c req ->
  exists p n st,
    cb_party_id req = Some p /\ cb_invoice_number req = Some n
    /\ or_null (cb_due_date req) = cb_due_date req
    /\ insert_invoice e db c (cb_party_id req) (cb_invoice_number req)
         (cb_due_date req) 0 (cb_status req)
       = Ok (Database (items db) (parties db)
               (<[uuid_generate_v4 e :=
                    InvoiceRow c p n (current_date e) (value (cb_due_date req))
                      0 st (now e) (now e)]> (invoices db))
               (invoice_items db),
             uuid_generate_v4 e).
Proof.
  intros (Hparty & (n & Hn & Hvar) & Hnum & Hdue & Hst & Hfresh).
  apply select_party_Some in Hparty as (p & r & Hp & Hr & _).
  assert (exists st, match cb_status req with
                     | None => Some draft
                     | Some s => invoice_status_of_text s
                     end = Some st) as [st Hst'].
  { unfold status_acceptable in Hst.
    destruct (cb_status req) as [s|]; [destruct Hst; eauto | eauto]. }
  exists p, n, st. split; [exact Hp|]. split; [exact Hn|].
  split; [apply or_null_id, Hdue|].
  unfold insert_invoice, invoice_values. rewrite Hst', Hp, Hn, Hvar.
  cbn [bind].
  replace (match cb_due_date req with
           | falsy => Throw (DatabaseError invalid_datetime_format)
           | _ => if negb (numeric 12 0)
                  then Throw (DatabaseError numeric_value_out_of_range)
                  else Ok (Some n, value (cb_due_date req), st)
           end) with (@Ok (option string * option Z * invoice_status)
                         (Some n, value (cb_due_date req), st))
    by (destruct (cb_due_date req); [reflexivity | contradiction | reflexivity]).
  cbn [Z.ltb Z.compare].
  rewrite Hfresh. rewrite Hn in Hnum. rewrite Hnum, Hr. reflexivity.
Qed.

Lemma update_invoice_total_Ok e db total id scope db' r :
  invoices db !! id = Some r ->
  in_scope scope (inv_company_id r) = true ->
  update_invoice_total e db total id scope = Ok db' ->
  0 <= total /\
  db' = Database (items db) (parties db)
          (<[id := InvoiceRow (inv_company_id r) (inv_party_id r)
                     (inv_invoice_number r) (inv_invoice_date r)
                     (inv_due_date r) total (inv_status r)
                     (inv_created_at r) (now e)]> (invoices db))
          (invoice_items db).
Proof.
  unfold update_invoice_total. intros -> ->.
  destruct (numeric 12 total); [|discriminate]. cbn [negb].
  destruct (total <? 0) eqn:Ht; [discriminate|].
  intros [= <-]. zbool. split; [lia|reflexivity].
Qed.

Lemma in_scope_same scope c :
  scope = None \/ scope = Some c -> in_scope scope c = true.
Proof. intros [-> | ->]; simpl; [reflexivity | apply N.eqb_refl]. Qed.

(** Lines of an invoice that did not exist yet: there are none. *)
Lemma lines_of_fresh db id :
  lines_reference_invoices db -> invoices db !! id = None -> lines_of db id = [].
Proof.
  intros Hfk Hnone. unfold lines_of. apply filter_none.
  apply Forall_forall. intros r Hr Hid.
  destruct (Hfk r Hr) as [inv Hinv]. congruence.
Qed.

(** After the header row is inserted, the loop and the total statement
    produce the post-state of [created]. *)
Lemma create_tail_created e db c req p n due st ls db2 tot db3 scope :
  lines_reference_invoices db ->
  invoices db !! uuid_generate_v4 e = None ->
  lines_given (cb_items req) = ls ->
  Scoped.create_lines c (uuid_generate_v4 e) ls
    (Database (items db) (parties db)
       (<[uuid_generate_v4 e := InvoiceRow c p n (current_date e)
            due 0 st (now e) (now e)]> (invoices db))
       (invoice_items db)) 0 = Ok (db2, tot) ->
  (scope = None \/ scope = Some c) ->
  update_invoice_total e db2 tot (uuid_generate_v4 e) scope = Ok db3 ->
  created db c req db3 (uuid_generate_v4 e).
Proof.
  intros Hfk Hfresh Hls Hloop Hscope Htot.
  apply create_lines_Ok in Hloop
    as (new & Hitems & Hpar & Hinv & Hwant & Hnew & -> & Hstock).
  simpl in *.
  eapply update_invoice_total_Ok in Htot as (_ & ->);
    [| rewrite Hinv; apply lookup_insert_eq | simpl; apply in_scope_same, Hscope].
  assert (forall invs, lines_of (Database (items db2) (parties db2) invs
                                  (invoice_items db2)) (uuid_generate_v4 e)
                       = new) as Hlines.
  { intros invs. unfold lines_of. simpl. rewrite Hitems, filter_app.
    fold (lines_of db (uuid_generate_v4 e)).
    rewrite (lines_of_fresh _ _ Hfk Hfresh). simpl.
    apply filter_all. eapply Forall_impl; [exact Hnew|].
    intros r (Hid & _). exact Hid. }
  eexists. split; [simpl; apply lookup_insert_eq|].
  rewrite Hlines. simpl. rewrite Hls.
  split; [reflexivity|]. split; [lia|].
  split; [|split; [exact Hwant | exact Hstock]].
  eapply Forall_impl; [exact Hnew|]. intros r Hr. exact Hr.
Qed.

Lemma or_empty_given items ls :
  or_empty items = items_given ls -> lines_given items = ls.
Proof. destruct items; simpl; congruence. Qed.

Lemma scoped_createInvoice_created e c req db db' id :
  lines_reference_invoices db ->
  Scoped.createInvoice_body e c req db = Ok (db', id) ->
  id = uuid_generate_v4 e /\ created db c req db' id.
Proof.
  intros Hfk H. unfold Scoped.createInvoice_body in H.
  destruct (negb (select_party db (cb_party_id req) c)); [discriminate|].
  destruct (select_invoice_number db c (cb_invoice_number req)); [discriminate|].
  unfold mbind, result_bind in H.
  destruct (insert_invoice e db c (cb_party_id req) (cb_invoice_number req)
              (or_null (cb_due_date req)) 0 (cb_status req))
    as [[db1 id1]|] eqn:Hins; [|discriminate].
  simpl in H.
  apply insert_invoice_Ok in Hins
    as (-> & Hfresh & _ & p & n & st & _ & _ & _ & _ & ->).
  destruct (or_empty (cb_items req)) as [| |ls] eqn:Hls; try discriminate.
  destruct (Scoped.create_lines c (uuid_generate_v4 e) ls _ 0)
    as [[db2 tot]|] eqn:Hloop; [|discriminate].
  simpl in H.
  destruct (update_invoice_total e db2 tot (uuid_generate_v4 e) (Some c))
    as [db3|] eqn:Htot; [|discriminate].
  simpl in H. injection H as <- <-. split; [reflexivity|].
  apply (create_tail_created e db c req p n (value (or_null (cb_due_date req)))
           st ls db2 tot _ (Some c)); auto.
  apply or_empty_given, Hls.
Qed.

Lemma plain_createInvoice_created e c req db db' id :
  lines_reference_invoices db ->
  Plain.createInvoice_body e c req db = Ok (db', id) ->
  id = uuid_generate_v4 e /\ created db c req db' id.
Proof.
  intros Hfk H. unfold Plain.createInvoice_body in H.
  unfold mbind, result_bind in H.
  destruct (insert_invoice e db c (cb_party_id req) (cb_invoice_number req)
              (cb_due_date req) 0 (cb_status req)) as [[db1 id1]|] eqn:Hins;
    [|discriminate].
  simpl in H.
  apply insert_invoice_Ok in Hins
    as (-> & Hfresh & _ & p & n & st & _ & _ & _ & _ & ->).
  destruct (cb_items req) as [| |ls] eqn:Hls; try discriminate.
  destruct (Plain.create_lines c (uuid_generate_v4 e) ls _ 0)
    as [[db2 tot]|] eqn:Hloop; [|discriminate].
  simpl in H.
  destruct (update_invoice_total e db2 tot (uuid_generate_v4 e) None)
    as [db3|] eqn:Htot; [|discriminate].
  simpl in H. injection H as <- <-. split; [reflexivity|].
  apply create_lines_agree in Hloop.
  apply (create_tail_created e db c req p n (value (cb_due_date req))
           st ls db2 tot _ None); auto.
  rewrite Hls. reflexivity.
Qed.

(** The steps a body went through when it returned. *)
Lemma scoped_createInvoice_body_Ok e c req db db' id :
  Scoped.createInvoice_body e c req db = Ok (db', id) ->
  select_party db (cb_party_id req) c = true
  /\ select_invoice_number db c (cb_invoice_number req) = false
  /\ exists db1 ls db2 tot,
       insert_invoice e db c (cb_party_id req) (cb_invoice_number req)
         (or_null (cb_due_date req)) 0 (cb_status req) = Ok (db1, id)
       /\ or_empty (cb_items req) = items_given ls
       /\ Scoped.create_lines c id ls db1 0 = Ok (db2, tot)
       /\ update_invoice_total e db2 tot id (Some c) = Ok db'.
Proof.
  intros H. unfold Scoped.createInvoice_body in H.
  destruct (select_party db (cb_party_id req) c); [|discriminate].
  destruct (select_invoice_number db c (cb_invoice_number req)); [discriminate|].
  cbn [negb] in H. unfold mbind, result_bind in H.
  destruct (insert_invoice e db c (cb_party_id req) (cb_invoice_number req)
              (or_null (cb_due_date req)) 0 (cb_status req))
    as [[db1 id1]|]; [|discriminate].
  cbn [bind] in H.
  destruct (or_empty (cb_items req)) as [| |ls]; try discriminate.
  destruct (Scoped.create_lines c id1 ls db1 0) as [[db2 tot]|] eqn:Hloop;
    [|discriminate].
  cbn [bind] in H.
  destruct (update_invoice_total e db2 tot id1 (Some c)) as [db3|] eqn:Htot;
    [|discriminate].
  cbn [bind] in H. injection H as <- <-.
  split; [reflexivity|]. split; [reflexivity|].
  exists db1, ls, db2, tot. auto.
Qed.

Lemma plain_createInvoice_body_Ok e c req db db' id :
  Plain.createInvoice_body e c req db = Ok (db', id) ->
  exists db1 ls db2 tot,
    insert_invoice e db c (cb_party_id req) (cb_invoice_number req)
      (cb_due_date req) 0 (cb_status req) = Ok (db1, id)
    /\ cb_items req = items_given ls
    /\ Plain.create_lines c id ls db1 0 = Ok (db2, tot)
    /\ update_invoice_total e db2 tot id None = Ok db'.
Proof.
  intros H. unfold Plain.createInvoice_body in H.
  unfold mbind, result_bind in H.
  destruct (insert_invoice e db c (cb_party_id req) (cb_invoice_number req)
              (cb_due_date req) 0 (cb_status req))
    as [[db1 id1]|]; [|discriminate].
  cbn [bind] in H.
  destruct (cb_items req) as [| |ls]; try discriminate.
  destruct (Plain.create_lines c id1 ls db1 0) as [[db2 tot]|] eqn:Hloop;
    [|discriminate].
  cbn [bind] in H.
  destruct (update_invoice_total e db2 tot id1 None) as [db3|] eqn:Htot;
    [|discriminate].
  cbn [bind] in H. injection H as <- <-.
  exists db1, ls, db2, tot. auto.
Qed.

Lemma scoped_updateInvoice_body_Ok e c id req db db' u :
  Scoped.updateInvoice_body e c id req db = Ok (db', u) ->
  exists inv db1,
    select_invoice db id c = Some inv
    /\ (forall p, ub_party_id req = given p -> select_party db (Some p) c = true)
    /\ update_invoice_meta e db (or_null (ub_due_date req))
         (or_null (ub_party_id req)) (text_or_null (ub_status req)) id c
       = Ok db1
    /\ match ub_items req with
       | Some ls =>
           exists db2 m2 tot db3,
             Scoped.update_lines c id ls db1
               (Map_new (select_invoice_items db1 id)) 0 = Ok (db2, m2, tot)
             /\ Scoped.remove_lines c id m2 db2 = Ok db3
             /\ update_invoice_total e db3 (sum_invoice_items db3 id) id (Some c)
                = Ok db'
       | None => db' = db1
       end.
Proof.
  intros H. unfold Scoped.updateInvoice_body in H.
  destruct (select_invoice db id c) as [inv|]; [|discriminate].
  destruct (match ub_party_id req with
            | given party_id => negb (select_party db (Some party_id) c)
            | _ => false
            end) eqn:Hparty; [discriminate|].
  unfold mbind, result_bind in H.
  destruct (update_invoice_meta e db (or_null (ub_due_date req))
              (or_null (ub_party_id req)) (text_or_null (ub_status req)) id c)
    as [db1|]; [|discriminate].
  cbn [bind] in H. exists inv, db1. split; [reflexivity|].
  split.
  { intros p Hp. rewrite Hp in Hparty. apply negb_false_iff, Hparty. }
  split; [reflexivity|].
  destruct (ub_items req) as [ls|]; [|injection H as <- <-; reflexivity].
  destruct (Scoped.update_lines c id ls db1 (Map_new (select_invoice_items db1 id)) 0)
    as [[[db2 m2] tot]|] eqn:Hloop; [|discriminate].
  cbn [bind] in H.
  destruct (Scoped.remove_lines c id m2 db2) as [db3|] eqn:Hrem; [|discriminate].
  cbn [bind] in H.
  destruct (update_invoice_total e db3 (sum_invoice_items db3 id) id (Some c))
    as [db4|] eqn:Htot; [|discriminate].
  cbn [bind] in H. injection H as <- <-.
  exists db2, m2, tot, db3. auto.
Qed.

Lemma plain_updateInvoice_body_Ok e c id req db db' u :
  Plain.updateInvoice_body e c id req db = Ok (db', u) ->
  exists inv db1,
    select_invoice db id c = Some inv
    /\ update_invoice_meta e db (ub_due_date req) (ub_party_id req)
         (ub_status req) id c = Ok db1
    /\ match ub_items req with
       | Some ls =>
           exists db2 m2 tot db3,
             Plain.update_lines c id ls db1
               (Map_new (select_invoice_items db1 id)) 0 = Ok (db2, m2, tot)
             /\ Plain.remove_lines id m2 db2 = Ok db3
             /\ update_invoice_total e db3 tot id None = Ok db'
       | None => db' = db1
       end.
Proof.
  intros H. unfold Plain.updateInvoice_body in H.
  destruct (select_invoice db id c) as [inv|]; [|discriminate].
  unfold mbind, result_bind in H.
  destruct (update_invoice_meta e db (ub_due_date req) (ub_party_id req)
              (ub_status req) id c) as [db1|]; [|discriminate].
  cbn [bind] in H. exists inv, db1. split; [reflexivity|].
  split; [reflexivity|].
  destruct (ub_items req) as [ls|]; [|injection H as <- <-; reflexivity].
  destruct (Plain.update_lines c id ls db1 (Map_new (select_invoice_items db1 id)) 0)
    as [[[db2 m2] tot]|] eqn:Hloop; [|discriminate].
  cbn [bind] in H.
  destruct (Plain.remove_lines id m2 db2) as [db3|] eqn:Hrem; [|discriminate].
  cbn [bind] in H.
  destruct (update_invoice_total e db3 tot id None) as [db4|] eqn:Htot;
    [|discriminate].
  cbn [bind] in H. injection H as <- <-.
  exists db2, m2, tot, db3. auto.
Qed.

(** A controller wrapped in [transaction] answers 2xx exactly when its
    body returned. *)
Lemma transaction_success {A} db (body : result (database * A)) ok ko db' resp :
  (forall err, 400 <= http_status (ko err)) ->
  transaction db body ok ko = (db', resp) ->
  http_status resp < 400 ->
  exists a, body = Ok (db', a) /\ resp = ok a.
Proof.
  intros Hko H Hst. unfold transaction in H.
  destruct body as [[db1 a]|err].
  - injection H as <- <-. exists a. auto.
  - injection H as <- <-. specialize (Hko err). lia.
Qed.

(** C1. Every successful [createInvoice], in either revision, commits an
    invoice whose [total_amount] is the sum of its lines'
    [total_line_amount]; each line total is [price_at_purchase * quantity]
    with [price_at_purchase] the catalog price of the item; and every
    item's stock is lowered by exactly the quantities of the invoice's
    lines on that item (by the line's quantity when the item is on one
    line), with one stored line per requested line. *)
Theorem createInvoice_total_and_stock e c req db db' resp :
  lines_reference_invoices db ->
  (Scoped.createInvoice e c req db = (db', resp)
   \/ Plain.createInvoice e c req db = (db', resp)) ->
  http_status resp = 201 ->
  resp = Response 201 (InvoiceCreated (uuid_generate_v4 e))
  /\ created db c req db' (uuid_generate_v4 e).
Proof.
  intros Hfk [H|H] Hst.
  - apply transaction_success in H as (id & Hbody & ->); [| |lia].
    + apply scoped_createInvoice_created in Hbody as (-> & Hc); auto.
    + intros err. destruct err as [| | | | | | | |[]]; simpl; lia.
  - apply transaction_success in H as (id & Hbody & ->); [| |lia].
    + apply plain_createInvoice_created in Hbody as (-> & Hc); auto.
    + intros err. simpl. lia.
Qed.

(** ** Statements that leave the catalog alone *)

Lemma update_invoice_item_Ok db q p t id i db' :
  update_invoice_item db q p t id i = Ok db' ->
  db' = Database (items db) (parties db) (invoices db)
          ((fun r => if N.eqb (ii_invoice_id r) id && N.eqb (ii_item_id r) i
                     then InvoiceItemRow id i q p t else r)
           <$> invoice_items db).
Proof.
  unfold update_invoice_item. intros H.
  destruct (line_storable q p t); [|discriminate]. cbn [negb] in H.
  destruct (existsb _ _ && _); [discriminate|]. injection H as <-. reflexivity.
Qed.

Lemma update_invoice_total_frame e db total id scope db' :
  update_invoice_total e db total id scope = Ok db' ->
  items db' = items db /\ parties db' = parties db
  /\ invoice_items db' = invoice_items db.
Proof.
  unfold update_invoice_total. intros H.
  destruct (numeric 12 total); [|discriminate]. cbn [negb] in H.
  destruct (invoices db !! id) as [r|]; [|injection H as <-; auto].
  destruct (in_scope scope (inv_company_id r)); [|injection H as <-; auto].
  destruct (total <? 0); [discriminate|]. injection H as <-. auto.
Qed.

Lemma update_invoice_meta_frame e db due party status id c db' :
  update_invoice_meta e db due party status id c = Ok db' ->
  items db' = items db /\ parties db' = parties db
  /\ invoice_items db' = invoice_items db
  /\ (forall k, k <> id -> invoices db' !! k = invoices db !! k)
  /\ (forall r, select_invoice db id c = Some r ->
        exists r', invoices db' !! id = Some r'
                   /\ inv_company_id r' = inv_company_id r
                   /\ inv_total_amount r' = inv_total_amount r).
Proof.
  unfold update_invoice_meta. intros H.
  destruct (meta_values due party status) as [[[d p] st]|]; [|discriminate].
  destruct (select_invoice db id c) as [r|] eqn:Hsel.
  - destruct (match p with Some p => bool_decide (parties db !! p = None) | None => false end);
      [discriminate|].
    injection H as <-. simpl. repeat split.
    + intros k Hk. apply lookup_insert_ne. congruence.
    + intros r0 [= <-]. eexists. split; [apply lookup_insert_eq|]. auto.
  - injection H as <-. repeat split. intros r [=].
Qed.

Lemma select_invoice_Some db id c r :
  select_invoice db id c = Some r ->
  invoices db !! id = Some r /\ inv_company_id r = c.
Proof.
  unfold select_invoice. destruct (invoices db !! id) as [r0|]; [|discriminate].
  destruct (N.eqb (inv_company_id r0) c) eqn:Hc; [|discriminate].
  intros [= <-]. apply N.eqb_eq in Hc. auto.
Qed.

(** ** [CHECK (quantity >= 0)] through the statements and loops *)

Lemma stock_nonneg_items db db' :
  items db' = items db -> stock_nonneg db -> stock_nonneg db'.
Proof. unfold stock_nonneg. intros ->. auto. Qed.

Lemma update_item_quantity_stock_nonneg db i scope f db' :
  update_item_quantity db i scope f = Ok db' ->
  stock_nonneg db -> stock_nonneg db'.
Proof.
  intros H Hinv. apply update_item_quantity_Ok in H
    as (_ & _ & _ & [(r & Hr & _ & Hf & Hitems) | [-> _]]); [|exact Hinv].
  intros k rk. rewrite Hitems. destruct (decide (i = k)) as [->|Hne].
  - rewrite lookup_insert_eq. intros [= <-]. exact Hf.
  - rewrite lookup_insert_ne by exact Hne. apply Hinv.
Qed.

Lemma insert_invoice_item_items db id i q p t db' :
  insert_invoice_item db id i q p t = Ok db' -> items db' = items db.
Proof. intros H. apply insert_invoice_item_Ok in H as (_ & _ & ->). reflexivity. Qed.

Lemma update_invoice_item_items db q p t id i db' :
  update_invoice_item db q p t id i = Ok db' -> items db' = items db.
Proof. intros H. apply update_invoice_item_Ok in H as ->. reflexivity. Qed.

Lemma scoped_create_lines_stock_nonneg c id ls : forall db tot db' tot',
  Scoped.create_lines c id ls db tot = Ok (db', tot') ->
  stock_nonneg db -> stock_nonneg db'.
Proof.
  induction ls as [|l ls IH]; intros db tot db' tot' H Hinv; simpl in H.
  - injection H as <- <-. exact Hinv.
  - destruct l as [[j|] [q|]]; simpl in H; try discriminate.
    destruct ((q =? 0) || (q <=? 0)); [discriminate|].
    destruct (select_item db j c) as [[p s]|]; [|discriminate].
    destruct (s <? q); [discriminate|].
    destruct (insert_invoice_item db id j q p (p * q)) as [db1|] eqn:H1;
      [|discriminate].
    simpl in H.
    destruct (decrease_item_quantity db1 q j (Some c)) as [db2|] eqn:H2;
      [|discriminate].
    simpl in H. eapply IH; [exact H|].
    eapply update_item_quantity_stock_nonneg; [apply decrease_item_quantity_Ok in H2 as [_ H2]; exact H2|].
    eapply stock_nonneg_items; [|exact Hinv].
    eapply insert_invoice_item_items, H1.
Qed.

Lemma scoped_update_lines_stock_nonneg c id ls : forall db m tot db' m' tot',
  Scoped.update_lines c id ls db m tot = Ok (db', m', tot') ->
  stock_nonneg db -> stock_nonneg db'.
Proof.
  induction ls as [|l ls IH]; intros db m tot db' m' tot' H Hinv; simpl in H.
  - injection H as <- <- <-. exact Hinv.
  - destruct l as [[j|] [q|]]; simpl in H; try discriminate.
    destruct ((q =? 0) || (q <=? 0)); [discriminate|].
    destruct (select_item db j c) as [[p s]|]; [|discriminate].
    destruct ((0 <? q - get_or_0 j m) && (s <? q - get_or_0 j m));
      [discriminate|].
    destruct (if Map_has j m
              then update_invoice_item db q p (p * q) id j
              else insert_invoice_item db id j q p (p * q)) as [db1|] eqn:H1;
      [|discriminate].
    simpl in H.
    destruct (decrease_item_quantity db1 (q - get_or_0 j m) j (Some c))
      as [db2|] eqn:H2; [|discriminate].
    simpl in H. eapply IH; [exact H|].
    eapply update_item_quantity_stock_nonneg; [apply decrease_item_quantity_Ok in H2 as [_ H2]; exact H2|].
    eapply stock_nonneg_items; [|exact Hinv].
    destruct (Map_has j m);
      [eapply update_invoice_item_items | eapply insert_invoice_item_items];
      exact H1.
Qed.

Lemma plain_update_lines_stock_nonneg c id ls : forall db m tot db' m' tot',
  Plain.update_lines c id ls db m tot = Ok (db', m', tot') ->
  stock_nonneg db -> stock_nonneg db'.
Proof.
  induction ls as [|l ls IH]; intros db m tot db' m' tot' H Hinv; simpl in H.
  - injection H as <- <- <-. exact Hinv.
  - destruct l as [[j|] [q|]]; simpl in H; try discriminate;
      (destruct ((q =? 0) || (q <=? 0)); [discriminate|]); [|discriminate].
    destruct (select_item db j c) as [[p s]|]; [|discriminate].
    simpl in H.
    destruct ((0 <? q - get_or_0 j m) && (s <? q - get_or_0 j m));
      [discriminate|].
    destruct (if Map_has j m
              then update_invoice_item db q p (p * q) id j
              else insert_invoice_item db id j q p (p * q)) as [db1|] eqn:H1;
      [|discriminate].
    simpl in H.
    destruct (decrease_item_quantity db1 (q - get_or_0 j m) j None)
      as [db2|] eqn:H2; [|discriminate].
    simpl in H. eapply IH; [exact H|].
    eapply update_item_quantity_stock_nonneg; [apply decrease_item_quantity_Ok in H2 as [_ H2]; exact H2|].
    eapply stock_nonneg_items; [|exact Hinv].
    destruct (Map_has j m);
      [eapply update_invoice_item_items | eapply insert_invoice_item_items];
      exact H1.
Qed.

Lemma scoped_remove_lines_stock_nonneg c id entries : forall db db',
  Scoped.remove_lines c id entries db = Ok db' ->
  stock_nonneg db -> stock_nonneg db'.
Proof.
  induction entries as [|[k v] entries IH]; intros db db' H Hinv; simpl in H.
  - injection H as <-. exact Hinv.
  - destruct (increase_item_quantity (delete_invoice_item db id k) v k (Some c))
      as [db1|] eqn:H1; [|discriminate].
    simpl in H. eapply IH; [exact H|].
    eapply update_item_quantity_stock_nonneg; [apply increase_item_quantity_Ok in H1 as [_ H1]; exact H1|]. exact Hinv.
Qed.

Lemma plain_remove_lines_stock_nonneg id entries : forall db db',
  Plain.remove_lines id entries db = Ok db' ->
  stock_nonneg db -> stock_nonneg db'.
Proof.
  induction entries as [|[k v] entries IH]; intros db db' H Hinv; simpl in H.
  - injection H as <-. exact Hinv.
  - destruct (increase_item_quantity (delete_invoice_item db id k) v k None)
      as [db1|] eqn:H1; [|discriminate].
    simpl in H. eapply IH; [exact H|].
    eapply update_item_quantity_stock_nonneg; [apply increase_item_quantity_Ok in H1 as [_ H1]; exact H1|]. exact Hinv.
Qed.

Lemma return_lines_stock_nonneg c lines : forall db db',
  Scoped.return_lines c lines db = Ok db' ->
  stock_nonneg db -> stock_nonneg db'.
Proof.
  induction lines as [|[k v] lines IH]; intros db db' H Hinv; simpl in H.
  - injection H as <-. exact Hinv.
  - destruct (increase_item_quantity db v k (Some c)) as [db1|] eqn:H1;
      [|discriminate].
    simpl in H. eapply IH; [exact H|].
    eapply update_item_quantity_stock_nonneg; [apply increase_item_quantity_Ok in H1 as [_ H1]; exact H1|]. exact Hinv.
Qed.

Lemma delete_invoice_items_same db id scope :
  items (delete_invoice db id scope) = items db.
Proof.
  unfold delete_invoice. destruct (invoices db !! id) as [r|]; [|reflexivity].
  destruct (in_scope scope (inv_company_id r)); reflexivity.
Qed.

Lemma delete_invoice_items_using_same db id c :
  items (delete_invoice_items_using db id c) = items db.
Proof.
  unfold delete_invoice_items_using. destruct (select_invoice db id c); reflexivity.
Qed.

Lemma insert_invoice_items e db c party number due total status db1 id :
  insert_invoice e db c party number due total status = Ok (db1, id) ->
  items db1 = items db.
Proof.
  intros H. apply insert_invoice_Ok in H
    as (_ & _ & _ & p & n & st & _ & _ & _ & _ & ->). reflexivity.
Qed.

Lemma update_invoice_status_frame e db st id c :
  items (fst (update_invoice_status e db st id c)) = items db
  /\ parties (fst (update_invoice_status e db st id c)) = parties db
  /\ invoice_items (fst (update_invoice_status e db st id c)) = invoice_items db.
Proof.
  unfold update_invoice_status. destruct (select_invoice db id c); simpl; auto.
Qed.

(** The bodies of the eight controllers keep [CHECK (quantity >= 0)]. *)
Lemma scoped_createInvoice_body_stock_nonneg e c req db db' id :
  Scoped.createInvoice_body e c req db = Ok (db', id) ->
  stock_nonneg db -> stock_nonneg db'.
Proof.
  intros H Hinv.
  apply scoped_createInvoice_body_Ok in H
    as (_ & _ & db1 & ls & db2 & tot & Hins & _ & Hloop & Htot).
  apply update_invoice_total_frame in Htot as (Hi & _).
  eapply stock_nonneg_items; [exact Hi|].
  eapply scoped_create_lines_stock_nonneg; [exact Hloop|].
  eapply stock_nonneg_items; [|exact Hinv].
  eapply insert_invoice_items, Hins.
Qed.

Lemma plain_createInvoice_body_stock_nonneg e c req db db' id :
  Plain.createInvoice_body e c req db = Ok (db', id) ->
  stock_nonneg db -> stock_nonneg db'.
Proof.
  intros H Hinv.
  apply plain_createInvoice_body_Ok in H
    as (db1 & ls & db2 & tot & Hins & _ & Hloop & Htot).
  apply update_invoice_total_frame in Htot as (Hi & _).
  eapply stock_nonneg_items; [exact Hi|].
  apply create_lines_agree in Hloop.
  eapply scoped_create_lines_stock_nonneg; [exact Hloop|].
  eapply stock_nonneg_items; [|exact Hinv].
  eapply insert_invoice_items, Hins.
Qed.

Lemma scoped_updateInvoice_body_stock_nonneg e c id req db db' u :
  Scoped.updateInvoice_body e c id req db = Ok (db', u) ->
  stock_nonneg db -> stock_nonneg db'.
Proof.
  intros H Hinv.
  apply scoped_updateInvoice_body_Ok in H as (inv & db1 & _ & _ & Hmeta & H).
  apply update_invoice_meta_frame in Hmeta as (Hi1 & _).
  assert (stock_nonneg db1) as Hinv1 by (eapply stock_nonneg_items; eauto).
  destruct (ub_items req) as [ls|]; [|subst db'; exact Hinv1].
  destruct H as (db2 & m2 & tot & db3 & Hloop & Hrem & Htot).
  apply update_invoice_total_frame in Htot as (Hi & _).
  eapply stock_nonneg_items; [exact Hi|].
  eapply scoped_remove_lines_stock_nonneg; [exact Hrem|].
  eapply scoped_update_lines_stock_nonneg; [exact Hloop|]. exact Hinv1.
Qed.

Lemma plain_updateInvoice_body_stock_nonneg e c id req db db' u :
  Plain.updateInvoice_body e c id req db = Ok (db', u) ->
  stock_nonneg db -> stock_nonneg db'.
Proof.
  intros H Hinv.
  apply plain_updateInvoice_body_Ok in H as (inv & db1 & _ & Hmeta & H).
  apply update_invoice_meta_frame in Hmeta as (Hi1 & _).
  assert (stock_nonneg db1) as Hinv1 by (eapply stock_nonneg_items; eauto).
  destruct (ub_items req) as [ls|]; [|subst db'; exact Hinv1].
  destruct H as (db2 & m2 & tot & db3 & Hloop & Hrem & Htot).
  apply update_invoice_total_frame in Htot as (Hi & _).
  eapply stock_nonneg_items; [exact Hi|].
  eapply plain_remove_lines_stock_nonneg; [exact Hrem|].
  eapply plain_update_lines_stock_nonneg; [exact Hloop|]. exact Hinv1.
Qed.

Lemma scoped_deleteInvoice_body_stock_nonneg c id db db' u :
  Scoped.deleteInvoice_body c id db = Ok (db', u) ->
  stock_nonneg db -> stock_nonneg db'.
Proof.
  intros H Hinv. unfold Scoped.deleteInvoice_body in H.
  destruct (select_invoice db id c); [|discriminate].
  unfold mbind, result_bind in H.
  destruct (Scoped.return_lines _ _ _) as [db1|] eqn:Hret; [|discriminate].
  simpl in H. injection H as <- <-.
  eapply stock_nonneg_items; [apply delete_invoice_items_same|].
  eapply stock_nonneg_items; [apply delete_invoice_items_using_same|].
  eapply return_lines_stock_nonneg; eauto.
Qed.

Lemma plain_deleteInvoice_body_stock_nonneg c id db db' u :
  Plain.deleteInvoice_body c id db = Ok (db', u) ->
  stock_nonneg db -> stock_nonneg db'.
Proof.
  intros H Hinv. unfold Plain.deleteInvoice_body in H.
  destruct (select_invoice db id c); [|discriminate].
  injection H as <- <-.
  eapply stock_nonneg_items; [apply delete_invoice_items_same|]. exact Hinv.
Qed.

Lemma transaction_cases {A} db (body : result (database * A)) ok ko :
  (exists db' a, body = Ok (db', a) /\ transaction db body ok ko = (db', ok a))
  \/ (exists err, body = Throw err /\ transaction db body ok ko = (db, ko err)).
Proof.
  destruct body as [[db' a]|err]; [left|right]; simpl; eauto.
Qed.

Lemma updateInvoiceStatus_frame e c id status db :
  items (fst (Scoped.updateInvoiceStatus e c id status db)) = items db
  /\ parties (fst (Scoped.updateInvoiceStatus e c id status db)) = parties db
  /\ invoice_items (fst (Scoped.updateInvoiceStatus e c id status db))
     = invoice_items db.
Proof.
  unfold Scoped.updateInvoiceStatus.
  destruct (status ≫= invoice_status_of_text) as [st|]; [|auto].
  pose proof (update_invoice_status_frame e db st id c) as Hf.
  destruct (update_invoice_status e db st id c) as [db' [|row rows]]; exact Hf.
Qed.

Lemma updateInvoiceStatus_same e c id status db :
  Plain.updateInvoiceStatus e c id status db
  = Scoped.updateInvoiceStatus e c id status db.
Proof. reflexivity. Qed.

Lemma run_scoped_stock_nonneg call db :
  stock_nonneg db -> stock_nonneg (fst (run_scoped call db)).
Proof.
  intros Hinv. destruct call as [e c req|e c id req|e c id st|c id]; simpl.
  - unfold Scoped.createInvoice.
    destruct (transaction_cases db (Scoped.createInvoice_body e c req db)
                (fun invoiceId => Response 201 (InvoiceCreated invoiceId))
                (fun err => match err with
                            | DatabaseError unique_violation =>
                                Response 400 DuplicateInvoiceNumber
                            | _ => Response 400 (ErrorMessage err)
                            end))
      as [(db' & a & Hb & ->) | (err & Hb & ->)]; simpl; [|exact Hinv].
    eapply scoped_createInvoice_body_stock_nonneg; eauto.
  - unfold Scoped.updateInvoice.
    destruct (transaction_cases db (Scoped.updateInvoice_body e c id req db)
                (fun _ => Response 200 InvoiceUpdated)
                (fun err => Response 400 (ErrorMessage err)))
      as [(db' & a & Hb & ->) | (err & Hb & ->)]; simpl; [|exact Hinv].
    eapply scoped_updateInvoice_body_stock_nonneg; eauto.
  - eapply stock_nonneg_items; [|exact Hinv]. apply updateInvoiceStatus_frame.
  - unfold Scoped.deleteInvoice.
    destruct (transaction_cases db (Scoped.deleteInvoice_body c id db)
                (fun _ => Response 200 InvoiceDeleted)
                (fun err => Response 500 (ErrorMessage err)))
      as [(db' & a & Hb & ->) | (err & Hb & ->)]; simpl; [|exact Hinv].
    eapply scoped_deleteInvoice_body_stock_nonneg; eauto.
Qed.

Lemma run_plain_stock_nonneg call db :
  stock_nonneg db -> stock_nonneg (fst (run_plain call db)).
Proof.
  intros Hinv. destruct call as [e c req|e c id req|e c id st|c id]; simpl.
  - unfold Plain.createInvoice.
    destruct (transaction_cases db (Plain.createInvoice_body e c req db)
                (fun invoiceId => Response 201 (InvoiceCreated invoiceId))
                (fun err => Response 400 (ErrorMessage err)))
      as [(db' & a & Hb & ->) | (err & Hb & ->)]; simpl; [|exact Hinv].
    eapply plain_createInvoice_body_stock_nonneg; eauto.
  - unfold Plain.updateInvoice.
    destruct (transaction_cases db (Plain.updateInvoice_body e c id req db)
                (fun _ => Response 200 InvoiceUpdated)
                (fun err => Response 400 (ErrorMessage err)))
      as [(db' & a & Hb & ->) | (err & Hb & ->)]; simpl; [|exact Hinv].
    eapply plain_updateInvoice_body_stock_nonneg; eauto.
  - rewrite updateInvoiceStatus_same.
    eapply stock_nonneg_items; [|exact Hinv]. apply updateInvoiceStatus_frame.
  - unfold Plain.deleteInvoice.
    destruct (transaction_cases db (Plain.deleteInvoice_body c id db)
                (fun _ => Response 200 InvoiceDeleted)
                (fun err => Response 500 (ErrorMessage err)))
      as [(db' & a & Hb & ->) | (err & Hb & ->)]; simpl; [|exact Hinv].
    eapply plain_deleteInvoice_body_stock_nonneg; eauto.
Qed.

Lemma reachable_stock_nonneg run init db :
  (forall call db, stock_nonneg db -> stock_nonneg (fst (run call db))) ->
  stock_nonneg init -> reachable run init db -> stock_nonneg db.
Proof. intros Hrun Hinit Hreach. induction Hreach; auto. Qed.

(** A call that answers with a failure status leaves the database as it
    was. *)
Lemma run_scoped_failed_unchanged call db :
  failed (snd (run_scoped call db)) -> fst (run_scoped call db) = db.
Proof.
  unfold failed.
  destruct call as [e c req|e c id req|e c id st|c id]; simpl.
  - unfold Scoped.createInvoice, transaction.
    destruct (Scoped.createInvoice_body e c req db) as [[db' a]|err]; simpl;
      [lia | reflexivity].
  - unfold Scoped.updateInvoice, transaction.
    destruct (Scoped.updateInvoice_body e c id req db) as [[db' a]|err]; simpl;
      [lia | reflexivity].
  - unfold Scoped.updateInvoiceStatus.
    destruct (st ≫= invoice_status_of_text) as [s|]; [|reflexivity].
    unfold update_invoice_status.
    destruct (select_invoice db id c); simpl; [lia | reflexivity].
  - unfold Scoped.deleteInvoice, transaction.
    destruct (Scoped.deleteInvoice_body c id db) as [[db' a]|err]; simpl;
      [lia | reflexivity].
Qed.

Lemma run_plain_failed_unchanged call db :
  failed (snd (run_plain call db)) -> fst (run_plain call db) = db.
Proof.
  unfold failed.
  destruct call as [e c req|e c id req|e c id st|c id]; simpl.
  - unfold Plain.createInvoice, transaction.
    destruct (Plain.createInvoice_body e c req db) as [[db' a]|err]; simpl;
      [lia | reflexivity].
  - unfold Plain.updateInvoice, transaction.
    destruct (Plain.updateInvoice_body e c id req db) as [[db' a]|err]; simpl;
      [lia | reflexivity].
  - unfold Plain.updateInvoiceStatus.
    destruct (st ≫= invoice_status_of_text) as [s|]; [|reflexivity].
    unfold update_invoice_status.
    destruct (select_invoice db id c); simpl; [lia | reflexivity].
  - unfold Plain.deleteInvoice, transaction.
    destruct (Plain.deleteInvoice_body c id db) as [[db' a]|err]; simpl;
      [lia | reflexivity].
Qed.

(** ** Demand against stock in [createInvoice] *)

Lemma quantity_on_wanted i : forall new ls,
  (fun r => (Some (ii_item_id r), Some (ii_quantity r))) <$> new = wanted ls ->
  quantity_on i new = quantity_wanted i ls.
Proof.
  induction new as [|r new IH]; intros [|l ls] H; try discriminate;
    [reflexivity|].
  unfold wanted in H. rewrite !fmap_cons in H. injection H as Hi Hq Hrest.
  rewrite quantity_on_cons, quantity_wanted_cons, <- Hi, <- Hq. simpl.
  rewrite (IH ls Hrest).
  destruct (decide (ii_item_id r = i)) as [->|Hne].
  - rewrite decide_True by reflexivity. reflexivity.
  - rewrite decide_False by congruence. reflexivity.
Qed.

(** A loop that went through asked no item for more than it had. *)
Lemma create_lines_within_stock c id ls db tot db' tot' i it :
  Scoped.create_lines c id ls db tot = Ok (db', tot') ->
  stock_nonneg db ->
  items db !! i = Some it ->
  quantity_wanted i ls <= item_quantity it.
Proof.
  intros H Hinv Hit.
  pose proof (scoped_create_lines_stock_nonneg _ _ _ _ _ _ _ H Hinv) as Hinv'.
  apply create_lines_Ok in H as (new & _ & _ & _ & Hwant & _ & _ & Hstock).
  specialize (Hstock i). rewrite Hit in Hstock. simpl in Hstock.
  apply Hinv' in Hstock. simpl in Hstock.
  rewrite (quantity_on_wanted i _ _ Hwant) in Hstock. lia.
Qed.

(** A loop that went through saw only positive quantities. *)
Lemma create_lines_quantities c id ls db tot r :
  Scoped.create_lines c id ls db tot = Ok r ->
  Forall (fun l => bad_quantity (line_quantity l) = false) ls.
Proof.
  revert db tot. induction ls as [|l ls IH]; intros db tot H; [constructor|].
  simpl in H. destruct l as [[j|] [q|]]; simpl in H; try discriminate.
  destruct ((q =? 0) || (q <=? 0)) eqn:Hq; [discriminate|].
  destruct (select_item db j c) as [[p s]|]; [|discriminate].
  destruct (s <? q); [discriminate|].
  destruct (insert_invoice_item db id j q p (p * q)) as [db1|]; [|discriminate].
  simpl in H.
  destruct (decrease_item_quantity db1 q j (Some c)) as [db2|]; [|discriminate].
  simpl in H. constructor; [exact Hq | eapply IH, H].
Qed.

Lemma well_formed_after_write db j c p s s' invs rows ls :
  select_item db j c = Some (p, s) ->
  Forall (well_formed_line db c) ls ->
  Forall (well_formed_line
            (Database (<[j := ItemRow c p s']> (items db)) (parties db)
               invs rows) c) ls.
Proof.
  intros Hsel Hwf. eapply Forall_impl; [exact Hwf|].
  intros l (i & q & p0 & s0 & -> & Hq & Hsel0 & Hp0 & Hp10 & Hp12).
  destruct (decide (i = j)) as [->|Hne].
  - assert (p0 = p) as -> by congruence.
    exists j, q, p, s'. repeat split; auto.
    unfold select_item. simpl. rewrite lookup_insert_eq. simpl.
    rewrite N.eqb_refl. reflexivity.
  - exists i, q, p0, s0. repeat split; auto.
    unfold select_item in *. simpl. rewrite lookup_insert_ne by congruence.
    exact Hsel0.
Qed.

(** The statements of a loop step go through on values their columns can
    hold. *)
Lemma line_storable_true q p t :
  0 < q <= 2147483647 -> numeric 10 p = true -> numeric 12 t = true ->
  line_storable q p t = true.
Proof.
  intros Hq Hp Ht. unfold line_storable. rewrite Hp, Ht, !andb_true_r.
  apply int4_spec. lia.
Qed.

Lemma insert_invoice_item_storable db id i q p t :
  line_storable q p t = true -> 0 < q -> 0 <= p ->
  insert_invoice_item db id i q p t
  = Ok (Database (items db) (parties db) (invoices db)
          (invoice_items db ++ [InvoiceItemRow id i q p t])).
Proof.
  intros Hst Hq Hp. unfold insert_invoice_item. rewrite Hst. cbn [negb].
  replace ((q <=? 0) || (p <? 0)) with false; [reflexivity|].
  symmetry; apply orb_false_iff; split; [apply Z.leb_gt | apply Z.ltb_ge]; lia.
Qed.

Lemma update_invoice_item_storable db q p t id i :
  line_storable q p t = true -> 0 < q -> 0 <= p ->
  exists db1, update_invoice_item db q p t id i = Ok db1.
Proof.
  intros Hst Hq Hp. unfold update_invoice_item. rewrite Hst. cbn [negb].
  replace ((q <=? 0) || (p <? 0)) with false.
  - rewrite andb_false_r. eauto.
  - symmetry; apply orb_false_iff; split; [apply Z.leb_gt | apply Z.ltb_ge]; lia.
Qed.

Lemma decrease_selected db i c p s amount scope :
  select_item db i c = Some (p, s) ->
  (scope = None \/ scope = Some c) ->
  int4 amount = true ->
  0 <= s - amount <= 2147483647 ->
  decrease_item_quantity db amount i scope
  = Ok (Database (<[i := ItemRow c p (s - amount)]> (items db))
          (parties db) (invoices db) (invoice_items db)).
Proof.
  intros Hsel Hscope Hamount Hnew.
  apply select_item_Some in Hsel as (r & Hr & Hc & Hp & Hs).
  unfold decrease_item_quantity, update_item_quantity.
  rewrite Hamount, Hr. cbn [negb].
  replace (in_scope scope (item_company_id r)) with true
    by (symmetry; rewrite Hc; apply in_scope_same, Hscope).
  rewrite Hs.
  replace (int4 (s - amount)) with true by (symmetry; apply int4_spec; lia).
  cbn [negb].
  replace (s - amount <? 0) with false by (symmetry; apply Z.ltb_ge; lia).
  subst. reflexivity.
Qed.

(** With well-formed lines and stock figures within [INTEGER] the only way
    out of the loop other than its end is the stock check. *)
Lemma create_lines_only_stock c id ls : forall db tot,
  Forall (well_formed_line db c) ls ->
  stock_in_range db ->
  (exists r, Scoped.create_lines c id ls db tot = Ok r)
  \/ (exists j, Scoped.create_lines c id ls db tot
                = Throw (InsufficientStock (Some j))).
Proof.
  induction ls as [|l ls IH]; intros db tot Hwf Hrange; simpl; [left; eauto|].
  inversion Hwf
    as [|? ? (i & q & p & s & -> & Hq & Hsel & Hp & Hp10 & Hp12) Hwf']; subst.
  simpl. replace ((q =? 0) || (q <=? 0)) with false
    by (symmetry; apply orb_false_iff; split;
        [apply Z.eqb_neq | apply Z.leb_gt]; lia).
  rewrite Hsel. destruct (s <? q) eqn:Hs; [right; eauto|]. zbool.
  assert (s <= 2147483647) as Hmax.
  { apply select_item_Some in Hsel as (it & Hit & _ & _ & <-).
    eapply Hrange, Hit. }
  rewrite insert_invoice_item_storable
    by (try apply line_storable_true; auto; lia).
  cbn [bind].
  rewrite (decrease_selected _ i c p s q (Some c));
    [| exact Hsel | right; reflexivity | apply int4_spec; lia | lia].
  cbn [bind]. apply IH.
  - apply (well_formed_after_write db i c p s); [exact Hsel | exact Hwf'].
  - intros k rk. cbn [items]. destruct (decide (i = k)) as [->|Hne].
    + rewrite lookup_insert_eq. intros [= <-]. simpl. lia.
    + rewrite lookup_insert_ne by exact Hne. apply Hrange.
Qed.

Lemma plain_create_lines_Throw c id ls : forall db tot j,
  Scoped.create_lines c id ls db tot = Throw (InsufficientStock j) ->
  Plain.create_lines c id ls db tot = Throw (InsufficientStock j).
Proof.
  induction ls as [|l ls IH]; intros db tot j0 H; simpl in *; [discriminate|].
  destruct l as [[j|] [q|]]; simpl in *; try discriminate.
  destruct ((q =? 0) || (q <=? 0)); [discriminate|].
  destruct (select_item db j c) as [[p s]|] eqn:Hsel; simpl; [|discriminate].
  destruct (s <? q); [exact H|].
  destruct (insert_invoice_item db id j q p (p * q)) as [db1|] eqn:H1; simpl in *;
    [|exact H].
  rewrite (decrease_scope_irrelevant db1 j c p s)
    by (rewrite (select_item_insert_invoice_item _ _ _ _ _ _ _ _ _ H1); exact Hsel).
  destruct (decrease_item_quantity db1 q j (Some c)); simpl in *;
    [apply IH, H | exact H].
Qed.

(** ** Stock through the line loop of [updateInvoice] *)

Lemma Map_get_delete k j m :
  Map_get k (Map_delete j m) = if decide (k = j) then None else Map_get k m.
Proof.
  unfold Map_delete. induction m as [|[k' v'] m IH].
  - destruct (decide (k = j)); reflexivity.
  - rewrite filter_cons. cbn [fst]. destruct (decide (k' <> j)) as [Hne|Heq].
    + cbn [Map_get]. rewrite IH. destruct (N.eqb_spec k k') as [->|Hk].
      * rewrite decide_False by congruence. reflexivity.
      * reflexivity.
    + apply dec_stable in Heq. subst k'. rewrite IH. cbn [Map_get].
      destruct (decide (k = j)) as [->|Hk]; [reflexivity|].
      destruct (N.eqb_spec k j); [congruence|reflexivity].
Qed.

Lemma get_or_0_delete k j m :
  get_or_0 k (Map_delete j m) = if decide (k = j) then 0 else get_or_0 k m.
Proof.
  unfold get_or_0. rewrite Map_get_delete. destruct (decide (k = j)); reflexivity.
Qed.

Lemma Map_has_delete k j m :
  Map_has k (Map_delete j m) = if decide (k = j) then false else Map_has k m.
Proof.
  unfold Map_has. rewrite Map_get_delete. destruct (decide (k = j)); reflexivity.
Qed.

Lemma net_decrease_nil i m : net_decrease i [] m = 0.
Proof.
  unfold net_decrease. rewrite decide_False by apply not_elem_of_nil.
  reflexivity.
Qed.

Lemma net_decrease_cons_same j q ls m :
  net_decrease j (Line (Some j) (Some q) :: ls) m
  = (q - get_or_0 j m) + net_decrease j ls (Map_delete j m).
Proof.
  unfold net_decrease. rewrite quantity_wanted_cons, get_or_0_delete.
  destruct (decide (line_item_id (Line (Some j) (Some q)) = Some j))
    as [_|Hn]; [|contradiction Hn; reflexivity].
  destruct (decide (Some j ∈ line_item_id <$> Line (Some j) (Some q) :: ls))
    as [_|Hn]; [|contradiction Hn; rewrite fmap_cons; apply list_elem_of_here].
  destruct (decide (j = j)) as [_|Hn]; [|contradiction Hn; reflexivity].
  change (default 0 (line_quantity (Line (Some j) (Some q)))) with q.
  destruct (decide (Some j ∈ line_item_id <$> ls)); lia.
Qed.

Lemma net_decrease_cons_other i j q ls m :
  i <> j ->
  net_decrease i (Line (Some j) (Some q) :: ls) m
  = net_decrease i ls (Map_delete j m).
Proof.
  intros Hne. unfold net_decrease. rewrite quantity_wanted_cons, get_or_0_delete.
  destruct (decide (line_item_id (Line (Some j) (Some q)) = Some i))
    as [Heq|_]; [injection Heq as ->; contradiction Hne; reflexivity|].
  destruct (decide (i = j)) as [Heq|_]; [contradiction|].
  destruct (decide (Some i ∈ line_item_id <$> ls)) as [Hin|Hnin];
    destruct (decide (Some i ∈ line_item_id <$> Line (Some j) (Some q) :: ls))
      as [Hin'|Hnin']; try lia.
  - contradiction Hnin'. rewrite fmap_cons. apply list_elem_of_further, Hin.
  - rewrite fmap_cons in Hin'. apply elem_of_cons in Hin' as [Heq|Hin'].
    + injection Heq as ->. contradiction Hne; reflexivity.
    + contradiction.
Qed.

Lemma update_step_write db j c p s q t id (has : bool) db1 :
  select_item db j c = Some (p, s) ->
  (if has then update_invoice_item db q p t id j
   else insert_invoice_item db id j q p t) = Ok db1 ->
  items db1 = items db /\ parties db1 = parties db /\ invoices db1 = invoices db
  /\ select_item db1 j c = Some (p, s).
Proof.
  intros Hsel H. destruct has.
  - apply update_invoice_item_Ok in H as ->. auto.
  - apply insert_invoice_item_Ok in H as (_ & _ & ->). auto.
Qed.

Lemma update_lines_stock c id ls : forall db m tot db' m' tot',
  Scoped.update_lines c id ls db m tot = Ok (db', m', tot') ->
  m' = filter (fun kv => Some (fst kv) ∉ (line_item_id <$> ls)) m
  /\ parties db' = parties db /\ invoices db' = invoices db
  /\ (forall i, items db' !! i
                = with_quantity (fun q => q - net_decrease i ls m)
                    <$> items db !! i).
Proof.
  induction ls as [|l ls IH]; intros db m tot db' m' tot' H; simpl in H.
  - injection H as <- <- <-. repeat split.
    + symmetry. apply filter_all, Forall_forall. intros kv _.
      apply not_elem_of_nil.
    + intros i. rewrite net_decrease_nil.
      destruct (items db !! i) as [[? ? ?]|]; simpl; [|reflexivity].
      unfold with_quantity; simpl. do 2 f_equal. lia.
  - destruct l as [[j|] [q|]]; simpl in H; try discriminate.
    destruct ((q =? 0) || (q <=? 0)); [discriminate|].
    destruct (select_item db j c) as [[p s]|] eqn:Hsel; [|discriminate].
    destruct ((0 <? q - get_or_0 j m) && (s <? q - get_or_0 j m));
      [discriminate|].
    destruct (if Map_has j m
              then update_invoice_item db q p (p * q) id j
              else insert_invoice_item db id j q p (p * q)) as [db1|] eqn:H1;
      [|discriminate].
    simpl in H.
    destruct (decrease_item_quantity db1 (q - get_or_0 j m) j (Some c))
      as [db2|] eqn:H2; [|discriminate].
    simpl in H.
    destruct (update_step_write _ _ _ _ _ _ _ _ _ _ Hsel H1)
      as (Hi1 & Hp1 & Hv1 & Hsel1).
    eapply (decrease_after_select _ j c p s) in H2 as (_ & ->);
      [|exact Hsel1|right; reflexivity].
    apply IH in H as (-> & Hpar & Hinv & Hstock). simpl in *.
    apply select_item_Some in Hsel as (it & Hit & Hc & Hpr & Hst).
    repeat split; [| congruence | congruence |].
    + unfold Map_delete. rewrite list_filter_filter. apply list_filter_iff.
      intros [k v]. cbn [fst]. fold (fmap (M := list) line_item_id ls).
      rewrite not_elem_of_cons. split.
      * intros [Hn Hk]. split; [congruence | exact Hn].
      * intros [Hk Hn]. split; [exact Hn | congruence].
    + intros i. rewrite Hstock, Hi1. destruct (decide (i = j)) as [->|Hne].
      * rewrite lookup_insert_eq, Hit, net_decrease_cons_same. simpl.
        unfold with_quantity; simpl. subst. do 2 f_equal. lia.
      * rewrite lookup_insert_ne by congruence.
        rewrite net_decrease_cons_other by exact Hne. reflexivity.
Qed.

Lemma update_lines_agree c id ls : forall db m tot r,
  Plain.update_lines c id ls db m tot = Ok r
  <-> Scoped.update_lines c id ls db m tot = Ok r.
Proof.
  induction ls as [|l ls IH]; intros db m tot r; simpl; [reflexivity|].
  destruct l as [[j|] [q|]]; simpl; try (split; discriminate).
  - destruct ((q =? 0) || (q <=? 0)); [split; discriminate|].
    destruct (select_item db j c) as [[p s]|] eqn:Hsel; simpl;
      [|split; discriminate].
    destruct ((0 <? q - get_or_0 j m) && (s <? q - get_or_0 j m));
      [split; discriminate|].
    destruct (if Map_has j m
              then update_invoice_item db q p (p * q) id j
              else insert_invoice_item db id j q p (p * q)) as [db1|] eqn:H1;
      simpl; [|split; discriminate].
    destruct (update_step_write _ _ _ _ _ _ _ _ _ _ Hsel H1) as (_ & _ & _ & Hsel1).
    rewrite (decrease_scope_irrelevant db1 j c p s) by exact Hsel1.
    destruct (decrease_item_quantity db1 (q - get_or_0 j m) j (Some c)); simpl;
      [apply IH | split; discriminate].
  - destruct ((q =? 0) || (q <=? 0)); split; discriminate.
Qed.

Lemma plain_update_lines_Throw c id ls : forall db m tot j,
  Scoped.update_lines c id ls db m tot = Throw (InsufficientStock j) ->
  Plain.update_lines c id ls db m tot = Throw (InsufficientStock j).
Proof.
  induction ls as [|l ls IH]; intros db m tot j0 H; simpl in *; [discriminate|].
  destruct l as [[j|] [q|]]; simpl in *; try discriminate.
  destruct ((q =? 0) || (q <=? 0)); [discriminate|].
  destruct (select_item db j c) as [[p s]|] eqn:Hsel; simpl; [|discriminate].
  destruct ((0 <? q - get_or_0 j m) && (s <? q - get_or_0 j m)); [exact H|].
  destruct (if Map_has j m
            then update_invoice_item db q p (p * q) id j
            else insert_invoice_item db id j q p (p * q)) as [db1|] eqn:H1;
    simpl in *; [|exact H].
  destruct (update_step_write _ _ _ _ _ _ _ _ _ _ Hsel H1) as (_ & _ & _ & Hsel1).
  rewrite (decrease_scope_irrelevant db1 j c p s) by exact Hsel1.
  destruct (decrease_item_quantity db1 (q - get_or_0 j m) j (Some c)); simpl in *;
    [apply IH, H | exact H].
Qed.

Lemma update_lines_within_stock c id ls db m tot db' m' tot' i it :
  Scoped.update_lines c id ls db m tot = Ok (db', m', tot') ->
  stock_nonneg db ->
  items db !! i = Some it ->
  net_decrease i ls m <= item_quantity it.
Proof.
  intros H Hinv Hit.
  pose proof (scoped_update_lines_stock_nonneg _ _ _ _ _ _ _ _ _ H Hinv) as Hinv'.
  apply update_lines_stock in H as (_ & _ & _ & Hstock).
  specialize (Hstock i). rewrite Hit in Hstock. simpl in Hstock.
  apply Hinv' in Hstock. simpl in Hstock. lia.
Qed.

Lemma update_lines_only_stock c id ls : forall db m tot,
  Forall (well_formed_line db c) ls ->
  stock_nonneg db ->
  map_fits db m ->
  (exists r, Scoped.update_lines c id ls db m tot = Ok r)
  \/ (exists j, Scoped.update_lines c id ls db m tot
                = Throw (InsufficientStock (Some j))).
Proof.
  induction ls as [|l ls IH]; intros db m tot Hwf Hinv Hfits; simpl;
    [left; eauto|].
  inversion Hwf
    as [|? ? (i & q & p & s & -> & Hq & Hsel & Hp & Hp10 & Hp12) Hwf']; subst.
  simpl. replace ((q =? 0) || (q <=? 0)) with false
    by (symmetry; apply orb_false_iff; split;
        [apply Z.eqb_neq | apply Z.leb_gt]; lia).
  rewrite Hsel.
  destruct ((0 <? q - get_or_0 i m) && (s <? q - get_or_0 i m)) eqn:Hs;
    [right; eauto|].
  apply select_item_Some in Hsel as Hrow.
  destruct Hrow as (it & Hit & Hc & Hpr & Hst).
  assert (0 <= s) as Hs0 by (rewrite <- Hst; eapply Hinv, Hit).
  destruct (Hfits i it Hit) as [Hprev Hback]. rewrite Hst in Hback.
  assert (0 <= s - (q - get_or_0 i m)) as Hnew.
  { apply andb_false_iff in Hs as [Hs|Hs]; zbool; lia. }
  assert (line_storable q p (p * q) = true) as Hstore
    by (apply line_storable_true; auto; lia).
  assert (exists db1,
             (if Map_has i m
              then update_invoice_item db q p (p * q) id i
              else insert_invoice_item db id i q p (p * q)) = Ok db1)
    as [db1 H1].
  { destruct (Map_has i m).
    - apply update_invoice_item_storable; auto.
    - rewrite insert_invoice_item_storable by auto. eauto. }
  rewrite H1. cbn [bind].
  destruct (update_step_write _ _ _ _ _ _ _ _ _ _ Hsel H1)
    as (Hi1 & Hp1 & Hv1 & Hsel1).
  rewrite (decrease_selected _ i c p s (q - get_or_0 i m) (Some c));
    [| exact Hsel1 | right; reflexivity | apply int4_spec; lia | lia].
  cbn [bind]. apply IH.
  - rewrite Hi1, Hp1.
    apply (well_formed_after_write db i c p s); [exact Hsel | exact Hwf'].
  - intros k rk. cbn [items]. destruct (decide (i = k)) as [->|Hne].
    + rewrite lookup_insert_eq. intros [= <-]. simpl. exact Hnew.
    + rewrite lookup_insert_ne by exact Hne. rewrite Hi1. apply Hinv.
  - intros k rk. cbn [items]. rewrite get_or_0_delete.
    destruct (decide (k = i)) as [->|Hne].
    + rewrite lookup_insert_eq. intros [= <-]. simpl. lia.
    + rewrite lookup_insert_ne by congruence. rewrite Hi1. apply Hfits.
Qed.

(** ** Overdrawing calls *)

Lemma select_item_same_items db db' i c :
  items db' = items db -> select_item db' i c = select_item db i c.
Proof. unfold select_item. intros ->. reflexivity. Qed.

Lemma well_formed_same_items db db' c ls :
  items db' = items db ->
  Forall (well_formed_line db c) ls -> Forall (well_formed_line db' c) ls.
Proof.
  intros Hi Hwf. eapply Forall_impl; [exact Hwf|].
  intros l (i & q & p & s & -> & Hq & Hsel & Hp & Hp10 & Hp12).
  exists i, q, p, s. repeat split; auto.
  rewrite (select_item_same_items _ _ _ _ Hi). exact Hsel.
Qed.

Lemma select_invoice_items_same db db' id :
  invoice_items db' = invoice_items db ->
  select_invoice_items db' id = select_invoice_items db id.
Proof. unfold select_invoice_items. intros ->. reflexivity. Qed.

Lemma scoped_create_body_overdraw e c req db i it r :
  stock_nonneg db ->
  items db !! i = Some it ->
  item_quantity it < quantity_wanted i (lines_given (cb_items req)) ->
  Scoped.createInvoice_body e c req db <> Ok r.
Proof.
  intros Hinv Hit Hlt H. destruct r as [db' id].
  apply scoped_createInvoice_body_Ok in H
    as (_ & _ & db1 & ls & db2 & tot & Hins & Hls & Hloop & _).
  apply insert_invoice_items in Hins.
  apply or_empty_given in Hls. rewrite Hls in Hlt.
  eapply (create_lines_within_stock _ _ _ _ _ _ _ i it) in Hloop.
  - lia.
  - eapply stock_nonneg_items; eauto.
  - rewrite Hins. exact Hit.
Qed.

Lemma plain_create_body_overdraw e c req db i it r :
  stock_nonneg db ->
  items db !! i = Some it ->
  item_quantity it < quantity_wanted i (lines_given (cb_items req)) ->
  Plain.createInvoice_body e c req db <> Ok r.
Proof.
  intros Hinv Hit Hlt H. destruct r as [db' id].
  apply plain_createInvoice_body_Ok in H
    as (db1 & ls & db2 & tot & Hins & Hls & Hloop & _).
  apply insert_invoice_items in Hins.
  rewrite Hls in Hlt. simpl in Hlt.
  apply create_lines_agree in Hloop.
  eapply (create_lines_within_stock _ _ _ _ _ _ _ i it) in Hloop.
  - lia.
  - eapply stock_nonneg_items; eauto.
  - rewrite Hins. exact Hit.
Qed.

Lemma stock_in_range_items db db' :
  items db' = items db -> stock_in_range db -> stock_in_range db'.
Proof. unfold stock_in_range. intros ->. auto. Qed.

Lemma map_fits_items db db' m :
  items db' = items db -> map_fits db m -> map_fits db' m.
Proof. unfold map_fits. intros ->. auto. Qed.

Lemma create_loop_insufficient c id ls db1 db i it :
  items db1 = items db ->
  stock_nonneg db ->
  stock_in_range db ->
  Forall (well_formed_line db c) ls ->
  items db !! i = Some it ->
  item_quantity it < quantity_wanted i ls ->
  exists j, Scoped.create_lines c id ls db1 0 = Throw (InsufficientStock (Some j)).
Proof.
  intros Hi Hinv Hrange Hwf Hit Hlt.
  destruct (create_lines_only_stock c id ls db1 0) as [[[db2 tot] Hok]|Hthrow].
  - eapply well_formed_same_items; eauto.
  - eapply stock_in_range_items; eauto.
  - exfalso. eapply (create_lines_within_stock _ _ _ _ _ _ _ i it) in Hok.
    + lia.
    + eapply stock_nonneg_items; eauto.
    + rewrite Hi. exact Hit.
  - exact Hthrow.
Qed.

Lemma scoped_create_body_insufficient e c req db :
  stock_nonneg db ->
  overdraws db (CreateInvoice e c req) ->
  otherwise_valid db (CreateInvoice e c req) ->
  exists j, Scoped.createInvoice_body e c req db
            = Throw (InsufficientStock (Some j)).
Proof.
  intros Hinv (i & it & Hit & Hlt) (Hhdr & Hrange & ls & Hls & Hwf).
  destruct (insert_invoice_acceptable _ _ _ _ Hhdr)
    as (p & n & st & _ & _ & Hdue & Hins).
  destruct Hhdr as (Hparty & _ & Hnum & _).
  unfold Scoped.createInvoice_body. rewrite Hparty. simpl.
  rewrite Hnum, Hdue, Hins. unfold mbind, result_bind. simpl.
  rewrite Hls in *. simpl in *.
  destruct (create_loop_insufficient c (uuid_generate_v4 e) ls _ db i it
              (insert_invoice_items _ _ _ _ _ _ _ _ _ _ Hins) Hinv Hrange Hwf
              Hit Hlt)
    as [j Hj].
  simpl in Hj. rewrite Hj. exists j. reflexivity.
Qed.

Lemma plain_create_body_insufficient e c req db :
  stock_nonneg db ->
  overdraws db (CreateInvoice e c req) ->
  otherwise_valid db (CreateInvoice e c req) ->
  exists j, Plain.createInvoice_body e c req db
            = Throw (InsufficientStock (Some j)).
Proof.
  intros Hinv (i & it & Hit & Hlt) (Hhdr & Hrange & ls & Hls & Hwf).
  destruct (insert_invoice_acceptable _ _ _ _ Hhdr)
    as (p & n & st & _ & _ & _ & Hins).
  unfold Plain.createInvoice_body. rewrite Hins. unfold mbind, result_bind. simpl.
  rewrite Hls in *. simpl in *.
  destruct (create_loop_insufficient c (uuid_generate_v4 e) ls _ db i it
              (insert_invoice_items _ _ _ _ _ _ _ _ _ _ Hins) Hinv Hrange Hwf
              Hit Hlt)
    as [j Hj].
  simpl in Hj. apply plain_create_lines_Throw in Hj. rewrite Hj.
  exists j. reflexivity.
Qed.

Lemma scoped_update_body_overdraw e c id req db r :
  stock_nonneg db ->
  overdraws db (UpdateInvoice e c id req) ->
  Scoped.updateInvoice_body e c id req db <> Ok r.
Proof.
  intros Hinv (ls & i & it & Hls & _ & Hit & Hlt) H. destruct r as [db' u].
  apply scoped_updateInvoice_body_Ok in H as (inv & db1 & _ & _ & Hmeta & H).
  apply update_invoice_meta_frame in Hmeta as (Hi1 & _ & Hl1 & _).
  rewrite Hls in H. destruct H as (db2 & m2 & tot & db3 & Hloop & _).
  rewrite (select_invoice_items_same _ _ _ Hl1) in Hloop.
  eapply (update_lines_within_stock _ _ _ _ _ _ _ _ _ i it) in Hloop.
  - lia.
  - eapply stock_nonneg_items; eauto.
  - rewrite Hi1. exact Hit.
Qed.

Lemma plain_update_body_overdraw e c id req db r :
  stock_nonneg db ->
  overdraws db (UpdateInvoice e c id req) ->
  Plain.updateInvoice_body e c id req db <> Ok r.
Proof.
  intros Hinv (ls & i & it & Hls & _ & Hit & Hlt) H. destruct r as [db' u].
  apply plain_updateInvoice_body_Ok in H as (inv & db1 & _ & Hmeta & H).
  apply update_invoice_meta_frame in Hmeta as (Hi1 & _ & Hl1 & _).
  rewrite Hls in H. destruct H as (db2 & m2 & tot & db3 & Hloop & _).
  rewrite (select_invoice_items_same _ _ _ Hl1) in Hloop.
  apply update_lines_agree in Hloop.
  eapply (update_lines_within_stock _ _ _ _ _ _ _ _ _ i it) in Hloop.
  - lia.
  - eapply stock_nonneg_items; eauto.
  - rewrite Hi1. exact Hit.
Qed.

(** With a due date that is absent or a date, the party one of the
    company's (or none given) and the status text valid, the header
    statement of [updateInvoice] goes through, whether it gets the fields
    or [field || null]. *)
Lemma update_invoice_meta_acceptable e db c id req :
  ub_due_date req <> falsy ->
  (ub_party_id req = absent
   \/ exists p, ub_party_id req = given p /\ select_party db (Some p) c = true) ->
  status_acceptable (ub_status req) ->
  or_null (ub_due_date req) = ub_due_date req
  /\ or_null (ub_party_id req) = ub_party_id req
  /\ text_or_null (ub_status req) = ub_status req
  /\ exists db1, update_invoice_meta e db (ub_due_date req) (ub_party_id req)
                   (ub_status req) id c = Ok db1.
Proof.
  intros Hdue Hparty Hst.
  split; [apply or_null_id, Hdue|].
  split; [destruct Hparty as [-> | (p & -> & _)]; reflexivity|].
  split.
  { unfold status_acceptable in Hst.
    destruct (ub_status req) as [[|a s]|]; try reflexivity.
    destruct Hst as [x Hx]. discriminate. }
  unfold update_invoice_meta, meta_values.
  assert (exists st, match ub_status req with
                     | None => Some None
                     | Some s => Some <$> invoice_status_of_text s
                     end = Some st) as [st Hst'].
  { unfold status_acceptable in Hst.
    destruct (ub_status req) as [s|]; [|eauto].
    destruct Hst as [x ->]. simpl. eauto. }
  replace (match ub_due_date req with
           | falsy => Throw (DatabaseError invalid_datetime_format)
           | _ =>
               match ub_party_id req with
               | falsy => Throw (DatabaseError invalid_text_representation)
               | _ =>
                   match
                     match ub_status req with
                     | Some s => Some <$> invoice_status_of_text s
                     | None => Some None
                     end
                   with
                   | Some st =>
                       Ok (value (ub_due_date req), value (ub_party_id req), st)
                   | None => Throw (DatabaseError invalid_text_representation)
                   end
               end
           end)
    with (@Ok (option Z * option uuid * option invoice_status)
            (value (ub_due_date req), value (ub_party_id req), st)).
  2:{ rewrite Hst'.
      destruct (ub_due_date req); try contradiction;
        destruct Hparty as [-> | (p & -> & _)]; reflexivity. }
  destruct (select_invoice db id c); [|eauto].
  replace (match value (ub_party_id req) with
           | Some p => bool_decide (parties db !! p = None)
           | None => false
           end) with false; [eauto|].
  destruct Hparty as [-> | (p & -> & Hp)]; [reflexivity|].
  apply select_party_Some in Hp as (p' & r & [= <-] & Hr & _).
  symmetry. apply bool_decide_eq_false. simpl. rewrite Hr. discriminate.
Qed.

Lemma update_loop_insufficient c id ls db1 db m i it :
  items db1 = items db ->
  stock_nonneg db ->
  map_fits db m ->
  Forall (well_formed_line db c) ls ->
  items db !! i = Some it ->
  item_quantity it < net_decrease i ls m ->
  exists j, Scoped.update_lines c id ls db1 m 0
            = Throw (InsufficientStock (Some j)).
Proof.
  intros Hi Hinv Hfits Hwf Hit Hlt.
  assert (stock_nonneg db1) as Hinv1 by (eapply stock_nonneg_items; eauto).
  destruct (update_lines_only_stock c id ls db1 m 0)
    as [[[[db2 m2] tot] Hok]|Hthrow]; [| exact Hinv1 | | | exact Hthrow].
  - eapply well_formed_same_items; eauto.
  - eapply map_fits_items; eauto.
  - exfalso. eapply (update_lines_within_stock _ _ _ _ _ _ _ _ _ i it) in Hok.
    + lia.
    + exact Hinv1.
    + rewrite Hi. exact Hit.
Qed.

Lemma scoped_update_body_insufficient e c id req db :
  stock_nonneg db ->
  overdraws db (UpdateInvoice e c id req) ->
  otherwise_valid db (UpdateInvoice e c id req) ->
  exists j, Scoped.updateInvoice_body e c id req db
            = Throw (InsufficientStock (Some j)).
Proof.
  intros Hinv (ls & i & it & Hls & _ & Hit & Hlt)
         ([inv Hsel] & Hdue & Hparty & Hst & Hfits & ls' & Hls' & Hwf).
  assert (ls' = ls) as -> by congruence.
  destruct (update_invoice_meta_acceptable e db c id req Hdue Hparty Hst)
    as (Hd & Hp & Ht & db1 & Hmeta).
  unfold Scoped.updateInvoice_body. rewrite Hsel.
  replace (match ub_party_id req with
           | given party_id => negb (select_party db (Some party_id) c)
           | _ => false
           end) with false
    by (destruct Hparty as [-> | (p & -> & Hpc)]; [reflexivity|];
        rewrite Hpc; reflexivity).
  rewrite Hd, Hp, Ht, Hmeta. unfold mbind, result_bind. simpl. rewrite Hls.
  apply update_invoice_meta_frame in Hmeta as (Hi1 & _ & Hl1 & _).
  rewrite (select_invoice_items_same _ _ _ Hl1).
  destruct (update_loop_insufficient c id ls db1 db
              (Map_new (select_invoice_items db id)) i it) as [j ->]; auto.
  exists j. reflexivity.
Qed.

Lemma plain_update_body_insufficient e c id req db :
  stock_nonneg db ->
  overdraws db (UpdateInvoice e c id req) ->
  otherwise_valid db (UpdateInvoice e c id req) ->
  exists j, Plain.updateInvoice_body e c id req db
            = Throw (InsufficientStock (Some j)).
Proof.
  intros Hinv (ls & i & it & Hls & _ & Hit & Hlt)
         ([inv Hsel] & Hdue & Hparty & Hst & Hfits & ls' & Hls' & Hwf).
  assert (ls' = ls) as -> by congruence.
  destruct (update_invoice_meta_acceptable e db c id req Hdue Hparty Hst)
    as (_ & _ & _ & db1 & Hmeta).
  unfold Plain.updateInvoice_body. rewrite Hsel.
  rewrite Hmeta. unfold mbind, result_bind. simpl. rewrite Hls.
  apply update_invoice_meta_frame in Hmeta as (Hi1 & _ & Hl1 & _).
  rewrite (select_invoice_items_same _ _ _ Hl1).
  destruct (update_loop_insufficient c id ls db1 db
              (Map_new (select_invoice_items db id)) i it) as [j Hj]; auto.
  apply plain_update_lines_Throw in Hj. rewrite Hj. exists j. reflexivity.
Qed.

Lemma scoped_stock_guard db call :
  stock_nonneg db -> stock_guard run_scoped db call.
Proof.
  intros Hinv. split; [apply run_scoped_stock_nonneg, Hinv|].
  split; [apply run_scoped_failed_unchanged|].
  destruct call as [e c req|e c id req|e c id st|c id]; simpl;
    [ | | split; intros [] | split; intros [] ].
  - split.
    + intros (i & it & Hit & Hlt). unfold Scoped.createInvoice, transaction.
      destruct (Scoped.createInvoice_body e c req db) as [[db' a]|err] eqn:Hb.
      * exfalso. eapply scoped_create_body_overdraw; eauto.
      * unfold failed. destruct err as [| | | | | | | |[]]; simpl; lia.
    + intros Hover Hvalid.
      destruct (scoped_create_body_insufficient e c req db Hinv Hover Hvalid)
        as [j Hj].
      unfold Scoped.createInvoice. rewrite Hj. exists j. reflexivity.
  - split.
    + intros Hover. unfold Scoped.updateInvoice, transaction.
      destruct (Scoped.updateInvoice_body e c id req db) as [[db' a]|err] eqn:Hb.
      * exfalso. eapply scoped_update_body_overdraw; eauto.
      * unfold failed. simpl. lia.
    + intros Hover Hvalid.
      destruct (scoped_update_body_insufficient e c id req db Hinv Hover Hvalid)
        as [j Hj].
      unfold Scoped.updateInvoice. rewrite Hj. exists j. reflexivity.
Qed.

Lemma plain_stock_guard db call :
  stock_nonneg db -> stock_guard run_plain db call.
Proof.
  intros Hinv. split; [apply run_plain_stock_nonneg, Hinv|].
  split; [apply run_plain_failed_unchanged|].
  destruct call as [e c req|e c id req|e c id st|c id]; simpl;
    [ | | split; intros [] | split; intros [] ].
  - split.
    + intros (i & it & Hit & Hlt). unfold Plain.createInvoice, transaction.
      destruct (Plain.createInvoice_body e c req db) as [[db' a]|err] eqn:Hb.
      * exfalso. eapply plain_create_body_overdraw; eauto.
      * unfold failed. simpl. lia.
    + intros Hover Hvalid.
      destruct (plain_create_body_insufficient e c req db Hinv Hover Hvalid)
        as [j Hj].
      unfold Plain.createInvoice. rewrite Hj. exists j. reflexivity.
  - split.
    + intros Hover. unfold Plain.updateInvoice, transaction.
      destruct (Plain.updateInvoice_body e c id req db) as [[db' a]|err] eqn:Hb.
      * exfalso. eapply plain_update_body_overdraw; eauto.
      * unfold failed. simpl. lia.
    + intros Hover Hvalid.
      destruct (plain_update_body_insufficient e c id req db Hinv Hover Hvalid)
        as [j Hj].
      unfold Plain.updateInvoice. rewrite Hj. exists j. reflexivity.
Qed.

(** C2, as the code has it.  From a state whose stock is non-negative,
    every state reachable through [createInvoice], [updateInvoice],
    [updateInvoiceStatus] and [deleteInvoice] (either revision) has
    non-negative stock, and every further call keeps it so; a call that
    fails changes nothing; a create or update whose net decrease for some
    item exceeds that item's stock fails; and it fails with 'Insufficient
    stock' when nothing else is wrong with the call: the header passes,
    the lines are well formed, and every value is one its column can hold
    (otherwise an earlier check, or the statement that cannot store a
    value, may answer first). *)
Theorem stock_never_negative init db call :
  stock_nonneg init ->
  (reachable run_scoped init db ->
   stock_nonneg db /\ stock_guard run_scoped db call)
  /\ (reachable run_plain init db ->
      stock_nonneg db /\ stock_guard run_plain db call).
Proof.
  intros Hinit. split; intros Hreach.
  - assert (stock_nonneg db) as Hinv.
    { eapply reachable_stock_nonneg; [|exact Hinit|exact Hreach].
      apply run_scoped_stock_nonneg. }
    split; [exact Hinv | apply scoped_stock_guard, Hinv].
  - assert (stock_nonneg db) as Hinv.
    { eapply reachable_stock_nonneg; [|exact Hinit|exact Hreach].
      apply run_plain_stock_nonneg. }
    split; [exact Hinv | apply plain_stock_guard, Hinv].
Qed.

(** ** The [Map] over the existing lines *)

Lemma Map_get_set k k' v m :
  Map_get k (Map_set k' v m) = if decide (k = k') then Some v else Map_get k m.
Proof.
  induction m as [|[k0 v0] m IH]; cbn [Map_set Map_get].
  - destruct (N.eqb_spec k k') as [->|Hne].
    + rewrite decide_True by reflexivity. reflexivity.
    + rewrite decide_False by exact Hne. reflexivity.
  - destruct (N.eqb_spec k' k0) as [->|Hne]; cbn [Map_get].
    + destruct (N.eqb_spec k k0) as [->|Hk].
      * rewrite decide_True by reflexivity. reflexivity.
      * rewrite decide_False by exact Hk. reflexivity.
    + rewrite IH. destruct (N.eqb_spec k k0) as [->|Hk].
      * rewrite decide_False by congruence. reflexivity.
      * reflexivity.
Qed.

Lemma Map_has_set k k' v m :
  Map_has k (Map_set k' v m) = true <-> k = k' \/ Map_has k m = true.
Proof.
  unfold Map_has. rewrite Map_get_set.
  destruct (decide (k = k')) as [->|Hne]; [tauto|].
  split; [auto | intros [?|?]; [contradiction | assumption]].
Qed.

Lemma Map_has_fold k es : forall m,
  Map_has k (fold_left (fun m e => Map_set (fst e) (snd e) m) es m) = true
  <-> Map_has k m = true \/ k ∈ es.*1.
Proof.
  induction es as [|[k' v'] es IH]; intros m; cbn [fold_left fst snd].
  - rewrite fmap_nil, elem_of_nil. tauto.
  - rewrite IH, Map_has_set, fmap_cons, elem_of_cons. cbn [fst]. tauto.
Qed.

Lemma Map_has_new k es : Map_has k (Map_new es) = true <-> k ∈ es.*1.
Proof.
  unfold Map_new. rewrite Map_has_fold. unfold Map_has. cbn [Map_get].
  split; [intros [?|?]; [discriminate | assumption] | auto].
Qed.

Lemma Map_has_keys k m : Map_has k m = true <-> k ∈ m.*1.
Proof.
  unfold Map_has. induction m as [|[k' v'] m IH]; cbn [Map_get].
  - rewrite fmap_nil, elem_of_nil. split; [discriminate | tauto].
  - rewrite fmap_cons, elem_of_cons. cbn [fst].
    destruct (N.eqb_spec k k') as [->|Hne]; [tauto|].
    rewrite IH. split; [auto | intros [?|?]; [contradiction | assumption]].
Qed.

Lemma select_invoice_items_keys db id k :
  k ∈ (select_invoice_items db id).*1
  <-> exists r, r ∈ invoice_items db /\ ii_invoice_id r = id /\ ii_item_id r = k.
Proof.
  unfold select_invoice_items. rewrite <- list_fmap_compose.
  rewrite list_elem_of_fmap. split.
  - intros (r & -> & Hr). apply list_elem_of_filter in Hr as [Hid Hr].
    exists r. auto.
  - intros (r & Hr & Hid & <-). exists r. split; [reflexivity|].
    apply list_elem_of_filter. auto.
Qed.

(** ** The line loop of [updateInvoice] on the stored lines *)

Lemma line_written_for_app db id done ls r :
  line_written_for db id done r -> line_written_for db id (done ++ ls) r.
Proof.
  intros (Hid & Hin & Hp & Ht). repeat split; auto.
  unfold wanted in *. rewrite fmap_app. apply elem_of_app. auto.
Qed.

Lemma wanted_snoc done j q pair :
  pair ∈ wanted (done ++ [Line (Some j) (Some q)])
  <-> pair ∈ wanted done \/ pair = (Some j, Some q).
Proof.
  unfold wanted. rewrite fmap_app, elem_of_app. cbn [fmap list_fmap].
  rewrite list_elem_of_singleton. reflexivity.
Qed.

Lemma mentioned_snoc done j q k :
  Some k ∈ line_item_id <$> (done ++ [Line (Some j) (Some q)])
  <-> Some k ∈ line_item_id <$> done \/ k = j.
Proof.
  rewrite fmap_app, elem_of_app. cbn [fmap list_fmap].
  rewrite list_elem_of_singleton. cbn [line_item_id].
  split; intros [?|?]; auto; [right; congruence | right; congruence].
Qed.

Lemma filter_fmap_untouched {A} (P : A -> Prop) `{!forall x, Decision (P x)}
    (f : A -> A) (l : list A) :
  (forall x, P x -> f x = x) -> (forall x, ~ P x -> ~ P (f x)) ->
  filter P (f <$> l) = filter P l.
Proof.
  intros Hkeep Hout. induction l as [|x l IH]; [reflexivity|].
  rewrite fmap_cons, !filter_cons, IH.
  destruct (decide (P x)) as [Hx|Hx].
  - rewrite (Hkeep x Hx), decide_True by exact Hx. reflexivity.
  - rewrite decide_False by (apply Hout, Hx). reflexivity.
Qed.

Section UpdateStep.

Variables (db0 : database) (c id : uuid) (done : list line).
Variables (db : database) (m : jsmap) (j : uuid) (q p s : Z).
Hypothesis Hinv : loop_inv db0 id done db m.
Hypothesis Hsel : select_item db j c = Some (p, s).

Local Abbreviation written := (InvoiceItemRow id j q p (p * q)).
Local Abbreviation done' := (done ++ [Line (Some j) (Some q)]).

Lemma written_is_written : line_written_for db0 id done' written.
Proof.
  destruct Hinv as (_ & _ & _ & _ & Hprice & _).
  repeat split.
  - apply wanted_snoc. right. reflexivity.
  - rewrite <- Hprice. unfold price_of. cbn [ii_item_id].
    apply select_item_Some in Hsel as (it & -> & _ & <- & _). reflexivity.
Qed.

Lemma price_after_write s' i invs rows :
  price_of (Database (<[j := ItemRow c p s']> (items db)) (parties db)
              invs rows) i
  = price_of db0 i.
Proof.
  destruct Hinv as (_ & _ & _ & _ & Hprice & _).
  rewrite <- Hprice. unfold price_of. cbn [items].
  destruct (decide (j = i)) as [<-|Hne].
  - rewrite lookup_insert_eq.
    apply select_item_Some in Hsel as (it & -> & _ & <- & _). reflexivity.
  - rewrite lookup_insert_ne by exact Hne. reflexivity.
Qed.

(** [UPDATE invoice_items ...] when the map has the item. *)
Lemma loop_inv_rewrite s' :
  Map_has j m = true ->
  loop_inv db0 id done'
    (Database (<[j := ItemRow c p s']> (items db)) (parties db) (invoices db)
       ((fun r => if N.eqb (ii_invoice_id r) id && N.eqb (ii_item_id r) j
                  then written else r) <$> invoice_items db))
    (Map_delete j m).
Proof.
  intros Hhas. pose proof written_is_written as Hw.
  destruct Hinv as (H1 & H2 & H3 & H4 & H5 & H6).
  assert (forall r, r ∈ invoice_items db ->
            ~ (ii_invoice_id r = id /\ ii_item_id r = j) ->
            (if N.eqb (ii_invoice_id r) id && N.eqb (ii_item_id r) j
             then written else r) = r) as Hkeep.
  { intros r _ Hn.
    destruct (N.eqb_spec (ii_invoice_id r) id);
      destruct (N.eqb_spec (ii_item_id r) j); simpl; tauto. }
  split; [|split; [|split; [|split; [|split]]]]; cbn [invoice_items].
  - intros r' Hr' Hid. apply list_elem_of_fmap in Hr' as (r & -> & Hr).
    destruct (N.eqb_spec (ii_invoice_id r) id) as [Hrid|Hrid];
      destruct (N.eqb_spec (ii_item_id r) j) as [Hrj|Hrj]; cbn [andb] in *;
      try (right; exact Hw); try contradiction.
    destruct (H1 r Hr Hid) as [Hm|Hwr].
    + left. rewrite Map_has_delete, decide_False by exact Hrj. exact Hm.
    + right. apply line_written_for_app, Hwr.
  - intros k q' Hin. apply wanted_snoc in Hin as [Hin|[= -> ->]].
    + destruct (H2 k q' Hin) as (r & Hr & Hid & Hk & Hq).
      exists r. repeat split; auto.
      apply list_elem_of_fmap. exists r. split; [|exact Hr].
      symmetry. apply Hkeep; [exact Hr|]. intros [_ Hj].
      apply (H3 j Hhas). subst k. rewrite <- Hj.
      apply list_elem_of_fmap. unfold wanted in Hin.
      apply list_elem_of_fmap in Hin as (l & Hl & Hlin).
      exists l. split; [congruence | exact Hlin].
    + destruct (H4 j Hhas) as (r & Hr & Hid & Hj).
      exists written. repeat split.
      apply list_elem_of_fmap. exists r. split; [|exact Hr].
      rewrite Hid, Hj, !N.eqb_refl. reflexivity.
  - intros k Hk. rewrite Map_has_delete in Hk.
    destruct (decide (k = j)) as [->|Hne]; [discriminate|].
    rewrite mentioned_snoc. intros [Hd|Hd]; [exact (H3 k Hk Hd) | contradiction].
  - intros k Hk. rewrite Map_has_delete in Hk.
    destruct (decide (k = j)) as [->|Hne]; [discriminate|].
    destruct (H4 k Hk) as (r & Hr & Hid & Hrk).
    exists r. repeat split; auto.
    apply list_elem_of_fmap. exists r. split; [|exact Hr].
    symmetry. apply Hkeep; [exact Hr|]. intros [_ Hj]. congruence.
  - intros i. apply price_after_write.
  - rewrite <- H6. apply filter_fmap_untouched.
    + intros r Hr. destruct (N.eqb_spec (ii_invoice_id r) id); [contradiction|].
      reflexivity.
    + intros r Hr.
      destruct (N.eqb_spec (ii_invoice_id r) id);
        destruct (N.eqb_spec (ii_item_id r) j); cbn [andb]; auto.
Qed.

(** [INSERT INTO invoice_items ...] when the map does not have it. *)
Lemma loop_inv_append s' :
  Map_has j m = false ->
  loop_inv db0 id done'
    (Database (<[j := ItemRow c p s']> (items db)) (parties db) (invoices db)
       (invoice_items db ++ [written]))
    (Map_delete j m).
Proof.
  intros Hhas. pose proof written_is_written as Hw.
  destruct Hinv as (H1 & H2 & H3 & H4 & H5 & H6).
  split; [|split; [|split; [|split; [|split]]]]; cbn [invoice_items].
  - intros r Hr Hid. apply elem_of_app in Hr as [Hr|Hr].
    + destruct (H1 r Hr Hid) as [Hm|Hwr].
      * left. rewrite Map_has_delete.
        destruct (decide (ii_item_id r = j)) as [Hj|_]; [congruence|exact Hm].
      * right. apply line_written_for_app, Hwr.
    + apply list_elem_of_singleton in Hr as ->. right. exact Hw.
  - intros k q' Hin. apply wanted_snoc in Hin as [Hin|[= -> ->]].
    + destruct (H2 k q' Hin) as (r & Hr & Hid & Hk & Hq).
      exists r. repeat split; auto. apply elem_of_app. auto.
    + exists written. repeat split. apply elem_of_app. right.
      apply list_elem_of_singleton. reflexivity.
  - intros k Hk. rewrite Map_has_delete in Hk.
    destruct (decide (k = j)) as [->|Hne]; [discriminate|].
    rewrite mentioned_snoc. intros [Hd|Hd]; [exact (H3 k Hk Hd) | contradiction].
  - intros k Hk. rewrite Map_has_delete in Hk.
    destruct (decide (k = j)) as [->|Hne]; [discriminate|].
    destruct (H4 k Hk) as (r & Hr & Hid & Hrk).
    exists r. repeat split; auto. apply elem_of_app. auto.
  - intros i. apply price_after_write.
  - rewrite <- H6, filter_app. cbn [filter list_filter ii_invoice_id].
    rewrite decide_False by (intros Hn; apply Hn; reflexivity).
    apply app_nil_r.
Qed.

End UpdateStep.

Lemma update_lines_inv db0 c id ls : forall done db m tot db' m' tot',
  loop_inv db0 id done db m ->
  Scoped.update_lines c id ls db m tot = Ok (db', m', tot') ->
  loop_inv db0 id (done ++ ls) db' m'.
Proof.
  induction ls as [|l ls IH]; intros done db m tot db' m' tot' Hinv H;
    simpl in H.
  - injection H as <- <- <-. rewrite app_nil_r. exact Hinv.
  - destruct l as [[j|] [q|]]; simpl in H; try discriminate.
    destruct ((q =? 0) || (q <=? 0)); [discriminate|].
    destruct (select_item db j c) as [[p s]|] eqn:Hsel; [|discriminate].
    destruct ((0 <? q - get_or_0 j m) && (s <? q - get_or_0 j m));
      [discriminate|].
    destruct (Map_has j m) eqn:Hhas.
    + destruct (update_invoice_item db q p (p * q) id j) as [db1|] eqn:H1;
        [|discriminate].
      simpl in H. apply update_invoice_item_Ok in H1 as ->.
      destruct (decrease_item_quantity _ (q - get_or_0 j m) j (Some c))
        as [db2|] eqn:H2; [|discriminate].
      simpl in H.
      eapply (decrease_after_select _ j c p s) in H2 as (_ & ->);
        [|exact Hsel|right; reflexivity].
      cbn [items parties invoices invoice_items] in H.
      rewrite (cons_middle _ done ls), app_assoc.
      eapply IH; [|exact H].
      apply (loop_inv_rewrite db0 c id done db m j q p s Hinv Hsel _ Hhas).
    + destruct (insert_invoice_item db id j q p (p * q)) as [db1|] eqn:H1;
        [|discriminate].
      simpl in H. apply insert_invoice_item_Ok in H1 as (_ & _ & ->).
      destruct (decrease_item_quantity _ (q - get_or_0 j m) j (Some c))
        as [db2|] eqn:H2; [|discriminate].
      simpl in H.
      eapply (decrease_after_select _ j c p s) in H2 as (_ & ->);
        [|exact Hsel|right; reflexivity].
      cbn [items parties invoices invoice_items] in H.
      rewrite (cons_middle _ done ls), app_assoc.
      eapply IH; [|exact H].
      apply (loop_inv_append db0 c id done db m j q p s Hinv Hsel _ Hhas).
Qed.

Lemma loop_inv_start db id :
  loop_inv db id [] db (Map_new (select_invoice_items db id)).
Proof.
  split; [|split; [|split; [|split; [|split]]]].
  - intros r Hr Hid. left. apply Map_has_new, select_invoice_items_keys.
    exists r. auto.
  - intros k q Hin. apply elem_of_nil in Hin as [].
  - intros k _. apply not_elem_of_nil.
  - intros k Hk. apply Map_has_new, select_invoice_items_keys in Hk. exact Hk.
  - reflexivity.
  - reflexivity.
Qed.

(** ** Removal of the lines left in the map *)

Lemma update_item_quantity_price db i scope f db' :
  update_item_quantity db i scope f = Ok db' ->
  forall k, price_of db' k = price_of db k.
Proof.
  intros H k. apply update_item_quantity_Ok in H
    as (_ & _ & _ & [(r & Hr & _ & _ & Hitems) | [-> _]]); [|reflexivity].
  unfold price_of. rewrite Hitems. destruct (decide (i = k)) as [->|Hne].
  - rewrite lookup_insert_eq, Hr. reflexivity.
  - rewrite lookup_insert_ne by exact Hne. reflexivity.
Qed.

(** One round of either removal loop: delete the lines of the item, give
    the quantity back. *)
Lemma remove_step db id k v scope db1 :
  increase_item_quantity (delete_invoice_item db id k) v k scope = Ok db1 ->
  invoice_items db1
  = filter (fun r => ~ (ii_invoice_id r = id /\ ii_item_id r = k))
           (invoice_items db)
  /\ parties db1 = parties db /\ invoices db1 = invoices db
  /\ (forall i, price_of db1 i = price_of db i).
Proof.
  intros H. apply increase_item_quantity_Ok in H as [_ H].
  pose proof (update_item_quantity_price _ _ _ _ _ H) as Hprice.
  apply update_item_quantity_Ok in H as (Hp & Hv & Hl & _).
  repeat split; auto.
Qed.

Lemma remove_rows_cons id k (ks : list N) (rows : list invoice_item_row) :
  filter (fun r => ~ (ii_invoice_id r = id /\ ii_item_id r ∈ ks))
    (filter (fun r => ~ (ii_invoice_id r = id /\ ii_item_id r = k)) rows)
  = filter (fun r => ~ (ii_invoice_id r = id /\ ii_item_id r ∈ k :: ks)) rows.
Proof.
  rewrite list_filter_filter. apply list_filter_iff. intros r.
  rewrite elem_of_cons. tauto.
Qed.

Lemma scoped_remove_lines_rows c id entries : forall db db',
  Scoped.remove_lines c id entries db = Ok db' ->
  invoice_items db'
  = filter (fun r => ~ (ii_invoice_id r = id /\ ii_item_id r ∈ entries.*1))
           (invoice_items db)
  /\ parties db' = parties db /\ invoices db' = invoices db
  /\ (forall i, price_of db' i = price_of db i).
Proof.
  induction entries as [|[k v] entries IH]; intros db db' H; simpl in H.
  - injection H as <-. repeat split. symmetry. apply filter_all, Forall_forall.
    intros r _ [_ Hin]. rewrite fmap_nil in Hin. apply elem_of_nil in Hin as [].
  - destruct (increase_item_quantity (delete_invoice_item db id k) v k (Some c))
      as [db1|] eqn:H1; [|discriminate].
    simpl in H. apply remove_step in H1 as (Hl1 & Hp1 & Hv1 & Hpr1).
    apply IH in H as (Hl & Hp & Hv & Hpr).
    rewrite Hl, Hl1, fmap_cons. cbn [fst].
    repeat split; [apply remove_rows_cons | congruence | congruence |].
    intros i. rewrite Hpr. apply Hpr1.
Qed.

Lemma plain_remove_lines_rows id entries : forall db db',
  Plain.remove_lines id entries db = Ok db' ->
  invoice_items db'
  = filter (fun r => ~ (ii_invoice_id r = id /\ ii_item_id r ∈ entries.*1))
           (invoice_items db)
  /\ parties db' = parties db /\ invoices db' = invoices db
  /\ (forall i, price_of db' i = price_of db i).
Proof.
  induction entries as [|[k v] entries IH]; intros db db' H; simpl in H.
  - injection H as <-. repeat split. symmetry. apply filter_all, Forall_forall.
    intros r _ [_ Hin]. rewrite fmap_nil in Hin. apply elem_of_nil in Hin as [].
  - destruct (increase_item_quantity (delete_invoice_item db id k) v k None)
      as [db1|] eqn:H1; [|discriminate].
    simpl in H. apply remove_step in H1 as (Hl1 & Hp1 & Hv1 & Hpr1).
    apply IH in H as (Hl & Hp & Hv & Hpr).
    rewrite Hl, Hl1, fmap_cons. cbn [fst].
    repeat split; [apply remove_rows_cons | congruence | congruence |].
    intros i. rewrite Hpr. apply Hpr1.
Qed.

(** ** What [updateInvoice] leaves in [invoice_items] *)

Lemma price_of_same_items db db' i :
  items db' = items db -> price_of db' i = price_of db i.
Proof. unfold price_of. intros ->. reflexivity. Qed.

Lemma line_written_for_price db db' id ls r :
  (forall i, price_of db' i = price_of db i) ->
  line_written_for db' id ls r -> line_written_for db id ls r.
Proof.
  intros Hp (Hid & Hin & Hpr & Ht). repeat split; auto. rewrite <- Hp. exact Hpr.
Qed.

(** From the invariant at the end of the loop and the removal of what is
    left in the map to the stored lines being the payload. *)
Lemma lines_replaced_after_removal db db1 id ls db2 m2 db3 db4 :
  items db1 = items db -> invoice_items db1 = invoice_items db ->
  loop_inv db1 id ls db2 m2 ->
  invoice_items db3
  = filter (fun r => ~ (ii_invoice_id r = id /\ ii_item_id r ∈ m2.*1))
           (invoice_items db2) ->
  invoice_items db4 = invoice_items db3 ->
  lines_replaced db id ls db4.
Proof.
  intros Hi1 Hl1 (H1 & H2 & H3 & H4 & H5 & H6) Hl3 Hl4.
  unfold lines_replaced, lines_of. rewrite Hl4, Hl3. split; [|split].
  - intros r Hr. apply list_elem_of_filter in Hr as [Hid Hr].
    apply list_elem_of_filter in Hr as [Hkeep Hr].
    destruct (H1 r Hr Hid) as [Hm|Hw].
    + exfalso. apply Hkeep. split; [exact Hid|]. apply Map_has_keys, Hm.
    + eapply line_written_for_price; [|exact Hw].
      intros i. apply price_of_same_items, Hi1.
  - intros k q Hin. destruct (H2 k q Hin) as (r & Hr & Hid & Hk & Hq).
    exists r. repeat split; auto.
    apply list_elem_of_filter. split; [exact Hid|].
    apply list_elem_of_filter. split; [|exact Hr].
    intros [_ Hkeys]. apply Map_has_keys in Hkeys. apply (H3 _ Hkeys).
    rewrite Hk. unfold wanted in Hin.
    apply list_elem_of_fmap in Hin as (l & Hl & Hlin).
    apply list_elem_of_fmap. exists l. split; [congruence | exact Hlin].
  - rewrite list_filter_filter_l by (intros r Hr [Hid _]; contradiction).
    rewrite H6, Hl1. reflexivity.
Qed.

Lemma scoped_updateInvoice_lines e c id req db db' u ls :
  Scoped.updateInvoice_body e c id req db = Ok (db', u) ->
  ub_items req = Some ls ->
  lines_replaced db id ls db'
  /\ exists inv, invoices db' !! id = Some inv
                 /\ inv_total_amount inv
                    = sum_of ii_total_line_amount (lines_of db' id).
Proof.
  intros H Hls. unfold Scoped.updateInvoice_body in H.
  destruct (select_invoice db id c) as [inv0|] eqn:Hsel; [|discriminate].
  destruct (match ub_party_id req with given _ => _ | _ => false end);
    [discriminate|].
  unfold mbind, result_bind in H.
  destruct (update_invoice_meta _ _ _ _ _ _ _) as [db1|] eqn:Hmeta;
    [|discriminate].
  simpl in H.
  apply update_invoice_meta_frame in Hmeta as (Hi1 & _ & Hl1 & _ & Hrow).
  destruct (Hrow _ Hsel) as (inv1 & Hinv1 & Hc1 & _).
  apply select_invoice_Some in Hsel as (_ & Hc0).
  rewrite Hls in H.
  destruct (Scoped.update_lines _ _ _ _ _ _) as [[[db2 m2] tot]|] eqn:Hloop;
    [|discriminate].
  simpl in H.
  destruct (Scoped.remove_lines _ _ _ _) as [db3|] eqn:Hrem; [|discriminate].
  simpl in H.
  destruct (update_invoice_total _ _ _ _ _) as [db4|] eqn:Htot; [|discriminate].
  simpl in H. injection H as <- <-.
  pose proof (update_lines_stock _ _ _ _ _ _ _ _ _ Hloop) as (_ & _ & Hv2 & _).
  pose proof (update_lines_inv db1 c id ls [] db1 _ 0 db2 m2 tot
                (loop_inv_start db1 id) Hloop) as Hinv.
  apply scoped_remove_lines_rows in Hrem as (Hl3 & _ & Hv3 & _).
  pose proof (update_invoice_total_frame _ _ _ _ _ _ Htot) as (_ & _ & Hl4).
  split.
  - eapply lines_replaced_after_removal; eauto.
  - eapply update_invoice_total_Ok in Htot as (_ & ->);
      [| rewrite Hv3, Hv2; exact Hinv1
       | simpl; rewrite Hc1, Hc0; apply N.eqb_refl].
    eexists. split; [apply lookup_insert_eq|]. reflexivity.
Qed.

Lemma plain_updateInvoice_lines e c id req db db' u ls :
  Plain.updateInvoice_body e c id req db = Ok (db', u) ->
  ub_items req = Some ls ->
  lines_replaced db id ls db'.
Proof.
  intros H Hls. unfold Plain.updateInvoice_body in H.
  destruct (select_invoice db id c) as [inv0|] eqn:Hsel; [|discriminate].
  unfold mbind, result_bind in H.
  destruct (update_invoice_meta _ _ _ _ _ _ _) as [db1|] eqn:Hmeta;
    [|discriminate].
  simpl in H.
  apply update_invoice_meta_frame in Hmeta as (Hi1 & _ & Hl1 & _ & _).
  rewrite Hls in H.
  destruct (Plain.update_lines _ _ _ _ _ _) as [[[db2 m2] tot]|] eqn:Hloop;
    [|discriminate].
  simpl in H.
  destruct (Plain.remove_lines _ _ _) as [db3|] eqn:Hrem; [|discriminate].
  simpl in H.
  destruct (update_invoice_total _ _ _ _ _) as [db4|] eqn:Htot; [|discriminate].
  simpl in H. injection H as <- <-.
  apply update_lines_agree in Hloop.
  pose proof (update_lines_inv db1 c id ls [] db1 _ 0 db2 m2 tot
                (loop_inv_start db1 id) Hloop) as Hinv.
  apply plain_remove_lines_rows in Hrem as (Hl3 & _ & _ & _).
  pose proof (update_invoice_total_frame _ _ _ _ _ _ Htot) as (_ & _ & Hl4).
  eapply lines_replaced_after_removal; eauto.
Qed.

(** ** Catalog prices are not written by [updateInvoice] *)

Lemma update_lines_price c id ls db m tot db' m' tot' i :
  Scoped.update_lines c id ls db m tot = Ok (db', m', tot') ->
  price_of db' i = price_of db i.
Proof.
  intros H. apply update_lines_stock in H as (_ & _ & _ & Hstock).
  unfold price_of. rewrite Hstock. destruct (items db !! i); reflexivity.
Qed.

Lemma scoped_updateInvoice_price e c id req db db' u i :
  Scoped.updateInvoice_body e c id req db = Ok (db', u) ->
  price_of db' i = price_of db i.
Proof.
  intros H. unfold Scoped.updateInvoice_body in H.
  destruct (select_invoice db id c); [|discriminate].
  destruct (match ub_party_id req with given _ => _ | _ => false end);
    [discriminate|].
  unfold mbind, result_bind in H.
  destruct (update_invoice_meta _ _ _ _ _ _ _) as [db1|] eqn:Hmeta;
    [|discriminate].
  simpl in H. apply update_invoice_meta_frame in Hmeta as (Hi1 & _).
  rewrite <- (price_of_same_items db db1 i Hi1).
  destruct (ub_items req) as [ls|]; [|injection H as <- <-; reflexivity].
  destruct (Scoped.update_lines _ _ _ _ _ _) as [[[db2 m2] tot]|] eqn:Hloop;
    [|discriminate].
  simpl in H.
  destruct (Scoped.remove_lines _ _ _ _) as [db3|] eqn:Hrem; [|discriminate].
  simpl in H.
  destruct (update_invoice_total _ _ _ _ _) as [db4|] eqn:Htot; [|discriminate].
  simpl in H. injection H as <- <-.
  apply update_invoice_total_frame in Htot as (Hi4 & _).
  apply scoped_remove_lines_rows in Hrem as (_ & _ & _ & Hpr3).
  rewrite (price_of_same_items _ _ i Hi4), Hpr3.
  eapply update_lines_price, Hloop.
Qed.

Lemma plain_updateInvoice_price e c id req db db' u i :
  Plain.updateInvoice_body e c id req db = Ok (db', u) ->
  price_of db' i = price_of db i.
Proof.
  intros H. unfold Plain.updateInvoice_body in H.
  destruct (select_invoice db id c); [|discriminate].
  unfold mbind, result_bind in H.
  destruct (update_invoice_meta _ _ _ _ _ _ _) as [db1|] eqn:Hmeta;
    [|discriminate].
  simpl in H. apply update_invoice_meta_frame in Hmeta as (Hi1 & _).
  rewrite <- (price_of_same_items db db1 i Hi1).
  destruct (ub_items req) as [ls|]; [|injection H as <- <-; reflexivity].
  destruct (Plain.update_lines _ _ _ _ _ _) as [[[db2 m2] tot]|] eqn:Hloop;
    [|discriminate].
  simpl in H.
  destruct (Plain.remove_lines _ _ _) as [db3|] eqn:Hrem; [|discriminate].
  simpl in H.
  destruct (update_invoice_total _ _ _ _ _) as [db4|] eqn:Htot; [|discriminate].
  simpl in H. injection H as <- <-.
  apply update_invoice_total_frame in Htot as (Hi4 & _).
  apply plain_remove_lines_rows in Hrem as (_ & _ & _ & Hpr3).
  apply update_lines_agree in Hloop.
  rewrite (price_of_same_items _ _ i Hi4), Hpr3.
  eapply update_lines_price, Hloop.
Qed.

(** The body behind a 200 of either [updateInvoice]. *)
Lemma updateInvoice_success e c id req db db' resp :
  (Scoped.updateInvoice e c id req db = (db', resp)
   \/ Plain.updateInvoice e c id req db = (db', resp)) ->
  http_status resp = 200 ->
  (exists u, Scoped.updateInvoice_body e c id req db = Ok (db', u))
  \/ (exists u, Plain.updateInvoice_body e c id req db = Ok (db', u)).
Proof.
  intros [H|H] Hst; [left|right];
    (apply transaction_success in H as (u & Hbody & _);
     [eauto | intros err; simpl; lia | lia]).
Qed.

Lemma updateInvoice_lines_replaced e c id req db db' resp ls :
  (Scoped.updateInvoice e c id req db = (db', resp)
   \/ Plain.updateInvoice e c id req db = (db', resp)) ->
  http_status resp = 200 ->
  ub_items req = Some ls ->
  lines_replaced db id ls db' /\ forall i, price_of db' i = price_of db i.
Proof.
  intros H Hst Hls.
  destruct (updateInvoice_success _ _ _ _ _ _ _ H Hst) as [[u Hb]|[u Hb]].
  - split; [eapply scoped_updateInvoice_lines; eauto|].
    intros i. eapply scoped_updateInvoice_price, Hb.
  - split; [eapply plain_updateInvoice_lines; eauto|].
    intros i. eapply plain_updateInvoice_price, Hb.
Qed.

(** C4, as the code has it.  After a successful [updateInvoice] with a
    lines payload (either revision), every line stored for the invoice is
    a payload line that carries the item's current catalog price as
    [price_at_purchase] and [price_at_purchase * quantity] as
    [total_line_amount]: the price of an existing line is re-read from
    the catalog, so it stays what it was only if the catalog price is
    what it was when the line was written. *)
Theorem updateInvoice_reprices e c id req db db' resp ls r :
  (Scoped.updateInvoice e c id req db = (db', resp)
   \/ Plain.updateInvoice e c id req db = (db', resp)) ->
  http_status resp = 200 ->
  ub_items req = Some ls ->
  r ∈ lines_of db' id ->
  (Some (ii_item_id r), Some (ii_quantity r)) ∈ wanted ls
  /\ price_of db (ii_item_id r) = Some (ii_price_at_purchase r)
  /\ price_of db' (ii_item_id r) = Some (ii_price_at_purchase r)
  /\ ii_total_line_amount r = ii_price_at_purchase r * ii_quantity r.
Proof.
  intros H Hst Hls Hr.
  destruct (updateInvoice_lines_replaced _ _ _ _ _ _ _ _ H Hst Hls)
    as ((Hall & _ & _) & Hprice).
  destruct (Hall r Hr) as (_ & Hin & Hp & Ht).
  rewrite Hprice. auto.
Qed.

(** ** When [createInvoice] goes through *)

Lemma update_invoice_total_scope e db total id c r :
  invoices db !! id = Some r -> inv_company_id r = c ->
  update_invoice_total e db total id None
  = update_invoice_total e db total id (Some c).
Proof.
  intros Hr Hc. unfold update_invoice_total. rewrite Hr. simpl.
  rewrite Hc, N.eqb_refl. reflexivity.
Qed.

(** What a successful [createInvoice] of either revision leaves. *)
Lemma createInvoice_created e c req db db' resp :
  lines_reference_invoices db ->
  (Scoped.createInvoice e c req db = (db', resp)
   \/ Plain.createInvoice e c req db = (db', resp)) ->
  http_status resp = 201 ->
  created db c req db' (uuid_generate_v4 e).
Proof.
  intros Hfk [H|H] Hst.
  - apply transaction_success in H as (id & Hbody & ->); [| |lia].
    + apply scoped_createInvoice_created in Hbody as (-> & Hc); auto.
    + intros err. destruct err as [| | | | | | | |[]]; simpl; lia.
  - apply transaction_success in H as (id & Hbody & ->); [| |lia].
    + apply plain_createInvoice_created in Hbody as (-> & Hc); auto.
    + intros err. simpl. lia.
Qed.

(** C8, as the code has it.  Neither controller looks for repeated
    [item_id]s, so a list that names an item more than once is not
    rejected for it.  After a [createInvoice] answered 201 (either
    revision) the stored lines of the invoice are the list entries one by
    one, in order, repeated items included.  After an [updateInvoice]
    answered 200 (either revision) every list entry that names an item
    which had no line on the invoice has a stored line with its item and
    quantity.  Entries of one item are neither merged nor rejected. *)
Theorem repeated_items_become_lines :
  (forall e c req db db' resp,
      lines_reference_invoices db ->
      (Scoped.createInvoice e c req db = (db', resp)
       \/ Plain.createInvoice e c req db = (db', resp)) ->
      http_status resp = 201 ->
      (fun r => (Some (ii_item_id r), Some (ii_quantity r)))
        <$> lines_of db' (uuid_generate_v4 e)
      = wanted (lines_given (cb_items req)))
  /\ (forall e c id req db db' resp ls k q,
         (Scoped.updateInvoice e c id req db = (db', resp)
          \/ Plain.updateInvoice e c id req db = (db', resp)) ->
         http_status resp = 200 ->
         ub_items req = Some ls ->
         (Some k, Some q) ∈ wanted ls ->
         (forall r, r ∈ lines_of db id -> ii_item_id r <> k) ->
         exists r, r ∈ lines_of db' id /\ ii_item_id r = k /\ ii_quantity r = q).
Proof.
  split.
  - intros e c req db db' resp Hfk H Hst.
    destruct (createInvoice_created e c req db db' resp Hfk H Hst)
      as (inv & _ & _ & _ & _ & Hw & _).
    exact Hw.
  - intros e c id req db db' resp ls k q H Hst Hls Hin _.
    destruct (updateInvoice_lines_replaced _ _ _ _ _ _ _ _ H Hst Hls)
      as ((_ & Hall & _) & _).
    exact (Hall k q Hin).
Qed.

Lemma update_invoice_total_zero e db id r scope :
  invoices db !! id = Some r ->
  in_scope scope (inv_company_id r) = true ->
  update_invoice_total e db 0 id scope
  = Ok (Database (items db) (parties db)
          (<[id := InvoiceRow (inv_company_id r) (inv_party_id r)
                     (inv_invoice_number r) (inv_invoice_date r)
                     (inv_due_date r) 0 (inv_status r)
                     (inv_created_at r) (now e)]> (invoices db))
          (invoice_items db)).
Proof.
  intros Hr Hs. unfold update_invoice_total. rewrite Hr, Hs. reflexivity.
Qed.

(** The header steps of [createInvoice] do not look at [items]. *)
Lemma insert_invoice_fresh e db c party number due total status db1 id :
  insert_invoice e db c party number due total status = Ok (db1, id) ->
  exists r, invoices db1 !! id = Some r /\ inv_company_id r = c
            /\ inv_total_amount r = total
            /\ invoices db1 = <[id := r]> (invoices db)
            /\ items db1 = items db /\ parties db1 = parties db
            /\ invoice_items db1 = invoice_items db.
Proof.
  intros H. apply insert_invoice_Ok in H
    as (-> & _ & _ & p & n & st & _ & _ & _ & _ & ->).
  eexists. split; [apply lookup_insert_eq|]. repeat split.
Qed.

(** An invoice without lines: the row of the [INSERT] with its
    [total_amount] of 0, nothing else written. *)
Lemma createInvoice_no_lines e db c db1 id scope :
  (exists party number due status,
      insert_invoice e db c party number due 0 status = Ok (db1, id)) ->
  (scope = None \/ scope = Some c) ->
  exists db2 inv,
    update_invoice_total e db1 0 id scope = Ok db2
    /\ invoices db2 !! id = Some inv /\ inv_total_amount inv = 0
    /\ invoice_items db2 = invoice_items db /\ items db2 = items db.
Proof.
  intros (party & number & due & status & Hins) Hscope.
  apply insert_invoice_fresh in Hins as (r & Hr & Hc & _ & _ & Hi & _ & Hl).
  rewrite (update_invoice_total_zero e db1 id r scope Hr)
    by (rewrite Hc; apply in_scope_same, Hscope).
  eexists. eexists. split; [reflexivity|]. cbn [invoices invoice_items items].
  split; [apply lookup_insert_eq|]. auto.
Qed.

(** C10. [createInvoice] with an empty [items] list succeeds in both
    revisions when the header is acceptable: it commits the invoice row
    with [total_amount = 0], stores no line for it, and leaves the catalog
    (every item's stock) and all other lines as they were.  Whenever such
    a call is answered 201 this is what it commits; and the empty list is
    never the reason of a failure: a header that is accepted with some
    lines is accepted with none. *)
Theorem createInvoice_empty_lines e c req db :
  cb_items req = items_given [] ->
  lines_reference_invoices db ->
  (header_acceptable e db c req ->
   exists db' inv,
     Scoped.createInvoice e c req db
     = (db', Response 201 (InvoiceCreated (uuid_generate_v4 e)))
     /\ Plain.createInvoice e c req db
        = (db', Response 201 (InvoiceCreated (uuid_generate_v4 e)))
     /\ invoices db' !! uuid_generate_v4 e = Some inv
     /\ inv_total_amount inv = 0
     /\ lines_of db' (uuid_generate_v4 e) = []
     /\ invoice_items db' = invoice_items db
     /\ items db' = items db)
  /\ (forall db' resp,
         (Scoped.createInvoice e c req db = (db', resp)
          \/ Plain.createInvoice e c req db = (db', resp)) ->
         http_status resp = 201 ->
         exists inv,
           invoices db' !! uuid_generate_v4 e = Some inv
           /\ inv_total_amount inv = 0
           /\ lines_of db' (uuid_generate_v4 e) = []
           /\ invoice_items db' = invoice_items db
           /\ items db' = items db)
  /\ (forall ls,
         (http_status
            (snd (Scoped.createInvoice e c (with_items (items_given ls) req) db))
          = 201 ->
          http_status (snd (Scoped.createInvoice e c req db)) = 201)
         /\ (http_status
               (snd (Plain.createInvoice e c (with_items (items_given ls) req) db))
             = 201 ->
             http_status (snd (Plain.createInvoice e c req db)) = 201)).
Proof.
  intros Hls Hfk. split; [|split].
  - intros Hhdr.
    destruct (insert_invoice_acceptable _ _ _ _ Hhdr)
      as (p & n & st & _ & _ & Hdue & Hins).
    destruct Hhdr as (Hparty & _ & Hnum & _ & _ & Hfresh).
    eexists. eexists.
    unfold Scoped.createInvoice, Scoped.createInvoice_body,
      Plain.createInvoice, Plain.createInvoice_body.
    rewrite Hparty, Hnum, Hdue, Hins, Hls. unfold mbind, result_bind. simpl.
    unfold update_invoice_total. simpl. rewrite lookup_insert_eq. simpl.
    rewrite N.eqb_refl, insert_insert_eq. simpl.
    split; [reflexivity|]. split; [reflexivity|].
    split; [apply lookup_insert_eq|]. split; [reflexivity|].
    split; [|split; reflexivity].
    apply (lines_of_fresh db _ Hfk Hfresh).
  - intros db' resp H Hst.
    destruct (createInvoice_created e c req db db' resp Hfk H Hst)
      as (inv & Hinv & _ & Htot & _ & Hw & Hstock).
    rewrite Hls in Hw. cbn [lines_given wanted fmap list_fmap] in Hw.
    apply fmap_nil_inv in Hw.
    exists inv. rewrite Hw in Htot, Hstock.
    split; [exact Hinv|]. split; [exact Htot|]. split; [exact Hw|].
    assert (items db' = items db) as Hitems.
    { apply map_eq. intros i. rewrite Hstock.
      destruct (items db !! i) as [[? ? ?]|]; [|reflexivity].
      simpl. unfold with_quantity. simpl. rewrite quantity_on_nil.
      do 2 f_equal. lia. }
    split; [|exact Hitems].
    destruct H as [H|H].
    + apply transaction_success in H as (id & Hbody & _);
        [| intros err; destruct err as [| | | | | | | |[]]; simpl; lia | lia].
      apply scoped_createInvoice_body_Ok in Hbody
        as (_ & _ & db1 & ls & db2 & tot & Hins & Hls' & Hloop & Hupd).
      rewrite Hls in Hls'. injection Hls' as <-. injection Hloop as <- <-.
      apply update_invoice_total_frame in Hupd as (_ & _ & ->).
      apply insert_invoice_fresh in Hins as (r & _ & _ & _ & _ & _ & _ & Hl).
      exact Hl.
    + apply transaction_success in H as (id & Hbody & _);
        [| intros err; simpl; lia | lia].
      apply plain_createInvoice_body_Ok in Hbody
        as (db1 & ls & db2 & tot & Hins & Hls' & Hloop & Hupd).
      rewrite Hls in Hls'. injection Hls' as <-. injection Hloop as <- <-.
      apply update_invoice_total_frame in Hupd as (_ & _ & ->).
      apply insert_invoice_fresh in Hins as (r & _ & _ & _ & _ & _ & _ & Hl).
      exact Hl.
  - intros ls. split; intros Hst.
    + destruct (Scoped.createInvoice e c (with_items (items_given ls) req) db)
        as [db' resp] eqn:Hrun.
      apply transaction_success in Hrun as (id & Hbody & _);
        [| intros err; destruct err as [| | | | | | | |[]]; simpl; lia
         | simpl in Hst; lia].
      apply scoped_createInvoice_body_Ok in Hbody
        as (Hparty & Hnum & db1 & ls' & db2 & tot & Hins & _).
      cbn [with_items cb_party_id cb_invoice_number cb_due_date cb_status]
        in Hparty, Hnum, Hins.
      destruct (createInvoice_no_lines e db c db1 id (Some c))
        as (db3 & inv & Hupd & _); [eauto | auto |].
      unfold Scoped.createInvoice, Scoped.createInvoice_body.
      rewrite Hparty, Hnum, Hins, Hls. unfold mbind, result_bind.
      cbn [negb bind or_empty Scoped.create_lines]. rewrite Hupd. reflexivity.
    + destruct (Plain.createInvoice e c (with_items (items_given ls) req) db)
        as [db' resp] eqn:Hrun.
      apply transaction_success in Hrun as (id & Hbody & _);
        [| intros err; simpl; lia | simpl in Hst; lia].
      apply plain_createInvoice_body_Ok in Hbody
        as (db1 & ls' & db2 & tot & Hins & _).
      cbn [with_items cb_party_id cb_invoice_number cb_due_date cb_status]
        in Hins.
      destruct (createInvoice_no_lines e db c db1 id None)
        as (db3 & inv & Hupd & _); [eauto | auto |].
      unfold Plain.createInvoice, Plain.createInvoice_body.
      rewrite Hins, Hls. unfold mbind, result_bind.
      cbn [bind Plain.create_lines]. rewrite Hupd. reflexivity.
Qed.

(** ** Lines with a non-positive quantity in [createInvoice] *)

Lemma scoped_create_lines_app c id pre rest : forall db tot,
  Scoped.create_lines c id (pre ++ rest) db tot
  = match Scoped.create_lines c id pre db tot with
    | Ok (db', tot') => Scoped.create_lines c id rest db' tot'
    | Throw err => Throw err
    end.
Proof.
  induction pre as [|l pre IH]; intros db tot; [reflexivity|].
  rewrite <- app_comm_cons. simpl.
  destruct (line_item_id l) as [j|]; [|reflexivity].
  destruct (line_quantity l) as [q|]; [|reflexivity].
  destruct ((q =? 0) || (q <=? 0)); [reflexivity|].
  destruct (select_item db j c) as [[p s]|]; [|reflexivity].
  destruct (s <? q); [reflexivity|].
  destruct (insert_invoice_item db id j q p (p * q)) as [db1|]; [|reflexivity].
  simpl.
  destruct (decrease_item_quantity db1 q j (Some c)) as [db2|]; [|reflexivity].
  simpl. apply IH.
Qed.

Lemma plain_create_lines_app c id pre rest : forall db tot,
  Plain.create_lines c id (pre ++ rest) db tot
  = match Plain.create_lines c id pre db tot with
    | Ok (db', tot') => Plain.create_lines c id rest db' tot'
    | Throw err => Throw err
    end.
Proof.
  induction pre as [|l pre IH]; intros db tot; [reflexivity|].
  rewrite <- app_comm_cons. simpl.
  destruct (line_quantity l) as [q|]; [|reflexivity].
  destruct ((q =? 0) || (q <=? 0)); [reflexivity|].
  destruct (line_item_id l ≫= _) as [[j [p s]]|]; [|reflexivity].
  destruct (s <? q); [reflexivity|].
  destruct (insert_invoice_item db id j q p (p * q)) as [db1|]; [|reflexivity].
  simpl.
  destruct (decrease_item_quantity db1 q j None) as [db2|]; [|reflexivity].
  simpl. apply IH.
Qed.

Lemma bad_quantity_throws_scoped c id l post db tot :
  bad_quantity (line_quantity l) = true ->
  Scoped.create_lines c id (l :: post) db tot
  = Throw (match line_item_id l with
           | Some i => InvalidQuantity (Some i)
           | None => ItemIdRequired
           end).
Proof.
  intros Hbad. destruct l as [[i|] quantity]; simpl; [|reflexivity].
  destruct quantity as [q|]; [|reflexivity].
  simpl in Hbad. rewrite Hbad. reflexivity.
Qed.

Lemma bad_quantity_throws_plain c id l post db tot :
  bad_quantity (line_quantity l) = true ->
  Plain.create_lines c id (l :: post) db tot
  = Throw (InvalidQuantity (line_item_id l)).
Proof.
  intros Hbad. destruct l as [i quantity]; simpl.
  destruct quantity as [q|]; [|reflexivity].
  simpl in Hbad. rewrite Hbad. reflexivity.
Qed.

Lemma create_body_bad_quantity e c req db pre l post r :
  cb_items req = items_given (pre ++ l :: post) ->
  bad_quantity (line_quantity l) = true ->
  Scoped.createInvoice_body e c req db <> Ok r
  /\ Plain.createInvoice_body e c req db <> Ok r.
Proof.
  intros Hls Hbad. destruct r as [db' id].
  assert (forall id db1 tot r', Scoped.create_lines c id
                                  (pre ++ l :: post) db1 tot <> Ok r') as Hloop.
  { intros id0 db1 tot r' H. apply create_lines_quantities in H.
    apply Forall_app in H as [_ H]. apply Forall_cons in H as [H _]. congruence. }
  split; intros H.
  - apply scoped_createInvoice_body_Ok in H
      as (_ & _ & db1 & ls & db2 & tot & _ & Hls' & Hl & _).
    rewrite Hls in Hls'. injection Hls' as <-. eapply Hloop, Hl.
  - apply plain_createInvoice_body_Ok in H
      as (db1 & ls & db2 & tot & _ & Hls' & Hl & _).
    rewrite Hls in Hls'. injection Hls' as <-.
    apply create_lines_agree in Hl. eapply Hloop, Hl.
Qed.

(** C6, as the code has it.  A [createInvoice] whose list holds a line
    with a missing, zero or negative quantity fails in both revisions and
    leaves the database as it was.  The reply is the validation error of
    that line (its quantity; in [src/unnamed/part_000] its missing
    [item_id], if it has none) whenever the request cut before that line
    is one the revision accepts; otherwise the check that fails first
    answers. *)
Theorem createInvoice_bad_quantity e c req db pre l post :
  cb_items req = items_given (pre ++ l :: post) ->
  bad_quantity (line_quantity l) = true ->
  (fst (Scoped.createInvoice e c req db) = db
   /\ failed (snd (Scoped.createInvoice e c req db))
   /\ fst (Plain.createInvoice e c req db) = db
   /\ failed (snd (Plain.createInvoice e c req db)))
  /\ (http_status
        (snd (Scoped.createInvoice e c (with_items (items_given pre) req) db))
      = 201 ->
      snd (Scoped.createInvoice e c req db)
      = Response 400 (ErrorMessage (match line_item_id l with
                                    | Some i => InvalidQuantity (Some i)
                                    | None => ItemIdRequired
                                    end)))
  /\ (http_status
        (snd (Plain.createInvoice e c (with_items (items_given pre) req) db))
      = 201 ->
      snd (Plain.createInvoice e c req db)
      = Response 400 (ErrorMessage (InvalidQuantity (line_item_id l)))).
Proof.
  intros Hls Hbad. split; [|split].
  - unfold Scoped.createInvoice, Plain.createInvoice, transaction, failed.
    destruct (Scoped.createInvoice_body e c req db) as [r|err] eqn:Hs.
    { exfalso. eapply (proj1 (create_body_bad_quantity e c req db pre l post r
                                Hls Hbad)), Hs. }
    destruct (Plain.createInvoice_body e c req db) as [r|err'] eqn:Hp.
    { exfalso. eapply (proj2 (create_body_bad_quantity e c req db pre l post r
                                Hls Hbad)), Hp. }
    simpl. repeat split; try lia.
    destruct err as [| | | | | | | |[]]; simpl; lia.
  - intros Hst.
    destruct (Scoped.createInvoice e c (with_items (items_given pre) req) db)
      as [db' resp] eqn:Hrun.
    apply transaction_success in Hrun as (id & Hbody & _);
      [| intros err; destruct err as [| | | | | | | |[]]; simpl; lia
       | simpl in Hst; lia].
    apply scoped_createInvoice_body_Ok in Hbody
      as (Hparty & Hnum & db1 & ls & db2 & tot & Hins & Hpre' & Hpre & _).
    cbn [with_items cb_party_id cb_invoice_number cb_due_date cb_status
         cb_items or_empty] in Hparty, Hnum, Hins, Hpre'.
    injection Hpre' as <-.
    unfold Scoped.createInvoice, Scoped.createInvoice_body.
    rewrite Hparty, Hnum, Hins, Hls. unfold mbind, result_bind.
    cbn [negb bind or_empty].
    rewrite scoped_create_lines_app, Hpre.
    rewrite bad_quantity_throws_scoped by exact Hbad.
    destruct (line_item_id l); reflexivity.
  - intros Hst.
    destruct (Plain.createInvoice e c (with_items (items_given pre) req) db)
      as [db' resp] eqn:Hrun.
    apply transaction_success in Hrun as (id & Hbody & _);
      [| intros err; simpl; lia | simpl in Hst; lia].
    apply plain_createInvoice_body_Ok in Hbody
      as (db1 & ls & db2 & tot & Hins & Hpre' & Hpre & _).
    cbn [with_items cb_party_id cb_invoice_number cb_due_date cb_status
         cb_items] in Hins, Hpre'.
    injection Hpre' as <-.
    unfold Plain.createInvoice, Plain.createInvoice_body.
    rewrite Hins, Hls. unfold mbind, result_bind. cbn [bind].
    rewrite plain_create_lines_app, Hpre.
    rewrite bad_quantity_throws_plain by exact Hbad. reflexivity.
Qed.

(** ** The party check *)

(** [src/unnamed/part_000]: a party that is not the company's stops
    [createInvoice] at its first statement; nothing is written. *)
Lemma scoped_createInvoice_party_not_found e c req db :
  select_party db (cb_party_id req) c = false ->
  Scoped.createInvoice e c req db
  = (db, Response 400 (ErrorMessage PartyNotFound)).
Proof.
  intros H. unfold Scoped.createInvoice, Scoped.createInvoice_body.
  rewrite H. reflexivity.
Qed.

(** ... and an invoice it commits carries a party of the company. *)
Lemma scoped_createInvoice_party_owned e c req db db' id :
  Scoped.createInvoice_body e c req db = Ok (db', id) ->
  select_party db (cb_party_id req) c = true.
Proof.
  unfold Scoped.createInvoice_body.
  destruct (select_party db (cb_party_id req) c); [reflexivity|discriminate].
Qed.

(** ** [updateInvoiceStatus] applied twice *)

Lemma select_invoice_after_status db id c r r' :
  select_invoice db id c = Some r ->
  inv_company_id r' = inv_company_id r ->
  select_invoice (Database (items db) (parties db) (<[id := r']> (invoices db))
                    (invoice_items db)) id c = Some r'.
Proof.
  intros Hsel Hc. apply select_invoice_Some in Hsel as (_ & Hc0).
  unfold select_invoice. simpl. rewrite lookup_insert_eq, Hc, Hc0, N.eqb_refl.
  reflexivity.
Qed.

(** C9, as the code has it.  For an invoice of the company and a valid
    status, a second [updateInvoiceStatus] with the same status answers
    200 like the first and changes nothing but the invoice's
    [updated_at], which takes the time of the second call: the state is
    that of a single call made at the later time, and equal to the state
    after the first call exactly when the clock reads the same.  Neither
    call touches items, parties or invoice lines.  Both revisions are the
    same function. *)
Theorem updateInvoiceStatus_twice e1 e2 c id s st inv db :
  invoice_status_of_text s = Some st ->
  select_invoice db id c = Some inv ->
  exists row1,
    Plain.updateInvoiceStatus e1 c id (Some s) db
    = Scoped.updateInvoiceStatus e1 c id (Some s) db
    /\ Scoped.updateInvoiceStatus e1 c id (Some s) db
       = (Database (items db) (parties db) (<[id := row1]> (invoices db))
            (invoice_items db),
          Response 200 (InvoiceMarked row1))
    /\ inv_status row1 = st /\ inv_updated_at row1 = now e1
    /\ Scoped.updateInvoiceStatus e2 c id (Some s)
         (fst (Scoped.updateInvoiceStatus e1 c id (Some s) db))
       = (Database (items db) (parties db)
            (<[id := with_updated_at (now e2) row1]> (invoices db))
            (invoice_items db),
          Response 200 (InvoiceMarked (with_updated_at (now e2) row1)))
    /\ fst (Scoped.updateInvoiceStatus e2 c id (Some s)
              (fst (Scoped.updateInvoiceStatus e1 c id (Some s) db)))
       = fst (Scoped.updateInvoiceStatus e2 c id (Some s) db)
    /\ (now e2 = now e1 ->
        Scoped.updateInvoiceStatus e2 c id (Some s)
          (fst (Scoped.updateInvoiceStatus e1 c id (Some s) db))
        = Scoped.updateInvoiceStatus e1 c id (Some s) db).
Proof.
  intros Hst Hsel.
  set (row1 := InvoiceRow (inv_company_id inv) (inv_party_id inv)
                 (inv_invoice_number inv) (inv_invoice_date inv)
                 (inv_due_date inv) (inv_total_amount inv) st
                 (inv_created_at inv) (now e1)).
  assert (Scoped.updateInvoiceStatus e1 c id (Some s) db
          = (Database (items db) (parties db) (<[id := row1]> (invoices db))
               (invoice_items db), Response 200 (InvoiceMarked row1))) as H1.
  { unfold Scoped.updateInvoiceStatus. simpl. rewrite Hst.
    unfold update_invoice_status. rewrite Hsel. reflexivity. }
  assert (forall e db0 r0,
             select_invoice db0 id c = Some r0 ->
             Scoped.updateInvoiceStatus e c id (Some s) db0
             = (Database (items db0) (parties db0)
                  (<[id := InvoiceRow (inv_company_id r0) (inv_party_id r0)
                             (inv_invoice_number r0) (inv_invoice_date r0)
                             (inv_due_date r0) (inv_total_amount r0) st
                             (inv_created_at r0) (now e)]> (invoices db0))
                  (invoice_items db0),
                Response 200
                  (InvoiceMarked
                     (InvoiceRow (inv_company_id r0) (inv_party_id r0)
                        (inv_invoice_number r0) (inv_invoice_date r0)
                        (inv_due_date r0) (inv_total_amount r0) st
                        (inv_created_at r0) (now e))))) as Hgen.
  { intros e db0 r0 Hr0. unfold Scoped.updateInvoiceStatus. simpl. rewrite Hst.
    unfold update_invoice_status. rewrite Hr0. reflexivity. }
  assert (Scoped.updateInvoiceStatus e2 c id (Some s)
            (fst (Scoped.updateInvoiceStatus e1 c id (Some s) db))
          = (Database (items db) (parties db)
               (<[id := with_updated_at (now e2) row1]> (invoices db))
               (invoice_items db),
             Response 200 (InvoiceMarked (with_updated_at (now e2) row1))))
    as H2.
  { rewrite H1. cbn [fst].
    rewrite (Hgen e2 _ row1
               (select_invoice_after_status db id c inv row1 Hsel eq_refl)).
    cbn [items parties invoices invoice_items]. rewrite insert_insert_eq.
    reflexivity. }
  exists row1. split; [reflexivity|]. split; [exact H1|].
  split; [reflexivity|]. split; [reflexivity|]. split; [exact H2|]. split.
  - rewrite H2, (Hgen e2 db inv Hsel). reflexivity.
  - intros Hnow. rewrite H2, H1. unfold with_updated_at. rewrite Hnow.
    reflexivity.
Qed.

(** ** [deleteInvoice] and the stock *)

(** [src/controllers/invoiceController.js]: no call of [deleteInvoice]
    writes to [items]. *)
Lemma plain_deleteInvoice_items c id db :
  items (fst (Plain.deleteInvoice c id db)) = items db.
Proof.
  unfold Plain.deleteInvoice, Plain.deleteInvoice_body, transaction.
  destruct (select_invoice db id c); [|reflexivity].
  cbn [fst]. rewrite delete_invoice_items_same. reflexivity.
Qed.

(** [src/unnamed/part_000]: the loop over the lines gives every line's
    quantity back to its item. *)
Lemma return_lines_rows c rows : forall db db',
  Scoped.return_lines c ((fun r => (ii_item_id r, ii_quantity r)) <$> rows) db
  = Ok db' ->
  parties db' = parties db /\ invoices db' = invoices db
  /\ invoice_items db' = invoice_items db
  /\ (forall i, items db' !! i
                = restocked c (quantity_on i rows) <$> items db !! i).
Proof.
  induction rows as [|r rows IH]; intros db db' H.
  - injection H as <-. repeat split. intros i. rewrite quantity_on_nil.
    destruct (items db !! i) as [[ci pi qi]|]; [|reflexivity].
    unfold restocked, with_quantity. simpl.
    destruct (N.eqb ci c); [|reflexivity]. do 2 f_equal. lia.
  - rewrite fmap_cons in H. cbn [Scoped.return_lines] in H.
    destruct (increase_item_quantity db (ii_quantity r) (ii_item_id r) (Some c))
      as [db1|] eqn:H1; [|discriminate].
    cbn [bind] in H. apply IH in H as (Hp & Hv & Hl & Hstock).
    apply increase_item_quantity_Ok in H1 as [_ H1].
    apply update_item_quantity_Ok in H1
      as (Hp1 & Hv1 & Hl1 & [(it & Hit & Hin & _ & Hitems) | [-> Hout]]).
    + repeat split; [congruence | congruence | congruence |].
      intros i. rewrite Hstock, Hitems, quantity_on_cons.
      destruct (decide (ii_item_id r = i)) as [<-|Hne].
      * rewrite lookup_insert_eq, Hit. simpl. simpl in Hin.
        unfold restocked, with_quantity. simpl. rewrite Hin.
        do 2 f_equal. lia.
      * rewrite lookup_insert_ne by exact Hne. reflexivity.
    + repeat split; auto. intros i. rewrite Hstock, quantity_on_cons.
      destruct (decide (ii_item_id r = i)) as [<-|Hne]; [|reflexivity].
      destruct (items db !! ii_item_id r) as [it|] eqn:Hit; [|reflexivity].
      simpl. specialize (Hout it eq_refl). simpl in Hout.
      unfold restocked. rewrite Hout. reflexivity.
Qed.

Lemma scoped_deleteInvoice_restores c id db db' u :
  Scoped.deleteInvoice_body c id db = Ok (db', u) ->
  invoices db' = delete id (invoices db)
  /\ invoice_items db' = filter (fun r => ii_invoice_id r <> id) (invoice_items db)
  /\ parties db' = parties db
  /\ (forall i, items db' !! i
                = restocked c (quantity_on i (lines_of db id)) <$> items db !! i).
Proof.
  intros H. unfold Scoped.deleteInvoice_body in H.
  destruct (select_invoice db id c) as [inv|] eqn:Hsel; [|discriminate].
  unfold mbind, result_bind in H.
  destruct (Scoped.return_lines c (select_invoice_items db id) db)
    as [db1|] eqn:Hret; [|discriminate].
  cbn [bind] in H. injection H as <- _.
  apply (return_lines_rows c (lines_of db id)) in Hret as (Hp & Hv & Hl & Hstock).
  assert (select_invoice db1 id c = Some inv) as Hsel1.
  { unfold select_invoice in *. rewrite Hv. exact Hsel. }
  apply select_invoice_Some in Hsel as (Hinv & Hc).
  unfold delete_invoice_items_using. rewrite Hsel1.
  unfold delete_invoice, delete_invoice_items. cbn [invoices].
  rewrite Hv, Hinv. cbn [in_scope]. rewrite Hc, N.eqb_refl.
  cbn [invoices invoice_items parties items].
  rewrite Hl, list_filter_filter_l by auto. auto.
Qed.

Lemma return_lines_succeed c rows : forall db,
  stock_nonneg db ->
  Forall (fun r => 0 <= ii_quantity r <= 2147483647) rows ->
  (forall i it, items db !! i = Some it ->
                item_quantity it + quantity_on i rows <= 2147483647) ->
  exists db', Scoped.return_lines c
                ((fun r => (ii_item_id r, ii_quantity r)) <$> rows) db = Ok db'.
Proof.
  induction rows as [|r rows IH]; intros db Hinv Hq Hfit; [eexists; reflexivity|].
  apply Forall_cons in Hq as [Hr Hq].
  assert (forall i, 0 <= quantity_on i rows) as Hnn.
  { intros i. clear -Hq. induction Hq as [|x l Hx _ IHl]; [reflexivity|].
    rewrite quantity_on_cons. destruct (decide (ii_item_id x = i)); lia. }
  rewrite fmap_cons. cbn [Scoped.return_lines].
  assert (exists db1, increase_item_quantity db (ii_quantity r) (ii_item_id r)
                        (Some c) = Ok db1
                      /\ forall i it, items db1 !! i = Some it ->
                           item_quantity it + quantity_on i rows <= 2147483647)
    as (db1 & H1 & Hfit1).
  { unfold increase_item_quantity, update_item_quantity.
    replace (int4 (ii_quantity r)) with true by (symmetry; apply int4_spec; lia).
    cbn [negb].
    destruct (items db !! ii_item_id r) as [it|] eqn:Hit.
    2:{ eexists. split; [reflexivity|]. intros i it Hi.
        specialize (Hfit i it Hi). rewrite quantity_on_cons in Hfit.
        destruct (decide (ii_item_id r = i)); lia. }
    pose proof (Hfit _ _ Hit) as Hj. rewrite quantity_on_cons in Hj.
    rewrite decide_True in Hj by reflexivity.
    pose proof (Hinv _ _ Hit) as H0. pose proof (Hnn (ii_item_id r)) as Hn.
    destruct (in_scope (Some c) (item_company_id it)).
    2:{ eexists. split; [reflexivity|]. intros i it' Hi.
        specialize (Hfit i it' Hi). rewrite quantity_on_cons in Hfit.
        destruct (decide (ii_item_id r = i)); lia. }
    replace (int4 (item_quantity it + ii_quantity r)) with true
      by (symmetry; apply int4_spec; lia).
    cbn [negb].
    replace (item_quantity it + ii_quantity r <? 0) with false
      by (symmetry; apply Z.ltb_ge; lia).
    eexists. split; [reflexivity|]. cbn [items]. intros i it' Hi.
    destruct (decide (ii_item_id r = i)) as [<-|Hne].
    - rewrite lookup_insert_eq in Hi. injection Hi as <-. simpl. lia.
    - rewrite lookup_insert_ne in Hi by exact Hne.
      specialize (Hfit i it' Hi). rewrite quantity_on_cons in Hfit.
      rewrite decide_False in Hfit by exact Hne. lia. }
  rewrite H1. cbn [bind]. apply IH; [|exact Hq|exact Hfit1].
  apply increase_item_quantity_Ok in H1 as [_ H1].
  eapply update_item_quantity_stock_nonneg; [exact H1 | exact Hinv].
Qed.

(** What [createInvoice] of [src/unnamed/part_000] writes, table by
    table. *)
Lemma scoped_createInvoice_frame e c req db db' id :
  Scoped.createInvoice_body e c req db = Ok (db', id) ->
  exists row new,
    id = uuid_generate_v4 e
    /\ invoices db !! id = None
    /\ invoices db' = <[id := row]> (invoices db)
    /\ inv_company_id row = c
    /\ parties db' = parties db
    /\ invoice_items db' = invoice_items db ++ new
    /\ Forall (line_priced_from db c id) new
    /\ (forall i, items db' !! i
                  = with_quantity (fun q => q - quantity_on i new)
                      <$> items db !! i).
Proof.
  intros H.
  apply scoped_createInvoice_body_Ok in H
    as (_ & _ & db1 & ls & db2 & tot & Hins & _ & Hloop & Htot).
  apply insert_invoice_Ok in Hins
    as (-> & Hfresh & _ & p & n & st & _ & _ & _ & _ & ->).
  apply create_lines_Ok in Hloop
    as (new & Hitems & Hpar & Hinv & _ & Hnew & _ & Hstock).
  cbn [items parties invoices invoice_items] in *.
  eapply update_invoice_total_Ok in Htot as (_ & ->);
    [| rewrite Hinv; apply lookup_insert_eq | simpl; apply N.eqb_refl].
  eexists. exists new. cbn [items parties invoices invoice_items].
  split; [reflexivity|]. split; [exact Hfresh|].
  split; [rewrite Hinv, insert_insert_eq; reflexivity|].
  split; [reflexivity|]. split; [exact Hpar|]. split; [exact Hitems|].
  split; [|exact Hstock].
  eapply Forall_impl; [exact Hnew|]. intros r Hr. exact Hr.
Qed.

(** A loop that went through wrote lines whose quantities are
    [INTEGER]s. *)
Lemma create_lines_int4 c id ls : forall db tot db' tot',
  Scoped.create_lines c id ls db tot = Ok (db', tot') ->
  exists new, invoice_items db' = invoice_items db ++ new
              /\ Forall (fun r => ii_quantity r <= 2147483647) new.
Proof.
  induction ls as [|l ls IH]; intros db tot db' tot' H; simpl in H.
  - injection H as <- <-. exists []. rewrite app_nil_r. auto.
  - destruct l as [[j|] [q|]]; simpl in H; try discriminate.
    destruct ((q =? 0) || (q <=? 0)) eqn:Hq; [discriminate|].
    destruct (select_item db j c) as [[p s]|] eqn:Hsel; [|discriminate].
    destruct (s <? q) eqn:Hs; [discriminate|].
    destruct (insert_invoice_item db id j q p (p * q)) as [db1|] eqn:H1;
      [|discriminate].
    cbn [bind] in H.
    destruct (decrease_item_quantity db1 q j (Some c)) as [db2|] eqn:H2;
      [|discriminate].
    cbn [bind] in H.
    apply decrease_item_quantity_Ok in H2 as [Hint H2].
    apply update_item_quantity_Ok in H2 as (_ & _ & Hl2 & _).
    apply insert_invoice_item_Ok in H1 as (_ & _ & ->).
    apply IH in H as (new & Hnew & Hall). rewrite Hl2 in Hnew.
    cbn [invoice_items] in Hnew.
    exists (InvoiceItemRow id j q p (p * q) :: new).
    split; [rewrite Hnew, <- app_assoc; reflexivity|].
    constructor; [|exact Hall]. simpl. apply int4_spec in Hint. lia.
Qed.

(** X1.  [src/unnamed/part_000]: deleting an invoice right after
    creating it is answered 200 and gives back the invoices, the lines
    and the parties as they were before it was created, and every item
    with its company, its price and its stock; the stock figures are taken
    within [INTEGER]. *)
Theorem scoped_create_then_delete e c req db db1 resp :
  stock_nonneg db ->
  stock_in_range db ->
  lines_reference_invoices db ->
  Scoped.createInvoice e c req db = (db1, resp) ->
  http_status resp = 201 ->
  exists db2,
    Scoped.deleteInvoice c (uuid_generate_v4 e) db1
    = (db2, Response 200 InvoiceDeleted)
    /\ invoices db2 = invoices db
    /\ invoice_items db2 = invoice_items db
    /\ parties db2 = parties db
    /\ forall i,
         item_company_id <$> items db2 !! i = item_company_id <$> items db !! i
         /\ price_of db2 i = price_of db i
         /\ stock db2 i = stock db i.
Proof.
  intros Hinv Hrange Hfk H Hst.
  apply transaction_success in H as (id & Hbody & _);
    [| intros err; destruct err as [| | | | | | | |[]]; simpl; lia | lia].
  pose proof (scoped_createInvoice_body_stock_nonneg _ _ _ _ _ _ Hbody Hinv)
    as Hinv1.
  assert (exists new', invoice_items db1 = invoice_items db ++ new'
                       /\ Forall (fun r => ii_quantity r <= 2147483647) new')
    as (new' & Hl1' & Hint).
  { apply scoped_createInvoice_body_Ok in Hbody
      as (_ & _ & dbi & ls & dbl & tot & Hins & _ & Hloop & Htot).
    apply create_lines_int4 in Hloop as (new' & Hn & Hall).
    apply update_invoice_total_frame in Htot as (_ & _ & ->).
    apply insert_invoice_fresh in Hins as (r & _ & _ & _ & _ & _ & _ & Hl).
    exists new'. rewrite Hn, Hl. auto. }
  apply scoped_createInvoice_frame in Hbody
    as (row & new & -> & Hfresh & Hv1 & Hc & Hp1 & Hl1 & Hnew & Hstock1).
  assert (new' = new) as ->
    by (rewrite Hl1 in Hl1'; symmetry; eapply app_inv_head, Hl1').
  set (id := uuid_generate_v4 e) in *.
  assert (lines_of db1 id = new) as Hlines.
  { unfold lines_of. rewrite Hl1, filter_app.
    fold (lines_of db id). rewrite (lines_of_fresh _ _ Hfk Hfresh).
    apply filter_all. eapply Forall_impl; [exact Hnew|]. intros r (Hid & _).
    exact Hid. }
  assert (select_invoice db1 id c = Some row) as Hsel.
  { unfold select_invoice. rewrite Hv1, lookup_insert_eq, Hc, N.eqb_refl.
    reflexivity. }
  destruct (return_lines_succeed c (lines_of db1 id) db1 Hinv1) as [db2 Hret].
  { rewrite Hlines. apply Forall_forall. intros r Hr.
    pose proof (proj1 (Forall_forall _ _) Hnew r Hr) as (_ & Hq & _).
    pose proof (proj1 (Forall_forall _ _) Hint r Hr) as Hmax.
    cbv beta in Hmax. lia. }
  { intros i it Hit. rewrite Hlines. rewrite Hstock1 in Hit.
    destruct (items db !! i) as [it0|] eqn:Hit0; [|discriminate].
    injection Hit as <-. simpl. specialize (Hrange _ _ Hit0). lia. }
  assert (Scoped.deleteInvoice_body c id db1
          = Ok (delete_invoice (delete_invoice_items_using db2 id c) id (Some c),
                tt)) as Hdel.
  { unfold Scoped.deleteInvoice_body. rewrite Hsel.
    unfold mbind, result_bind.
    change (select_invoice_items db1 id)
      with ((fun r => (ii_item_id r, ii_quantity r)) <$> lines_of db1 id).
    rewrite Hret. reflexivity. }
  unfold Scoped.deleteInvoice. rewrite Hdel. cbn [transaction].
  apply scoped_deleteInvoice_restores in Hdel as (Hv & Hl & Hp & Hstock).
  set (db3 := delete_invoice (delete_invoice_items_using db2 id c) id (Some c))
    in *.
  exists db3. split; [reflexivity|].
  assert (items db3 = items db) as Hi.
  { apply map_eq. intros i. rewrite Hstock, Hstock1, Hlines.
    destruct (items db !! i) as [[ci pi qi]|] eqn:Hit; [|reflexivity].
    cbn [fmap option_fmap option_map with_quantity item_company_id item_price
           item_quantity].
    unfold restocked, with_quantity.
    cbn [item_company_id item_price item_quantity].
    destruct (N.eqb_spec ci c) as [->|Hne].
    - do 2 f_equal. lia.
    - do 2 f_equal. replace (quantity_on i new) with 0; [lia|].
      symmetry. unfold quantity_on. rewrite filter_none; [reflexivity|].
      eapply Forall_impl; [exact Hnew|].
      intros r (_ & _ & _ & it & Hr & Hcr & _) Hri. rewrite Hri, Hit in Hr.
      injection Hr as <-. simpl in Hcr. congruence. }
  split; [rewrite Hv, Hv1, delete_insert_eq; apply delete_id, Hfresh|].
  split.
  { rewrite Hl, Hl1, filter_app.
    rewrite (filter_none _ new), app_nil_r.
    - apply filter_all, Forall_forall. intros r Hr Hid.
      destruct (Hfk r Hr) as [x Hx]. congruence.
    - eapply Forall_impl; [exact Hnew|]. intros r (Hid & _) Hn. contradiction. }
  split; [congruence|].
  intros i. unfold price_of, stock. rewrite Hi. auto.
Qed.

(** ** Stock through [updateInvoice] on an invoice with one line per item *)

Lemma Map_set_fresh k v m : k ∉ m.*1 -> Map_set k v m = m ++ [(k, v)].
Proof.
  induction m as [|[k' v'] m IH]; intros Hk; [reflexivity|].
  rewrite fmap_cons in Hk. apply not_elem_of_cons in Hk as [Hne Hk].
  cbn [Map_set fst] in *. destruct (N.eqb_spec k k') as [->|_]; [contradiction|].
  rewrite (IH Hk). reflexivity.
Qed.

Lemma Map_fold_fresh es : forall m,
  NoDup (m.*1 ++ es.*1) ->
  fold_left (fun m e => Map_set (fst e) (snd e) m) es m = m ++ es.
Proof.
  induction es as [|[k v] es IH]; intros m Hnd; cbn [fold_left fst snd].
  - rewrite app_nil_r. reflexivity.
  - rewrite fmap_cons in Hnd. cbn [fst] in Hnd.
    rewrite Map_set_fresh.
    + rewrite IH; [rewrite <- app_assoc; reflexivity|].
      rewrite fmap_app. cbn [fmap list_fmap fst]. rewrite <- app_assoc. exact Hnd.
    + apply NoDup_app in Hnd as (_ & Hdisj & _). intros Hin.
      apply (Hdisj k Hin). apply list_elem_of_here.
Qed.

Lemma Map_new_NoDup es : NoDup es.*1 -> Map_new es = es.
Proof. intros Hnd. unfold Map_new. rewrite Map_fold_fresh; auto. Qed.

Lemma quantity_on_absent i rows :
  i ∉ ii_item_id <$> rows -> quantity_on i rows = 0.
Proof.
  intros Hi. unfold quantity_on. rewrite filter_none; [reflexivity|].
  apply Forall_forall. intros r Hr Hri. apply Hi.
  apply list_elem_of_fmap. exists r. auto.
Qed.

Lemma get_or_0_pairs i rows :
  NoDup (ii_item_id <$> rows) ->
  get_or_0 i ((fun r => (ii_item_id r, ii_quantity r)) <$> rows)
  = quantity_on i rows.
Proof.
  induction rows as [|r rows IH]; intros Hnd; [reflexivity|].
  rewrite fmap_cons in Hnd. apply NoDup_cons in Hnd as [Hr Hnd].
  rewrite fmap_cons, quantity_on_cons. unfold get_or_0 in *. cbn [Map_get].
  destruct (N.eqb_spec i (ii_item_id r)) as [->|Hne].
  - rewrite decide_True by reflexivity. rewrite (quantity_on_absent _ _ Hr).
    destruct (ii_quantity r =? 0) eqn:Hq; zbool; lia.
  - rewrite decide_False by congruence. rewrite (IH Hnd). lia.
Qed.

(** What the map still holds for an item after the loop: the quantity of
    its lines if no payload line mentioned it. *)
Lemma left_in_map i (mentioned : list (option N)) rows :
  sum_of snd
    (filter (fun kv => fst kv = i)
       (filter (fun kv => Some (fst kv) ∉ mentioned)
          ((fun r => (ii_item_id r, ii_quantity r)) <$> rows)))
  = if decide (Some i ∈ mentioned) then 0 else quantity_on i rows.
Proof.
  destruct (decide (Some i ∈ mentioned)) as [Hm|Hm];
    (induction rows as [|r rows IH]; [reflexivity|]);
    rewrite fmap_cons, ?quantity_on_cons, filter_cons; cbn [fst];
    destruct (decide (Some (ii_item_id r) ∉ mentioned)) as [Hout|Hin];
    rewrite ?filter_cons; cbn [fst];
    destruct (decide (ii_item_id r = i)) as [Heq|Hne];
    rewrite ?sum_of_cons, IH; cbn [snd]; try lia.
  - rewrite Heq in Hout. contradiction.
  - apply dec_stable in Hin. rewrite Heq in Hin. contradiction.
Qed.

Lemma scoped_remove_lines_stock c id entries : forall db db',
  Scoped.remove_lines c id entries db = Ok db' ->
  forall i, items db' !! i
            = restocked c (sum_of snd (filter (fun kv => fst kv = i) entries))
                <$> items db !! i.
Proof.
  induction entries as [|[k v] entries IH]; intros db db' H i; simpl in H.
  - injection H as <-. cbn [filter list_filter]. rewrite sum_of_nil.
    destruct (items db !! i) as [[ci pi qi]|]; [|reflexivity].
    unfold restocked, with_quantity. simpl.
    destruct (N.eqb ci c); [|reflexivity]. do 2 f_equal. lia.
  - destruct (increase_item_quantity (delete_invoice_item db id k) v k (Some c))
      as [db1|] eqn:H1; [|discriminate].
    simpl in H. rewrite (IH _ _ H i). rewrite filter_cons. cbn [fst].
    apply increase_item_quantity_Ok in H1 as [_ H1].
    apply update_item_quantity_Ok in H1
      as (_ & _ & _ & [(it & Hit & Hin & _ & Hitems) | [-> Hout]]);
      cbn [items delete_invoice_item] in *.
    + rewrite Hitems. destruct (decide (k = i)) as [->|Hne].
      * rewrite lookup_insert_eq, Hit, sum_of_cons. cbn [snd]. simpl.
        simpl in Hin. unfold restocked, with_quantity. simpl. rewrite Hin.
        do 2 f_equal. lia.
      * rewrite lookup_insert_ne by exact Hne. reflexivity.
    + destruct (decide (k = i)) as [->|Hne]; [|reflexivity].
      destruct (items db !! i) as [it|] eqn:Hit; [|reflexivity].
      simpl. specialize (Hout it eq_refl). simpl in Hout.
      unfold restocked. rewrite Hout. reflexivity.
Qed.

(** A loop that went through mentioned only items of the company. *)
Lemma update_lines_mentions_company c id ls : forall db m tot r i,
  Scoped.update_lines c id ls db m tot = Ok r ->
  Some i ∈ line_item_id <$> ls ->
  exists it, items db !! i = Some it /\ item_company_id it = c.
Proof.
  induction ls as [|l ls IH]; intros db m tot r i H Hin.
  - apply elem_of_nil in Hin as [].
  - simpl in H. destruct l as [[j|] [q|]]; simpl in H; try discriminate.
    destruct ((q =? 0) || (q <=? 0)); [discriminate|].
    destruct (select_item db j c) as [[p s]|] eqn:Hsel; [|discriminate].
    destruct ((0 <? q - get_or_0 j m) && (s <? q - get_or_0 j m));
      [discriminate|].
    destruct (if Map_has j m
              then update_invoice_item db q p (p * q) id j
              else insert_invoice_item db id j q p (p * q)) as [db1|] eqn:H1;
      [|discriminate].
    simpl in H.
    destruct (decrease_item_quantity db1 (q - get_or_0 j m) j (Some c))
      as [db2|] eqn:H2; [|discriminate].
    simpl in H.
    destruct (update_step_write _ _ _ _ _ _ _ _ _ _ Hsel H1)
      as (Hi1 & _ & _ & Hsel1).
    eapply (decrease_after_select _ j c p s) in H2 as (_ & ->);
      [|exact Hsel1|right; reflexivity].
    pose proof (select_item_Some _ _ _ _ _ Hsel) as (it & Hit & Hc & _).
    rewrite fmap_cons in Hin. apply elem_of_cons in Hin as [[= ->]|Hin].
    + exists it. auto.
    + destruct (IH _ _ _ _ i H Hin) as (it' & Hit' & Hc').
      cbn [items] in Hit'. rewrite Hi1 in Hit'.
      destruct (decide (j = i)) as [->|Hne].
      * exists it. auto.
      * rewrite lookup_insert_ne in Hit' by exact Hne. exists it'. auto.
Qed.

(** [src/unnamed/part_000], on an invoice with one line per item: after
    a successful update with the payload [ls] every item of the company
    has its stock lowered by what the payload asks of it and raised by
    what the invoice's line held of it, so an item left out of the
    payload gets its whole line quantity back. *)
Lemma scoped_updateInvoice_stock e c id req db db' u ls :
  one_line_per_item db id ->
  Scoped.updateInvoice_body e c id req db = Ok (db', u) ->
  ub_items req = Some ls ->
  forall i, items db' !! i
            = restocked c (quantity_on i (lines_of db id) - quantity_wanted i ls)
                <$> items db !! i.
Proof.
  intros Hone H Hls i. unfold Scoped.updateInvoice_body in H.
  destruct (select_invoice db id c) as [inv0|]; [|discriminate].
  destruct (match ub_party_id req with given _ => _ | _ => false end);
    [discriminate|].
  unfold mbind, result_bind in H.
  destruct (update_invoice_meta _ _ _ _ _ _ _) as [db1|] eqn:Hmeta;
    [|discriminate].
  simpl in H.
  apply update_invoice_meta_frame in Hmeta as (Hi1 & _ & Hl1 & _).
  rewrite Hls in H. rewrite (select_invoice_items_same _ _ _ Hl1) in H.
  change (select_invoice_items db id)
    with ((fun r => (ii_item_id r, ii_quantity r)) <$> lines_of db id) in H.
  rewrite Map_new_NoDup in H
    by (rewrite <- list_fmap_compose; exact Hone).
  destruct (Scoped.update_lines _ _ _ _ _ _) as [[[db2 m2] tot]|] eqn:Hloop;
    [|discriminate].
  simpl in H.
  destruct (Scoped.remove_lines _ _ _ _) as [db3|] eqn:Hrem; [|discriminate].
  simpl in H.
  destruct (update_invoice_total _ _ _ _ _) as [db4|] eqn:Htot; [|discriminate].
  simpl in H. injection H as <- _.
  apply update_invoice_total_frame in Htot as (-> & _).
  rewrite (scoped_remove_lines_stock _ _ _ _ _ Hrem i).
  pose proof (update_lines_mentions_company _ _ _ _ _ _ _ i Hloop) as Hment.
  apply update_lines_stock in Hloop as (-> & _ & _ & Hstock).
  rewrite Hstock, Hi1, left_in_map. unfold net_decrease.
  rewrite (get_or_0_pairs i _ Hone).
  destruct (items db !! i) as [[ci pi qi]|] eqn:Hit; [|reflexivity].
  cbn [fmap option_fmap option_map]. unfold restocked, with_quantity.
  cbn [item_company_id item_price item_quantity].
  destruct (decide (Some i ∈ line_item_id <$> ls)) as [Hin|Hout].
  - destruct (Hment Hin) as (it & Hit' & Hc).
    rewrite Hi1, Hit in Hit'. injection Hit' as <-. simpl in Hc. subst ci.
    rewrite N.eqb_refl. do 2 f_equal. lia.
  - assert (quantity_wanted i ls = 0) as ->.
    { unfold quantity_wanted. rewrite filter_none; [reflexivity|].
      apply Forall_forall. intros l Hl Hli. apply Hout.
      apply list_elem_of_fmap. exists l. auto. }
    destruct (N.eqb ci c); do 2 f_equal; lia.
Qed.

(** ** The sample data satisfies the schema *)

Import Sample.

Lemma sample_stock_nonneg : stock_nonneg db0.
Proof.
  intros i r H. unfold db0 in H. cbn [items] in H.
  repeat (rewrite lookup_insert in H;
          destruct (decide _); [injection H as <-; simpl; lia|]).
  rewrite lookup_empty in H. discriminate.
Qed.

Lemma sample_lines_reference_invoices : lines_reference_invoices db0.
Proof. intros r Hr. apply elem_of_nil in Hr as []. Qed.

Lemma sample_header_acceptable ls :
  header_acceptable e0 db0 1%N (create_with 10%N ls).
Proof.
  split; [reflexivity|]. split; [eexists; split; reflexivity|].
  split; [reflexivity|]. split; [discriminate|].
  split; [exact I | reflexivity].
Qed.

Lemma sample_well_formed i q p s :
  0 < q -> select_item db0 i 1%N = Some (p, s) -> 0 <= p ->
  numeric 10 p = true -> numeric 12 (p * q) = true ->
  well_formed_line db0 1%N (ln i q).
Proof.
  intros Hq Hsel Hp Hp10 Hp12. exists i, q, p, s. repeat split; auto.
Qed.

Lemma sample_stock_in_range : stock_in_range db0.
Proof.
  intros i r H. unfold db0 in H. cbn [items] in H.
  repeat (rewrite lookup_insert in H;
          destruct (decide _); [injection H as <-; simpl; lia|]).
  rewrite lookup_empty in H. discriminate.
Qed.

Lemma sample_not_overdrawn ls :
  quantity_wanted 100%N ls <= 10 -> quantity_wanted 101%N ls <= 5 ->
  quantity_wanted 200%N ls <= 3 ->
  ~ overdraws db0 (CreateInvoice e0 1%N (create_with 10%N ls)).
Proof.
  intros H100 H101 H200 (i & it & Hit & Hlt). unfold db0 in Hit.
  cbn [items] in Hit. cbn [create_with cb_items lines_given] in Hlt.
  repeat (rewrite lookup_insert in Hit;
          destruct (decide _) as [<-|_]; [injection Hit as <-; simpl in Hlt; lia|]).
  rewrite lookup_empty in Hit. discriminate.
Qed.

(** ** Closed instances *)

(** C1 at work: invoice 500 for 4 units of item 100. *)
Lemma createInvoice_total_and_stock_witness :
  lines_reference_invoices db0
  /\ Scoped.createInvoice e0 1%N (create_with 10%N [ln 100%N 4]) db0
     = (db_one_line, Response 201 (InvoiceCreated 500%N))
  /\ created db0 1%N (create_with 10%N [ln 100%N 4]) db_one_line 500%N.
Proof.
  split; [exact sample_lines_reference_invoices|].
  split; [vm_compute; reflexivity|].
  refine (proj2 (createInvoice_total_and_stock e0 1%N
                   (create_with 10%N [ln 100%N 4]) db0 db_one_line
                   (Response 201 (InvoiceCreated 500%N))
                   sample_lines_reference_invoices (or_introl _) _)).
  - vm_compute. reflexivity.
  - reflexivity.
Defined.

(** C2 fails as stated.  Item 100 costs 99999999.99 and has 200 in
    stock; item 101 has 5.  A request for 101 units of item 100 and 100
    units of item 101, with nothing wrong in its header, its quantities or
    its items, overdraws item 101; it is answered by the [INSERT] of the
    first line, whose total does not fit [NUMERIC(12,2)], not by
    'Insufficient stock'.  Likewise a request that overdraws item 101 under
    an invoice number of 51 characters is answered by the [INSERT] of the
    invoice. *)
Lemma overdraw_answered_by_storage_error :
  stock db_costly 100%N = Some 200
  /\ price_of db_costly 100%N = Some 9999999999
  /\ stock db_costly 101%N = Some 5
  /\ overdraws db_costly
       (CreateInvoice e0 1%N (create_with 10%N [ln 100%N 101; ln 101%N 100]))
  /\ Scoped.createInvoice e0 1%N (create_with 10%N [ln 100%N 101; ln 101%N 100])
       db_costly
     = (db_costly,
        Response 400 (ErrorMessage (DatabaseError numeric_value_out_of_range)))
  /\ Plain.createInvoice e0 1%N (create_with 10%N [ln 100%N 101; ln 101%N 100])
       db_costly
     = (db_costly,
        Response 400 (ErrorMessage (DatabaseError numeric_value_out_of_range)))
  /\ ~ insufficient_stock_reply
         (snd (Scoped.createInvoice e0 1%N
                 (create_with 10%N [ln 100%N 101; ln 101%N 100]) db_costly))
  /\ String.length long_number = 51%nat
  /\ overdraws db0
       (CreateInvoice e0 1%N
          (CreateBody (Some 10%N) (Some long_number) absent
             (items_given [ln 101%N 100]) None))
  /\ Scoped.createInvoice e0 1%N
       (CreateBody (Some 10%N) (Some long_number) absent
          (items_given [ln 101%N 100]) None) db0
     = (db0,
        Response 400 (ErrorMessage (DatabaseError string_data_right_truncation)))
  /\ Plain.createInvoice e0 1%N
       (CreateBody (Some 10%N) (Some long_number) absent
          (items_given [ln 101%N 100]) None) db0
     = (db0,
        Response 400 (ErrorMessage (DatabaseError string_data_right_truncation))).
Proof.
  split; [vm_compute; reflexivity|]. split; [vm_compute; reflexivity|].
  split; [vm_compute; reflexivity|].
  split.
  { exists 101%N, (ItemRow 1 250 5). split; [vm_compute; reflexivity|].
    vm_compute. reflexivity. }
  split; [vm_compute; reflexivity|]. split; [vm_compute; reflexivity|].
  split; [intros [j Hj]; vm_compute in Hj; discriminate|].
  split; [reflexivity|].
  split.
  { exists 101%N, (ItemRow 1 250 5). split; [reflexivity|].
    vm_compute. reflexivity. }
  split; vm_compute; reflexivity.
Qed.

(** C2 at work: invoice 500 is reached from the sample catalog and keeps
    stock non-negative; a request for 11 units of item 100 against 10 in
    stock, nothing else being wrong with it, is answered 'Insufficient
    stock' and changes nothing. *)
Lemma stock_never_negative_witness :
  stock_nonneg db0
  /\ reachable run_scoped db0 db_one_line
  /\ stock_nonneg db_one_line
  /\ fst (run_scoped (CreateInvoice e0 1%N (create_with 10%N [ln 100%N 11])) db0)
     = db0
  /\ insufficient_stock_reply
       (snd (run_scoped (CreateInvoice e0 1%N (create_with 10%N [ln 100%N 11]))
               db0)).
Proof.
  split; [exact sample_stock_nonneg|].
  assert (reachable run_scoped db0 db_one_line) as Hreach.
  { exact (reachable_step run_scoped db0 db0
             (CreateInvoice e0 1%N (create_with 10%N [ln 100%N 4]))
             (reachable_init run_scoped db0)). }
  split; [exact Hreach|].
  split.
  { exact (proj1 (proj1 (stock_never_negative db0 db_one_line
                           (DeleteInvoice 1%N 500%N) sample_stock_nonneg)
                    Hreach)). }
  destruct (proj1 (stock_never_negative db0 db0
                     (CreateInvoice e0 1%N (create_with 10%N [ln 100%N 11]))
                     sample_stock_nonneg) (reachable_init run_scoped db0))
    as (_ & _ & Hsame & Hfails & Hreply).
  assert (overdraws db0
            (CreateInvoice e0 1%N (create_with 10%N [ln 100%N 11]))) as Hover.
  { exists 100%N, (ItemRow 1 10000 10). split; [reflexivity|].
    vm_compute. reflexivity. }
  split; [exact (Hsame (Hfails Hover))|].
  apply (Hreply Hover). split; [apply sample_header_acceptable|].
  split; [exact sample_stock_in_range|].
  eexists. split; [reflexivity|]. constructor; [|constructor].
  apply (sample_well_formed 100%N 11 10000 10);
    [lia | reflexivity | lia | reflexivity | reflexivity].
Defined.

(** C3 fails in [src/controllers/invoiceController.js]: its
    [deleteInvoice] never writes to [items], so the 4 units invoice 500
    took from item 100 (10 before the invoice, 6 after) are still missing
    once the invoice and its line are gone; the revision in
    [src/unnamed/part_000] gives them back. *)
Theorem plain_deleteInvoice_leaves_stock_short :
  (forall c id db, items (fst (Plain.deleteInvoice c id db)) = items db)
  /\ stock db0 100%N = Some 10
  /\ Plain.createInvoice e0 1%N (create_with 10%N [ln 100%N 4]) db0
     = (db_one_line, Response 201 (InvoiceCreated 500%N))
  /\ stock db_one_line 100%N = Some 6
  /\ snd (Plain.deleteInvoice 1%N 500%N db_one_line)
     = Response 200 InvoiceDeleted
  /\ invoices (fst (Plain.deleteInvoice 1%N 500%N db_one_line)) !! 500%N = None
  /\ lines_of (fst (Plain.deleteInvoice 1%N 500%N db_one_line)) 500%N = []
  /\ stock (fst (Plain.deleteInvoice 1%N 500%N db_one_line)) 100%N = Some 6
  /\ stock (fst (Scoped.deleteInvoice 1%N 500%N db_one_line)) 100%N = Some 10.
Proof.
  split; [exact plain_deleteInvoice_items|].
  repeat split; vm_compute; reflexivity.
Qed.

(** C4 fails as stated: invoice 500 holds item 100 at 100.00; the
    catalog price is then raised to 150.00; an update of the quantity
    from 4 to 2 (answered 200) stores 150.00 as [price_at_purchase]. *)
Lemma updateInvoice_overwrites_price :
  snd (ItemController.updateItem 1%N 100%N (Some 15000) None db_one_line) = 200
  /\ (fun r => (ii_item_id r, ii_quantity r, ii_price_at_purchase r))
       <$> lines_of db_repriced 500%N = [(100%N, 4, 10000)]
  /\ snd (Scoped.updateInvoice e1 1%N 500%N (update_with [ln 100%N 2]) db_repriced)
     = Response 200 InvoiceUpdated
  /\ (fun r => (ii_item_id r, ii_quantity r, ii_price_at_purchase r))
       <$> lines_of (fst (Scoped.updateInvoice e1 1%N 500%N
                            (update_with [ln 100%N 2]) db_repriced)) 500%N
     = [(100%N, 2, 15000)]
  /\ snd (Plain.updateInvoice e1 1%N 500%N (update_with [ln 100%N 2]) db_repriced)
     = Response 200 InvoiceUpdated
  /\ (fun r => (ii_item_id r, ii_quantity r, ii_price_at_purchase r))
       <$> lines_of (fst (Plain.updateInvoice e1 1%N 500%N
                            (update_with [ln 100%N 2]) db_repriced)) 500%N
     = [(100%N, 2, 15000)].
Proof. repeat split; vm_compute; reflexivity. Qed.

(** C4 at work: the line stored by that update carries the catalog
    price. *)
Lemma updateInvoice_reprices_witness :
  Scoped.updateInvoice e1 1%N 500%N (update_with [ln 100%N 2]) db_repriced
  = (fst (Scoped.updateInvoice e1 1%N 500%N (update_with [ln 100%N 2]) db_repriced),
     Response 200 InvoiceUpdated)
  /\ InvoiceItemRow 500 100 2 15000 30000
     ∈ lines_of (fst (Scoped.updateInvoice e1 1%N 500%N
                        (update_with [ln 100%N 2]) db_repriced)) 500%N
  /\ price_of db_repriced 100%N = Some 15000.
Proof.
  assert (Scoped.updateInvoice e1 1%N 500%N (update_with [ln 100%N 2]) db_repriced
          = (fst (Scoped.updateInvoice e1 1%N 500%N (update_with [ln 100%N 2])
                    db_repriced), Response 200 InvoiceUpdated)) as Hrun.
  { vm_compute. reflexivity. }
  assert (InvoiceItemRow 500 100 2 15000 30000
          ∈ lines_of (fst (Scoped.updateInvoice e1 1%N 500%N
                             (update_with [ln 100%N 2]) db_repriced)) 500%N)
    as Hin.
  { vm_compute. apply list_elem_of_here. }
  split; [exact Hrun|]. split; [exact Hin|].
  exact (proj1 (proj2 (updateInvoice_reprices e1 1%N 500%N
                         (update_with [ln 100%N 2]) db_repriced _ _
                         [ln 100%N 2] _ (or_introl Hrun) eq_refl eq_refl Hin))).
Defined.

(** C5 fails on an invoice that holds an item on two lines, a state
    [createInvoice] produces from a list that repeats the item.  In
    [src/unnamed/part_000] an update with an empty list deletes both
    lines of item 100 (2 and 3 units) but returns 3 units: stock goes
    from 5 to 8, not to the 10 there were.  In
    [src/controllers/invoiceController.js] an update to 4 units rewrites
    both lines and stores 400.00 as total against 800.00 of stored
    lines. *)
Theorem updateInvoice_repeated_item_drift :
  Scoped.createInvoice e0 1%N (create_with 10%N [ln 100%N 2; ln 100%N 3]) db0
  = (db_two_lines, Response 201 (InvoiceCreated 500%N))
  /\ Plain.createInvoice e0 1%N (create_with 10%N [ln 100%N 2; ln 100%N 3]) db0
     = (db_two_lines, Response 201 (InvoiceCreated 500%N))
  /\ stock db0 100%N = Some 10
  /\ stock db_two_lines 100%N = Some 5
  /\ snd (Scoped.updateInvoice e1 1%N 500%N (update_with []) db_two_lines)
     = Response 200 InvoiceUpdated
  /\ lines_of (fst (Scoped.updateInvoice e1 1%N 500%N (update_with [])
                      db_two_lines)) 500%N = []
  /\ stock (fst (Scoped.updateInvoice e1 1%N 500%N (update_with [])
                   db_two_lines)) 100%N = Some 8
  /\ snd (Plain.updateInvoice e1 1%N 500%N (update_with [ln 100%N 4]) db_two_lines)
     = Response 200 InvoiceUpdated
  /\ inv_total_amount
       <$> invoices (fst (Plain.updateInvoice e1 1%N 500%N
                            (update_with [ln 100%N 4]) db_two_lines)) !! 500%N
     = Some 40000
  /\ sum_of ii_total_line_amount
       (lines_of (fst (Plain.updateInvoice e1 1%N 500%N
                         (update_with [ln 100%N 4]) db_two_lines)) 500%N)
     = 80000.
Proof. repeat split; vm_compute; reflexivity. Qed.

(** C6 fails as stated: the list holds a line with quantity 0, yet
    the call is answered by the stock check of the line before it, which
    is not a validation error. *)
Lemma bad_quantity_answered_by_stock_check :
  bad_quantity (line_quantity (ln 100%N 0)) = true
  /\ Scoped.createInvoice e0 1%N (create_with 10%N [ln 101%N 100; ln 100%N 0]) db0
     = (db0, Response 400 (ErrorMessage (InsufficientStock (Some 101%N))))
  /\ Plain.createInvoice e0 1%N (create_with 10%N [ln 101%N 100; ln 100%N 0]) db0
     = (db0, Response 400 (ErrorMessage (InsufficientStock (Some 101%N))))
  /\ is_validation_error (InsufficientStock (Some 101%N)) = false.
Proof. repeat split; vm_compute; reflexivity. Qed.

(** C6 at work: a line with quantity 0 after an acceptable line. *)
Lemma createInvoice_bad_quantity_witness :
  cb_items (create_with 10%N [ln 101%N 1; ln 100%N 0])
  = items_given ([ln 101%N 1] ++ ln 100%N 0 :: [])
  /\ bad_quantity (line_quantity (ln 100%N 0)) = true
  /\ fst (Scoped.createInvoice e0 1%N
            (create_with 10%N [ln 101%N 1; ln 100%N 0]) db0) = db0
  /\ snd (Scoped.createInvoice e0 1%N
            (create_with 10%N [ln 101%N 1; ln 100%N 0]) db0)
     = Response 400 (ErrorMessage (InvalidQuantity (Some 100%N)))
  /\ snd (Plain.createInvoice e0 1%N
            (create_with 10%N [ln 101%N 1; ln 100%N 0]) db0)
     = Response 400 (ErrorMessage (InvalidQuantity (Some 100%N))).
Proof.
  pose proof (createInvoice_bad_quantity e0 1%N
                (create_with 10%N [ln 101%N 1; ln 100%N 0]) db0
                [ln 101%N 1] (ln 100%N 0) [] eq_refl eq_refl)
    as [Hfail [Hscoped Hplain]].
  split; [reflexivity|]. split; [reflexivity|].
  split; [exact (proj1 Hfail)|].
  split; [apply Hscoped | apply Hplain]; vm_compute; reflexivity.
Defined.

(** C7 fails in [src/controllers/invoiceController.js]: company 1 names
    party 20, which belongs to company 2, and the invoice is committed
    with that party; the revision in [src/unnamed/part_000] answers
    'Party not found for this company' and writes nothing. *)
Theorem plain_createInvoice_attaches_foreign_party :
  party_company_id <$> parties db0 !! 20%N = Some 2%N
  /\ snd (Plain.createInvoice e0 1%N (create_with 20%N [ln 100%N 1]) db0)
     = Response 201 (InvoiceCreated 500%N)
  /\ (fun r => (inv_company_id r, inv_party_id r))
       <$> invoices (fst (Plain.createInvoice e0 1%N
                            (create_with 20%N [ln 100%N 1]) db0)) !! 500%N
     = Some (1%N, 20%N)
  /\ stock (fst (Plain.createInvoice e0 1%N
                   (create_with 20%N [ln 100%N 1]) db0)) 100%N = Some 9
  /\ Scoped.createInvoice e0 1%N (create_with 20%N [ln 100%N 1]) db0
     = (db0, Response 400 (ErrorMessage PartyNotFound)).
Proof. repeat split; vm_compute; reflexivity. Qed.

(** C8 fails as stated: a list that names item 100 twice is
    accepted by both revisions and stored as two lines. *)
Lemma createInvoice_accepts_repeated_item :
  Scoped.createInvoice e0 1%N (create_with 10%N [ln 100%N 2; ln 100%N 3]) db0
  = (db_two_lines, Response 201 (InvoiceCreated 500%N))
  /\ Plain.createInvoice e0 1%N (create_with 10%N [ln 100%N 2; ln 100%N 3]) db0
     = (db_two_lines, Response 201 (InvoiceCreated 500%N))
  /\ (fun r => (ii_item_id r, ii_quantity r)) <$> lines_of db_two_lines 500%N
     = [(100%N, 2); (100%N, 3)]
  /\ (fun r => (ii_item_id r, ii_quantity r))
       <$> lines_of (fst (Scoped.updateInvoice e1 1%N 500%N
                            (update_with [ln 101%N 1; ln 101%N 2])
                            db_one_line)) 500%N
     = [(101%N, 1); (101%N, 2)].
Proof. repeat split; vm_compute; reflexivity. Qed.

(** C8 at work: item 100 on two lines of a new invoice, item 101 on two
    lines of an updated one. *)
Lemma repeated_items_become_lines_witness :
  lines_reference_invoices db0
  /\ Scoped.createInvoice e0 1%N (create_with 10%N [ln 100%N 2; ln 100%N 3]) db0
     = (db_two_lines, Response 201 (InvoiceCreated 500%N))
  /\ (fun r => (Some (ii_item_id r), Some (ii_quantity r)))
       <$> lines_of db_two_lines 500%N
     = [(Some 100%N, Some 2); (Some 100%N, Some 3)]
  /\ (forall r, r ∈ lines_of db_one_line 500%N -> ii_item_id r <> 101%N)
  /\ exists r,
      r ∈ lines_of (fst (Scoped.updateInvoice e1 1%N 500%N
                           (update_with [ln 101%N 1; ln 101%N 2]) db_one_line))
            500%N
      /\ ii_item_id r = 101%N /\ ii_quantity r = 2.
Proof.
  assert (forall r, r ∈ lines_of db_one_line 500%N -> ii_item_id r <> 101%N)
    as Hnone.
  { intros r Hr. vm_compute in Hr. apply list_elem_of_singleton in Hr as ->.
    discriminate. }
  destruct repeated_items_become_lines as [Hcreate Hupdate].
  split; [exact sample_lines_reference_invoices|].
  split; [vm_compute; reflexivity|].
  split.
  { apply (Hcreate e0 1%N (create_with 10%N [ln 100%N 2; ln 100%N 3]) db0
             db_two_lines (Response 201 (InvoiceCreated 500%N))
             sample_lines_reference_invoices).
    - left. vm_compute. reflexivity.
    - reflexivity. }
  split; [exact Hnone|].
  apply (Hupdate e1 1%N 500%N (update_with [ln 101%N 1; ln 101%N 2])
           db_one_line _ (Response 200 InvoiceUpdated)
           [ln 101%N 1; ln 101%N 2] 101%N 2).
  - left. vm_compute. reflexivity.
  - reflexivity.
  - reflexivity.
  - apply list_elem_of_further, list_elem_of_here.
  - exact Hnone.
Defined.

(** C9 fails as stated: the second call at a later time leaves
    another database than the first, the invoice's [updated_at] having
    moved from 2000 to 3000. *)
Lemma updateInvoiceStatus_second_call_restamps :
  snd (Scoped.updateInvoiceStatus e1 1%N 500%N (Some "paid"%string) db_one_line)
  = snd (Plain.updateInvoiceStatus e1 1%N 500%N (Some "paid"%string) db_one_line)
  /\ inv_updated_at
       <$> invoices (fst (Scoped.updateInvoiceStatus e1 1%N 500%N
                            (Some "paid"%string) db_one_line)) !! 500%N
     = Some 2000
  /\ inv_updated_at
       <$> invoices
             (fst (Scoped.updateInvoiceStatus e2 1%N 500%N (Some "paid"%string)
                     (fst (Scoped.updateInvoiceStatus e1 1%N 500%N
                             (Some "paid"%string) db_one_line)))) !! 500%N
     = Some 3000
  /\ fst (Scoped.updateInvoiceStatus e2 1%N 500%N (Some "paid"%string)
            (fst (Scoped.updateInvoiceStatus e1 1%N 500%N (Some "paid"%string)
                    db_one_line)))
     <> fst (Scoped.updateInvoiceStatus e1 1%N 500%N (Some "paid"%string)
               db_one_line).
Proof.
  split; [reflexivity|]. split; [vm_compute; reflexivity|].
  split; [vm_compute; reflexivity|].
  intros H.
  apply (f_equal (fun d => inv_updated_at <$> invoices d !! 500%N)) in H.
  vm_compute in H. discriminate.
Qed.

(** C9 at work: invoice 500 marked paid twice. *)
Lemma updateInvoiceStatus_twice_witness :
  invoice_status_of_text "paid" = Some paid
  /\ is_Some (select_invoice db_one_line 500%N 1%N)
  /\ fst (Scoped.updateInvoiceStatus e2 1%N 500%N (Some "paid"%string)
            (fst (Scoped.updateInvoiceStatus e1 1%N 500%N (Some "paid"%string)
                    db_one_line)))
     = fst (Scoped.updateInvoiceStatus e2 1%N 500%N (Some "paid"%string)
              db_one_line).
Proof.
  split; [reflexivity|]. split; [eexists; vm_compute; reflexivity|].
  destruct (updateInvoiceStatus_twice e1 e2 1%N 500%N "paid" paid
              (InvoiceRow 1 10 "INV-1" 11 None 40000 draft 1000 1000)
              db_one_line eq_refl)
    as (row1 & _ & _ & _ & _ & _ & Hlast & _).
  - vm_compute. reflexivity.
  - exact Hlast.
Defined.

(** C10 at work: an invoice without lines on the sample catalog. *)
Lemma createInvoice_empty_lines_witness :
  lines_reference_invoices db0
  /\ header_acceptable e0 db0 1%N (create_with 10%N [])
  /\ (exists db' inv,
        Scoped.createInvoice e0 1%N (create_with 10%N []) db0
        = (db', Response 201 (InvoiceCreated 500%N))
        /\ Plain.createInvoice e0 1%N (create_with 10%N []) db0
           = (db', Response 201 (InvoiceCreated 500%N))
        /\ invoices db' !! 500%N = Some inv
        /\ inv_total_amount inv = 0
        /\ lines_of db' 500%N = []
        /\ items db' = items db0)
  /\ http_status
       (snd (Plain.createInvoice e0 1%N
               (with_items (items_given [ln 100%N 4]) (create_with 10%N []))
               db0)) = 201
  /\ http_status (snd (Plain.createInvoice e0 1%N (create_with 10%N []) db0))
     = 201.
Proof.
  destruct (createInvoice_empty_lines e0 1%N (create_with 10%N []) db0
              eq_refl sample_lines_reference_invoices)
    as (Hok & _ & Hany).
  split; [exact sample_lines_reference_invoices|].
  split; [apply sample_header_acceptable|].
  split.
  { destruct (Hok (sample_header_acceptable []))
      as (db' & inv & Hs & Hp & Hinv & Htot & Hlines & _ & Hitems).
    exists db', inv. auto 10. }
  split; [vm_compute; reflexivity|].
  apply (proj2 (Hany [ln 100%N 4])). vm_compute. reflexivity.
Defined.

(** * The rest of the invoice controllers, and their neighbours *)

(** ** What a successful call writes, table by table *)

Lemma update_invoice_meta_Ok e db due party status id c db' inv :
  select_invoice db id c = Some inv ->
  update_invoice_meta e db due party status id c = Ok db' ->
  exists st,
    match status with
    | None => st = inv_status inv
    | Some s => invoice_status_of_text s = Some st
    end
    /\ (forall p, party = given p -> is_Some (parties db !! p))
    /\ db' = Database (items db) (parties db)
               (<[id := InvoiceRow (inv_company_id inv)
                          (default (inv_party_id inv) (value party))
                          (inv_invoice_number inv) (inv_invoice_date inv)
                          (match value due with
                           | Some d => Some d
                           | None => inv_due_date inv
                           end)
                          (inv_total_amount inv) st
                          (inv_created_at inv) (now e)]> (invoices db))
               (invoice_items db).
Proof.
  intros Hsel H. unfold update_invoice_meta, meta_values in H.
  assert (exists st0,
             match status with
             | None => Some None
             | Some s => Some <$> invoice_status_of_text s
             end = Some st0
             /\ match status with
                | None => st0 = None
                | Some s => exists st, st0 = Some st
                                       /\ invoice_status_of_text s = Some st
                end) as (st0 & Hst0 & Hst).
  { destruct status as [s|]; [|eauto].
    destruct (invoice_status_of_text s) as [st|]; [simpl; eauto|].
    destruct due, party; discriminate H. }
  rewrite Hst0 in H.
  assert (exists st,
             default (inv_status inv) st0 = st
             /\ match status with
                | None => st = inv_status inv
                | Some s => invoice_status_of_text s = Some st
                end) as (st & Hdef & Hlabel).
  { destruct status as [s|].
    - destruct Hst as (st & -> & Hst). exists st. auto.
    - subst st0. eexists. split; reflexivity. }
  exists st. split; [exact Hlabel|].
  destruct due as [| |d]; [|discriminate H|];
    (destruct party as [| |p]; [|discriminate H|]);
    cbn [value] in H; rewrite Hsel in H;
    try (destruct (bool_decide (parties db !! p = None)) eqn:Hp;
         [discriminate H|apply bool_decide_eq_false in Hp]);
    injection H as <-; rewrite Hdef;
    (split; [|reflexivity]);
    intros p' Hp'; try discriminate Hp';
    injection Hp' as <-; (destruct (parties db !! p); [eauto|contradiction]).
Qed.

Lemma value_given {A} (x : field A) a : value x = Some a <-> x = given a.
Proof. destruct x; simpl; split; congruence. Qed.

(** The header after the [UPDATE] of [src/unnamed/part_000], which sends
    [due_date || null], [party_id || null] and [status || null]. *)
Lemma scoped_update_invoice_meta_header e db req id c db' inv :
  select_invoice db id c = Some inv ->
  update_invoice_meta e db (or_null (ub_due_date req))
    (or_null (ub_party_id req)) (text_or_null (ub_status req)) id c = Ok db' ->
  exists inv1,
    invoices db' = <[id := inv1]> (invoices db)
    /\ header_updated e req inv inv1
    /\ inv_total_amount inv1 = inv_total_amount inv
    /\ (forall p, ub_party_id req = given p -> is_Some (parties db !! p))
    /\ items db' = items db /\ parties db' = parties db
    /\ invoice_items db' = invoice_items db.
Proof.
  intros Hsel H.
  destruct (update_invoice_meta_Ok _ _ _ _ _ _ _ _ _ Hsel H)
    as (st & Hst & Hfk & ->).
  rewrite !value_or_null.
  eexists. split; [reflexivity|]. cbn [items parties invoice_items].
  split; [|split; [reflexivity|]; split; [|auto]].
  - unfold header_updated. cbn.
    repeat split; auto.
  - intros p Hp. apply Hfk. rewrite Hp. reflexivity.
Qed.

(** The header after the [UPDATE] of
    [src/controllers/invoiceController.js], which sends the fields as
    they came: it goes through only when none is falsy. *)
Lemma plain_update_invoice_meta_header e db req id c db' inv :
  select_invoice db id c = Some inv ->
  update_invoice_meta e db (ub_due_date req) (ub_party_id req) (ub_status req)
    id c = Ok db' ->
  exists inv1,
    invoices db' = <[id := inv1]> (invoices db)
    /\ header_updated e req inv inv1
    /\ inv_total_amount inv1 = inv_total_amount inv
    /\ (forall p, ub_party_id req = given p -> is_Some (parties db !! p))
    /\ items db' = items db /\ parties db' = parties db
    /\ invoice_items db' = invoice_items db.
Proof.
  intros Hsel H.
  destruct (update_invoice_meta_Ok _ _ _ _ _ _ _ _ _ Hsel H)
    as (st & Hst & Hfk & ->).
  eexists. split; [reflexivity|]. cbn [items parties invoice_items].
  split; [|auto]. unfold header_updated. cbn.
  repeat split; auto.
  destruct (ub_status req) as [[|a s]|]; cbn [text_or_null]; auto.
  vm_compute in Hst. discriminate.
Qed.

(** The invoice row after a successful [updateInvoice] of
    [src/unnamed/part_000]: the header as the request asks, and a total
    that is recomputed from the stored lines when lines were sent. *)
Lemma scoped_updateInvoice_row e c id req db db' u :
  Scoped.updateInvoice_body e c id req db = Ok (db', u) ->
  exists inv inv',
    select_invoice db id c = Some inv
    /\ invoices db' = <[id := inv']> (invoices db)
    /\ parties db' = parties db
    /\ header_updated e req inv inv'
    /\ (forall p, ub_party_id req = given p -> select_party db (Some p) c = true)
    /\ match ub_items req with
       | Some _ =>
           inv_total_amount inv' = sum_of ii_total_line_amount (lines_of db' id)
           /\ 0 <= inv_total_amount inv'
       | None =>
           inv_total_amount inv' = inv_total_amount inv
           /\ items db' = items db /\ invoice_items db' = invoice_items db
       end.
Proof.
  intros H. unfold Scoped.updateInvoice_body in H.
  destruct (select_invoice db id c) as [inv|] eqn:Hsel; [|discriminate].
  destruct (match ub_party_id req with given _ => _ | _ => false end) eqn:Hparty;
    [discriminate|].
  unfold mbind, result_bind in H.
  destruct (update_invoice_meta _ _ _ _ _ _ _) as [db1|] eqn:Hmeta;
    [|discriminate].
  cbn [bind] in H.
  destruct (scoped_update_invoice_meta_header _ _ _ _ _ _ _ Hsel Hmeta)
    as (inv1 & Hv1 & Hhead & Htot1 & _ & Hi1 & Hp1 & Hl1).
  assert (forall p, ub_party_id req = given p -> select_party db (Some p) c = true)
    as Hown.
  { intros p Hp. rewrite Hp in Hparty.
    destruct (select_party db (Some p) c); [reflexivity|discriminate Hparty]. }
  pose proof (select_invoice_Some _ _ _ _ Hsel) as (_ & Hc0).
  destruct (ub_items req) as [ls|] eqn:Hls.
  - destruct (Scoped.update_lines _ _ _ _ _ _) as [[[db2 m2] tot]|] eqn:Hloop;
      [|discriminate].
    cbn [bind] in H.
    destruct (Scoped.remove_lines _ _ _ _) as [db3|] eqn:Hrem; [|discriminate].
    cbn [bind] in H.
    destruct (update_invoice_total _ _ _ _ _) as [db4|] eqn:Htot; [|discriminate].
    cbn [bind] in H. injection H as <- _.
    pose proof (update_lines_stock _ _ _ _ _ _ _ _ _ Hloop) as (_ & Hp2 & Hv2 & _).
    apply scoped_remove_lines_rows in Hrem as (_ & Hp3 & Hv3 & _).
    pose proof (update_invoice_total_frame _ _ _ _ _ _ Htot) as (_ & Hp4 & Hl4).
    destruct Hhead as (Hc1 & Hn1 & Hd1 & Hcr1 & Hu1 & Hpa1 & Hdu1 & Hs1).
    eapply update_invoice_total_Ok in Htot as (Hge & ->);
      [| rewrite Hv3, Hv2, Hv1; apply lookup_insert_eq
       | simpl; rewrite Hc1, Hc0; apply N.eqb_refl].
    eexists inv, _. split; [reflexivity|].
    cbn [invoices parties]. rewrite Hv3, Hv2, Hv1, insert_insert_eq.
    split; [reflexivity|]. split; [congruence|].
    split; [unfold header_updated; cbn; repeat split; auto|].
    split; [exact Hown|]. cbn [inv_total_amount]. split; [reflexivity|exact Hge].
  - cbn [bind] in H. injection H as <- _.
    exists inv, inv1. split; [reflexivity|]. split; [exact Hv1|].
    split; [exact Hp1|]. split; [exact Hhead|]. split; [exact Hown|]. auto.
Qed.

(** The same for [src/controllers/invoiceController.js], whose total is
    the sum kept in memory and whose party is not checked. *)
Lemma plain_updateInvoice_row e c id req db db' u :
  Plain.updateInvoice_body e c id req db = Ok (db', u) ->
  exists inv inv',
    select_invoice db id c = Some inv
    /\ invoices db' = <[id := inv']> (invoices db)
    /\ parties db' = parties db
    /\ header_updated e req inv inv'
    /\ (forall p, ub_party_id req = given p -> is_Some (parties db !! p))
    /\ match ub_items req with
       | Some _ => 0 <= inv_total_amount inv'
       | None =>
           inv_total_amount inv' = inv_total_amount inv
           /\ items db' = items db /\ invoice_items db' = invoice_items db
       end.
Proof.
  intros H. unfold Plain.updateInvoice_body in H.
  destruct (select_invoice db id c) as [inv|] eqn:Hsel; [|discriminate].
  unfold mbind, result_bind in H.
  destruct (update_invoice_meta _ _ _ _ _ _ _) as [db1|] eqn:Hmeta;
    [|discriminate].
  cbn [bind] in H.
  destruct (plain_update_invoice_meta_header _ _ _ _ _ _ _ Hsel Hmeta)
    as (inv1 & Hv1 & Hhead & Htot1 & Hfk & Hi1 & Hp1 & Hl1).
  pose proof (select_invoice_Some _ _ _ _ Hsel) as (_ & Hc0).
  destruct (ub_items req) as [ls|] eqn:Hls.
  - destruct (Plain.update_lines _ _ _ _ _ _) as [[[db2 m2] tot]|] eqn:Hloop;
      [|discriminate].
    cbn [bind] in H.
    destruct (Plain.remove_lines _ _ _) as [db3|] eqn:Hrem; [|discriminate].
    cbn [bind] in H.
    destruct (update_invoice_total _ _ _ _ _) as [db4|] eqn:Htot; [|discriminate].
    cbn [bind] in H. injection H as <- _.
    apply update_lines_agree in Hloop.
    pose proof (update_lines_stock _ _ _ _ _ _ _ _ _ Hloop) as (_ & Hp2 & Hv2 & _).
    apply plain_remove_lines_rows in Hrem as (_ & Hp3 & Hv3 & _).
    pose proof (update_invoice_total_frame _ _ _ _ _ _ Htot) as (_ & Hp4 & Hl4).
    destruct Hhead as (Hc1 & Hn1 & Hd1 & Hcr1 & Hu1 & Hpa1 & Hdu1 & Hs1).
    eapply update_invoice_total_Ok in Htot as (Hge & ->);
      [| rewrite Hv3, Hv2, Hv1; apply lookup_insert_eq
       | reflexivity].
    eexists inv, _. split; [reflexivity|].
    cbn [invoices parties]. rewrite Hv3, Hv2, Hv1, insert_insert_eq.
    split; [reflexivity|]. split; [congruence|].
    split; [unfold header_updated; cbn; repeat split; auto|].
    split; [exact Hfk|]. cbn [inv_total_amount]. exact Hge.
  - cbn [bind] in H. injection H as <- _.
    exists inv, inv1. split; [reflexivity|]. split; [exact Hv1|].
    split; [exact Hp1|]. split; [exact Hhead|]. split; [exact Hfk|]. auto.
Qed.

(** ** The two revisions of [createInvoice] *)

Lemma select_invoice_number_fits db c n :
  numbers_fit db -> select_invoice_number db c (Some n) = true ->
  (String.length n <= 50)%nat.
Proof.
  intros Hfit H. unfold select_invoice_number in H.
  apply existsb_exists in H as ([k r] & Hin & H).
  apply andb_prop in H as [_ H]. apply String.eqb_eq in H. simpl in H.
  subst n. apply (Hfit k). apply elem_of_map_to_list.
  apply list_elem_of_In. exact Hin.
Qed.

(** A number that [VARCHAR(50)] takes and that is no longer than 50
    characters is stored as it is. *)
Lemma varchar_within n s s' :
  varchar n s = Ok s' -> (String.length s <= n)%nat -> s' = s.
Proof.
  unfold varchar. intros H Hlen. destruct (has_nul s); [discriminate|].
  apply Nat.leb_le in Hlen. rewrite Hlen in H. congruence.
Qed.

(** After the party check of [src/unnamed/part_000] the two revisions run
    the same statements, when the due date is not falsy and [items] is
    not [undefined]. *)
Lemma createInvoice_body_agree e c req db r :
  numbers_fit db ->
  cb_items req <> items_undefined ->
  cb_due_date req <> falsy ->
  select_party db (cb_party_id req) c = true ->
  Scoped.createInvoice_body e c req db = Ok r
  <-> Plain.createInvoice_body e c req db = Ok r.
Proof.
  intros Hfit Hitems Hdue Hparty.
  assert (or_empty (cb_items req) = cb_items req) as Hor
      by (destruct (cb_items req); [contradiction|reflexivity|reflexivity]).
  unfold Scoped.createInvoice_body, Plain.createInvoice_body.
  rewrite Hparty, Hor, (or_null_id _ Hdue). cbn [negb].
  unfold mbind, result_bind.
  destruct (insert_invoice e db c (cb_party_id req) (cb_invoice_number req)
              (cb_due_date req) 0 (cb_status req)) as [[db1 new]|err] eqn:Hins.
  - pose proof (insert_invoice_Ok _ _ _ _ _ _ _ _ _ _ Hins)
      as (-> & _ & _ & p & n & st & _ & (n0 & Hn0 & Hvar & Hfree) & _ & _ & ->).
    assert (select_invoice_number db c (cb_invoice_number req) = false) as ->.
    { rewrite Hn0.
      destruct (select_invoice_number db c (Some n0)) eqn:Hsel; [|reflexivity].
      pose proof (select_invoice_number_fits _ _ _ Hfit Hsel) as Hlen.
      rewrite (varchar_within _ _ _ Hvar Hlen) in Hfree. congruence. }
    cbn [bind].
    destruct (cb_items req) as [| |ls]; [reflexivity|reflexivity|].
    destruct (Scoped.create_lines c (uuid_generate_v4 e) ls _ 0)
      as [[db2 tot]|err] eqn:Hloop.
    + pose proof Hloop as Hloop'. apply create_lines_agree in Hloop'.
      rewrite Hloop'. cbn [bind].
      apply create_lines_Ok in Hloop as (_ & _ & _ & Hv2 & _).
      cbn [invoices] in Hv2.
      rewrite (update_invoice_total_scope e db2 tot (uuid_generate_v4 e) c
                 (InvoiceRow c p n (current_date e) (value (cb_due_date req))
                    0 st (now e) (now e)));
        [reflexivity | rewrite Hv2; apply lookup_insert_eq | reflexivity].
    + destruct (Plain.create_lines c (uuid_generate_v4 e) ls _ 0)
        as [[db2 tot]|err'] eqn:Hloop'.
      * apply create_lines_agree in Hloop'. congruence.
      * cbn [bind]. split; discriminate.
  - destruct (select_invoice_number db c (cb_invoice_number req));
      cbn [bind]; split; discriminate.
Qed.

(** [src/controllers/invoiceController.js] sends [due_date] as it came:
    a falsy one is no [DATE], and the [INSERT] fails. *)
Lemma plain_createInvoice_falsy_due_date e c req db :
  cb_due_date req = falsy ->
  exists err, Plain.createInvoice_body e c req db = Throw err.
Proof.
  intros Hdue. unfold Plain.createInvoice_body, insert_invoice, invoice_values.
  rewrite Hdue.
  destruct (match cb_invoice_number req with
            | Some n => bind (varchar 50 n) (fun n => Ok (Some n))
            | None => Ok None
            end); cbn; eauto.
Qed.

(** X5.  The revision of [src/unnamed/part_000] adds checks to
    [createInvoice]; besides, it sends [due_date || null] where
    [src/controllers/invoiceController.js] sends [due_date], and takes a
    body without [items] as one with an empty list.  With every stored
    invoice number within [VARCHAR(50)] and on a request whose [items] is
    not [undefined]: if the due date is not falsy, the revision of
    [src/unnamed/part_000] answers 201 exactly when the other does and the
    party is one of the company's, and both then leave the same database
    and send the same reply; if the due date is falsy,
    [src/controllers/invoiceController.js] fails and writes nothing. *)
Theorem createInvoice_revisions_agree e c req db :
  numbers_fit db ->
  cb_items req <> items_undefined ->
  (cb_due_date req <> falsy ->
   forall db' resp,
     (Scoped.createInvoice e c req db = (db', resp) /\ http_status resp = 201)
     <-> (Plain.createInvoice e c req db = (db', resp) /\ http_status resp = 201
          /\ select_party db (cb_party_id req) c = true))
  /\ (cb_due_date req = falsy ->
      fst (Plain.createInvoice e c req db) = db
      /\ failed (snd (Plain.createInvoice e c req db))).
Proof.
  intros Hfit Hitems. split.
  - intros Hdue db' resp. split.
    + intros [H Hst].
      pose proof H as H0.
      apply transaction_success in H as (id & Hbody & ->);
        [| intros err; destruct err as [| | | | | | | |[]]; simpl; lia | lia].
      pose proof (scoped_createInvoice_party_owned _ _ _ _ _ _ Hbody) as Hparty.
      apply (createInvoice_body_agree _ _ _ _ _ Hfit Hitems Hdue Hparty) in Hbody.
      unfold Plain.createInvoice. rewrite Hbody. auto.
    + intros (H & Hst & Hparty).
      apply transaction_success in H as (id & Hbody & ->);
        [| intros err; simpl; lia | lia].
      apply (createInvoice_body_agree _ _ _ _ _ Hfit Hitems Hdue Hparty) in Hbody.
      unfold Scoped.createInvoice. rewrite Hbody. auto.
  - intros Hdue.
    destruct (plain_createInvoice_falsy_due_date e c req db Hdue) as [err Herr].
    unfold Plain.createInvoice. rewrite Herr. simpl. unfold failed. simpl.
    split; [reflexivity|lia].
Qed.

(** X5 at work: invoice 500 on the sample catalog, by either revision;
    the same request with the empty string for its due date. *)
Lemma createInvoice_revisions_agree_witness :
  numbers_fit db0
  /\ Plain.createInvoice e0 1%N (create_with 10%N [ln 100%N 4]) db0
     = (db_one_line, Response 201 (InvoiceCreated 500%N))
  /\ select_party db0 (Some 10%N) 1%N = true
  /\ fst (Plain.createInvoice e0 1%N
            (CreateBody (Some 10%N) (Some "INV-1"%string) falsy
               (items_given [ln 100%N 4]) None) db0) = db0
  /\ http_status
       (snd (Scoped.createInvoice e0 1%N
               (CreateBody (Some 10%N) (Some "INV-1"%string) falsy
                  (items_given [ln 100%N 4]) None) db0)) = 201.
Proof.
  assert (numbers_fit db0) as Hfit.
  { intros id r Hr. unfold db0 in Hr. cbn [invoices] in Hr.
    rewrite lookup_empty in Hr. discriminate. }
  split; [exact Hfit|].
  destruct (createInvoice_revisions_agree e0 1%N
              (create_with 10%N [ln 100%N 4]) db0 Hfit) as [Hsame _];
    [discriminate|].
  destruct (createInvoice_revisions_agree e0 1%N
              (CreateBody (Some 10%N) (Some "INV-1"%string) falsy
                 (items_given [ln 100%N 4]) None) db0 Hfit) as [_ Hfalsy];
    [discriminate|].
  destruct (proj1 (Hsame ltac:(discriminate) db_one_line
                     (Response 201 (InvoiceCreated 500%N))))
    as (H & _ & Hp).
  { split; [vm_compute; reflexivity | reflexivity]. }
  split; [exact H|]. split; [exact Hp|].
  split; [exact (proj1 (Hfalsy eq_refl))|].
  vm_compute. reflexivity.
Defined.

(** ** [updateInvoice]: the header, and the total *)

(** X6.  After a successful [updateInvoice] (either revision) the
    invoice row carries the request's [due_date], [party_id] and [status]
    where the request gives one and the stored value where it does not
    (so a due date cannot be cleared); a field that is absent or falsy is
    one the request does not give ([src/unnamed/part_000] sends
    [x || null]; the other revision does not succeed on a falsy field).
    [updated_at] is the time of the call, and company, number, invoice
    date and [created_at] are as they were; no other invoice and no party
    is written.  When the request has no [items] array, total, stock and
    lines stay as they are. *)
Theorem updateInvoice_header e c id req db db' resp :
  (Scoped.updateInvoice e c id req db = (db', resp)
   \/ Plain.updateInvoice e c id req db = (db', resp)) ->
  http_status resp = 200 ->
  exists inv inv',
    select_invoice db id c = Some inv
    /\ invoices db' = <[id := inv']> (invoices db)
    /\ parties db' = parties db
    /\ header_updated e req inv inv'
    /\ (ub_items req = None ->
        inv_total_amount inv' = inv_total_amount inv
        /\ items db' = items db /\ invoice_items db' = invoice_items db).
Proof.
  intros H Hst.
  destruct (updateInvoice_success _ _ _ _ _ _ _ H Hst) as [[u Hb]|[u Hb]].
  - apply scoped_updateInvoice_row in Hb
      as (inv & inv' & Hsel & Hv & Hp & Hhead & _ & Hrest).
    exists inv, inv'. do 4 (split; [assumption|]).
    intros Hnone. rewrite Hnone in Hrest. exact Hrest.
  - apply plain_updateInvoice_row in Hb
      as (inv & inv' & Hsel & Hv & Hp & Hhead & _ & Hrest).
    exists inv, inv'. do 4 (split; [assumption|]).
    intros Hnone. rewrite Hnone in Hrest. exact Hrest.
Qed.

(** X6 at work: invoice 500 gets a due date and the status 'sent'; the
    empty string for the due date and the status leaves both. *)
Lemma updateInvoice_header_witness :
  (exists inv',
      invoices (fst (Plain.updateInvoice e1 1%N 500%N
                       (UpdateBody (given 40) absent (Some "sent"%string) None)
                       db_one_line)) !! 500%N = Some inv'
      /\ inv_due_date inv' = Some 40 /\ inv_party_id inv' = 10%N
      /\ inv_status inv' = sent
      /\ inv_total_amount inv' = 40000 /\ inv_updated_at inv' = 2000)
  /\ exists inv',
      invoices (fst (Scoped.updateInvoice e1 1%N 500%N
                       (UpdateBody falsy falsy (Some ""%string) None)
                       db_one_line)) !! 500%N = Some inv'
      /\ inv_due_date inv' = None /\ inv_party_id inv' = 10%N
      /\ inv_status inv' = draft
      /\ inv_total_amount inv' = 40000 /\ inv_updated_at inv' = 2000.
Proof.
  split.
  - destruct (updateInvoice_header e1 1%N 500%N
                (UpdateBody (given 40) absent (Some "sent"%string) None)
                db_one_line
                (fst (Plain.updateInvoice e1 1%N 500%N
                        (UpdateBody (given 40) absent (Some "sent"%string) None)
                        db_one_line))
                (Response 200 InvoiceUpdated))
      as (inv & inv' & Hsel & Hv & _ & Hhead & Hrest).
    + right. vm_compute. reflexivity.
    + reflexivity.
    + destruct Hhead as (_ & _ & _ & _ & Hu & Hp & Hd & Hs).
      destruct (Hrest eq_refl) as (Ht & _).
      assert (inv = InvoiceRow 1 10 "INV-1" 11 None 40000 draft 1000 1000) as ->.
      { vm_compute in Hsel. injection Hsel as <-. reflexivity. }
      exists inv'. rewrite Hv, lookup_insert_eq.
      cbn in Hs. injection Hs as <-. auto 10.
  - destruct (updateInvoice_header e1 1%N 500%N
                (UpdateBody falsy falsy (Some ""%string) None)
                db_one_line
                (fst (Scoped.updateInvoice e1 1%N 500%N
                        (UpdateBody falsy falsy (Some ""%string) None)
                        db_one_line))
                (Response 200 InvoiceUpdated))
      as (inv & inv' & Hsel & Hv & _ & Hhead & Hrest).
    + left. vm_compute. reflexivity.
    + reflexivity.
    + destruct Hhead as (_ & _ & _ & _ & Hu & Hp & Hd & Hs).
      destruct (Hrest eq_refl) as (Ht & _).
      assert (inv = InvoiceRow 1 10 "INV-1" 11 None 40000 draft 1000 1000) as ->.
      { vm_compute in Hsel. injection Hsel as <-. reflexivity. }
      exists inv'. rewrite Hv, lookup_insert_eq.
      cbn in Hs. auto 10.
Defined.

(** X4.  [src/unnamed/part_000]: whatever the invoice's total was, a
    successful [updateInvoice] with an [items] array leaves as
    [total_amount] the sum of [total_line_amount] over the lines then
    stored for the invoice, a non-negative amount. *)
Theorem scoped_updateInvoice_total e c id req db db' resp :
  Scoped.updateInvoice e c id req db = (db', resp) ->
  http_status resp = 200 ->
  is_Some (ub_items req) ->
  exists inv',
    invoices db' !! id = Some inv'
    /\ inv_total_amount inv' = sum_of ii_total_line_amount (lines_of db' id)
    /\ 0 <= inv_total_amount inv'.
Proof.
  intros H Hst [ls Hls].
  apply transaction_success in H as (u & Hb & _);
    [| intros err; simpl; lia | lia].
  apply scoped_updateInvoice_row in Hb
    as (inv & inv' & _ & Hv & _ & _ & _ & Hrest).
  rewrite Hls in Hrest. exists inv'. rewrite Hv, lookup_insert_eq. auto.
Qed.

(** X4 at work: the two lines of invoice 500 rewritten to 4 units each,
    the case in which the other revision stores 400.00. *)
Lemma scoped_updateInvoice_total_witness :
  exists inv',
    invoices (fst (Scoped.updateInvoice e1 1%N 500%N (update_with [ln 100%N 4])
                     db_two_lines)) !! 500%N = Some inv'
    /\ inv_total_amount inv' = 80000.
Proof.
  destruct (scoped_updateInvoice_total e1 1%N 500%N (update_with [ln 100%N 4])
              db_two_lines
              (fst (Scoped.updateInvoice e1 1%N 500%N (update_with [ln 100%N 4])
                      db_two_lines))
              (Response 200 InvoiceUpdated))
    as (inv' & Hinv & Htot & _).
  - vm_compute. reflexivity.
  - reflexivity.
  - eexists. reflexivity.
  - exists inv'. split; [exact Hinv|]. rewrite Htot. vm_compute. reflexivity.
Defined.

(** ** Calls on an invoice that is not the company's *)

(** X7.  A call that addresses an invoice which does not exist or
    belongs to another company writes nothing, in either revision:
    [updateInvoice] answers 400 and [deleteInvoice] 500, both with
    'Invoice not found', and [updateInvoiceStatus] answers 404, or 400
    when the status is not one of the four labels. *)
Theorem foreign_invoice_refused call id db :
  invoice_of call = Some id ->
  select_invoice db id (company_of call) = None ->
  run_plain call db = run_scoped call db
  /\ fst (run_scoped call db) = db
  /\ snd (run_scoped call db)
     = match call with
       | UpdateInvoiceStatus _ _ _ status =>
           match status ≫= invoice_status_of_text with
           | Some _ => Response 404 InvoiceNotFoundBody
           | None => Response 400 InvalidStatusValue
           end
       | DeleteInvoice _ _ => Response 500 (ErrorMessage InvoiceNotFound)
       | _ => Response 400 (ErrorMessage InvoiceNotFound)
       end.
Proof.
  intros Hid Hsel.
  destruct call as [e c req|e c i req|e c i st|c i]; simpl in Hid;
    [discriminate| | |]; injection Hid as ->; simpl in Hsel; simpl.
  - unfold Plain.updateInvoice, Scoped.updateInvoice,
      Plain.updateInvoice_body, Scoped.updateInvoice_body.
    rewrite Hsel. repeat split.
  - split; [reflexivity|].
    unfold Scoped.updateInvoiceStatus, update_invoice_status.
    rewrite Hsel. destruct (st ≫= invoice_status_of_text); repeat split.
  - unfold Plain.deleteInvoice, Scoped.deleteInvoice,
      Plain.deleteInvoice_body, Scoped.deleteInvoice_body.
    rewrite Hsel. repeat split.
Qed.

(** X7 at work: company 2 tries to delete invoice 500 of company 1. *)
Lemma foreign_invoice_refused_witness :
  Scoped.deleteInvoice 2%N 500%N db_one_line
  = (db_one_line, Response 500 (ErrorMessage InvoiceNotFound)).
Proof.
  destruct (foreign_invoice_refused (DeleteInvoice 2%N 500%N) 500%N db_one_line
              eq_refl) as (_ & Hdb & Hresp).
  - vm_compute. reflexivity.
  - simpl in Hdb, Hresp. rewrite <- Hdb at 2. rewrite <- Hresp.
    destruct (Scoped.deleteInvoice 2%N 500%N db_one_line). reflexivity.
Defined.

(** ** A call either changes nothing or ran its body to the end *)

Lemma run_scoped_cases call db :
  fst (run_scoped call db) = db
  \/ match call with
     | CreateInvoice e c req =>
         exists id, Scoped.createInvoice_body e c req db
                    = Ok (fst (run_scoped call db), id)
     | UpdateInvoice e c id req =>
         exists u, Scoped.updateInvoice_body e c id req db
                   = Ok (fst (run_scoped call db), u)
     | UpdateInvoiceStatus e c id status =>
         exists st inv,
           select_invoice db id c = Some inv
           /\ fst (run_scoped call db)
              = Database (items db) (parties db)
                  (<[id := with_status st (now e) inv]> (invoices db))
                  (invoice_items db)
     | DeleteInvoice c id =>
         exists u, Scoped.deleteInvoice_body c id db
                   = Ok (fst (run_scoped call db), u)
     end.
Proof.
  destruct call as [e c req|e c id req|e c id status|c id]; simpl.
  - unfold Scoped.createInvoice, transaction.
    destruct (Scoped.createInvoice_body e c req db) as [[db' a]|err]; simpl; eauto.
  - unfold Scoped.updateInvoice, transaction.
    destruct (Scoped.updateInvoice_body e c id req db) as [[db' a]|err]; simpl;
      eauto.
  - unfold Scoped.updateInvoiceStatus.
    destruct (status ≫= invoice_status_of_text) as [st|]; [|auto].
    unfold update_invoice_status.
    destruct (select_invoice db id c) as [inv|] eqn:Hsel; simpl; [|auto].
    right. exists st, inv. auto.
  - unfold Scoped.deleteInvoice, transaction.
    destruct (Scoped.deleteInvoice_body c id db) as [[db' a]|err]; simpl; eauto.
Qed.

Lemma run_plain_cases call db :
  fst (run_plain call db) = db
  \/ match call with
     | CreateInvoice e c req =>
         exists id, Plain.createInvoice_body e c req db
                    = Ok (fst (run_plain call db), id)
     | UpdateInvoice e c id req =>
         exists u, Plain.updateInvoice_body e c id req db
                   = Ok (fst (run_plain call db), u)
     | UpdateInvoiceStatus e c id status =>
         exists st inv,
           select_invoice db id c = Some inv
           /\ fst (run_plain call db)
              = Database (items db) (parties db)
                  (<[id := with_status st (now e) inv]> (invoices db))
                  (invoice_items db)
     | DeleteInvoice c id =>
         exists u, Plain.deleteInvoice_body c id db
                   = Ok (fst (run_plain call db), u)
     end.
Proof.
  destruct call as [e c req|e c id req|e c id status|c id]; simpl.
  - unfold Plain.createInvoice, transaction.
    destruct (Plain.createInvoice_body e c req db) as [[db' a]|err]; simpl; eauto.
  - unfold Plain.updateInvoice, transaction.
    destruct (Plain.updateInvoice_body e c id req db) as [[db' a]|err]; simpl;
      eauto.
  - unfold Plain.updateInvoiceStatus.
    destruct (status ≫= invoice_status_of_text) as [st|]; [|auto].
    unfold update_invoice_status.
    destruct (select_invoice db id c) as [inv|] eqn:Hsel; simpl; [|auto].
    right. exists st, inv. auto.
  - unfold Plain.deleteInvoice, transaction.
    destruct (Plain.deleteInvoice_body c id db) as [[db' a]|err]; simpl; eauto.
Qed.

(** ** Stock moved by [src/unnamed/part_000] stays within the company *)

Lemma restocked_0 c r : restocked c 0 r = r.
Proof.
  destruct r as [ci pi qi]. unfold restocked, with_quantity. simpl.
  destruct (N.eqb ci c); [|reflexivity]. f_equal. lia.
Qed.

Lemma restocked_restocked c n m r :
  restocked c n (restocked c m r) = restocked c (m + n) r.
Proof.
  destruct r as [ci pi qi]. unfold restocked, with_quantity. simpl.
  destruct (N.eqb ci c) eqn:Hc; simpl; rewrite ?Hc; [|reflexivity].
  f_equal. lia.
Qed.

Lemma restocked_outside c n r :
  item_company_id r <> c -> restocked c n r = r.
Proof.
  intros Hne. unfold restocked.
  destruct (N.eqb_spec (item_company_id r) c); [contradiction|reflexivity].
Qed.

Lemma restocked_company c n r :
  item_company_id (restocked c n r) = item_company_id r.
Proof. unfold restocked. destruct (N.eqb _ _); reflexivity. Qed.

Lemma restocked_price c n r : item_price (restocked c n r) = item_price r.
Proof. unfold restocked. destruct (N.eqb _ _); reflexivity. Qed.

(** The lines [createInvoice] wrote hold no item of another company. *)
Lemma quantity_on_priced db c id new i it :
  Forall (line_priced_from db c id) new ->
  items db !! i = Some it -> item_company_id it <> c ->
  quantity_on i new = 0.
Proof.
  intros Hnew Hit Hne. unfold quantity_on. rewrite filter_none; [reflexivity|].
  eapply Forall_impl; [exact Hnew|].
  intros r (_ & _ & _ & it' & Hr & Hcr & _) Hri. rewrite Hri, Hit in Hr.
  injection Hr as <-. contradiction.
Qed.

Lemma scoped_createInvoice_restocked e c req db db' id i :
  Scoped.createInvoice_body e c req db = Ok (db', id) ->
  exists n, items db' !! i = restocked c n <$> items db !! i.
Proof.
  intros H. apply scoped_createInvoice_frame in H
    as (row & new & _ & _ & _ & _ & _ & _ & Hnew & Hstock).
  exists (- quantity_on i new). rewrite Hstock.
  destruct (items db !! i) as [it|] eqn:Hit; [|reflexivity].
  cbn [fmap option_fmap option_map]. f_equal.
  destruct (decide (item_company_id it = c)) as [Hc|Hne].
  - destruct it as [ci pi qi]. simpl in Hc. subst ci.
    unfold restocked, with_quantity. simpl. rewrite N.eqb_refl. f_equal.
  - rewrite (quantity_on_priced _ _ _ _ _ _ Hnew Hit Hne).
    rewrite (restocked_outside _ _ _ Hne). destruct it as [ci pi qi].
    unfold with_quantity. simpl. f_equal. lia.
Qed.

Lemma scoped_updateInvoice_restocked e c id req db db' u i :
  Scoped.updateInvoice_body e c id req db = Ok (db', u) ->
  exists n, items db' !! i = restocked c n <$> items db !! i.
Proof.
  intros H. unfold Scoped.updateInvoice_body in H.
  destruct (select_invoice db id c) as [inv0|]; [|discriminate].
  destruct (match ub_party_id req with given _ => _ | _ => false end);
    [discriminate|].
  unfold mbind, result_bind in H.
  destruct (update_invoice_meta _ _ _ _ _ _ _) as [db1|] eqn:Hmeta;
    [|discriminate].
  cbn [bind] in H.
  apply update_invoice_meta_frame in Hmeta as (Hi1 & _).
  destruct (ub_items req) as [ls|].
  - destruct (Scoped.update_lines _ _ _ _ _ _) as [[[db2 m2] tot]|] eqn:Hloop;
      [|discriminate].
    cbn [bind] in H.
    destruct (Scoped.remove_lines _ _ _ _) as [db3|] eqn:Hrem; [|discriminate].
    cbn [bind] in H.
    destruct (update_invoice_total _ _ _ _ _) as [db4|] eqn:Htot; [|discriminate].
    cbn [bind] in H. injection H as <- _.
    apply update_invoice_total_frame in Htot as (-> & _).
    rewrite (scoped_remove_lines_stock _ _ _ _ _ Hrem i).
    pose proof (update_lines_mentions_company _ _ _ _ _ _ _ i Hloop) as Hment.
    apply update_lines_stock in Hloop as (_ & _ & _ & Hstock).
    rewrite Hstock, Hi1. rewrite Hi1 in Hment.
    set (back := sum_of snd (filter (fun kv => fst kv = i) m2)).
    set (m := Map_new (select_invoice_items db1 id)) in *.
    exists (back - net_decrease i ls m).
    destruct (items db !! i) as [it|] eqn:Hit; [|reflexivity].
    cbn [fmap option_fmap option_map]. f_equal.
    destruct (decide (item_company_id it = c)) as [Hc|Hne].
    + destruct it as [ci pi qi]. simpl in Hc. subst ci.
      unfold restocked, with_quantity. simpl. rewrite N.eqb_refl. f_equal. lia.
    + assert (Some i ∉ line_item_id <$> ls) as Hout.
      { intros Hin. destruct (Hment Hin) as (it' & [= <-] & Hc'). contradiction. }
      assert (net_decrease i ls m = 0) as ->.
      { unfold net_decrease. rewrite decide_False by exact Hout.
        unfold quantity_wanted. rewrite filter_none; [reflexivity|].
        apply Forall_forall. intros l Hl Hli. apply Hout.
        apply list_elem_of_fmap. exists l. auto. }
      rewrite !restocked_outside;
        [destruct it; unfold with_quantity; simpl; f_equal; lia
        | exact Hne | destruct it; exact Hne].
  - cbn [bind] in H. injection H as <- _. exists 0. rewrite Hi1.
    destruct (items db !! i) as [it|]; [|reflexivity]. simpl.
    rewrite restocked_0. reflexivity.
Qed.

(** Every call of [src/unnamed/part_000] leaves each item as it was but
    for a quantity moved within the caller's company. *)
Lemma run_scoped_restocked call db i :
  exists n, items (fst (run_scoped call db)) !! i
            = restocked (company_of call) n <$> items db !! i.
Proof.
  assert (exists n, items db !! i = restocked (company_of call) n <$> items db !! i)
    as Hsame.
  { exists 0. destruct (items db !! i) as [it|]; [|reflexivity]. simpl.
    rewrite restocked_0. reflexivity. }
  destruct (run_scoped_cases call db) as [->|H]; [exact Hsame|].
  destruct call as [e c req|e c id req|e c id status|c id]; cbn [company_of].
  - destruct H as [id H]. eapply scoped_createInvoice_restocked, H.
  - destruct H as [u H]. eapply scoped_updateInvoice_restocked, H.
  - destruct H as (st & inv & _ & ->). exact Hsame.
  - destruct H as [u H]. apply scoped_deleteInvoice_restores in H as (_ & _ & _ & H).
    eauto.
Qed.

(** ** A call writes the row and the lines of one invoice at most *)

Lemma plain_createInvoice_frame e c req db db' id :
  Plain.createInvoice_body e c req db = Ok (db', id) ->
  exists row new,
    id = uuid_generate_v4 e
    /\ invoices db !! id = None
    /\ invoices db' = <[id := row]> (invoices db)
    /\ inv_company_id row = c
    /\ is_Some (parties db !! inv_party_id row)
    /\ (exists n0, cb_invoice_number req = Some n0
                   /\ varchar 50 n0 = Ok (inv_invoice_number row))
    /\ select_invoice_number db c (Some (inv_invoice_number row)) = false
    /\ 0 <= inv_total_amount row
    /\ parties db' = parties db
    /\ invoice_items db' = invoice_items db ++ new
    /\ Forall (line_priced_from db c id) new
    /\ (forall i, items db' !! i
                  = with_quantity (fun q => q - quantity_on i new)
                      <$> items db !! i).
Proof.
  intros H.
  apply plain_createInvoice_body_Ok in H
    as (db1 & ls & db2 & tot & Hins & _ & Hloop & Htot).
  apply insert_invoice_Ok in Hins
    as (-> & Hfresh & _ & p & n & st & _ & (n0 & Hn0 & Hvar & Hnum) & Hfk & _ & ->).
  apply create_lines_agree in Hloop.
  apply create_lines_Ok in Hloop
    as (new & Hitems & Hpar & Hinv & _ & Hnew & _ & Hstock).
  cbn [items parties invoices invoice_items] in *.
  eapply update_invoice_total_Ok in Htot as (Hge & ->);
    [| rewrite Hinv; apply lookup_insert_eq | reflexivity].
  eexists. exists new. cbn [items parties invoices invoice_items].
  split; [reflexivity|]. split; [exact Hfresh|].
  split; [rewrite Hinv, insert_insert_eq; reflexivity|].
  cbn [inv_company_id inv_party_id inv_invoice_number inv_total_amount].
  split; [reflexivity|]. split; [exact Hfk|].
  split; [eauto|]. split; [exact Hnum|].
  split; [exact Hge|]. split; [exact Hpar|]. split; [exact Hitems|].
  split; [|exact Hstock].
  eapply Forall_impl; [exact Hnew|]. intros r Hr. exact Hr.
Qed.

Lemma filter_other_invoice_app id (old new : list invoice_item_row) :
  Forall (fun r => ii_invoice_id r = id) new ->
  filter (fun r => ii_invoice_id r <> id) (old ++ new)
  = filter (fun r => ii_invoice_id r <> id) old.
Proof.
  intros Hnew. rewrite filter_app, (filter_none _ new), app_nil_r; [reflexivity|].
  eapply Forall_impl; [exact Hnew|]. intros r Hid Hn. contradiction.
Qed.

Lemma run_scoped_writes call db :
  parties (fst (run_scoped call db)) = parties db
  /\ ((invoices (fst (run_scoped call db)) = invoices db
       /\ invoice_items (fst (run_scoped call db)) = invoice_items db)
      \/ exists id, writes_invoice (company_of call) id db (fst (run_scoped call db))).
Proof.
  destruct (run_scoped_cases call db) as [->|H]; [auto|].
  destruct call as [e c req|e c id req|e c id status|c id]; cbn [company_of].
  - destruct H as [id H]. apply scoped_createInvoice_frame in H
      as (row & new & -> & Hfresh & Hv & Hc & Hp & Hl & Hnew & _).
    split; [exact Hp|]. right. exists (uuid_generate_v4 e).
    split; [intros old Hold; congruence|]. split; [right; eauto|].
    rewrite Hl. apply filter_other_invoice_app.
    eapply Forall_impl; [exact Hnew|]. intros r (Hid & _). exact Hid.
  - destruct H as [u H].
    pose proof (scoped_updateInvoice_row _ _ _ _ _ _ _ H)
      as (inv & inv' & Hsel & Hv & Hp & Hhead & _ & Hrest).
    apply select_invoice_Some in Hsel as (Hinv & Hc).
    split; [exact Hp|]. right. exists id.
    split; [intros old Hold; congruence|].
    split; [right; exists inv'; split; [exact Hv|];
            destruct Hhead as (-> & _); exact Hc|].
    destruct (ub_items req) as [ls|] eqn:Hls.
    + eapply scoped_updateInvoice_lines in H as ((_ & _ & Hl) & _); eauto.
    + destruct Hrest as (_ & _ & ->). reflexivity.
  - destruct H as (st & inv & Hsel & ->).
    apply select_invoice_Some in Hsel as (Hinv & Hc).
    split; [reflexivity|]. right. exists id.
    split; [intros old Hold; congruence|].
    split; [right; exists (with_status st (now e) inv); auto|reflexivity].
  - destruct H as [u H].
    pose proof (scoped_deleteInvoice_restores _ _ _ _ _ H) as (Hv & Hl & Hp & _).
    unfold Scoped.deleteInvoice_body in H.
    destruct (select_invoice db id c) as [inv|] eqn:Hsel; [|discriminate].
    apply select_invoice_Some in Hsel as (Hinv & Hc).
    split; [exact Hp|]. right. exists id.
    split; [intros old Hold; congruence|]. split; [left; exact Hv|].
    rewrite Hl. apply list_filter_filter_l. auto.
Qed.

Lemma plain_deleteInvoice_frame c id db db' u :
  Plain.deleteInvoice_body c id db = Ok (db', u) ->
  is_Some (select_invoice db id c)
  /\ invoices db' = delete id (invoices db)
  /\ invoice_items db' = filter (fun r => ii_invoice_id r <> id) (invoice_items db)
  /\ parties db' = parties db /\ items db' = items db.
Proof.
  intros H. unfold Plain.deleteInvoice_body in H.
  destruct (select_invoice db id c) as [inv|] eqn:Hsel; [|discriminate].
  injection H as <- _. split; [eauto|].
  apply select_invoice_Some in Hsel as (Hinv & _).
  unfold delete_invoice, delete_invoice_items. cbn [invoices].
  rewrite Hinv. cbn [in_scope invoices invoice_items parties items].
  rewrite list_filter_filter_l by auto. auto.
Qed.

Lemma run_plain_writes call db :
  parties (fst (run_plain call db)) = parties db
  /\ ((invoices (fst (run_plain call db)) = invoices db
       /\ invoice_items (fst (run_plain call db)) = invoice_items db)
      \/ exists id, writes_invoice (company_of call) id db (fst (run_plain call db))).
Proof.
  destruct (run_plain_cases call db) as [->|H]; [auto|].
  destruct call as [e c req|e c id req|e c id status|c id]; cbn [company_of].
  - destruct H as [id H]. apply plain_createInvoice_frame in H
      as (row & new & -> & Hfresh & Hv & Hc & _ & _ & _ & _ & Hp & Hl & Hnew & _).
    split; [exact Hp|]. right. exists (uuid_generate_v4 e).
    split; [intros old Hold; congruence|]. split; [right; eauto|].
    rewrite Hl. apply filter_other_invoice_app.
    eapply Forall_impl; [exact Hnew|]. intros r (Hid & _). exact Hid.
  - destruct H as [u H].
    pose proof (plain_updateInvoice_row _ _ _ _ _ _ _ H)
      as (inv & inv' & Hsel & Hv & Hp & Hhead & _ & Hrest).
    apply select_invoice_Some in Hsel as (Hinv & Hc).
    split; [exact Hp|]. right. exists id.
    split; [intros old Hold; congruence|].
    split; [right; exists inv'; split; [exact Hv|];
            destruct Hhead as (-> & _); exact Hc|].
    destruct (ub_items req) as [ls|] eqn:Hls.
    + eapply plain_updateInvoice_lines in H as (_ & _ & Hl); eauto.
    + destruct Hrest as (_ & _ & ->). reflexivity.
  - destruct H as (st & inv & Hsel & ->).
    apply select_invoice_Some in Hsel as (Hinv & Hc).
    split; [reflexivity|]. right. exists id.
    split; [intros old Hold; congruence|].
    split; [right; exists (with_status st (now e) inv); auto|reflexivity].
  - destruct H as [u H].
    apply plain_deleteInvoice_frame in H as ([inv Hsel] & Hv & Hl & Hp & _).
    apply select_invoice_Some in Hsel as (Hinv & Hc).
    split; [exact Hp|]. right. exists id.
    split; [intros old Hold; congruence|]. split; [left; exact Hv|].
    rewrite Hl. apply list_filter_filter_l. auto.
Qed.

Lemma lines_of_other_invoice id k (l l' : list invoice_item_row) :
  filter (fun r => ii_invoice_id r <> id) l'
  = filter (fun r => ii_invoice_id r <> id) l ->
  k <> id ->
  filter (fun r => ii_invoice_id r = k) l' = filter (fun r => ii_invoice_id r = k) l.
Proof.
  intros H Hk.
  rewrite <- (list_filter_filter_l (fun r => ii_invoice_id r = k)
                (fun r => ii_invoice_id r <> id) l') by congruence.
  rewrite <- (list_filter_filter_l (fun r => ii_invoice_id r = k)
                (fun r => ii_invoice_id r <> id) l) by congruence.
  rewrite H. reflexivity.
Qed.

(** What [writes_invoice] means to the invoices of another company. *)
Lemma writes_invoice_outside c id db db' :
  writes_invoice c id db db' ->
  (forall k inv, inv_company_id inv <> c ->
     (invoices db' !! k = Some inv <-> invoices db !! k = Some inv))
  /\ (forall k inv, invoices db !! k = Some inv -> inv_company_id inv <> c ->
        lines_of db' k = lines_of db k).
Proof.
  intros (Hold & Hv & Hl). split.
  - intros k inv Hne. destruct Hv as [-> | (row & -> & Hc)].
    + destruct (decide (k = id)) as [->|Hk].
      * rewrite lookup_delete_eq. split; [discriminate|].
        intros H. apply Hold in H. contradiction.
      * rewrite lookup_delete_ne by auto. reflexivity.
    + destruct (decide (k = id)) as [->|Hk].
      * rewrite lookup_insert_eq. split.
        -- intros [= <-]. contradiction.
        -- intros H. apply Hold in H. contradiction.
      * rewrite lookup_insert_ne by auto. reflexivity.
  - intros k inv Hinv Hne. unfold lines_of.
    apply (lines_of_other_invoice id); [exact Hl|].
    intros ->. apply Hold in Hinv. contradiction.
Qed.

(** X8.  Tenant isolation of the writes in [src/unnamed/part_000]:
    whatever the state and whatever the call, everything that belongs to
    another company than the caller's is afterwards as it was: its items
    with their stock, its invoices with their lines, and all parties;
    and no row of another company appears. *)
Theorem scoped_calls_stay_in_company call db :
  untouched_outside (company_of call) db (fst (run_scoped call db)).
Proof.
  destruct (run_scoped_writes call db) as (Hp & Hw).
  split; [exact Hp|]. split.
  - intros i it Hne. destruct (run_scoped_restocked call db i) as [n ->].
    destruct (items db !! i) as [it0|]; [|split; discriminate].
    cbn [fmap option_fmap option_map]. split.
    + intros [= <-]. rewrite restocked_company in Hne.
      rewrite restocked_outside by exact Hne. reflexivity.
    + intros [= ->]. rewrite restocked_outside by exact Hne. reflexivity.
  - destruct Hw as [[Hv Hl] | [id Hw]].
    + unfold lines_of. rewrite Hv, Hl. split; [reflexivity | reflexivity].
    + apply writes_invoice_outside in Hw as [H1 H2]. split; [exact H1 | exact H2].
Qed.

(** ** [deleteInvoice] and [updateInvoice] of [src/unnamed/part_000]: stock *)

(** X2.  [src/unnamed/part_000]: a successful [deleteInvoice] removes
    the invoice and all its lines, leaves every other line, every other
    invoice and the parties alone, and gives back to each item of the
    company the quantities of all the invoice's lines on it, repeated
    items included. *)
Theorem scoped_deleteInvoice_returns_stock c id db db' resp :
  Scoped.deleteInvoice c id db = (db', resp) ->
  http_status resp = 200 ->
  invoices db' = delete id (invoices db)
  /\ invoice_items db' = filter (fun r => ii_invoice_id r <> id) (invoice_items db)
  /\ lines_of db' id = []
  /\ parties db' = parties db
  /\ (forall i, items db' !! i
                = restocked c (quantity_on i (lines_of db id)) <$> items db !! i).
Proof.
  intros H Hst.
  apply transaction_success in H as (u & Hb & _);
    [| intros err; simpl; lia | lia].
  apply scoped_deleteInvoice_restores in Hb as (Hv & Hl & Hp & Hstock).
  split; [exact Hv|]. split; [exact Hl|]. split; [|auto].
  unfold lines_of. rewrite Hl. apply filter_none, Forall_forall.
  intros r Hr Hid. apply list_elem_of_filter in Hr as [Hne _]. contradiction.
Qed.

(** X2 at work: invoice 500 with item 100 on two lines (2 and 3 units). *)
Lemma scoped_deleteInvoice_returns_stock_witness :
  stock db_two_lines 100%N = Some 5
  /\ stock (fst (Scoped.deleteInvoice 1%N 500%N db_two_lines)) 100%N = Some 10.
Proof.
  split; [reflexivity|].
  destruct (scoped_deleteInvoice_returns_stock 1%N 500%N db_two_lines
              (fst (Scoped.deleteInvoice 1%N 500%N db_two_lines))
              (Response 200 InvoiceDeleted))
    as (_ & _ & _ & _ & Hstock).
  - vm_compute. reflexivity.
  - reflexivity.
  - unfold stock. rewrite Hstock. vm_compute. reflexivity.
Defined.

(** X1 at work: invoice 500 created on the sample catalog and deleted. *)
Lemma scoped_create_then_delete_witness :
  stock_nonneg db0 /\ stock_in_range db0 /\ lines_reference_invoices db0
  /\ stock db_one_line 100%N = Some 6
  /\ exists db2,
      Scoped.deleteInvoice 1%N 500%N db_one_line
      = (db2, Response 200 InvoiceDeleted)
      /\ invoices db2 = invoices db0
      /\ invoice_items db2 = invoice_items db0
      /\ stock db2 100%N = Some 10.
Proof.
  split; [exact sample_stock_nonneg|]. split; [exact sample_stock_in_range|].
  split; [exact sample_lines_reference_invoices|]. split; [reflexivity|].
  destruct (scoped_create_then_delete e0 1%N (create_with 10%N [ln 100%N 4]) db0
              db_one_line (Response 201 (InvoiceCreated 500%N))
              sample_stock_nonneg sample_stock_in_range
              sample_lines_reference_invoices)
    as (db2 & Hdel & Hv & Hl & _ & Hitems).
  - vm_compute. reflexivity.
  - reflexivity.
  - exists db2. split; [exact Hdel|]. split; [exact Hv|]. split; [exact Hl|].
    rewrite (proj2 (proj2 (Hitems 100%N))). reflexivity.
Defined.

(** X3.  [src/unnamed/part_000], on an invoice that holds every item on
    at most one line: after a successful [updateInvoice] with the
    [items] array [ls], the stock of every item of the company is what
    it was, plus what the invoice held of the item, minus what the array
    asks of it; items of other companies keep their stock.  So stock plus
    invoiced quantity is the same before and after. *)
Theorem scoped_updateInvoice_moves_stock e c id req db db' resp ls :
  Scoped.updateInvoice e c id req db = (db', resp) ->
  http_status resp = 200 ->
  ub_items req = Some ls ->
  one_line_per_item db id ->
  forall i, items db' !! i
            = restocked c (quantity_on i (lines_of db id) - quantity_wanted i ls)
                <$> items db !! i.
Proof.
  intros H Hst Hls Hone.
  apply transaction_success in H as (u & Hb & _);
    [| intros err; simpl; lia | lia].
  eapply scoped_updateInvoice_stock; eauto.
Qed.

(** X3 at work: invoice 500 goes from 4 units of item 100 to 1 unit of
    item 100 and 2 of item 101. *)
Lemma scoped_updateInvoice_moves_stock_witness :
  one_line_per_item db_one_line 500%N
  /\ stock db_one_line 100%N = Some 6
  /\ stock (fst (Scoped.updateInvoice e1 1%N 500%N
                   (update_with [ln 100%N 1; ln 101%N 2]) db_one_line)) 100%N
     = Some 9
  /\ stock (fst (Scoped.updateInvoice e1 1%N 500%N
                   (update_with [ln 100%N 1; ln 101%N 2]) db_one_line)) 101%N
     = Some 3.
Proof.
  assert (one_line_per_item db_one_line 500%N) as Hone.
  { unfold one_line_per_item. vm_compute. apply NoDup_singleton. }
  pose proof (scoped_updateInvoice_moves_stock e1 1%N 500%N
                (update_with [ln 100%N 1; ln 101%N 2]) db_one_line
                (fst (Scoped.updateInvoice e1 1%N 500%N
                        (update_with [ln 100%N 1; ln 101%N 2]) db_one_line))
                (Response 200 InvoiceUpdated) [ln 100%N 1; ln 101%N 2])
    as Hstock.
  split; [exact Hone|]. split; [reflexivity|].
  split; unfold stock; rewrite Hstock;
    try (vm_compute; reflexivity); try reflexivity; exact Hone.
Defined.

(** ** Invoice numbers *)

Lemma select_invoice_number_true db c n k row :
  invoices db !! k = Some row ->
  inv_company_id row = c -> inv_invoice_number row = n ->
  select_invoice_number db c (Some n) = true.
Proof.
  intros Hk Hc Hn. unfold select_invoice_number. apply existsb_exists.
  exists (k, row). split.
  - apply list_elem_of_In, elem_of_map_to_list. exact Hk.
  - cbn [snd]. rewrite Hc, Hn, N.eqb_refl, String.eqb_refl. reflexivity.
Qed.

Lemma select_invoice_number_false db c n k row :
  select_invoice_number db c (Some n) = false ->
  invoices db !! k = Some row -> inv_company_id row = c ->
  inv_invoice_number row <> n.
Proof.
  intros Hsel Hk Hc Hn.
  rewrite (select_invoice_number_true db c n k row Hk Hc Hn) in Hsel.
  discriminate.
Qed.

(** A request of [src/unnamed/part_000] that succeeds is one the other
    revision serves alike once it is given as the first reads it. *)
Lemma scoped_createInvoice_as_plain e c req db r :
  Scoped.createInvoice_body e c req db = Ok r ->
  select_party db (cb_party_id req) c = true
  /\ Plain.createInvoice_body e c (as_read req) db = Ok r.
Proof.
  intros H. destruct r as [db' id].
  pose proof (scoped_createInvoice_party_owned _ _ _ _ _ _ H) as Hparty.
  split; [exact Hparty|].
  apply scoped_createInvoice_body_Ok in H
    as (_ & _ & db1 & ls & db2 & tot & Hins & Hls & Hloop & Htot).
  unfold Plain.createInvoice_body, as_read.
  cbn [cb_party_id cb_invoice_number cb_due_date cb_items cb_status].
  unfold mbind, result_bind. rewrite Hins, Hls. cbn [bind].
  pose proof Hloop as Hloop'. apply create_lines_agree in Hloop'.
  rewrite Hloop'. cbn [bind].
  apply insert_invoice_fresh in Hins as (r & Hr & Hc & _).
  apply create_lines_Ok in Hloop as (_ & _ & _ & Hv2 & _).
  rewrite (update_invoice_total_scope e db2 tot id c r), Htot;
    [reflexivity | rewrite Hv2; exact Hr | exact Hc].
Qed.

Lemma lines_given_or_empty items :
  lines_given (or_empty items) = lines_given items.
Proof. destruct items; reflexivity. Qed.

(** The invoice row behind a 201 of either [createInvoice]: its number is
    the request's as [VARCHAR(50)] stores it. *)
Lemma createInvoice_row e c req db db' resp :
  (Scoped.createInvoice e c req db = (db', resp)
   \/ Plain.createInvoice e c req db = (db', resp)) ->
  http_status resp = 201 ->
  exists row,
    invoices db !! uuid_generate_v4 e = None
    /\ invoices db' = <[uuid_generate_v4 e := row]> (invoices db)
    /\ inv_company_id row = c
    /\ (exists n0, cb_invoice_number req = Some n0
                   /\ varchar 50 n0 = Ok (inv_invoice_number row))
    /\ select_invoice_number db c (Some (inv_invoice_number row)) = false.
Proof.
  intros [H|H] Hst.
  - apply transaction_success in H as (id & Hbody & _);
      [| intros err; destruct err as [| | | | | | | |[]]; simpl; lia | lia].
    apply scoped_createInvoice_as_plain in Hbody as (_ & Hbody).
    apply plain_createInvoice_frame in Hbody
      as (row & new & -> & Hfresh & Hv & Hc & _ & Hn & Hnum & _).
    exists row. auto.
  - apply transaction_success in H as (id & Hbody & _);
      [| intros err; simpl; lia | lia].
    apply plain_createInvoice_frame in Hbody
      as (row & new & -> & Hfresh & Hv & Hc & _ & Hn & Hnum & _).
    exists row. auto.
Qed.

(** X10.  An invoice number is used once per company.  While the
    company has an invoice with a number (of 50 characters at most, as
    every stored number is), every [createInvoice] of the company with
    that number is answered 400 and writes nothing: in
    [src/unnamed/part_000] the reply says 'Invoice number already exists
    for this company' when the party passes; in
    [src/controllers/invoiceController.js] it is the error of the
    [INSERT].  A [createInvoice] answered 201 (either revision) leaves
    the company with an invoice of the number it was asked for. *)
Theorem invoice_number_taken e c req db n :
  cb_invoice_number req = Some n ->
  (String.length n <= 50)%nat ->
  (number_in_use db c n ->
   (fst (Scoped.createInvoice e c req db) = db
    /\ http_status (snd (Scoped.createInvoice e c req db)) = 400
    /\ (select_party db (cb_party_id req) c = true ->
        snd (Scoped.createInvoice e c req db)
        = Response 400 (ErrorMessage InvoiceNumberExists)))
   /\ (fst (Plain.createInvoice e c req db) = db
       /\ exists err, snd (Plain.createInvoice e c req db)
                      = Response 400 (ErrorMessage err)))
  /\ (forall e0 req0 db0 resp,
         (Scoped.createInvoice e0 c req0 db0 = (db, resp)
          \/ Plain.createInvoice e0 c req0 db0 = (db, resp)) ->
         http_status resp = 201 ->
         cb_invoice_number req0 = Some n ->
         number_in_use db c n).
Proof.
  intros Hnum Hlen. split.
  - intros (k & row & Hk & Hc & Hn).
    assert (select_invoice_number db c (Some n) = true) as Htaken
        by exact (select_invoice_number_true db c n k row Hk Hc Hn).
    split.
    + unfold Scoped.createInvoice, Scoped.createInvoice_body.
      destruct (select_party db (cb_party_id req) c); cbn [negb].
      * rewrite Hnum, Htaken. cbn. auto.
      * cbn. split; [reflexivity|]. split; [reflexivity|discriminate].
    + unfold Plain.createInvoice, Plain.createInvoice_body.
      unfold mbind, result_bind.
      destruct (insert_invoice e db c (cb_party_id req) (cb_invoice_number req)
                  (cb_due_date req) 0 (cb_status req)) as [[db2 id]|err] eqn:Hins.
      * apply insert_invoice_Ok in Hins
          as (_ & _ & _ & p & n1 & st & _ & (n0 & Hn0 & Hvar & Hfree) & _).
        rewrite Hnum in Hn0. injection Hn0 as <-.
        rewrite (varchar_within _ _ _ Hvar Hlen) in Hfree. congruence.
      * cbn. eauto.
  - intros e0 req0 db0 resp H Hst Hnum0.
    destruct (createInvoice_row _ _ _ _ _ _ H Hst)
      as (row & _ & Hv & Hc & (n0 & Hn0 & Hvar) & _).
    rewrite Hnum0 in Hn0. injection Hn0 as <-.
    exists (uuid_generate_v4 e0), row.
    split; [rewrite Hv; apply lookup_insert_eq|]. split; [exact Hc|].
    exact (varchar_within _ _ _ Hvar Hlen).
Qed.

(** X10 at work: 'INV-1' is asked for again after invoice 500. *)
Lemma invoice_number_taken_witness :
  cb_invoice_number (create_with 10%N [ln 101%N 1]) = Some "INV-1"%string
  /\ (String.length "INV-1" <= 50)%nat
  /\ number_in_use db_one_line 1%N "INV-1"
  /\ Scoped.createInvoice e1 1%N (create_with 10%N [ln 101%N 1]) db_one_line
     = (db_one_line, Response 400 (ErrorMessage InvoiceNumberExists)).
Proof.
  assert (String.length "INV-1" <= 50)%nat as Hlen by (simpl; lia).
  destruct (invoice_number_taken e1 1%N (create_with 10%N [ln 101%N 1])
              db_one_line "INV-1" eq_refl Hlen) as (Htaken & Hleft).
  assert (number_in_use db_one_line 1%N "INV-1") as Huse.
  { apply (Hleft e0 (create_with 10%N [ln 100%N 4]) db0
             (Response 201 (InvoiceCreated 500%N))).
    - left. vm_compute. reflexivity.
    - reflexivity.
    - reflexivity. }
  split; [reflexivity|]. split; [exact Hlen|]. split; [exact Huse|].
  destruct (Htaken Huse) as ((Hdb & _ & Hresp) & _).
  specialize (Hresp eq_refl). rewrite <- Hdb at 2. rewrite <- Hresp.
  destruct (Scoped.createInvoice e1 1%N (create_with 10%N [ln 101%N 1])
              db_one_line). reflexivity.
Defined.

(** ** The read handlers *)

(** The join with [invoices] that [src/unnamed/part_000] adds to the
    second [SELECT] keeps every line of an invoice of the company. *)
Lemma select_lines_of_company_found db id c :
  is_Some (select_invoice db id c) ->
  select_lines_of_company db id c = select_lines db id.
Proof.
  intros Hsel. unfold select_lines_of_company, select_lines.
  apply list_filter_iff. intros r. split.
  - intros (Hid & Hit & _). auto.
  - intros (Hid & Hit). split; [exact Hid|]. split; [exact Hit|].
    rewrite Hid. exact Hsel.
Qed.





(** ** The listing and the summary *)

Lemma created_at_desc_trans : Transitive created_at_desc.
Proof. intros a b d. unfold created_at_desc. lia. Qed.

Lemma created_at_desc_total : Total created_at_desc.
Proof. intros a b. unfold created_at_desc. lia. Qed.

Lemma elem_of_select_invoices db c same_company id inv :
  (id, inv) ∈ select_invoices db c same_company
  <-> invoices db !! id = Some inv /\ inv_company_id inv = c
      /\ joins_party db same_company inv = true.
Proof.
  unfold select_invoices.
  rewrite merge_sort_Permutation, elem_of_map_to_list, map_lookup_filter_Some.
  cbn [snd]. tauto.
Qed.

Lemma joins_party_true db inv :
  joins_party db true inv
  = select_party db (Some (inv_party_id inv)) (inv_company_id inv).
Proof.
  unfold joins_party, select_party.
  destruct (parties db !! inv_party_id inv); reflexivity.
Qed.

Lemma joins_party_false db inv :
  joins_party db false inv = true <-> is_Some (parties db !! inv_party_id inv).
Proof.
  unfold joins_party. destruct (parties db !! inv_party_id inv); cbn.
  - split; eauto.
  - split; [discriminate|]. intros [x Hx]. discriminate.
Qed.

(** X13.  [getAllInvoices] lists, latest [created_at] first and each
    invoice once, the invoices of the caller's company whose party
    exists; the revision of [src/unnamed/part_000] lists of these only
    the ones whose party is the company's, so its listing is part of the
    other's. *)
Theorem getAllInvoices_lists c db :
  (forall id inv,
      (id, inv) ∈ Scoped.getAllInvoices c db
      <-> invoices db !! id = Some inv /\ inv_company_id inv = c
          /\ select_party db (Some (inv_party_id inv)) c = true)
  /\ (forall id inv,
        (id, inv) ∈ Plain.getAllInvoices c db
        <-> invoices db !! id = Some inv /\ inv_company_id inv = c
            /\ is_Some (parties db !! inv_party_id inv))
  /\ StronglySorted created_at_desc (Scoped.getAllInvoices c db)
  /\ StronglySorted created_at_desc (Plain.getAllInvoices c db)
  /\ NoDup (Scoped.getAllInvoices c db).*1
  /\ NoDup (Plain.getAllInvoices c db).*1
  /\ Scoped.getAllInvoices c db ⊆ Plain.getAllInvoices c db.
Proof.
  assert (forall id inv,
             (id, inv) ∈ Scoped.getAllInvoices c db
             <-> invoices db !! id = Some inv /\ inv_company_id inv = c
                 /\ select_party db (Some (inv_party_id inv)) c = true) as Hs.
  { intros id inv. unfold Scoped.getAllInvoices.
    rewrite elem_of_select_invoices, joins_party_true. split.
    - intros (H1 & H2 & H3). rewrite H2 in H3. auto.
    - intros (H1 & H2 & H3). rewrite H2. auto. }
  assert (forall id inv,
             (id, inv) ∈ Plain.getAllInvoices c db
             <-> invoices db !! id = Some inv /\ inv_company_id inv = c
                 /\ is_Some (parties db !! inv_party_id inv)) as Hp.
  { intros id inv. unfold Plain.getAllInvoices.
    rewrite elem_of_select_invoices, joins_party_false. reflexivity. }
  split; [exact Hs|]. split; [exact Hp|].
  split; [apply (@StronglySorted_merge_sort _ created_at_desc _
                   created_at_desc_trans created_at_desc_total)|].
  split; [apply (@StronglySorted_merge_sort _ created_at_desc _
                   created_at_desc_trans created_at_desc_total)|].
  split; [unfold Scoped.getAllInvoices, select_invoices;
          rewrite merge_sort_Permutation; apply NoDup_fst_map_to_list|].
  split; [unfold Plain.getAllInvoices, select_invoices;
          rewrite merge_sort_Permutation; apply NoDup_fst_map_to_list|].
  intros [id inv] Hin. apply Hp. apply Hs in Hin as (H1 & H2 & H3).
  split; [exact H1|]. split; [exact H2|].
  apply select_party_Some in H3 as (p & r & [= <-] & Hr & _). eauto.
Qed.

Lemma foldr_add_Permutation (l l' : list Z) :
  l ≡ₚ l' -> foldr Z.add 0 l = foldr Z.add 0 l'.
Proof.
  induction 1 as [|x l l' _ IH|x y l|l l' l'' _ IH1 _ IH2]; simpl; lia.
Qed.

(** The rows the summary is taken over. *)
Lemma summary_rows_nonneg db c :
  totals_nonneg db ->
  Forall (fun i => 0 <= inv_total_amount i)
    (snd <$> map_to_list (filter (fun kr => inv_company_id (snd kr) = c)
                                 (invoices db))).
Proof.
  intros Hinv. apply Forall_forall. intros i Hi.
  apply list_elem_of_fmap in Hi as ([k r] & -> & Hkr).
  apply elem_of_map_to_list, map_lookup_filter_Some in Hkr as [Hk _].
  exact (Hinv _ _ Hk).
Qed.

Lemma paid_within_total rows :
  Forall (fun i => 0 <= inv_total_amount i) rows ->
  0 <= foldr Z.add 0 (paid_total <$> rows)
    <= foldr Z.add 0 (inv_total_amount <$> rows).
Proof.
  induction 1 as [|i rows Hi _ IH]; [simpl; lia|].
  rewrite !fmap_cons. cbn [foldr].
  assert (0 <= paid_total i <= inv_total_amount i)
    by (unfold paid_total; destruct (inv_status i); lia).
  lia.
Qed.

(** X14.  The figures of [getInvoiceSummary], on a database within
    [CHECK (total_amount >= 0)]: the paid amount lies between 0 and the
    total amount, and the number of overdue invoices between 0 and the
    number of invoices; a company without invoices gets four zeros. *)
Theorem getInvoiceSummary_bounds timestamptz e c db :
  totals_nonneg db ->
  0 <= paid_amount (getInvoiceSummary timestamptz e c db)
    <= total_amount (getInvoiceSummary timestamptz e c db)
  /\ 0 <= overdue (getInvoiceSummary timestamptz e c db)
       <= total_invoices (getInvoiceSummary timestamptz e c db)
  /\ ((forall id inv, invoices db !! id = Some inv -> inv_company_id inv <> c) ->
      getInvoiceSummary timestamptz e c db = InvoiceSummary 0 0 0 0).
Proof.
  intros Hinv. unfold getInvoiceSummary.
  cbn [paid_amount total_amount overdue total_invoices].
  split; [apply paid_within_total, summary_rows_nonneg, Hinv|].
  split.
  - split; [lia|]. apply inj_le, length_filter.
  - intros Hnone.
    assert (filter (fun kr : uuid * invoice_row => inv_company_id (snd kr) = c)
              (invoices db) = ∅) as ->.
    { apply map_empty. intros k. apply map_lookup_filter_None. right.
      intros inv Hk. cbn [snd]. eapply Hnone, Hk. }
    rewrite map_to_list_empty. reflexivity.
Qed.

Lemma totals_nonneg_decide db :
  bool_decide (map_Forall (fun _ r => 0 <= inv_total_amount r) (invoices db))
  = true ->
  totals_nonneg db.
Proof. intros H. apply bool_decide_eq_true in H. exact H. Qed.

(** X14 at work: company 1 after invoice 500 was marked paid. *)
Lemma getInvoiceSummary_bounds_witness :
  getInvoiceSummary (fun d => d * 100) e2 1%N
    (fst (Scoped.updateInvoiceStatus e1 1%N 500%N (Some "paid"%string) db_one_line))
  = InvoiceSummary 1 40000 40000 0
  /\ 0 <= paid_amount
            (getInvoiceSummary (fun d => d * 100) e2 1%N
               (fst (Scoped.updateInvoiceStatus e1 1%N 500%N (Some "paid"%string)
                       db_one_line)))
       <= total_amount
            (getInvoiceSummary (fun d => d * 100) e2 1%N
               (fst (Scoped.updateInvoiceStatus e1 1%N 500%N (Some "paid"%string)
                       db_one_line))).
Proof.
  split; [vm_compute; reflexivity|].
  destruct (getInvoiceSummary_bounds (fun d => d * 100) e2 1%N
              (fst (Scoped.updateInvoiceStatus e1 1%N 500%N (Some "paid"%string)
                      db_one_line))) as (Hpaid & _).
  - apply totals_nonneg_decide. vm_compute. reflexivity.
  - exact Hpaid.
Defined.

(** ** What a company reads is not changed by another company's calls *)

Lemma select_lines_as_filter db id :
  select_lines db id
  = filter (fun r => is_Some (items db !! ii_item_id r)) (lines_of db id).
Proof.
  unfold select_lines, lines_of. rewrite list_filter_filter.
  apply list_filter_iff. intros r. tauto.
Qed.

(** X15.  Reads are isolated too in [src/unnamed/part_000]: a call made
    for one company, whatever it is and whether it succeeds or not,
    leaves unchanged what every other company gets from
    [getInvoiceSummary], [getAllInvoices] and [getInvoiceById]. *)
Theorem reads_unaffected_by_other_company call c timestamptz e db :
  company_of call <> c ->
  getInvoiceSummary timestamptz e c (fst (run_scoped call db))
  = getInvoiceSummary timestamptz e c db
  /\ Scoped.getAllInvoices c (fst (run_scoped call db))
     = Scoped.getAllInvoices c db
  /\ (forall id, Scoped.getInvoiceById c id (fst (run_scoped call db))
                 = Scoped.getInvoiceById c id db).
Proof.
  intros Hne.
  destruct (run_scoped_writes call db) as (Hp & Hw).
  pose proof (run_scoped_restocked call db) as Hitems.
  set (db' := fst (run_scoped call db)) in *.
  assert ((forall k inv, inv_company_id inv = c ->
             (invoices db' !! k = Some inv <-> invoices db !! k = Some inv))
          /\ (forall k inv, invoices db !! k = Some inv -> inv_company_id inv = c ->
                lines_of db' k = lines_of db k)) as [Hv Hl].
  { destruct Hw as [[Hv Hl] | [id Hw]].
    - unfold lines_of. rewrite Hv, Hl. split; reflexivity.
    - apply writes_invoice_outside in Hw as [H1 H2]. split.
      + intros k inv Hc. apply H1. congruence.
      + intros k inv Hk Hc. eapply H2; [exact Hk | congruence]. }
  assert (filter (fun kr : uuid * invoice_row => inv_company_id (snd kr) = c)
            (invoices db')
          = filter (fun kr => inv_company_id (snd kr) = c) (invoices db)) as Hrows.
  { apply map_filter_strong_ext_1. intros k inv. cbn [snd].
    split; intros [Hc Hk]; (split; [exact Hc|]); apply (Hv k inv Hc), Hk. }
  split; [|split].
  - unfold getInvoiceSummary. rewrite Hrows. reflexivity.
  - unfold Scoped.getAllInvoices, select_invoices. f_equal. f_equal.
    apply map_filter_strong_ext_1. intros k inv. cbn [snd].
    unfold joins_party. rewrite Hp.
    split; intros [[Hc Hj] Hk]; (split; [auto|]); apply (Hv k inv Hc), Hk.
  - intros id. unfold Scoped.getInvoiceById.
    assert (select_invoice db' id c = select_invoice db id c) as Hsel.
    { apply option_eq. intros inv. unfold select_invoice. split.
      - destruct (invoices db' !! id) as [r|] eqn:Hr; [|discriminate].
        destruct (N.eqb_spec (inv_company_id r) c) as [Hc|]; [|discriminate].
        intros [= <-]. apply (Hv id r Hc) in Hr. rewrite Hr, Hc, N.eqb_refl.
        reflexivity.
      - destruct (invoices db !! id) as [r|] eqn:Hr; [|discriminate].
        destruct (N.eqb_spec (inv_company_id r) c) as [Hc|]; [|discriminate].
        intros [= <-]. apply (Hv id r Hc) in Hr. rewrite Hr, Hc, N.eqb_refl.
        reflexivity. }
    rewrite Hsel. destruct (select_invoice db id c) as [inv|] eqn:Hfound;
      [|reflexivity].
    do 2 f_equal.
    rewrite !select_lines_of_company_found by (rewrite ?Hsel, ?Hfound; eauto).
    rewrite !select_lines_as_filter.
    apply select_invoice_Some in Hfound as (Hk & Hc).
    rewrite (Hl id inv Hk Hc). apply list_filter_iff. intros r.
    destruct (Hitems (ii_item_id r)) as [n ->].
    destruct (items db !! ii_item_id r); cbn; split; intros [x Hx]; eauto;
      discriminate.
Qed.

(** X15 at work: company 2 tries its hand at invoice 500 of company 1. *)
Lemma reads_unaffected_by_other_company_witness :
  Scoped.getInvoiceById 1%N 500%N
    (fst (Scoped.updateInvoice e1 2%N 500%N (update_with []) db_one_line))
  = Scoped.getInvoiceById 1%N 500%N db_one_line.
Proof.
  refine (proj2 (proj2 (reads_unaffected_by_other_company
                          (UpdateInvoice e1 2%N 500%N (update_with [])) 1%N
                          (fun d => d) e1 db_one_line _)) 500%N).
  discriminate.
Defined.

(** ** The listing against the summary *)

Lemma select_invoices_all db c same_company :
  parties_of_company db ->
  select_invoices db c same_company
  = merge_sort created_at_desc
      (map_to_list (filter (fun kr => inv_company_id (snd kr) = c) (invoices db))).
Proof.
  intros Hinv. unfold select_invoices. do 2 f_equal.
  apply map_filter_ext. intros k inv Hk. cbn [snd].
  split; [tauto|]. intros Hc. split; [exact Hc|].
  specialize (Hinv k inv Hk). unfold joins_party. unfold select_party in Hinv.
  destruct (parties db !! inv_party_id inv); [|discriminate].
  rewrite Hinv. apply orb_true_r.
Qed.

(** X18.  On a database in which every invoice's party belongs to the
    invoice's company, [getAllInvoices] is complete and agrees with
    [getInvoiceSummary]: both revisions list the same invoices, as many
    as [total_invoices] counts, and their [total_amount]s add up to the
    summary's [total_amount]. *)
Theorem getAllInvoices_complete timestamptz e c db :
  parties_of_company db ->
  Scoped.getAllInvoices c db = Plain.getAllInvoices c db
  /\ Z.of_nat (length (Scoped.getAllInvoices c db))
     = total_invoices (getInvoiceSummary timestamptz e c db)
  /\ sum_of (fun kr => inv_total_amount (snd kr)) (Scoped.getAllInvoices c db)
     = total_amount (getInvoiceSummary timestamptz e c db).
Proof.
  intros Hinv. unfold Scoped.getAllInvoices, Plain.getAllInvoices.
  rewrite !(select_invoices_all _ _ _ Hinv). split; [reflexivity|].
  unfold getInvoiceSummary. cbn [total_invoices total_amount].
  set (rows := map_to_list _).
  pose proof (merge_sort_Permutation created_at_desc rows) as Hperm.
  split.
  - rewrite Hperm, length_fmap. reflexivity.
  - unfold sum_of. rewrite <- list_fmap_compose.
    apply foldr_add_Permutation. rewrite Hperm. reflexivity.
Qed.

(** ** The catalog through the invoice calls *)

Lemma with_quantity_id r : with_quantity (fun q => q) r = r.
Proof. destruct r. reflexivity. Qed.

Lemma same_catalog_refl db db' : items db' = items db -> same_catalog db db'.
Proof.
  intros H i. exists (fun q => q). rewrite H.
  destruct (items db !! i) as [r|]; [|reflexivity]. simpl.
  rewrite with_quantity_id. reflexivity.
Qed.

Lemma same_catalog_trans db1 db2 db3 :
  same_catalog db1 db2 -> same_catalog db2 db3 -> same_catalog db1 db3.
Proof.
  intros H12 H23 i. destruct (H12 i) as [f Hf]. destruct (H23 i) as [g Hg].
  exists (fun q => g (f q)). rewrite Hg, Hf.
  destruct (items db1 !! i) as [r|]; reflexivity.
Qed.

(** What [same_catalog] keeps of a row. *)
Lemma same_catalog_Some db db' i it' :
  same_catalog db db' -> items db' !! i = Some it' ->
  exists it, items db !! i = Some it
             /\ item_company_id it' = item_company_id it
             /\ item_price it' = item_price it.
Proof.
  intros H Hit'. destruct (H i) as [f Hf]. rewrite Hf in Hit'.
  destruct (items db !! i) as [it|]; [|discriminate].
  injection Hit' as <-. exists it. auto.
Qed.

Lemma same_catalog_Some_inv db db' i it :
  same_catalog db db' -> items db !! i = Some it ->
  exists it', items db' !! i = Some it'
              /\ item_company_id it' = item_company_id it
              /\ item_price it' = item_price it.
Proof.
  intros H Hit. destruct (H i) as [f Hf]. rewrite Hit in Hf.
  eexists. split; [exact Hf|]. auto.
Qed.

Lemma update_item_quantity_same_catalog db i scope f db' :
  update_item_quantity db i scope f = Ok db' -> same_catalog db db'.
Proof.
  intros H. apply update_item_quantity_Ok in H
    as (_ & _ & _ & [(r & Hr & _ & _ & Hitems) | [-> _]]);
    [|apply same_catalog_refl; reflexivity].
  intros k. rewrite Hitems. destruct (decide (i = k)) as [->|Hne].
  - exists f. rewrite lookup_insert_eq, Hr. reflexivity.
  - exists (fun q => q). rewrite lookup_insert_ne by exact Hne.
    destruct (items db !! k) as [it|]; [|reflexivity]. simpl.
    rewrite with_quantity_id. reflexivity.
Qed.

Lemma plain_remove_lines_same_catalog id entries : forall db db',
  Plain.remove_lines id entries db = Ok db' -> same_catalog db db'.
Proof.
  induction entries as [|[k v] entries IH]; intros db db' H; simpl in H.
  - injection H as <-. apply same_catalog_refl. reflexivity.
  - destruct (increase_item_quantity (delete_invoice_item db id k) v k None)
      as [db1|] eqn:H1; [|discriminate].
    simpl in H. apply increase_item_quantity_Ok in H1 as [_ H1].
    apply update_item_quantity_same_catalog in H1.
    eapply same_catalog_trans; [exact H1|]. eapply IH, H.
Qed.

Lemma restocked_same_catalog c db db' :
  (forall i, exists n, items db' !! i = restocked c n <$> items db !! i) ->
  same_catalog db db'.
Proof.
  intros H i. destruct (H i) as [n Hn]. rewrite Hn.
  destruct (items db !! i) as [it|]; [|exists (fun q => q); reflexivity].
  cbn [fmap option_fmap option_map].
  destruct (N.eqb (item_company_id it) c) eqn:Hc.
  - exists (fun q => q + n). unfold restocked. rewrite Hc. reflexivity.
  - exists (fun q => q). unfold restocked. rewrite Hc.
    rewrite with_quantity_id. reflexivity.
Qed.

Lemma run_scoped_same_catalog call db : same_catalog db (fst (run_scoped call db)).
Proof.
  apply (restocked_same_catalog (company_of call)).
  apply run_scoped_restocked.
Qed.

(** The loop of [updateInvoice] behind a body that ran to its end. *)
Lemma scoped_updateInvoice_loop e c id req db db' u ls :
  Scoped.updateInvoice_body e c id req db = Ok (db', u) ->
  ub_items req = Some ls ->
  exists db1 db2 m m2 tot,
    items db1 = items db
    /\ Scoped.update_lines c id ls db1 m 0 = Ok (db2, m2, tot).
Proof.
  intros H Hls. unfold Scoped.updateInvoice_body in H.
  destruct (select_invoice db id c) as [inv|]; [|discriminate].
  destruct (match ub_party_id req with given _ => _ | _ => false end);
    [discriminate|].
  unfold mbind, result_bind in H.
  destruct (update_invoice_meta _ _ _ _ _ _ _) as [db1|] eqn:Hmeta;
    [|discriminate].
  cbn [bind] in H. rewrite Hls in H.
  apply update_invoice_meta_frame in Hmeta as (Hi1 & _).
  destruct (Scoped.update_lines _ _ _ _ _ _) as [[[db2 m2] tot]|] eqn:Hloop;
    [|discriminate].
  eauto 10.
Qed.

Lemma plain_updateInvoice_loop e c id req db db' u ls :
  Plain.updateInvoice_body e c id req db = Ok (db', u) ->
  ub_items req = Some ls ->
  exists db1 db2 m m2 tot,
    items db1 = items db
    /\ Scoped.update_lines c id ls db1 m 0 = Ok (db2, m2, tot).
Proof.
  intros H Hls. unfold Plain.updateInvoice_body in H.
  destruct (select_invoice db id c) as [inv|]; [|discriminate].
  unfold mbind, result_bind in H.
  destruct (update_invoice_meta _ _ _ _ _ _ _) as [db1|] eqn:Hmeta;
    [|discriminate].
  cbn [bind] in H. rewrite Hls in H.
  apply update_invoice_meta_frame in Hmeta as (Hi1 & _).
  destruct (Plain.update_lines _ _ _ _ _ _) as [[[db2 m2] tot]|] eqn:Hloop;
    [|discriminate].
  apply update_lines_agree in Hloop. eauto 10.
Qed.

Lemma plain_updateInvoice_same_catalog e c id req db db' u :
  Plain.updateInvoice_body e c id req db = Ok (db', u) -> same_catalog db db'.
Proof.
  intros H. unfold Plain.updateInvoice_body in H.
  destruct (select_invoice db id c) as [inv|]; [|discriminate].
  unfold mbind, result_bind in H.
  destruct (update_invoice_meta _ _ _ _ _ _ _) as [db1|] eqn:Hmeta;
    [|discriminate].
  cbn [bind] in H.
  apply update_invoice_meta_frame in Hmeta as (Hi1 & _).
  destruct (ub_items req) as [ls|].
  - destruct (Plain.update_lines _ _ _ _ _ _) as [[[db2 m2] tot]|] eqn:Hloop;
      [|discriminate].
    cbn [bind] in H.
    destruct (Plain.remove_lines _ _ _) as [db3|] eqn:Hrem; [|discriminate].
    cbn [bind] in H.
    destruct (update_invoice_total _ _ _ _ _) as [db4|] eqn:Htot; [|discriminate].
    cbn [bind] in H. injection H as <- _.
    apply update_invoice_total_frame in Htot as (Hi4 & _).
    apply update_lines_agree, update_lines_stock in Hloop as (_ & _ & _ & Hstock).
    apply plain_remove_lines_same_catalog in Hrem.
    eapply same_catalog_trans; [apply same_catalog_refl, Hi1|].
    eapply same_catalog_trans; [|eapply same_catalog_trans;
                                  [exact Hrem | apply same_catalog_refl, Hi4]].
    intros i. eexists. apply Hstock.
  - cbn [bind] in H. injection H as <- _. apply same_catalog_refl, Hi1.
Qed.

Lemma run_plain_same_catalog call db : same_catalog db (fst (run_plain call db)).
Proof.
  destruct (run_plain_cases call db) as [->|H];
    [apply same_catalog_refl; reflexivity|].
  destruct call as [e c req|e c id req|e c id status|c id].
  - destruct H as [id H]. apply plain_createInvoice_frame in H
      as (row & new & _ & _ & _ & _ & _ & _ & _ & _ & _ & _ & _ & Hstock).
    intros i. eexists. apply Hstock.
  - destruct H as [u H]. eapply plain_updateInvoice_same_catalog, H.
  - destruct H as (st & inv & _ & ->). apply same_catalog_refl. reflexivity.
  - destruct H as [u H]. apply plain_deleteInvoice_frame in H as (_ & _ & _ & _ & Hi).
    apply same_catalog_refl, Hi.
Qed.

(** ** The constraints through the invoice calls *)

Lemma consistent_lines_reference_invoices db :
  consistent db -> lines_reference_invoices db.
Proof.
  intros (_ & _ & _ & _ & _ & Hlines) r Hr.
  rewrite Forall_forall in Hlines.
  destruct (Hlines r Hr) as ((inv & it & Hinv & _) & _). eauto.
Qed.

(** A sound line stays sound when its item keeps its company and its
    invoice stays with its company. *)
Lemma line_sound_transfer db db' r :
  same_catalog db db' ->
  (forall inv, invoices db !! ii_invoice_id r = Some inv ->
     exists inv', invoices db' !! ii_invoice_id r = Some inv'
                  /\ inv_company_id inv' = inv_company_id inv) ->
  line_sound db r -> line_sound db' r.
Proof.
  intros Hcat Hinv ((inv & it & Hi & Hit & Hc) & Hrest).
  split; [|exact Hrest].
  destruct (Hinv inv Hi) as (inv' & Hi' & Hc').
  destruct (same_catalog_Some_inv _ _ _ _ Hcat Hit) as (it' & Hit' & Hci & _).
  exists inv', it'. split; [exact Hi'|]. split; [exact Hit'|]. congruence.
Qed.

Lemma writes_invoice_lookup c id db db' k :
  writes_invoice c id db db' -> k <> id -> invoices db' !! k = invoices db !! k.
Proof.
  intros (_ & [-> | (row & -> & _)] & _) Hk.
  - apply lookup_delete_ne. auto.
  - apply lookup_insert_ne. auto.
Qed.

(** The lines of the one invoice written being sound, all are. *)
Lemma lines_sound_after c id db db' :
  Forall (line_sound db) (invoice_items db) ->
  same_catalog db db' ->
  writes_invoice c id db db' ->
  Forall (line_sound db') (lines_of db' id) ->
  Forall (line_sound db') (invoice_items db').
Proof.
  intros Hold Hcat Hw Hnew. rewrite Forall_forall in *. intros r Hr.
  destruct (decide (ii_invoice_id r = id)) as [Hid|Hne].
  - apply Hnew. apply list_elem_of_filter. auto.
  - assert (r ∈ invoice_items db) as Hr0.
    { destruct Hw as (_ & _ & Hl).
      assert (r ∈ filter (fun r => ii_invoice_id r <> id) (invoice_items db')) as Hf
        by (apply list_elem_of_filter; auto).
      rewrite Hl in Hf. apply list_elem_of_filter in Hf as [_ Hf]. exact Hf. }
    apply (line_sound_transfer db); [exact Hcat | | apply Hold, Hr0].
    intros inv Hinv. exists inv. split; [|reflexivity].
    rewrite (writes_invoice_lookup _ _ _ _ _ Hw Hne). exact Hinv.
Qed.

(** The frame of the constraints: a call that moves stock within the
    [CHECK], keeps the catalog and the parties, and writes one invoice
    with an admissible row and sound lines, keeps the constraints. *)
Lemma consistent_after c db db' :
  consistent db ->
  stock_nonneg db' -> same_catalog db db' -> parties db' = parties db ->
  ((invoices db' = invoices db /\ invoice_items db' = invoice_items db)
   \/ exists id, writes_invoice c id db db'
                 /\ (forall row, invoices db' !! id = Some row ->
                       row_admissible db id row)
                 /\ Forall (line_sound db') (lines_of db' id)) ->
  consistent db'.
Proof.
  intros (Hstock & Hprice & Htot & Huniq & Hfk & Hlines) Hstock' Hcat Hp Hw.
  split; [exact Hstock'|]. split.
  { intros i it' Hit'.
    destruct (same_catalog_Some _ _ _ _ Hcat Hit') as (it & Hit & _ & ->).
    exact (Hprice _ _ Hit). }
  destruct Hw as [[Hv Hl] | (id & Hw & Hadm & Hnew)].
  - split; [intros k r; rewrite Hv; apply Htot|].
    split; [intros i j r s; rewrite Hv; apply Huniq|].
    split; [intros k r; rewrite Hv, Hp; apply Hfk|].
    rewrite Hl. eapply Forall_impl; [exact Hlines|].
    intros r. apply line_sound_transfer; [exact Hcat|].
    intros inv Hinv. exists inv. rewrite Hv. auto.
  - assert (forall k r, invoices db' !! k = Some r ->
              (k <> id /\ invoices db !! k = Some r)
              \/ (k = id /\ row_admissible db id r)) as Hrow.
    { intros k r Hk. destruct (decide (k = id)) as [->|Hne].
      - right. auto.
      - left. rewrite (writes_invoice_lookup _ _ _ _ _ Hw Hne) in Hk. auto. }
    split; [|split; [|split]].
    + intros k r Hk. destruct (Hrow k r Hk) as [[_ Hold] | [_ (Hge & _)]];
        [exact (Htot _ _ Hold) | exact Hge].
    + intros i j r s Hi Hj Hc Hn.
      destruct (Hrow i r Hi) as [[Hi0 Hiold] | [-> (_ & _ & Hinum)]];
        destruct (Hrow j s Hj) as [[Hj0 Hjold] | [-> (_ & _ & Hjnum)]].
      * exact (Huniq _ _ _ _ Hiold Hjold Hc Hn).
      * exfalso. exact (Hjnum i r Hiold Hi0 Hc Hn).
      * exfalso. apply (Hinum j s Hjold Hj0); congruence.
      * reflexivity.
    + intros k r Hk. rewrite Hp.
      destruct (Hrow k r Hk) as [[_ Hold] | [_ (_ & Hparty & _)]];
        [exact (Hfk _ _ Hold) | exact Hparty].
    + eapply lines_sound_after; eauto.
Qed.

(** Rows the calls write are admissible. *)
Lemma created_row_admissible db c id row n :
  inv_company_id row = c -> inv_invoice_number row = n ->
  select_invoice_number db c (Some n) = false ->
  is_Some (parties db !! inv_party_id row) ->
  0 <= inv_total_amount row ->
  row_admissible db id row.
Proof.
  intros Hc Hn Hfree Hparty Hge. split; [exact Hge|]. split; [exact Hparty|].
  intros k r Hk _ Hcr. rewrite Hn.
  eapply select_invoice_number_false; [exact Hfree | exact Hk | congruence].
Qed.

Lemma header_updated_admissible e req db id inv inv' :
  consistent db ->
  invoices db !! id = Some inv ->
  header_updated e req inv inv' ->
  0 <= inv_total_amount inv' ->
  (forall p, ub_party_id req = given p -> is_Some (parties db !! p)) ->
  row_admissible db id inv'.
Proof.
  intros (_ & _ & _ & Huniq & Hfk & _) Hinv
    (Hc & Hn & _ & _ & _ & Hp & _) Hge Hparty.
  split; [exact Hge|]. split.
  - rewrite Hp. destruct (ub_party_id req) as [| |p]; cbn [default value].
    + exact (Hfk _ _ Hinv).
    + exact (Hfk _ _ Hinv).
    + apply Hparty. reflexivity.
  - intros k r Hk Hne Hcr Hnr. apply Hne.
    apply (Huniq k id r inv Hk Hinv); congruence.
Qed.

Lemma with_status_admissible db id inv st t :
  consistent db -> invoices db !! id = Some inv ->
  row_admissible db id (with_status st t inv).
Proof.
  intros (_ & _ & Htot & Huniq & Hfk & _) Hinv.
  split; [exact (Htot _ _ Hinv)|]. split; [exact (Hfk _ _ Hinv)|].
  intros k r Hk Hne Hcr Hnr. apply Hne.
  exact (Huniq k id r inv Hk Hinv Hcr Hnr).
Qed.

(** Lines as the loops write them are sound. *)
Lemma update_lines_positive c id ls : forall db m tot r,
  Scoped.update_lines c id ls db m tot = Ok r ->
  Forall (fun l => exists q, line_quantity l = Some q /\ 0 < q) ls.
Proof.
  induction ls as [|l ls IH]; intros db m tot r H; [constructor|].
  simpl in H. destruct l as [[j|] [q|]]; simpl in H; try discriminate.
  destruct ((q =? 0) || (q <=? 0)) eqn:Hq; [discriminate|].
  destruct (select_item db j c) as [[p s]|] eqn:Hsel; [|discriminate].
  destruct ((0 <? q - get_or_0 j m) && (s <? q - get_or_0 j m));
    [discriminate|].
  destruct (if Map_has j m
            then update_invoice_item db q p (p * q) id j
            else insert_invoice_item db id j q p (p * q)) as [db1|] eqn:H1;
    [|discriminate].
  simpl in H.
  destruct (decrease_item_quantity db1 (q - get_or_0 j m) j (Some c))
    as [db2|] eqn:H2; [|discriminate].
  simpl in H. constructor; [|eapply IH, H].
  exists q. split; [reflexivity|]. zbool. lia.
Qed.

Lemma created_lines_sound db db' c id row new :
  prices_nonneg db -> same_catalog db db' ->
  invoices db' !! id = Some row -> inv_company_id row = c ->
  Forall (line_priced_from db c id) new ->
  Forall (line_sound db') new.
Proof.
  intros Hprice Hcat Hrow Hc Hnew. eapply Forall_impl; [exact Hnew|].
  intros r (Hid & Hq & Ht & it & Hit & Hci & Hp).
  destruct (same_catalog_Some_inv _ _ _ _ Hcat Hit) as (it' & Hit' & Hci' & _).
  split; [exists row, it'; rewrite Hid; split; [exact Hrow|];
          split; [exact Hit'|]; congruence|].
  split; [exact Hq|]. split; [|exact Ht]. rewrite Hp. exact (Hprice _ _ Hit).
Qed.

Lemma written_lines_sound c id ls db db1 m db2 m2 tot db' inv' :
  prices_nonneg db -> items db1 = items db ->
  Scoped.update_lines c id ls db1 m 0 = Ok (db2, m2, tot) ->
  same_catalog db db' ->
  invoices db' !! id = Some inv' -> inv_company_id inv' = c ->
  forall r, line_written_for db id ls r -> line_sound db' r.
Proof.
  intros Hprice Hi1 Hloop Hcat Hinv' Hc r (Hid & Hin & Hp & Ht).
  unfold wanted in Hin. apply list_elem_of_fmap in Hin as (l & Hl & Hlin).
  injection Hl as Hli Hlq.
  destruct (update_lines_mentions_company _ _ _ _ _ _ _ (ii_item_id r) Hloop)
    as (it & Hit & Hci).
  { apply list_elem_of_fmap. exists l. auto. }
  rewrite Hi1 in Hit.
  pose proof (update_lines_positive _ _ _ _ _ _ _ Hloop) as Hpos.
  rewrite Forall_forall in Hpos. destruct (Hpos l Hlin) as (q & Hq & Hq0).
  destruct (same_catalog_Some_inv _ _ _ _ Hcat Hit) as (it' & Hit' & Hci' & _).
  split; [exists inv', it'; rewrite Hid; split; [exact Hinv'|];
          split; [exact Hit'|]; congruence|].
  split; [congruence|]. split; [|exact Ht].
  unfold price_of in Hp. rewrite Hit in Hp. injection Hp as <-.
  exact (Hprice _ _ Hit).
Qed.

(** Lines that stay as they are under a row that stays with its company. *)
Lemma kept_lines_sound c id db db' row :
  Forall (line_sound db) (invoice_items db) ->
  same_catalog db db' ->
  invoices db' !! id = Some row -> inv_company_id row = c ->
  (forall old, invoices db !! id = Some old -> inv_company_id old = c) ->
  invoice_items db' = invoice_items db ->
  Forall (line_sound db') (lines_of db' id).
Proof.
  intros Hold Hcat Hrow Hc Hwas Hl. unfold lines_of. rewrite Hl.
  apply Forall_forall. intros r Hr. apply list_elem_of_filter in Hr as [Hid Hr].
  rewrite Forall_forall in Hold.
  apply (line_sound_transfer db); [exact Hcat | | apply Hold, Hr].
  rewrite Hid. intros inv Hinv. exists row. split; [exact Hrow|].
  rewrite (Hwas _ Hinv). exact Hc.
Qed.

Lemma Forall_filter_keep {A} (P Q : A -> Prop) `{forall x, Decision (Q x)} l :
  Forall P l -> Forall P (filter Q l).
Proof.
  rewrite !Forall_forall. intros Hl x Hx.
  apply list_elem_of_filter in Hx as [_ Hx]. auto.
Qed.

(** What each successful call writes, with the constraints in view. *)
Lemma createInvoice_effect e c req db db' id :
  consistent db ->
  Plain.createInvoice_body e c req db = Ok (db', id) ->
  writes_invoice c id db db'
  /\ (forall row, invoices db' !! id = Some row -> row_admissible db id row)
  /\ Forall (line_sound db') (lines_of db' id).
Proof.
  intros Hcons H.
  pose proof (consistent_lines_reference_invoices _ Hcons) as Hfk.
  destruct Hcons as (_ & Hprice & _).
  apply plain_createInvoice_frame in H
    as (row & new & -> & Hfresh & Hv & Hc & Hparty & Hn & Hnum & Hge & Hp & Hl
        & Hnew & Hstock).
  assert (same_catalog db db') as Hcat by (intros i; eexists; apply Hstock).
  assert (invoices db' !! uuid_generate_v4 e = Some row) as Hrow
    by (rewrite Hv; apply lookup_insert_eq).
  split; [|split].
  - split; [intros old Hold; congruence|]. split; [right; eauto|].
    rewrite Hl. apply filter_other_invoice_app.
    eapply Forall_impl; [exact Hnew|]. intros r (Hid & _). exact Hid.
  - intros row' Hrow'. rewrite Hrow in Hrow'. injection Hrow' as <-.
    eapply created_row_admissible; eauto.
  - unfold lines_of. rewrite Hl, filter_app. fold (lines_of db (uuid_generate_v4 e)).
    rewrite (lines_of_fresh _ _ Hfk Hfresh). cbn [app].
    apply Forall_filter_keep.
    eapply created_lines_sound; eauto.
Qed.

Lemma updateInvoice_effect e c id req db db' inv inv' :
  consistent db -> same_catalog db db' ->
  select_invoice db id c = Some inv ->
  invoices db' = <[id := inv']> (invoices db) ->
  header_updated e req inv inv' ->
  (forall p, ub_party_id req = given p -> is_Some (parties db !! p)) ->
  match ub_items req with
  | Some ls =>
      0 <= inv_total_amount inv'
      /\ lines_replaced db id ls db'
      /\ exists db1 db2 m m2 tot,
           items db1 = items db
           /\ Scoped.update_lines c id ls db1 m 0 = Ok (db2, m2, tot)
  | None =>
      inv_total_amount inv' = inv_total_amount inv
      /\ invoice_items db' = invoice_items db
  end ->
  writes_invoice c id db db'
  /\ (forall row, invoices db' !! id = Some row -> row_admissible db id row)
  /\ Forall (line_sound db') (lines_of db' id).
Proof.
  intros Hcons Hcat Hsel Hv Hhead Hparty Hrest.
  apply select_invoice_Some in Hsel as (Hinv & Hc).
  assert (inv_company_id inv' = c) as Hc'
    by (destruct Hhead as (-> & _); exact Hc).
  assert (invoices db' !! id = Some inv') as Hrow
    by (rewrite Hv; apply lookup_insert_eq).
  assert (0 <= inv_total_amount inv') as Hge.
  { destruct (ub_items req); [tauto|]. destruct Hrest as (-> & _).
    destruct Hcons as (_ & _ & Htot & _). exact (Htot _ _ Hinv). }
  split; [|split].
  - split; [intros old Hold; congruence|]. split; [right; eauto|].
    destruct (ub_items req) as [ls|].
    + destruct Hrest as (_ & (_ & _ & Hl) & _). exact Hl.
    + destruct Hrest as (_ & ->). reflexivity.
  - intros row Hrow'. rewrite Hrow in Hrow'. injection Hrow' as <-.
    eapply header_updated_admissible; eauto.
  - destruct (ub_items req) as [ls|].
    + destruct Hrest as (_ & (Hw & _ & _) & db1 & db2 & m & m2 & tot & Hi1 & Hloop).
      apply Forall_forall. intros r Hr.
      destruct Hcons as (_ & Hprice & _).
      eapply written_lines_sound; eauto.
    + destruct Hrest as (_ & Hl).
      destruct Hcons as (_ & _ & _ & _ & _ & Hlines).
      eapply kept_lines_sound; eauto. intros old Hold; congruence.
Qed.

Lemma updateInvoiceStatus_effect c id db db' inv st t :
  consistent db ->
  select_invoice db id c = Some inv ->
  db' = Database (items db) (parties db)
          (<[id := with_status st t inv]> (invoices db)) (invoice_items db) ->
  writes_invoice c id db db'
  /\ (forall row, invoices db' !! id = Some row -> row_admissible db id row)
  /\ Forall (line_sound db') (lines_of db' id).
Proof.
  intros Hcons Hsel ->. apply select_invoice_Some in Hsel as (Hinv & Hc).
  split; [|split].
  - split; [intros old Hold; congruence|].
    split; [right; exists (with_status st t inv); auto|reflexivity].
  - cbn [invoices]. intros row Hrow. rewrite lookup_insert_eq in Hrow.
    injection Hrow as <-. apply with_status_admissible; auto.
  - destruct Hcons as (_ & _ & _ & _ & _ & Hlines).
    apply (kept_lines_sound c id db _ (with_status st t inv));
      [ exact Hlines | apply same_catalog_refl; reflexivity
      | cbn [invoices]; apply lookup_insert_eq | exact Hc
      | intros old Hold; congruence | reflexivity ].
Qed.

Lemma deleteInvoice_effect c id db db' :
  is_Some (select_invoice db id c) ->
  invoices db' = delete id (invoices db) ->
  invoice_items db' = filter (fun r => ii_invoice_id r <> id) (invoice_items db) ->
  writes_invoice c id db db'
  /\ (forall row, invoices db' !! id = Some row -> row_admissible db id row)
  /\ Forall (line_sound db') (lines_of db' id).
Proof.
  intros [inv Hsel] Hv Hl. apply select_invoice_Some in Hsel as (Hinv & Hc).
  split; [|split].
  - split; [intros old Hold; congruence|]. split; [left; exact Hv|].
    rewrite Hl. apply list_filter_filter_l. auto.
  - intros row Hrow. rewrite Hv, lookup_delete_eq in Hrow. discriminate.
  - unfold lines_of. rewrite Hl, filter_none; [constructor|].
    apply Forall_forall. intros r Hr Hid.
    apply list_elem_of_filter in Hr as [Hne _]. contradiction.
Qed.

Lemma run_scoped_consistent call db :
  consistent db -> consistent (fst (run_scoped call db)).
Proof.
  intros Hcons.
  apply (consistent_after (company_of call) db); [exact Hcons | | | |].
  - apply run_scoped_stock_nonneg. destruct Hcons as (H & _). exact H.
  - apply run_scoped_same_catalog.
  - apply run_scoped_writes.
  - pose proof (run_scoped_same_catalog call db) as Hcat.
    destruct (run_scoped_cases call db) as [Hsame|H];
      [left; rewrite Hsame; auto|].
    right.
    destruct call as [e c req|e c id req|e c id status|c id]; cbn [company_of].
    + destruct H as [id H]. exists id.
      apply scoped_createInvoice_as_plain in H as (_ & H).
      eapply createInvoice_effect; eauto.
    + destruct H as [u H]. exists id.
      pose proof (scoped_updateInvoice_row _ _ _ _ _ _ _ H)
        as (inv & inv' & Hsel & Hv & Hp & Hhead & Hown & Hrest).
      eapply updateInvoice_effect; eauto.
      * intros p Hp'. apply Hown in Hp'.
        apply select_party_Some in Hp' as (p' & r & [= <-] & Hr & _). eauto.
      * destruct (ub_items req) as [ls|] eqn:Hls.
        -- destruct Hrest as (_ & Hge). split; [exact Hge|].
           split; [eapply scoped_updateInvoice_lines; eauto|].
           eapply scoped_updateInvoice_loop; eauto.
        -- destruct Hrest as (Ht & _ & Hl). auto.
    + destruct H as (st & inv & Hsel & H). exists id.
      eapply updateInvoiceStatus_effect; eauto.
    + destruct H as [u H]. exists id.
      pose proof (scoped_deleteInvoice_restores _ _ _ _ _ H) as (Hv & Hl & _).
      apply deleteInvoice_effect; auto.
      unfold Scoped.deleteInvoice_body in H.
      destruct (select_invoice db id c); [eauto|discriminate].
Qed.

Lemma run_plain_consistent call db :
  consistent db -> consistent (fst (run_plain call db)).
Proof.
  intros Hcons.
  apply (consistent_after (company_of call) db); [exact Hcons | | | |].
  - apply run_plain_stock_nonneg. destruct Hcons as (H & _). exact H.
  - apply run_plain_same_catalog.
  - apply run_plain_writes.
  - pose proof (run_plain_same_catalog call db) as Hcat.
    destruct (run_plain_cases call db) as [Hsame|H];
      [left; rewrite Hsame; auto|].
    right.
    destruct call as [e c req|e c id req|e c id status|c id]; cbn [company_of].
    + destruct H as [id H]. exists id. eapply createInvoice_effect; eauto.
    + destruct H as [u H]. exists id.
      pose proof (plain_updateInvoice_row _ _ _ _ _ _ _ H)
        as (inv & inv' & Hsel & Hv & Hp & Hhead & Hfk & Hrest).
      eapply updateInvoice_effect; eauto.
      destruct (ub_items req) as [ls|] eqn:Hls.
      * split; [exact Hrest|].
        split; [eapply plain_updateInvoice_lines; eauto|].
        eapply plain_updateInvoice_loop; eauto.
      * destruct Hrest as (Ht & _ & Hl). auto.
    + destruct H as (st & inv & Hsel & H). exists id.
      eapply updateInvoiceStatus_effect; eauto.
    + destruct H as [u H]. exists id.
      apply plain_deleteInvoice_frame in H as (Hsel & Hv & Hl & _).
      apply deleteInvoice_effect; auto.
Qed.

(** ** The constraints through the item and party controllers *)

Lemma lines_sound_same_invoices db db' :
  invoices db' = invoices db -> invoice_items db' = invoice_items db ->
  (forall r it, r ∈ invoice_items db -> items db !! ii_item_id r = Some it ->
     exists it', items db' !! ii_item_id r = Some it'
                 /\ item_company_id it' = item_company_id it) ->
  Forall (line_sound db) (invoice_items db) ->
  Forall (line_sound db') (invoice_items db').
Proof.
  intros Hv Hl Hitems Hold. rewrite Hl. rewrite Forall_forall in *.
  intros r Hr. destruct (Hold r Hr) as ((inv & it & Hinv & Hit & Hc) & Hrest).
  split; [|exact Hrest].
  destruct (Hitems r it Hr Hit) as (it' & Hit' & Hc').
  exists inv, it'. rewrite Hv. split; [exact Hinv|]. split; [exact Hit'|].
  congruence.
Qed.

Lemma createItem_consistent e c name category price quantity db :
  consistent db ->
  consistent (fst (ItemController.createItem e c name category price quantity db)).
Proof.
  intros Hcons. unfold ItemController.createItem.
  destruct name as [n|]; [|exact Hcons].
  destruct price as [p|]; [|exact Hcons].
  destruct quantity as [q|]; [|exact Hcons].
  destruct category as [cat|]; [|exact Hcons].
  destruct ((p <? 0) || (q <? 0)) eqn:Hneg; [exact Hcons|].
  destruct (items db !! uuid_generate_v4 e) eqn:Hfresh; [exact Hcons|].
  cbn [fst]. zbool.
  destruct Hcons as (Hstock & Hprice & Htot & Huniq & Hfk & Hlines).
  split; [|split; [|split; [|split; [|split]]]]; try assumption.
  - intros i r. cbn [items]. rewrite lookup_insert.
    destruct (decide (uuid_generate_v4 e = i)); [intros [= <-]; simpl; lia|].
    apply Hstock.
  - intros i r. cbn [items]. rewrite lookup_insert.
    destruct (decide (uuid_generate_v4 e = i)); [intros [= <-]; simpl; lia|].
    apply Hprice.
  - eapply (lines_sound_same_invoices db); [reflexivity | reflexivity | | exact Hlines].
    intros r it _ Hit. exists it. split; [|reflexivity]. cbn [items].
    rewrite lookup_insert_ne; [exact Hit|]. intros Heq. rewrite Heq in Hfresh.
    congruence.
Qed.

Lemma updateItem_consistent c id price quantity db :
  consistent db ->
  consistent (fst (ItemController.updateItem c id price quantity db)).
Proof.
  intros Hcons. unfold ItemController.updateItem.
  destruct (items db !! id) as [r0|] eqn:Hr0; [|exact Hcons].
  destruct (N.eqb (item_company_id r0) c); [|exact Hcons].
  destruct ((default (item_price r0) price <? 0)
            || (default (item_quantity r0) quantity <? 0)) eqn:Hneg;
    [exact Hcons|].
  cbn [fst]. zbool.
  destruct Hcons as (Hstock & Hprice & Htot & Huniq & Hfk & Hlines).
  split; [|split; [|split; [|split; [|split]]]]; try assumption.
  - intros i r. cbn [items]. rewrite lookup_insert.
    destruct (decide (id = i)); [intros [= <-]; simpl; lia|]. apply Hstock.
  - intros i r. cbn [items]. rewrite lookup_insert.
    destruct (decide (id = i)); [intros [= <-]; simpl; lia|]. apply Hprice.
  - eapply (lines_sound_same_invoices db); [reflexivity | reflexivity | | exact Hlines].
    intros r it _ Hit. cbn [items]. rewrite lookup_insert.
    destruct (decide (id = ii_item_id r)) as [Heq|Hne].
    + eexists. split; [reflexivity|]. simpl. rewrite <- Heq in Hit. congruence.
    + exists it. auto.
Qed.

Lemma existsb_false_Forall {A} (f : A -> bool) l :
  existsb f l = false -> Forall (fun x => f x = false) l.
Proof.
  induction l as [|x l IH]; simpl; [constructor|].
  intros H. apply orb_false_iff in H as [Hx Hl]. constructor; auto.
Qed.

Lemma deleteItem_consistent c id db :
  consistent db -> consistent (fst (ItemController.deleteItem c id db)).
Proof.
  intros Hcons. unfold ItemController.deleteItem.
  destruct (items db !! id) as [r0|] eqn:Hr0; [|exact Hcons].
  destruct (N.eqb (item_company_id r0) c); [|exact Hcons].
  destruct (existsb _ _) eqn:Hrefs; [exact Hcons|].
  cbn [fst]. apply existsb_false_Forall in Hrefs.
  destruct Hcons as (Hstock & Hprice & Htot & Huniq & Hfk & Hlines).
  split; [|split; [|split; [|split; [|split]]]]; try assumption.
  - intros i r. cbn [items]. intros Hi. apply lookup_delete_Some in Hi as [_ Hi].
    exact (Hstock _ _ Hi).
  - intros i r. cbn [items]. intros Hi. apply lookup_delete_Some in Hi as [_ Hi].
    exact (Hprice _ _ Hi).
  - eapply (lines_sound_same_invoices db); [reflexivity | reflexivity | | exact Hlines].
    intros r it Hr Hit. exists it. split; [|reflexivity]. cbn [items].
    rewrite lookup_delete_ne; [exact Hit|].
    rewrite Forall_forall in Hrefs. specialize (Hrefs r Hr).
    apply N.eqb_neq in Hrefs. congruence.
Qed.

Lemma createParty_consistent e c name type db :
  consistent db ->
  consistent (fst (PartyController.createParty e c name type db)).
Proof.
  intros Hcons. unfold PartyController.createParty.
  destruct name as [n|]; [|exact Hcons].
  destruct type as [ty|]; [|exact Hcons].
  destruct (negb (PartyController.party_type_of_text ty)); [exact Hcons|].
  destruct (parties db !! uuid_generate_v4 e) eqn:Hfresh; [exact Hcons|].
  cbn [fst].
  destruct Hcons as (Hstock & Hprice & Htot & Huniq & Hfk & Hlines).
  split; [|split; [|split; [|split; [|split]]]]; try assumption.
  - intros k r Hk. cbn [parties invoices] in *. rewrite lookup_insert.
    destruct (decide (uuid_generate_v4 e = inv_party_id r)); [eauto|].
    exact (Hfk _ _ Hk).
Qed.

Lemma party_unreferenced id db :
  existsb (fun kr => N.eqb (inv_party_id (snd kr)) id) (map_to_list (invoices db))
  = false ->
  forall k inv, invoices db !! k = Some inv -> inv_party_id inv <> id.
Proof.
  intros Hrefs k inv Hk. apply existsb_false_Forall in Hrefs.
  rewrite Forall_forall in Hrefs.
  specialize (Hrefs (k, inv) (proj2 (elem_of_map_to_list _ _ _) Hk)).
  cbn [snd] in Hrefs. apply N.eqb_neq in Hrefs. exact Hrefs.
Qed.

Lemma deleteParty_consistent c id db :
  consistent db -> consistent (fst (PartyController.deleteParty c id db)).
Proof.
  intros Hcons. unfold PartyController.deleteParty.
  destruct (parties db !! id) as [r0|] eqn:Hr0; [|exact Hcons].
  destruct (N.eqb (party_company_id r0) c); [|exact Hcons].
  destruct (existsb _ _) eqn:Hrefs; [exact Hcons|].
  cbn [fst]. pose proof (party_unreferenced id db Hrefs) as Hfree.
  destruct Hcons as (Hstock & Hprice & Htot & Huniq & Hfk & Hlines).
  split; [|split; [|split; [|split; [|split]]]]; try assumption.
  - intros k r Hk. cbn [parties invoices] in *.
    rewrite lookup_delete_ne by (intros Heq; exact (Hfree _ _ Hk (eq_sym Heq))).
    exact (Hfk _ _ Hk).
Qed.

Lemma serve_consistent run r db :
  (forall call db, consistent db -> consistent (fst (run call db))) ->
  consistent db -> consistent (serve run r db).
Proof.
  intros Hrun Hcons. destruct r; cbn [serve].
  - apply Hrun, Hcons.
  - apply createItem_consistent, Hcons.
  - apply updateItem_consistent, Hcons.
  - apply deleteItem_consistent, Hcons.
  - apply createParty_consistent, Hcons.
  - apply deleteParty_consistent, Hcons.
Qed.

(** X16.  The constraints of [query.sql] hold in every state the
    controllers lead to, whichever revision serves the invoice calls and
    with the item and party controllers in between: stock, prices and
    invoice totals are never negative, an invoice number is used once per
    company, every invoice has its party; and every stored line belongs
    to an existing invoice and an existing item of the invoice's company,
    has a positive quantity and a price that is not negative, and carries
    price times quantity as its total. *)
Theorem constraints_hold init db :
  consistent init ->
  served run_scoped init db \/ served run_plain init db ->
  consistent db.
Proof.
  intros Hinit [H|H]; induction H; auto;
    apply serve_consistent; auto;
    [apply run_scoped_consistent | apply run_plain_consistent].
Qed.

(** ** What [src/unnamed/part_000] keeps besides: totals and parties *)

Lemma totals_match_after c id db db' :
  totals_match_lines db -> writes_invoice c id db db' ->
  (forall row, invoices db' !! id = Some row ->
     inv_total_amount row = sum_of ii_total_line_amount (lines_of db' id)) ->
  totals_match_lines db'.
Proof.
  intros Hinv Hw Hrow k r Hk. destruct (decide (k = id)) as [->|Hne]; [auto|].
  rewrite (writes_invoice_lookup _ _ _ _ _ Hw Hne) in Hk.
  destruct Hw as (_ & _ & Hl). unfold lines_of.
  rewrite (lines_of_other_invoice id k _ _ Hl Hne). exact (Hinv _ _ Hk).
Qed.

Lemma select_party_same_parties db db' p c :
  parties db' = parties db -> select_party db' p c = select_party db p c.
Proof. intros H. unfold select_party. rewrite H. reflexivity. Qed.

Lemma parties_of_company_after c id db db' :
  parties_of_company db -> parties db' = parties db ->
  writes_invoice c id db db' ->
  (forall row, invoices db' !! id = Some row ->
     select_party db (Some (inv_party_id row)) (inv_company_id row) = true) ->
  parties_of_company db'.
Proof.
  intros Hinv Hp Hw Hrow k r Hk. rewrite (select_party_same_parties _ _ _ _ Hp).
  destruct (decide (k = id)) as [->|Hne]; [auto|].
  rewrite (writes_invoice_lookup _ _ _ _ _ Hw Hne) in Hk. exact (Hinv _ _ Hk).
Qed.

(** The party of an invoice [createInvoice] committed is the company's. *)
Lemma scoped_createInvoice_party e c req db db' id :
  Scoped.createInvoice_body e c req db = Ok (db', id) ->
  exists row, invoices db' !! id = Some row
              /\ select_party db (Some (inv_party_id row)) c = true.
Proof.
  intros H. pose proof (scoped_createInvoice_party_owned _ _ _ _ _ _ H) as Hown.
  apply scoped_createInvoice_body_Ok in H
    as (_ & _ & db1 & ls & db2 & tot & Hins & _ & Hloop & Htot).
  apply insert_invoice_Ok in Hins
    as (-> & Hfresh & _ & p & n & st & Hp & _ & _ & _ & ->).
  apply create_lines_Ok in Hloop as (new & _ & _ & Hinv & _).
  cbn [invoices] in Hinv.
  eapply update_invoice_total_Ok in Htot as (_ & ->);
    [| rewrite Hinv; apply lookup_insert_eq | simpl; apply N.eqb_refl].
  eexists. cbn [invoices]. split; [apply lookup_insert_eq|].
  cbn [inv_party_id]. rewrite <- Hp. exact Hown.
Qed.

Lemma run_scoped_totals_and_parties call db :
  consistent db -> totals_match_lines db -> parties_of_company db ->
  totals_match_lines (fst (run_scoped call db))
  /\ parties_of_company (fst (run_scoped call db)).
Proof.
  intros Hcons Htot Hpar.
  pose proof (run_scoped_same_catalog call db) as Hcat.
  destruct (run_scoped_writes call db) as (Hp & _).
  destruct (run_scoped_cases call db) as [Hsame|H]; [rewrite Hsame; auto|].
  set (db' := fst (run_scoped call db)) in *.
  destruct call as [e c req|e c id req|e c id status|c id].
  - destruct H as [id H].
    pose proof (consistent_lines_reference_invoices _ Hcons) as Hfk.
    destruct (scoped_createInvoice_created _ _ _ _ _ _ Hfk H)
      as (_ & inv & Hinv & Hc & Hsum & _).
    destruct (scoped_createInvoice_party _ _ _ _ _ _ H) as (row & Hrow & Hown).
    rewrite Hinv in Hrow. injection Hrow as <-.
    pose proof H as H'. apply scoped_createInvoice_as_plain in H' as (_ & H').
    destruct (createInvoice_effect _ _ _ _ _ _ Hcons H') as (Hw & _).
    split.
    + apply (totals_match_after c id db); [exact Htot | exact Hw|].
      intros row Hrow. rewrite Hinv in Hrow. injection Hrow as <-. exact Hsum.
    + apply (parties_of_company_after c id db); [exact Hpar | exact Hp | exact Hw|].
      intros row Hrow. rewrite Hinv in Hrow. injection Hrow as <-.
      rewrite Hc. exact Hown.
  - destruct H as [u H].
    pose proof (scoped_updateInvoice_row _ _ _ _ _ _ _ H)
      as (inv & inv' & Hsel & Hv & _ & Hhead & Hown & Hrest).
    assert (writes_invoice c id db db') as Hw.
    { eapply updateInvoice_effect; eauto.
      - intros p Hp'. apply Hown in Hp'.
        apply select_party_Some in Hp' as (p' & r & [= <-] & Hr & _). eauto.
      - destruct (ub_items req) as [ls|] eqn:Hls.
        + destruct Hrest as (_ & Hge). split; [exact Hge|].
          split; [eapply scoped_updateInvoice_lines; eauto|].
          eapply scoped_updateInvoice_loop; eauto.
        + destruct Hrest as (Ht & _ & Hl). auto. }
    apply select_invoice_Some in Hsel as (Hinv & Hc).
    assert (invoices db' !! id = Some inv') as Hrow
      by (rewrite Hv; apply lookup_insert_eq).
    split.
    + apply (totals_match_after c id db); [exact Htot | exact Hw|].
      intros row Hrow'. rewrite Hrow in Hrow'. injection Hrow' as <-.
      destruct (ub_items req) as [ls|].
      * destruct Hrest as (Hsum & _). exact Hsum.
      * destruct Hrest as (-> & _ & Hl). unfold lines_of. rewrite Hl.
        exact (Htot _ _ Hinv).
    + apply (parties_of_company_after c id db); [exact Hpar | exact Hp | exact Hw|].
      intros row Hrow'. rewrite Hrow in Hrow'. injection Hrow' as <-.
      destruct Hhead as (Hc' & _ & _ & _ & _ & Hparty & _).
      rewrite Hparty, Hc', Hc.
      destruct (ub_party_id req) as [| |p]; cbn [default value].
      * rewrite <- Hc. exact (Hpar _ _ Hinv).
      * rewrite <- Hc. exact (Hpar _ _ Hinv).
      * apply Hown. reflexivity.
  - destruct H as (st & inv & Hsel & H).
    destruct (updateInvoiceStatus_effect c id db db' inv st (now e) Hcons Hsel H)
      as (Hw & _).
    apply select_invoice_Some in Hsel as (Hinv & Hc).
    assert (invoices db' !! id = Some (with_status st (now e) inv)) as Hrow
      by (rewrite H; apply lookup_insert_eq).
    split.
    + apply (totals_match_after c id db); [exact Htot | exact Hw|].
      intros row Hrow'. rewrite Hrow in Hrow'. injection Hrow' as <-.
      unfold lines_of. rewrite H. cbn [invoice_items inv_total_amount with_status].
      exact (Htot _ _ Hinv).
    + apply (parties_of_company_after c id db); [exact Hpar | exact Hp | exact Hw|].
      intros row Hrow'. rewrite Hrow in Hrow'. injection Hrow' as <-.
      exact (Hpar _ _ Hinv).
  - destruct H as [u H].
    pose proof (scoped_deleteInvoice_restores _ _ _ _ _ H) as (Hv & Hl & _).
    assert (writes_invoice c id db db') as Hw.
    { apply deleteInvoice_effect; auto.
      unfold Scoped.deleteInvoice_body in H.
      destruct (select_invoice db id c); [eauto|discriminate]. }
    split.
    + apply (totals_match_after c id db); [exact Htot | exact Hw|].
      intros row Hrow. rewrite Hv, lookup_delete_eq in Hrow. discriminate.
    + apply (parties_of_company_after c id db); [exact Hpar | exact Hp | exact Hw|].
      intros row Hrow. rewrite Hv, lookup_delete_eq in Hrow. discriminate.
Qed.

Lemma serve_totals_and_parties r db :
  consistent db -> totals_match_lines db -> parties_of_company db ->
  totals_match_lines (serve run_scoped r db)
  /\ parties_of_company (serve run_scoped r db).
Proof.
  intros Hcons Htot Hpar. destruct r; cbn [serve].
  - apply run_scoped_totals_and_parties; auto.
  - unfold ItemController.createItem.
    repeat (match goal with
            | |- context [match ?x with _ => _ end] => destruct x
            end; cbn [fst]; auto).
  - unfold ItemController.updateItem.
    repeat (match goal with
            | |- context [match ?x with _ => _ end] => destruct x
            end; cbn [fst]; auto).
  - unfold ItemController.deleteItem.
    repeat (match goal with
            | |- context [match ?x with _ => _ end] => destruct x
            end; cbn [fst]; auto).
  - unfold PartyController.createParty.
    destruct name as [n|]; [|auto]. destruct type as [ty|]; [|auto].
    destruct (negb (PartyController.party_type_of_text ty)); [auto|].
    destruct (parties db !! uuid_generate_v4 e) eqn:Hfresh; [auto|].
    cbn [fst]. split; [exact Htot|].
    intros k inv Hk. specialize (Hpar k inv Hk).
    unfold select_party in *. cbn [parties invoices] in *.
    destruct (parties db !! inv_party_id inv) as [p|] eqn:Hparty; [|discriminate].
    rewrite lookup_insert_ne by congruence. rewrite Hparty. exact Hpar.
  - unfold PartyController.deleteParty.
    destruct (parties db !! id) as [r0|] eqn:Hr0; [|auto].
    destruct (N.eqb (party_company_id r0) company_id); [|auto].
    destruct (existsb _ _) eqn:Hrefs; [auto|].
    cbn [fst]. split; [exact Htot|].
    pose proof (party_unreferenced id db Hrefs) as Hfree.
    intros k inv Hk. specialize (Hpar k inv Hk). cbn [invoices] in Hk.
    unfold select_party in *. cbn [parties].
    rewrite lookup_delete_ne by (intros Heq; exact (Hfree _ _ Hk (eq_sym Heq))).
    exact Hpar.
Qed.

(** X17.  What [src/unnamed/part_000] keeps on top of the constraints,
    in every state its calls and those of the item and party controllers
    lead to from a state that has it: every invoice's [total_amount] is
    the sum of the [total_line_amount] of its stored lines, and every
    invoice's party belongs to the invoice's company. *)
Theorem scoped_totals_and_parties init db :
  consistent init -> totals_match_lines init -> parties_of_company init ->
  served run_scoped init db ->
  totals_match_lines db /\ parties_of_company db.
Proof.
  intros Hcons Htot Hpar H.
  assert (consistent db /\ totals_match_lines db /\ parties_of_company db)
    as (_ & Hres); [|exact Hres].
  induction H as [|db r _ (IHc & IHt & IHp)]; [auto|].
  split; [apply serve_consistent; [apply run_scoped_consistent | exact IHc]|].
  apply serve_totals_and_parties; auto.
Qed.

(** ** Deleting an item or a party that invoices refer to *)



Lemma plain_createInvoice_party e c req db db' id :
  Plain.createInvoice_body e c req db = Ok (db', id) ->
  exists row, invoices db' !! id = Some row
              /\ cb_party_id req = Some (inv_party_id row).
Proof.
  intros H.
  apply plain_createInvoice_body_Ok in H
    as (db1 & ls & db2 & tot & Hins & _ & Hloop & Htot).
  apply insert_invoice_Ok in Hins
    as (-> & Hfresh & _ & p & n & st & Hp & _ & _ & _ & ->).
  apply create_lines_agree, create_lines_Ok in Hloop as (new & _ & _ & Hinv & _).
  cbn [invoices] in Hinv.
  eapply update_invoice_total_Ok in Htot as (_ & ->);
    [| rewrite Hinv; apply lookup_insert_eq | reflexivity].
  eexists. cbn [invoices]. split; [apply lookup_insert_eq|]. exact Hp.
Qed.

(** The body behind a 201 of either [createInvoice], as the older
    revision runs it. *)
Lemma createInvoice_success e c req db db' resp :
  (Scoped.createInvoice e c req db = (db', resp)
   \/ Plain.createInvoice e c req db = (db', resp)) ->
  http_status resp = 201 ->
  exists req',
    cb_party_id req' = cb_party_id req
    /\ lines_given (cb_items req') = lines_given (cb_items req)
    /\ Plain.createInvoice_body e c req' db = Ok (db', uuid_generate_v4 e).
Proof.
  intros [H|H] Hst.
  - apply transaction_success in H as (id & Hbody & _);
      [| intros err; destruct err as [| | | | | | | |[]]; simpl; lia | lia].
    apply scoped_createInvoice_as_plain in Hbody as (_ & Hbody).
    pose proof (plain_createInvoice_frame _ _ _ _ _ _ Hbody) as (_ & _ & -> & _).
    exists (as_read req). split; [reflexivity|].
    split; [apply lines_given_or_empty | exact Hbody].
  - apply transaction_success in H as (id & Hbody & _);
      [| intros err; simpl; lia | lia].
    pose proof (plain_createInvoice_frame _ _ _ _ _ _ Hbody) as (_ & _ & -> & _).
    exists req. auto.
Qed.

(** X20.  An item that is on an invoice stays in the catalog: after a
    [createInvoice] answered 201 (either revision), [deleteItem] by the
    company on any item the request names is answered 500 and writes
    nothing. *)
Theorem deleteItem_refused_while_invoiced e c req db db' resp i :
  lines_reference_invoices db ->
  (Scoped.createInvoice e c req db = (db', resp)
   \/ Plain.createInvoice e c req db = (db', resp)) ->
  http_status resp = 201 ->
  Some i ∈ line_item_id <$> lines_given (cb_items req) ->
  ItemController.deleteItem c i db' = (db', 500).
Proof.
  intros Hfk H Hst Hin.
  destruct (createInvoice_success _ _ _ _ _ _ H Hst) as (req' & _ & Hls & Hbody).
  apply (plain_createInvoice_created _ _ _ _ _ _ Hfk) in Hbody
    as (_ & inv & _ & _ & _ & Hlines & Hwanted & Hstock).
  rewrite Hls in Hwanted.
  apply list_elem_of_fmap in Hin as (l & Hli & Hl).
  assert ((Some i, line_quantity l) ∈ wanted (lines_given (cb_items req))) as Hw.
  { unfold wanted. apply list_elem_of_fmap. exists l. rewrite Hli. auto. }
  rewrite <- Hwanted in Hw. apply list_elem_of_fmap in Hw as (r & Hr & Hrin).
  injection Hr as Hri _.
  rewrite Forall_forall in Hlines.
  destruct (Hlines r Hrin) as (_ & _ & _ & it & Hit & Hc & _).
  subst i. unfold ItemController.deleteItem. rewrite Hstock, Hit.
  cbn [fmap option_fmap option_map with_quantity item_company_id].
  rewrite Hc, N.eqb_refl.
  replace (existsb _ _) with true; [reflexivity|].
  symmetry. apply existsb_exists. exists r. split; [|apply N.eqb_refl].
  apply list_elem_of_In. apply list_elem_of_filter in Hrin as [_ Hrin]. exact Hrin.
Qed.

(** X20 at work: item 100 after invoice 500; item 101 can go. *)
Lemma deleteItem_refused_while_invoiced_witness :
  ItemController.deleteItem 1%N 100%N db_one_line = (db_one_line, 500)
  /\ snd (ItemController.deleteItem 1%N 101%N db_one_line) = 200.
Proof.
  split; [|reflexivity].
  apply (deleteItem_refused_while_invoiced e0 1%N (create_with 10%N [ln 100%N 4])
           db0 db_one_line (Response 201 (InvoiceCreated 500%N))).
  - exact sample_lines_reference_invoices.
  - left. vm_compute. reflexivity.
  - reflexivity.
  - apply list_elem_of_here.
Defined.

(** X21.  A party that has an invoice stays: after a [createInvoice]
    answered 201 (either revision), [deleteParty] on the invoice's party
    writes nothing, whoever asks: the company that owns the party is
    answered 500 ([ON DELETE RESTRICT]), any other 404.  With the
    revision of [src/controllers/invoiceController.js] the owner may be
    another company than the one that made the invoice. *)
Theorem deleteParty_refused_while_invoiced e c req db db' resp p owner c' :
  (Scoped.createInvoice e c req db = (db', resp)
   \/ Plain.createInvoice e c req db = (db', resp)) ->
  http_status resp = 201 ->
  cb_party_id req = Some p ->
  parties db !! p = Some owner ->
  PartyController.deleteParty c' p db'
  = (db', if N.eqb (party_company_id owner) c' then 500 else 404).
Proof.
  intros H Hst Hp Howner.
  destruct (createInvoice_success _ _ _ _ _ _ H Hst) as (req' & Hp' & _ & Hbody).
  destruct (plain_createInvoice_party _ _ _ _ _ _ Hbody) as (row & Hrow & Hparty).
  apply plain_createInvoice_frame in Hbody
    as (_ & _ & _ & _ & _ & _ & _ & _ & _ & _ & Hpar & _).
  rewrite Hp', Hp in Hparty. injection Hparty as Hparty.
  unfold PartyController.deleteParty. rewrite Hpar, Howner.
  destruct (N.eqb (party_company_id owner) c'); [|reflexivity].
  replace (existsb _ _) with true; [reflexivity|].
  symmetry. apply existsb_exists. exists (uuid_generate_v4 e, row).
  split; [apply list_elem_of_In, elem_of_map_to_list; exact Hrow|].
  cbn [snd]. rewrite <- Hparty. apply N.eqb_refl.
Qed.

(** X21 at work: company 1 has put party 20 of company 2 on an invoice;
    company 2 cannot delete its party any more. *)
Lemma deleteParty_refused_while_invoiced_witness :
  snd (PartyController.deleteParty 2%N 20%N db0) = 200
  /\ snd (PartyController.deleteParty 2%N 20%N
            (fst (Plain.createInvoice e0 1%N (create_with 20%N [ln 100%N 1]) db0)))
     = 500.
Proof.
  split; [reflexivity|].
  rewrite (deleteParty_refused_while_invoiced e0 1%N
             (create_with 20%N [ln 100%N 1]) db0
             (fst (Plain.createInvoice e0 1%N (create_with 20%N [ln 100%N 1]) db0))
             (Response 201 (InvoiceCreated 500%N)) 20%N (PartyRow 2) 2%N).
  - reflexivity.
  - right. vm_compute. reflexivity.
  - reflexivity.
  - reflexivity.
  - reflexivity.
Defined.

(** ** The sample catalog satisfies the constraints *)

Lemma sample_consistent : consistent db0.
Proof.
  split; [exact sample_stock_nonneg|]. split.
  { intros i r H. unfold db0 in H. cbn [items] in H.
    repeat (rewrite lookup_insert in H;
            destruct (decide _); [injection H as <-; simpl; lia|]).
    rewrite lookup_empty in H. discriminate. }
  split; [intros id r H; unfold db0 in H; cbn [invoices] in H;
          rewrite lookup_empty in H; discriminate|].
  split; [intros i j r s H; unfold db0 in H; cbn [invoices] in H;
          rewrite lookup_empty in H; discriminate|].
  split; [intros id r H; unfold db0 in H; cbn [invoices] in H;
          rewrite lookup_empty in H; discriminate|].
  constructor.
Qed.

Lemma sample_totals_match_lines : totals_match_lines db0.
Proof.
  intros id r H. unfold db0 in H. cbn [invoices] in H.
  rewrite lookup_empty in H. discriminate.
Qed.

Lemma sample_parties_of_company : parties_of_company db0.
Proof.
  intros id r H. unfold db0 in H. cbn [invoices] in H.
  rewrite lookup_empty in H. discriminate.
Qed.

(** X16 at work: the older revision creates invoice 500, then item 101
    is deleted. *)
Lemma constraints_hold_witness :
  consistent db0
  /\ consistent
       (serve run_plain (DeleteItem 1%N 101%N)
          (serve run_plain
             (InvoiceCall (CreateInvoice e0 1%N (create_with 10%N [ln 100%N 4])))
             db0)).
Proof.
  split; [exact sample_consistent|].
  apply (constraints_hold db0); [exact sample_consistent|].
  right. apply served_step, served_step, served_init.
Defined.

(** X17 at work: invoice 500 of [src/unnamed/part_000], then updated to
    two lines. *)
Lemma scoped_totals_and_parties_witness :
  totals_match_lines
    (serve run_scoped
       (InvoiceCall (UpdateInvoice e1 1%N 500%N
                       (update_with [ln 100%N 1; ln 101%N 2])))
       db_one_line)
  /\ inv_total_amount
       <$> invoices
             (serve run_scoped
                (InvoiceCall (UpdateInvoice e1 1%N 500%N
                                (update_with [ln 100%N 1; ln 101%N 2])))
                db_one_line) !! 500%N
     = Some 10500.
Proof.
  split; [|vm_compute; reflexivity].
  refine (proj1 (scoped_totals_and_parties db0 _ sample_consistent
                   sample_totals_match_lines sample_parties_of_company _)).
  apply served_step.
  exact (served_step run_scoped db0 db0
           (InvoiceCall (CreateInvoice e0 1%N (create_with 10%N [ln 100%N 4])))
           (served_init run_scoped db0)).
Defined.

(** X18 at work: company 1 with invoice 500. *)
Lemma getAllInvoices_complete_witness :
  parties_of_company db_one_line
  /\ Scoped.getAllInvoices 1%N db_one_line = Plain.getAllInvoices 1%N db_one_line
  /\ Z.of_nat (length (Scoped.getAllInvoices 1%N db_one_line)) = 1.
Proof.
  assert (parties_of_company db_one_line) as Hpar.
  { exact (proj2 (run_scoped_totals_and_parties
                    (CreateInvoice e0 1%N (create_with 10%N [ln 100%N 4])) db0
                    sample_consistent sample_totals_match_lines
                    sample_parties_of_company)). }
  split; [exact Hpar|].
  destruct (getAllInvoices_complete (fun d => d) e1 1%N db_one_line Hpar)
    as (Hsame & Hlen & _).
  split; [exact Hsame|]. rewrite Hlen. vm_compute. reflexivity.
Defined.

(** ** The older revision stays within the company on sound lines *)

Lemma plain_remove_lines_untouched id entries i : forall db db',
  Plain.remove_lines id entries db = Ok db' ->
  i ∉ entries.*1 -> items db' !! i = items db !! i.
Proof.
  induction entries as [|[k v] entries IH]; intros db db' H Hi; simpl in H.
  - injection H as <-. reflexivity.
  - destruct (increase_item_quantity (delete_invoice_item db id k) v k None)
      as [db1|] eqn:H1; [|discriminate].
    simpl in H. rewrite fmap_cons in Hi. apply not_elem_of_cons in Hi as [Hne Hi].
    rewrite (IH _ _ H Hi). apply increase_item_quantity_Ok in H1 as [_ H1].
    apply update_item_quantity_Ok in H1
      as (_ & _ & _ & [(r & _ & _ & _ & ->) | [-> _]]); [|reflexivity].
    cbn [items delete_invoice_item]. apply lookup_insert_ne. auto.
Qed.

(** Items of another company through [updateInvoice] of
    [src/controllers/invoiceController.js], when the lines of the invoice
    hold items of its company only. *)
Lemma plain_updateInvoice_outside e c id req db db' u i it :
  Forall (line_sound db) (invoice_items db) ->
  Plain.updateInvoice_body e c id req db = Ok (db', u) ->
  items db !! i = Some it -> item_company_id it <> c ->
  items db' !! i = Some it.
Proof.
  intros Hlines H Hit Hne. unfold Plain.updateInvoice_body in H.
  destruct (select_invoice db id c) as [inv|] eqn:Hsel; [|discriminate].
  unfold mbind, result_bind in H.
  destruct (update_invoice_meta _ _ _ _ _ _ _) as [db1|] eqn:Hmeta;
    [|discriminate].
  cbn [bind] in H.
  apply update_invoice_meta_frame in Hmeta as (Hi1 & _ & Hl1 & _).
  destruct (ub_items req) as [ls|].
  - destruct (Plain.update_lines _ _ _ _ _ _) as [[[db2 m2] tot]|] eqn:Hloop;
      [|discriminate].
    cbn [bind] in H.
    destruct (Plain.remove_lines _ _ _) as [db3|] eqn:Hrem; [|discriminate].
    cbn [bind] in H.
    destruct (update_invoice_total _ _ _ _ _) as [db4|] eqn:Htot; [|discriminate].
    cbn [bind] in H. injection H as <- _.
    apply update_invoice_total_frame in Htot as (-> & _).
    apply update_lines_agree in Hloop.
    pose proof (update_lines_mentions_company _ _ _ _ _ _ _ i Hloop) as Hment.
    apply update_lines_stock in Hloop as (Hm2 & _ & _ & Hstock).
    rewrite (plain_remove_lines_untouched _ _ i _ _ Hrem).
    + rewrite Hstock, Hi1, Hit. rewrite Hi1, Hit in Hment.
      assert (Some i ∉ line_item_id <$> ls) as Hout.
      { intros Hin. destruct (Hment Hin) as (it' & [= <-] & Hc'). contradiction. }
      unfold net_decrease. rewrite decide_False by exact Hout.
      unfold quantity_wanted. rewrite filter_none.
      * destruct it. unfold with_quantity, sum_of. simpl. do 2 f_equal. lia.
      * apply Forall_forall. intros l Hl Hli. apply Hout.
        apply list_elem_of_fmap. exists l. auto.
    + intros Hin. rewrite Hm2 in Hin.
      apply list_elem_of_fmap in Hin as ([k v] & -> & Hkv).
      apply list_elem_of_filter in Hkv as [_ Hkv].
      assert (k ∈ (Map_new (select_invoice_items db1 id)).*1) as Hk.
      { apply list_elem_of_fmap. exists (k, v). auto. }
      apply Map_has_keys, Map_has_new, select_invoice_items_keys in Hk
        as (r & Hr & Hid & Hrk).
      rewrite Hl1 in Hr. rewrite Forall_forall in Hlines.
      destruct (Hlines r Hr) as ((inv' & it' & Hinv' & Hit' & Hc') & _).
      apply select_invoice_Some in Hsel as (Hinv & Hc).
      cbn [fst] in Hit. rewrite Hrk, Hit in Hit'. injection Hit' as <-.
      rewrite Hid, Hinv in Hinv'. injection Hinv' as <-. congruence.
  - cbn [bind] in H. injection H as <- _. rewrite Hi1. exact Hit.
Qed.

Lemma run_plain_outside call db i it :
  Forall (line_sound db) (invoice_items db) ->
  items db !! i = Some it -> item_company_id it <> company_of call ->
  items (fst (run_plain call db)) !! i = Some it.
Proof.
  intros Hlines Hit Hne.
  destruct (run_plain_cases call db) as [->|H]; [exact Hit|].
  destruct call as [e c req|e c id req|e c id status|c id]; cbn [company_of] in *.
  - destruct H as [id H]. apply plain_createInvoice_frame in H
      as (row & new & _ & _ & _ & _ & _ & _ & _ & _ & _ & _ & Hnew & Hstock).
    rewrite Hstock, Hit, (quantity_on_priced _ _ _ _ _ _ Hnew Hit Hne).
    destruct it. unfold with_quantity. simpl. do 2 f_equal. lia.
  - destruct H as [u H]. eapply plain_updateInvoice_outside; eauto.
  - destruct H as (st & inv & _ & ->). exact Hit.
  - destruct H as [u H]. apply plain_deleteInvoice_frame in H as (_ & _ & _ & _ & ->).
    exact Hit.
Qed.

(** X22.  The revision of [src/controllers/invoiceController.js] moves
    stock by item id alone, without [AND company_id]; what keeps its
    calls within the caller's company is the soundness of the stored
    lines: on a database within the constraints, everything that belongs
    to another company is after any call as it was before. *)
Theorem plain_calls_stay_in_company call db :
  consistent db ->
  untouched_outside (company_of call) db (fst (run_plain call db)).
Proof.
  intros (_ & _ & _ & _ & _ & Hlines).
  destruct (run_plain_writes call db) as (Hp & Hw).
  pose proof (run_plain_same_catalog call db) as Hcat.
  split; [exact Hp|]. split.
  - intros i it Hne. split.
    + intros Hit'.
      destruct (same_catalog_Some _ _ _ _ Hcat Hit') as (it0 & Hit0 & Hc0 & _).
      rewrite (run_plain_outside call db i it0 Hlines Hit0) in Hit'
        by congruence.
      congruence.
    + intros Hit. apply run_plain_outside; auto.
  - destruct Hw as [[Hv Hl] | [id Hw]].
    + unfold lines_of. rewrite Hv, Hl. split; reflexivity.
    + apply writes_invoice_outside in Hw as [H1 H2]. split; [exact H1 | exact H2].
Qed.

(** X22 at work: the stock of company 2 after company 1 replaced the
    lines of invoice 500. *)
Lemma plain_calls_stay_in_company_witness :
  stock (fst (Plain.updateInvoice e1 1%N 500%N (update_with [ln 101%N 2])
                db_one_line)) 200%N
  = Some 3.
Proof.
  assert (consistent db_one_line) as Hcons.
  { exact (run_plain_consistent
             (CreateInvoice e0 1%N (create_with 10%N [ln 100%N 4])) db0
             sample_consistent). }
  destruct (plain_calls_stay_in_company
              (UpdateInvoice e1 1%N 500%N (update_with [ln 101%N 2])) db_one_line
              Hcons) as (_ & Hitems & _).
  change (item_quantity
            <$> items (fst (run_plain
                              (UpdateInvoice e1 1%N 500%N (update_with [ln 101%N 2]))
                              db_one_line)) !! 200%N
          = Some 3).
  rewrite (proj2 (Hitems 200%N (ItemRow 2 700 3) ltac:(discriminate)));
    [reflexivity|]. vm_compute. reflexivity.
Defined.

(** ** The summary after [createInvoice] *)

Lemma summary_rows_insert c id row (m : gmap N invoice_row) :
  m !! id = None -> inv_company_id row = c ->
  snd <$> map_to_list (filter (fun kr => inv_company_id (snd kr) = c)
                              (<[id := row]> m))
  ≡ₚ row :: (snd <$> map_to_list (filter (fun kr => inv_company_id (snd kr) = c) m)).
Proof.
  intros Hfresh Hc.
  rewrite (map_filter_insert_True (fun kr => inv_company_id (snd kr) = c))
    by exact Hc.
  rewrite map_to_list_insert; [reflexivity|].
  apply map_lookup_filter_None. left. exact Hfresh.
Qed.

Lemma summary_rows_other c id row (m : gmap N invoice_row) :
  m !! id = None -> inv_company_id row <> c ->
  filter (fun kr : uuid * invoice_row => inv_company_id (snd kr) = c)
         (<[id := row]> m)
  = filter (fun kr => inv_company_id (snd kr) = c) m.
Proof.
  intros Hfresh Hc.
  apply (map_filter_insert_not' (fun kr => inv_company_id (snd kr) = c));
    [exact Hc|]. intros y Hy. congruence.
Qed.

(** X24.  The summary after a [createInvoice] answered 201 (either
    revision): for the company, one invoice more, and the new invoice's
    total added to [total_amount], and to [paid_amount] when the invoice
    was created as paid; for every other company, the same figures as
    before. *)
Theorem getInvoiceSummary_after_createInvoice timestamptz e' e c req db db' resp :
  (Scoped.createInvoice e c req db = (db', resp)
   \/ Plain.createInvoice e c req db = (db', resp)) ->
  http_status resp = 201 ->
  (exists inv,
      invoices db' !! uuid_generate_v4 e = Some inv
      /\ total_invoices (getInvoiceSummary timestamptz e' c db')
         = total_invoices (getInvoiceSummary timestamptz e' c db) + 1
      /\ total_amount (getInvoiceSummary timestamptz e' c db')
         = total_amount (getInvoiceSummary timestamptz e' c db)
           + inv_total_amount inv
      /\ paid_amount (getInvoiceSummary timestamptz e' c db')
         = paid_amount (getInvoiceSummary timestamptz e' c db) + paid_total inv
      /\ overdue (getInvoiceSummary timestamptz e' c db')
         = overdue (getInvoiceSummary timestamptz e' c db)
           + (if is_overdue timestamptz e' inv then 1 else 0))
  /\ (forall c', c' <> c ->
        getInvoiceSummary timestamptz e' c' db'
        = getInvoiceSummary timestamptz e' c' db).
Proof.
  intros H Hst.
  destruct (createInvoice_row _ _ _ _ _ _ H Hst)
    as (row & Hfresh & Hv & Hc & _).
  split.
  - exists row. split; [rewrite Hv; apply lookup_insert_eq|].
    unfold getInvoiceSummary.
    cbn [total_invoices total_amount paid_amount overdue].
    rewrite Hv.
    pose proof (summary_rows_insert c _ row _ Hfresh Hc) as Hperm.
    set (rows' := snd <$> map_to_list (filter _ (<[_ := _]> _))) in *.
    set (rows := snd <$> map_to_list (filter _ (invoices db))) in *.
    split; [rewrite Hperm; cbn [length]; lia|].
    split; [rewrite (foldr_add_Permutation _ (inv_total_amount <$> (row :: rows)))
              by (rewrite Hperm; reflexivity);
            rewrite fmap_cons; cbn [foldr]; lia|].
    split; [rewrite (foldr_add_Permutation _ (paid_total <$> (row :: rows)))
              by (rewrite Hperm; reflexivity);
            rewrite fmap_cons; cbn [foldr]; lia|].
    rewrite Hperm, filter_cons.
    destruct (is_overdue timestamptz e' row) eqn:Hover.
    + rewrite decide_True by reflexivity. cbn [length]. lia.
    + rewrite decide_False by discriminate. lia.
  - intros c' Hne. unfold getInvoiceSummary. rewrite Hv.
    rewrite (summary_rows_other c' _ row _ Hfresh) by congruence. reflexivity.
Qed.

(** X24 at work: company 1 before and after invoice 500. *)
Lemma getInvoiceSummary_after_createInvoice_witness :
  getInvoiceSummary (fun d => d) e1 1%N db0 = InvoiceSummary 0 0 0 0
  /\ total_invoices (getInvoiceSummary (fun d => d) e1 1%N db_one_line) = 0 + 1
  /\ getInvoiceSummary (fun d => d) e1 2%N db_one_line
     = getInvoiceSummary (fun d => d) e1 2%N db0.
Proof.
  split; [vm_compute; reflexivity|].
  destruct (getInvoiceSummary_after_createInvoice (fun d => d) e1 e0 1%N
              (create_with 10%N [ln 100%N 4]) db0 db_one_line
              (Response 201 (InvoiceCreated 500%N)))
    as ((inv & _ & Hcount & _) & Hother).
  - left. vm_compute. reflexivity.
  - reflexivity.
  - split; [exact Hcount|]. apply Hother. discriminate.
Defined.

(** ** [updateInvoice] and the party *)

(** X25.  On an invoice of the company, a [party_id] that is not one of
    the company's parties stops [updateInvoice] of
    [src/unnamed/part_000] with 'Party not found for this company' and
    nothing is written; the revision of
    [src/controllers/invoiceController.js] has no such check and, on a
    request whose due date is not falsy, puts any existing party on the
    invoice, whichever company it belongs to. *)
Theorem updateInvoice_party_guard e c id req db inv p :
  select_invoice db id c = Some inv ->
  ub_party_id req = given p ->
  select_party db (Some p) c = false ->
  Scoped.updateInvoice e c id req db
  = (db, Response 400 (ErrorMessage PartyNotFound))
  /\ (is_Some (parties db !! p) -> ub_items req = None ->
      ub_due_date req <> falsy ->
      status_acceptable (ub_status req) ->
      exists inv',
        Plain.updateInvoice e c id req db
        = (Database (items db) (parties db) (<[id := inv']> (invoices db))
             (invoice_items db), Response 200 InvoiceUpdated)
        /\ inv_party_id inv' = p /\ inv_company_id inv' = c).
Proof.
  intros Hsel Hp Hforeign. split.
  - unfold Scoped.updateInvoice, Scoped.updateInvoice_body.
    rewrite Hsel, Hp, Hforeign. reflexivity.
  - intros [owner Howner] Hitems Hdue Hstatus.
    unfold Plain.updateInvoice, Plain.updateInvoice_body.
    rewrite Hsel, Hitems. unfold update_invoice_meta, meta_values.
    rewrite Hsel, Hp.
    apply select_invoice_Some in Hsel as (_ & Hc).
    destruct (ub_due_date req) as [| |d]; [|contradiction|];
      (destruct (ub_status req) as [s|]; cbn in Hstatus;
       [destruct Hstatus as [st ->]|]);
      cbn; rewrite bool_decide_eq_false_2 by (rewrite Howner; discriminate);
      cbn; (eexists; split; [reflexivity|]; auto).
Qed.

(** X25 at work: invoice 500 of company 1 and party 20 of company 2. *)
Lemma updateInvoice_party_guard_witness :
  Scoped.updateInvoice e1 1%N 500%N (UpdateBody absent (given 20%N) None None)
    db_one_line
  = (db_one_line, Response 400 (ErrorMessage PartyNotFound))
  /\ exists inv',
      Plain.updateInvoice e1 1%N 500%N (UpdateBody absent (given 20%N) None None)
        db_one_line
      = (Database (items db_one_line) (parties db_one_line)
           (<[500%N := inv']> (invoices db_one_line))
           (invoice_items db_one_line), Response 200 InvoiceUpdated)
      /\ inv_party_id inv' = 20%N.
Proof.
  destruct (updateInvoice_party_guard e1 1%N 500%N
              (UpdateBody absent (given 20%N) None None) db_one_line
              (InvoiceRow 1 10 "INV-1" 11 None 40000 draft 1000 1000) 20%N)
    as (Hscoped & Hplain).
  - vm_compute. reflexivity.
  - reflexivity.
  - reflexivity.
  - split; [exact Hscoped|].
    destruct Hplain as (inv' & H & Hp & _).
    + eexists. vm_compute. reflexivity.
    + reflexivity.
    + discriminate.
    + exact I.
    + exists inv'. auto.
Defined.

(** ** The item controller stays within the company *)

Lemma items_only_outside c db db' :
  parties db' = parties db -> invoices db' = invoices db ->
  invoice_items db' = invoice_items db ->
  (forall i it, item_company_id it <> c ->
     (items db' !! i = Some it <-> items db !! i = Some it)) ->
  untouched_outside c db db'.
Proof.
  intros Hp Hv Hl Hitems. split; [exact Hp|]. split; [exact Hitems|].
  unfold lines_of. rewrite Hv, Hl. split; reflexivity.
Qed.

(** X23.  [createItem], [updateItem] and [deleteItem] write to [items]
    alone and to rows of the caller's company alone: whatever the request
    and the state, the invoices, their lines and the parties are as
    before, and so is every item of another company. *)
Theorem item_calls_stay_in_company c db :
  (forall e name category price quantity,
      untouched_outside c db
        (fst (ItemController.createItem e c name category price quantity db)))
  /\ (forall id price quantity,
        untouched_outside c db
          (fst (ItemController.updateItem c id price quantity db)))
  /\ (forall id, untouched_outside c db (fst (ItemController.deleteItem c id db))).
Proof.
  assert (untouched_outside c db db) as Hsame.
  { apply items_only_outside; reflexivity. }
  split; [|split].
  - intros e name category price quantity. unfold ItemController.createItem.
    destruct name as [n|]; [|exact Hsame].
    destruct price as [p|]; [|exact Hsame].
    destruct quantity as [q|]; [|exact Hsame].
    destruct category as [cat|]; [|exact Hsame].
    destruct ((p <? 0) || (q <? 0)); [exact Hsame|].
    destruct (items db !! uuid_generate_v4 e) eqn:Hfresh; [exact Hsame|].
    cbn [fst]. apply items_only_outside; try reflexivity.
    intros i it Hne. cbn [items]. rewrite lookup_insert.
    destruct (decide (uuid_generate_v4 e = i)) as [<-|]; [|reflexivity].
    rewrite Hfresh. split; [|discriminate]. intros [= <-]. contradiction.
  - intros id price quantity. unfold ItemController.updateItem.
    destruct (items db !! id) as [r0|] eqn:Hr0; [|exact Hsame].
    destruct (N.eqb_spec (item_company_id r0) c) as [Hc|]; [|exact Hsame].
    destruct (_ || _); [exact Hsame|].
    cbn [fst]. apply items_only_outside; try reflexivity.
    intros i it Hne. cbn [items]. rewrite lookup_insert.
    destruct (decide (id = i)) as [<-|]; [|reflexivity].
    rewrite Hr0. split; intros [= <-]; simpl in Hne; contradiction.
  - intros id. unfold ItemController.deleteItem.
    destruct (items db !! id) as [r0|] eqn:Hr0; [|exact Hsame].
    destruct (N.eqb_spec (item_company_id r0) c) as [Hc|]; [|exact Hsame].
    destruct (existsb _ _); [exact Hsame|].
    cbn [fst]. apply items_only_outside; try reflexivity.
    intros i it Hne. cbn [items].
    destruct (decide (id = i)) as [<-|Hi].
    + rewrite lookup_delete_eq, Hr0. split; [discriminate|].
      intros [= <-]. contradiction.
    + rewrite lookup_delete_ne by exact Hi. reflexivity.
Qed.

(** ** [createInvoice] without [items] *)

(** X26.  A request body without an [items] array.  When [items] is
    [undefined], the revision of [src/unnamed/part_000] takes it as an
    empty list ([items = []] in the destructuring), and the revision of
    [src/controllers/invoiceController.js] fails on [for (let item of
    items)] after it has inserted the invoice row, answers 400 and rolls
    the row back.  When [items] is [null] or another value that cannot be
    iterated, both revisions fail so.  'items is not iterable' is what
    the reply says when the header is acceptable. *)
Theorem createInvoice_without_items e c req db :
  (cb_items req = items_undefined ->
   Scoped.createInvoice e c req db
   = Scoped.createInvoice e c (with_items (items_given []) req) db
   /\ fst (Plain.createInvoice e c req db) = db
   /\ http_status (snd (Plain.createInvoice e c req db)) = 400
   /\ (header_acceptable e db c req ->
       snd (Plain.createInvoice e c req db)
       = Response 400 (ErrorMessage NotIterable)))
  /\ (cb_items req = items_not_iterable ->
      fst (Scoped.createInvoice e c req db) = db
      /\ http_status (snd (Scoped.createInvoice e c req db)) = 400
      /\ fst (Plain.createInvoice e c req db) = db
      /\ http_status (snd (Plain.createInvoice e c req db)) = 400
      /\ (header_acceptable e db c req ->
          snd (Scoped.createInvoice e c req db)
          = Response 400 (ErrorMessage NotIterable)
          /\ snd (Plain.createInvoice e c req db)
             = Response 400 (ErrorMessage NotIterable))).
Proof.
  assert (cb_items req <> items_given (lines_given (cb_items req)) ->
          fst (Plain.createInvoice e c req db) = db
          /\ http_status (snd (Plain.createInvoice e c req db)) = 400
          /\ (header_acceptable e db c req ->
              snd (Plain.createInvoice e c req db)
              = Response 400 (ErrorMessage NotIterable))) as Hplain.
  { intros Hnone.
    unfold Plain.createInvoice, Plain.createInvoice_body.
    unfold mbind, result_bind.
    split; [|split].
    - destruct (insert_invoice _ _ _ _ _ _ _ _) as [[db1 id]|err];
        [|reflexivity].
      cbn [bind]. destruct (cb_items req); [reflexivity|reflexivity|].
      contradiction Hnone. reflexivity.
    - destruct (insert_invoice _ _ _ _ _ _ _ _) as [[db1 id]|err];
        [|reflexivity].
      cbn [bind]. destruct (cb_items req); [reflexivity|reflexivity|].
      contradiction Hnone. reflexivity.
    - intros Hhead.
      destruct (insert_invoice_acceptable _ _ _ _ Hhead)
        as (p & n & st & _ & _ & _ & ->).
      cbn [bind]. destruct (cb_items req); [reflexivity|reflexivity|].
      contradiction Hnone. reflexivity. }
  split.
  - intros Hnone. split.
    { unfold Scoped.createInvoice, Scoped.createInvoice_body, with_items.
      cbn [cb_party_id cb_invoice_number cb_due_date cb_items cb_status].
      rewrite Hnone. reflexivity. }
    apply Hplain. rewrite Hnone. discriminate.
  - intros Hnone.
    assert (fst (Scoped.createInvoice e c req db) = db
            /\ http_status (snd (Scoped.createInvoice e c req db)) = 400
            /\ (header_acceptable e db c req ->
                snd (Scoped.createInvoice e c req db)
                = Response 400 (ErrorMessage NotIterable))) as Hscoped.
    { split; [|split].
      - unfold Scoped.createInvoice.
        destruct (Scoped.createInvoice_body e c req db) as [[db' id]|err] eqn:H;
          [|reflexivity].
        apply scoped_createInvoice_body_Ok in H
          as (_ & _ & db1 & ls & db2 & tot & _ & Hls & _).
        rewrite Hnone in Hls. discriminate.
      - unfold Scoped.createInvoice.
        destruct (Scoped.createInvoice_body e c req db) as [[db' id]|err] eqn:H.
        + apply scoped_createInvoice_body_Ok in H
            as (_ & _ & db1 & ls & db2 & tot & _ & Hls & _).
          rewrite Hnone in Hls. discriminate.
        + cbn [transaction snd].
          destruct err as [| | | | | | | |[]]; reflexivity.
      - intros Hhead.
        destruct (insert_invoice_acceptable _ _ _ _ Hhead)
          as (p & n & st & _ & _ & Hdue & Hins).
        destruct Hhead as (Hparty & _ & Hnum & _).
        unfold Scoped.createInvoice, Scoped.createInvoice_body.
        rewrite Hparty, Hnum, Hdue. cbn [negb]. unfold mbind, result_bind.
        rewrite Hins, Hnone. reflexivity. }
    destruct Hscoped as (Hs1 & Hs2 & Hs3).
    destruct Hplain as (Hp1 & Hp2 & Hp3); [rewrite Hnone; discriminate|].
    auto 10.
Qed.

(** X26 at work: the sample header without [items], and with [null] for
    them. *)
Lemma createInvoice_without_items_witness :
  header_acceptable e0 db0 1%N
    (CreateBody (Some 10%N) (Some "INV-1"%string) absent items_undefined None)
  /\ Plain.createInvoice e0 1%N
       (CreateBody (Some 10%N) (Some "INV-1"%string) absent items_undefined None)
       db0
     = (db0, Response 400 (ErrorMessage NotIterable))
  /\ http_status
       (snd (Scoped.createInvoice e0 1%N
               (CreateBody (Some 10%N) (Some "INV-1"%string) absent
                  items_undefined None) db0))
     = 201
  /\ Scoped.createInvoice e0 1%N
       (CreateBody (Some 10%N) (Some "INV-1"%string) absent items_not_iterable
          None) db0
     = (db0, Response 400 (ErrorMessage NotIterable)).
Proof.
  assert (forall items,
             header_acceptable e0 db0 1%N
               (CreateBody (Some 10%N) (Some "INV-1"%string) absent items None))
    as Hhead.
  { intros items.
    split; [reflexivity|]. split; [eexists; split; reflexivity|].
    split; [reflexivity|]. split; [discriminate|]. split; [exact I|].
    reflexivity. }
  destruct (createInvoice_without_items e0 1%N
              (CreateBody (Some 10%N) (Some "INV-1"%string) absent
                 items_undefined None) db0) as (Hundef & _).
  destruct (createInvoice_without_items e0 1%N
              (CreateBody (Some 10%N) (Some "INV-1"%string) absent
                 items_not_iterable None) db0) as (_ & Hnull).
  destruct (Hundef eq_refl) as (Hscoped & Hdb & _ & Hresp).
  destruct (Hnull eq_refl) as (Hdb' & _ & _ & _ & Hresp').
  split; [apply Hhead|]. split; [|split].
  - rewrite <- Hdb at 2. rewrite <- (Hresp (Hhead _)).
    destruct (Plain.createInvoice e0 1%N
                (CreateBody (Some 10%N) (Some "INV-1"%string) absent
                   items_undefined None) db0). reflexivity.
  - rewrite Hscoped. vm_compute. reflexivity.
  - rewrite <- Hdb' at 2. rewrite <- (proj1 (Hresp' (Hhead _))).
    destruct (Scoped.createInvoice e0 1%N
                (CreateBody (Some 10%N) (Some "INV-1"%string) absent
                   items_not_iterable None) db0). reflexivity.
Defined.

(** ** [deleteParty] *)

